(** * pma (Performance Monitor Analyzer): a shallow embedding of [pma.c]

    The development follows the C source function by function.

    Modelling conventions.
    - A C [double] is an exact rational ([Q]): rounding, infinities and NaN
      are outside the model.  [atof] belongs to the C library, not to the
      program; it is a parameter of the development ([Section PMA]), so
      every theorem holds for whatever [atof] computes.
    - A C [int], [long] or [time_t] is a [Z].  The counters of the program
      are bounded by the number of input lines; signed overflow (undefined
      in C) is not modelled.
    - A C string is a [string] without the terminating NUL.  Input files are
      assumed to contain no NUL byte.
    - Tables that the program grows with [calloc]/[realloc] are lists;
      [nummetrics] and [numdevices] are the lengths of those lists (the C
      code increments the counter exactly when it appends an entry).
    - [exit(1)] after a diagnostic is the outcome [Exit 1 d]; the
      non-fatal diagnostics written to stderr are collected in the state.
      Undefined behaviour that the code can reach (a null pointer
      dereference, an integer division by zero, an access outside an
      allocated buffer) is the outcome [Crash].
    - Output is kept structured: a value written with ["%.1f"] is the
      rational that is formatted, a time stamp formatted by [strftime] is
      the [time_t] that is formatted.  Failures of the file system while
      creating output files are outside the model. *)

From Stdlib Require Import ZArith QArith String Ascii List Lia Lqa Bool.
From stdpp Require Import base list.

Import ListNotations.
Local Open Scope string_scope.
Local Open Scope Z_scope.

(** ** Outcomes of a computation *)

Inductive Fault : Set :=
| NullDeref       (* a field of a NULL pointer is read or written *)
| DivByZero       (* integer division or remainder by zero *)
| OutOfBounds     (* access outside an array or a string *)
| OutOfFuel.      (* the bound of a modelled loop was too small; never reached *)

(** The diagnostics of the program, one constructor per [fprintf(stderr, ...)]. *)
Inductive Diag : Set :=
| StanzaNotFound (stanza : string)
| ParamIndex (paramname : string)
| BadTimeValues (ctr : Z)
| BadClassType (classname : string)
| BadStartRow (classname : string) (startrow : Z)
| BadClassMetadata (ctr : Z)
| InitDateError (ctr : Z)
| FirstTimestampCount (firsttimesetctr : Z) (ctr : Z)
| BadVectorLine (nummetrics : Z) (numargs : Z)
| BadArrayLine (nummetrics : Z) (numargs : Z)
| DuplicateMetric (metricname : string)
| ConfigNotOpened
| UnknownParameter (name : string)
| BadConfigLine (name : string)
| VectorBadData (ctr : Z) (classname : string)
| VectorRowCount (classname : string) (expected : Z) (rowidx : Z)
| ArrayBadData (ctr : Z) (classname : string)
| ArrayRowCount (classname : string) (expected : Z) (rowidx : Z)
| ReadDateError (ctr : Z)
| InputNotOpened
| SingleFileNotOpened
| NoOutputFile
| Usage.

Inductive result (A : Type) : Type :=
| Ok (a : A)
| Exit (code : Z) (d : Diag)
| Crash (f : Fault).

Arguments Ok {A} a.
Arguments Exit {A} code d.
Arguments Crash {A} f.

Definition bind {A B : Type} (r : result A) (k : A -> result B) : result B :=
  match r with
  | Ok a => k a
  | Exit c d => Exit c d
  | Crash f => Crash f
  end.

Notation "x <- r ;; k" := (bind r (fun x => k))
  (at level 100, r at next level, right associativity).

(** ** Constants of [pma.c] *)

Definition QUOTECHAR : ascii := "'"%char.
Definition COMMENTCHAR : ascii := "#"%char.
Definition STANZATERMCHAR : ascii := ":"%char.
Definition NODEVICENAME : string := "None".
Definition TIMEVALUES : string := "TIME_VALUES:".
Definition COUNTIDX : nat := 0.
Definition INTERVALIDX : nat := 1.
Definition NUMTIMEVALUES : nat := 2.
Definition METADATASTR : string := "METADATA:".
Definition CLASSSTRIDX : nat := 0.
Definition CLASSTYPEIDX : nat := 1.
Definition STARTROWIDX : nat := 2.
Definition NUMMETAITEMS : nat := 3.
Definition MAXNUMMETRICS : nat := 32.
Definition MAXNUMMETADATA : nat := NUMMETAITEMS + MAXNUMMETRICS.
Definition ARRAYCLASS : ascii := "A"%char.
Definition VECTORCLASS : ascii := "V"%char.
Definition MAXCLSNAMELEN : nat := 32.
Definition MAXMETNAMELEN : nat := 32.
Definition MAXDEVNAMELEN : nat := 32.
Definition DATESTR : string := "DATE:".
Definition TIMESTAMPIDX : nat := 0.
Definition NUMDATEARGS : nat := 1.
Definition MAXINPUTLINELEN : nat := 256.

Definition tab : ascii := ascii_of_nat 9.
Definition newline : ascii := ascii_of_nat 10.

(** [WHITESPACE(c)]: space, tab or newline. *)
Definition WHITESPACE (c : ascii) : bool :=
  (c =? " ")%char || (c =? tab)%char || (c =? newline)%char.

(** [MAX(a,b) = ((a)>(b)?(a):(b))] on doubles. *)
Definition Qgt_bool (a b : Q) : bool := negb (Qle_bool a b).
Definition MAX (a b : Q) : Q := if Qgt_bool a b then a else b.

(** ** The C library on strings *)

(** [strncpy(dst, src, n)] into a zeroed buffer of [n+1] bytes, and the
    prefix that [strncmp(_, _, n)] looks at: the first [n] characters. *)
Fixpoint strncpy (n : nat) (s : string) : string :=
  match n, s with
  | S n', String c s' => String c (strncpy n' s')
  | _, _ => EmptyString
  end.

(** [!strncmp(a, b, n)] *)
Definition strncmp_eq (n : nat) (a b : string) : bool :=
  String.eqb (strncpy n a) (strncpy n b).

(** [s[strlen(s)-1] = '\0'] *)
Fixpoint chop (s : string) : string :=
  match s with
  | EmptyString => EmptyString
  | String c EmptyString => EmptyString
  | String c s' => String c (chop s')
  end.

Definition isdigit (c : ascii) : bool :=
  (48 <=? nat_of_ascii c)%nat && (nat_of_ascii c <=? 57)%nat.

(** [isspace] in the C locale. *)
Definition isspace (c : ascii) : bool :=
  (c =? " ")%char || ((9 <=? nat_of_ascii c)%nat && (nat_of_ascii c <=? 13)%nat).

Fixpoint skip_space (s : string) : string :=
  match s with
  | String c s' => if isspace c then skip_space s' else s
  | EmptyString => s
  end.

Fixpoint digits_value (acc : Z) (s : string) : Z :=
  match s with
  | String c s' =>
      if isdigit c then digits_value (10 * acc + (Z.of_nat (nat_of_ascii c) - 48)) s'
      else acc
  | EmptyString => acc
  end.

(** [atoi] and [atol]: optional white space, an optional sign, decimal
    digits; anything after the digits is ignored. *)
Definition atol (s : string) : Z :=
  match skip_space s with
  | String "-" s' => - digits_value 0 s'
  | String "+" s' => digits_value 0 s'
  | s' => digits_value 0 s'
  end.
Definition atoi : string -> Z := atol.

(** A decimal reading of [atof], used to run the model on concrete inputs:
    sign, digits, and an optional fraction. *)
Fixpoint fraction_value (num den : Z) (s : string) : Z * Z :=
  match s with
  | String c s' =>
      if isdigit c
      then fraction_value (10 * num + (Z.of_nat (nat_of_ascii c) - 48)) (10 * den) s'
      else (num, den)
  | EmptyString => (num, den)
  end.

Fixpoint skip_digits (s : string) : string :=
  match s with
  | String c s' => if isdigit c then skip_digits s' else s
  | EmptyString => s
  end.

Definition decimal_unsigned (s : string) : Q :=
  let i := digits_value 0 s in
  match skip_digits s with
  | String "." f =>
      let '(n, d) := fraction_value 0 1 f in
      Qred (inject_Z i + Qmake n (Z.to_pos d))
  | _ => inject_Z i
  end.

Definition atof_decimal (s : string) : Q :=
  match skip_space s with
  | String "-" s' => Qopp (decimal_unsigned s')
  | String "+" s' => decimal_unsigned s'
  | s' => decimal_unsigned s'
  end.

(** ** Line Tokenizer: [parse_input_line] *)

(** [while (WHITESPACE( *inputline)) inputline++;] *)
Fixpoint skip_whitespace (inputline : string) : string :=
  match inputline with
  | String c s' => if WHITESPACE c then skip_whitespace s' else inputline
  | EmptyString => inputline
  end.

(** The inner loop
    [while ( *inputline && (!WHITESPACE( *inputline) || inquoteflag))]
    with its [break] at a closing quote.  Returns the characters stepped
    over and the string at which the loop stops. *)
Fixpoint scan_token (inquoteflag : bool) (inputline : string) : string * string :=
  match inputline with
  | EmptyString => (EmptyString, EmptyString)
  | String c s' =>
      if negb (WHITESPACE c) || inquoteflag then
        if (c =? QUOTECHAR)%char && inquoteflag then (EmptyString, inputline)
        else let '(tok, r) := scan_token inquoteflag s' in (String c tok, r)
      else (EmptyString, inputline)
  end.

(** [if ( *inputline) { *inputline++ = '\0'; while (WHITESPACE...) ... }] *)
Definition end_token (inputline : string) : string :=
  match inputline with
  | EmptyString => EmptyString
  | String _ s' => skip_whitespace s'
  end.

(** The outer loop [while ( *inputline)].  Every iteration that continues
    steps over at least one character, so [fuel] above the length of the
    line is never used up.  The tokens are the strings that the entries of
    [argtbl] point to once the terminators are written. *)
Fixpoint parse_tokens (fuel : nat) (inputline : string) (argidx maxargs : nat)
  : result (list string) :=
  match fuel with
  | O => Crash OutOfFuel
  | S fuel' =>
      match inputline with
      | EmptyString => Ok []
      | String c rest =>
          if (c =? COMMENTCHAR)%char then Ok []
          else
            let inquoteflag := (c =? QUOTECHAR)%char in
            let inputline1 := if inquoteflag then rest else inputline in
            if (argidx <? maxargs)%nat then
              match inputline1 with
              | EmptyString =>
                  (* argtbl[argidx++] = inputline++ steps past the NUL *)
                  Crash OutOfBounds
              | String c0 body =>
                  let '(tok, r) := scan_token inquoteflag body in
                  args <- parse_tokens fuel' (end_token r) (S argidx) maxargs ;;
                  Ok (String c0 tok :: args)
              end
            else Ok []
      end
  end.

(** [parse_input_line]: the argument table; [numargs] is its length. *)
Definition parse_input_line (inputline : string) (maxargs : nat) : result (list string) :=
  let s := skip_whitespace inputline in
  parse_tokens (S (String.length s)) s 0 maxargs.

Definition numargs_of (args : list string) : Z := Z.of_nat (length args).

(** [argtbl[i]] for [i < numargs]. *)
Definition arg (args : list string) (i : nat) : string := nth i args EmptyString.

(** ** Data model *)

(** What [fprintf] writes to the file of one series (multiple file output). *)
Inductive MultiLine : Type :=
| MHeader (name : string) (scale : Q)
| MData (rowtimestamp : Z) (value : Q).

(** What [fprintf] writes to the single output file: the header line, and
    one line per row whose fields are a value or empty. *)
Inductive SingleLine : Type :=
| SHeader (names : list string)
| SRow (rowtimestamp : Z) (fields : list (option Q)).

Record Device : Type := mkDevice {
  devicename : string;
  dev_number : Z;
  dev_max : Q;
  dev_sum : Q;
  scale : Q;
  valuetbl : list Q;                  (* calloc(count, sizeof(double)) *)
  fileptr : option (list MultiLine)   (* NULL, or the lines written so far *)
}.

Record Metric : Type := mkMetric {
  metricname : string;
  met_number : Z;
  met_max : Q;
  met_sum : Q;
  devicetbl : list Device
}.

Record Class : Type := mkClass {
  classname : string;
  classtype : ascii;
  startrow : Z;
  metrictbl : list Metric
}.

Definition numdevices (m : Metric) : Z := Z.of_nat (length (devicetbl m)).
Definition nummetrics (c : Class) : Z := Z.of_nat (length (metrictbl c)).

(** The configuration parameter table. *)
Inductive Paramkind : Set := CHAR | FLTPNT | INTEGER | STRING.

Inductive Paramtype : Type :=
| character (c : ascii)
| fltpnt (q : Q)
| longint (z : Z)
| string_ (s : string).

Record Param : Type := mkParam {
  idx : nat;
  paramname : string;
  type : Paramkind;
  defaultvalue : Paramtype;
  value : Paramtype
}.

Definition FULLSCALEIDX : nat := 0.
Definition TIMEZONEIDX : nat := 1.
Definition METDEVSEPARATORIDX : nat := 2.
Definition SINGFILEDATEFMTIDX : nat := 3.
Definition SINGFILEDELIMITERIDX : nat := 4.
Definition MULTIFILEDATEFMTIDX : nat := 5.
Definition MULTIFILEDELIMITERIDX : nat := 6.
Definition MULTIFILEHEADERFMTIDX : nat := 7.
Definition CLOCKTICKSFILENAMEIDX : nat := 8.
Definition CLOCKTICKSLEV0IDX : nat := 9.

Definition static_paramtbl : list Param :=
  [ mkParam FULLSCALEIDX "fullscale" FLTPNT (fltpnt 100) (string_ "");
    mkParam TIMEZONEIDX "TZ" STRING (string_ "") (string_ "");
    mkParam METDEVSEPARATORIDX "metricdeviceseparator" STRING (string_ "_") (string_ "");
    mkParam SINGFILEDATEFMTIDX "singlefiledateformat" STRING (string_ "%x %X") (string_ "");
    mkParam SINGFILEDELIMITERIDX "singlefiledelimiter" CHAR (character ",") (string_ "");
    mkParam MULTIFILEDATEFMTIDX "multifiledateformat" STRING (string_ "%s") (string_ "");
    mkParam MULTIFILEDELIMITERIDX "multifiledelimiter" CHAR (character " ") (string_ "");
    mkParam MULTIFILEHEADERFMTIDX "multifileheaderformat" STRING
      (string_ (String (ascii_of_nat 34) ("%s|%.1f" ++ String (ascii_of_nat 34) "")))
      (string_ "");
    mkParam CLOCKTICKSFILENAMEIDX "clockticksfilename" STRING (string_ "clockticks") (string_ "");
    mkParam 9 "clockticks_level_0" INTEGER (longint (24*60*60)) (string_ "");
    mkParam 10 "clockticks_level_1" INTEGER (longint (12*60*60)) (string_ "");
    mkParam 11 "clockticks_level_2" INTEGER (longint (6*60*60)) (string_ "");
    mkParam 12 "clockticks_level_3" INTEGER (longint (60*60)) (string_ "");
    mkParam 13 "clockticks_level_4" INTEGER (longint (30*60)) (string_ "");
    mkParam 14 "clockticks_level_5" INTEGER (longint (15*60)) (string_ "");
    mkParam 15 "clockticks_level_6" INTEGER (longint (5*60)) (string_ "");
    mkParam 16 "clockticks_level_7" INTEGER (longint 0) (string_ "") ].

(** An open input stream: the lines that successive [fgets(inputline,
    MAXINPUTLINELEN, inputfileptr)] calls return, from the start of the file
    ([contents]) and from the current position ([rest]). *)
Record Stream : Type := mkStream {
  contents : list string;
  rest : list string;
  is_stdin : bool
}.

(** The global variables of the program, and what it has written. *)
Record State : Type := mkState {
  inputfile : Stream;
  classtbl : list Class;
  count : Z;
  interval : Z;
  inputlinectr : Z;                 (* unsigned *)
  fullscale : Q;
  firsttimestamp : Z;
  paramtbl : list Param;
  singlefile : list SingleLine;     (* written through singlefileptr *)
  stderr : list Diag                (* non-fatal diagnostics, latest first *)
}.

Definition set_rest (lines : list string) (st : State) : State :=
  mkState (mkStream (contents (inputfile st)) lines (is_stdin (inputfile st)))
    (classtbl st) (count st) (interval st) (inputlinectr st) (fullscale st)
    (firsttimestamp st) (paramtbl st) (singlefile st) (stderr st).

Definition set_inputfile (f : Stream) (st : State) : State :=
  mkState f (classtbl st) (count st) (interval st) (inputlinectr st) (fullscale st)
    (firsttimestamp st) (paramtbl st) (singlefile st) (stderr st).

Definition set_classtbl (t : list Class) (st : State) : State :=
  mkState (inputfile st) t (count st) (interval st) (inputlinectr st) (fullscale st)
    (firsttimestamp st) (paramtbl st) (singlefile st) (stderr st).

Definition set_time_values (c i : Z) (st : State) : State :=
  mkState (inputfile st) (classtbl st) c i (inputlinectr st) (fullscale st)
    (firsttimestamp st) (paramtbl st) (singlefile st) (stderr st).

Definition set_inputlinectr (n : Z) (st : State) : State :=
  mkState (inputfile st) (classtbl st) (count st) (interval st) n (fullscale st)
    (firsttimestamp st) (paramtbl st) (singlefile st) (stderr st).

Definition set_fullscale (q : Q) (st : State) : State :=
  mkState (inputfile st) (classtbl st) (count st) (interval st) (inputlinectr st) q
    (firsttimestamp st) (paramtbl st) (singlefile st) (stderr st).

Definition set_firsttimestamp (t : Z) (st : State) : State :=
  mkState (inputfile st) (classtbl st) (count st) (interval st) (inputlinectr st)
    (fullscale st) t (paramtbl st) (singlefile st) (stderr st).

Definition set_paramtbl (t : list Param) (st : State) : State :=
  mkState (inputfile st) (classtbl st) (count st) (interval st) (inputlinectr st)
    (fullscale st) (firsttimestamp st) t (singlefile st) (stderr st).

Definition set_singlefile (l : list SingleLine) (st : State) : State :=
  mkState (inputfile st) (classtbl st) (count st) (interval st) (inputlinectr st)
    (fullscale st) (firsttimestamp st) (paramtbl st) l (stderr st).

(** [fprintf(stderr, ...)] without [exit]. *)
Definition log (d : Diag) (st : State) : State :=
  mkState (inputfile st) (classtbl st) (count st) (interval st) (inputlinectr st)
    (fullscale st) (firsttimestamp st) (paramtbl st) (singlefile st) (d :: stderr st).

(** A successful [fgets] followed by [inputlinectr++]: the stream moves on
    to [lines]. *)
Definition next_line (lines : list string) (st : State) : State :=
  set_inputlinectr ((inputlinectr st + 1) mod 2 ^ 32) (set_rest lines st).

(** The lines that [fgets(inputline, MAXINPUTLINELEN, f)] returns for a file:
    each is at most [MAXINPUTLINELEN - 1] characters and ends at a newline. *)
Fixpoint fgets_line (n : nat) (s : string) : string * string :=
  match n, s with
  | S n', String c s' =>
      if (c =? newline)%char then (String c EmptyString, s')
      else let '(l, r) := fgets_line n' s' in (String c l, r)
  | _, _ => (EmptyString, s)
  end.

Fixpoint fgets_lines (fuel : nat) (s : string) : list string :=
  match fuel, s with
  | S fuel', String _ _ =>
      let '(l, r) := fgets_line (MAXINPUTLINELEN - 1) s in l :: fgets_lines fuel' r
  | _, _ => []
  end.

Definition file_lines (s : string) : list string := fgets_lines (String.length s) s.

Definition fopen (s : string) : Stream := mkStream (file_lines s) (file_lines s) false.
Definition stdin (s : string) : Stream := mkStream (file_lines s) (file_lines s) true.

Definition initial_state : State :=
  mkState (mkStream [] [] false) [] 0 0 0 0%Q 0 static_paramtbl [] [].

(** ** Stanza Locator: [skip_to_stanza] *)

Fixpoint skip_lines (stanza : string) (lines : list string) (st : State) : bool * State :=
  match lines with
  | [] => (false, st)
  | inputline :: lines' =>
      let st' := next_line lines' st in
      if String.eqb (chop inputline) stanza then (true, st')
      else skip_lines stanza lines' st'
  end.

Definition skip_to_stanza (stanza : string) (mandatoryflag : bool) (st : State)
  : result State :=
  let '(foundflag, st') := skip_lines stanza (rest (inputfile st)) st in
  if negb foundflag && mandatoryflag then Exit 1 (StanzaNotFound stanza)
  else Ok st'.

(** ** Schema Builder *)

Fixpoint initialize_paramtbl (paramidx : nat) (tbl : list Param) : result (list Param) :=
  match tbl with
  | [] => Ok []
  | paramptr :: tbl' =>
      if negb (idx paramptr =? paramidx)%nat then Exit 1 (ParamIndex (paramname paramptr))
      else
        tbl'' <- initialize_paramtbl (S paramidx) tbl' ;;
        Ok (mkParam (idx paramptr) (paramname paramptr) (type paramptr)
              (defaultvalue paramptr) (defaultvalue paramptr) :: tbl'')
  end.

Definition param_value (paramidx : nat) (tbl : list Param) : Paramtype :=
  match tbl !! paramidx with
  | Some p => value p
  | None => string_ ""
  end.

Definition param_fltpnt (v : Paramtype) : Q :=
  match v with fltpnt q => q | _ => 0%Q end.

Definition param_string (v : Paramtype) : string :=
  match v with string_ s => s | _ => "" end.

Definition initialize_parameters (st : State) : result State :=
  tbl <- initialize_paramtbl 0 (paramtbl st) ;;
  Ok (set_fullscale (param_fltpnt (param_value FULLSCALEIDX tbl)) (set_paramtbl tbl st)).

Fixpoint time_values_loop (lines : list string) (st : State) : result State :=
  match lines with
  | [] => Ok st
  | inputline :: lines' =>
      let st := next_line lines' st in
      argtbl <- parse_input_line inputline NUMTIMEVALUES ;;
      if (length argtbl =? NUMTIMEVALUES)%nat then
        time_values_loop lines'
          (set_time_values (atoi (arg argtbl COUNTIDX)) (atoi (arg argtbl INTERVALIDX)) st)
      else if (length argtbl =? 0)%nat then Ok st
      else Exit 1 (BadTimeValues (inputlinectr st))
  end.

Definition initialize_time_values (st : State) : result State :=
  st <- skip_to_stanza TIMEVALUES true st ;;
  time_values_loop (rest (inputfile st)) st.

(** The first character of a token ([*argtbl[i]]). *)
Definition first_char (s : string) : ascii :=
  match s with
  | String c _ => c
  | EmptyString => zero
  end.

Definition new_metric (name : string) : Metric :=
  mkMetric (strncpy MAXMETNAMELEN name) 0 0 0 [].

Fixpoint metadata_loop (lines : list string) (st : State) : result State :=
  match lines with
  | [] => Ok st
  | inputline :: lines' =>
      let st := next_line lines' st in
      argtbl <- parse_input_line inputline MAXNUMMETADATA ;;
      if (NUMMETAITEMS + 1 <=? length argtbl)%nat then
        let t := first_char (arg argtbl CLASSTYPEIDX) in
        if negb (t =? VECTORCLASS)%char && negb (t =? ARRAYCLASS)%char
        then Exit 1 (BadClassType (arg argtbl 0))
        else
          let startrow := atoi (arg argtbl STARTROWIDX) in
          if (startrow <? 1) || (startrow >? count st)
          then Exit 1 (BadStartRow (arg argtbl 0) startrow)
          else
            let classptr :=
              mkClass (strncpy MAXCLSNAMELEN (arg argtbl CLASSSTRIDX)) t (startrow - 1)
                (map new_metric (drop NUMMETAITEMS argtbl)) in
            metadata_loop lines' (set_classtbl (classtbl st ++ [classptr]) st)
      else if (length argtbl =? 0)%nat then Ok st
      else metadata_loop lines' (log (BadClassMetadata (inputlinectr st)) st)
  end.

Definition initialize_metadata (st : State) : result State :=
  st <- skip_to_stanza METADATASTR true st ;;
  metadata_loop (rest (inputfile st)) st.

Fixpoint timestamp_loop (lines : list string) (firsttimesetctr : Z) (st : State)
  : result (Z * State) :=
  match lines with
  | [] => Ok (firsttimesetctr, st)
  | inputline :: lines' =>
      let st := next_line lines' st in
      argtbl <- parse_input_line inputline NUMDATEARGS ;;
      if (length argtbl =? NUMDATEARGS)%nat then
        timestamp_loop lines' (firsttimesetctr + 1)
          (set_firsttimestamp (atol (arg argtbl TIMESTAMPIDX)) st)
      else if (length argtbl =? 0)%nat then Ok (firsttimesetctr, st)
      else timestamp_loop lines' firsttimesetctr (log (InitDateError (inputlinectr st)) st)
  end.

Definition initialize_timestamp (st : State) : result State :=
  st <- skip_to_stanza DATESTR true st ;;
  r <- timestamp_loop (rest (inputfile st)) 0 st ;;
  let '(firsttimesetctr, st) := r in
  if negb (firsttimesetctr =? 1)
  then Exit 1 (FirstTimestampCount firsttimesetctr (inputlinectr st))
  else Ok st.

(** ** Device Registry *)

(** The loop of [add_device] over the registered devices: the flag is
    cleared by every entry whose first [MAXDEVNAMELEN] characters agree
    with [devicename]. *)
Fixpoint newdeviceflag (devicename_ : string) (tbl : list Device) (flag : bool) : bool :=
  match tbl with
  | [] => flag
  | deviceptr :: tbl' =>
      newdeviceflag devicename_ tbl'
        (if strncmp_eq MAXDEVNAMELEN devicename_ (devicename deviceptr) then false else flag)
  end.

(** [add_device]; [count] is the global sample count (at least 1 whenever a
    class exists). *)
Definition add_device (count : Z) (metricptr : Metric) (devicename_ : string) : Metric :=
  if newdeviceflag devicename_ (devicetbl metricptr) true then
    mkMetric (metricname metricptr) (met_number metricptr) (met_max metricptr)
      (met_sum metricptr)
      (devicetbl metricptr ++
         [mkDevice (strncpy MAXDEVNAMELEN devicename_) 0 0 0 0
            (repeat 0%Q (Z.to_nat count)) None])
  else metricptr.

Definition set_metrictbl (t : list Metric) (c : Class) : Class :=
  mkClass (classname c) (classtype c) (startrow c) t.

Definition add_class_device (count : Z) (classptr : Class) (devicename_ : string) : Class :=
  set_metrictbl (map (fun m => add_device count m devicename_) (metrictbl classptr)) classptr.

Definition datastanza (classptr : Class) : string :=
  classname classptr ++ String STANZATERMCHAR EmptyString.

Fixpoint array_devices_loop (lines : list string) (classptr : Class) (st : State)
  : result (Class * State) :=
  match lines with
  | [] => Ok (classptr, st)
  | inputline :: lines' =>
      let st := next_line lines' st in
      argtbl <- parse_input_line inputline (MAXNUMMETRICS + 1) ;;
      if (length argtbl =? length (metrictbl classptr) + 1)%nat then
        array_devices_loop lines' (add_class_device (count st) classptr (arg argtbl 0)) st
      else if (length argtbl =? 0)%nat then Ok (classptr, st)
      else Exit 1 (BadArrayLine (nummetrics classptr) (numargs_of argtbl - 1))
  end.

Definition vector_devices (classptr : Class) (st : State) : result (Class * State) :=
  match rest (inputfile st) with
  | [] => Ok (classptr, st)
  | inputline :: lines' =>
      let st := next_line lines' st in
      argtbl <- parse_input_line inputline MAXNUMMETRICS ;;
      if (length argtbl =? length (metrictbl classptr))%nat then
        Ok (add_class_device (count st) classptr NODEVICENAME, st)
      else Exit 1 (BadVectorLine (nummetrics classptr) (numargs_of argtbl))
  end.

Fixpoint classes_loop (classes : list Class) (st : State) : result (list Class * State) :=
  match classes with
  | [] => Ok ([], st)
  | classptr :: classes' =>
      st <- skip_to_stanza (datastanza classptr) true st ;;
      r <- (if (classtype classptr =? VECTORCLASS)%char
            then vector_devices classptr st
            else array_devices_loop (rest (inputfile st)) classptr st) ;;
      let '(classptr', st) := r in
      r' <- classes_loop classes' st ;;
      let '(classes'', st) := r' in
      Ok (classptr' :: classes'', st)
  end.

Definition rewind (st : State) : State :=
  if is_stdin (inputfile st) then st
  else set_inputlinectr 0 (set_rest (contents (inputfile st)) st).

Definition initialize_classes (st : State) : result State :=
  r <- classes_loop (classtbl st) st ;;
  let '(classes, st) := r in
  Ok (rewind (set_classtbl classes st)).

(** ** [check_metric_names] *)

(** The metrics in the order of the two nested loops, with their class and
    metric indices. *)
Fixpoint metrics_from (classidx metricidx : nat) (tbl : list Metric)
  : list (nat * nat * Metric) :=
  match tbl with
  | [] => []
  | m :: tbl' => (classidx, metricidx, m) :: metrics_from classidx (S metricidx) tbl'
  end.

Fixpoint classes_from (classidx : nat) (tbl : list Class) : list (nat * nat * Metric) :=
  match tbl with
  | [] => []
  | c :: tbl' => metrics_from classidx 0 (metrictbl c) ++ classes_from (S classidx) tbl'
  end.

Definition duplicates (x y : nat * nat * Metric) : bool :=
  let '(class1idx, metric1idx, metric1ptr) := x in
  let '(class2idx, metric2idx, metric2ptr) := y in
  (negb (class1idx =? class2idx)%nat || negb (metric1idx =? metric2idx)%nat)
  && String.eqb (metricname metric1ptr) (metricname metric2ptr).

Definition check_metric_names (st : State) : result State :=
  let all := classes_from 0 (classtbl st) in
  match List.find (fun x => existsb (duplicates x) all) all with
  | Some (_, _, metric1ptr) => Exit 1 (DuplicateMetric (metricname metric1ptr))
  | None => Ok st
  end.

Section PMA.

(** [atof] of the C library, with doubles read as rationals. *)
Variable atof : string -> Q.

(** ** [read_configfile] *)

Definition set_scale (q : Q) (d : Device) : Device :=
  mkDevice (devicename d) (dev_number d) (dev_max d) (dev_sum d) q (valuetbl d) (fileptr d).

Definition set_devicetbl (t : list Device) (m : Metric) : Metric :=
  mkMetric (metricname m) (met_number m) (met_max m) (met_sum m) t.

(** [metric_device_name]: ["%s%s%s"] of metric name, separator, device name. *)
Definition metric_device_name (sep : string) (m : Metric) (d : Device) : string :=
  metricname m ++ sep ++ devicename d.

(** The loop over the devices that stops ([break]) at the first device whose
    compound name is [name]. *)
Fixpoint scale_named_device (name sep : string) (q : Q) (m : Metric) (tbl : list Device)
  : list Device * bool :=
  match tbl with
  | [] => ([], false)
  | deviceptr :: tbl' =>
      if String.eqb name (metric_device_name sep m deviceptr)
      then (set_scale q deviceptr :: tbl', true)
      else let '(t, b) := scale_named_device name sep q m tbl' in (deviceptr :: t, b)
  end.

Definition config_metric (vector : bool) (name sep : string) (q : Q) (metricptr : Metric)
  : result (Metric * bool) :=
  if vector then
    if String.eqb name (metricname metricptr) then
      match devicetbl metricptr with
      | [] => Crash NullDeref
      | deviceptr :: tbl' => Ok (set_devicetbl (set_scale q deviceptr :: tbl') metricptr, true)
      end
    else Ok (metricptr, false)
  else
    if String.eqb name (metricname metricptr)
    then Ok (set_devicetbl (map (set_scale q) (devicetbl metricptr)) metricptr, true)
    else
      let '(t, b) := scale_named_device name sep q metricptr (devicetbl metricptr) in
      Ok (set_devicetbl t metricptr, b).

Fixpoint config_metrics (vector : bool) (name sep : string) (q : Q) (tbl : list Metric)
  : result (list Metric * bool) :=
  match tbl with
  | [] => Ok ([], false)
  | metricptr :: tbl' =>
      r <- config_metric vector name sep q metricptr ;;
      r' <- config_metrics vector name sep q tbl' ;;
      Ok (fst r :: fst r', snd r || snd r')
  end.

Fixpoint config_classes (name sep : string) (q : Q) (tbl : list Class)
  : result (list Class * bool) :=
  match tbl with
  | [] => Ok ([], false)
  | classptr :: tbl' =>
      r <- config_metrics (classtype classptr =? VECTORCLASS)%char name sep q
             (metrictbl classptr) ;;
      r' <- config_classes name sep q tbl' ;;
      Ok (set_metrictbl (fst r) classptr :: fst r', snd r || snd r')
  end.

(** A value of the parameter's type read from the second token.  (For a
    string the C code copies into a buffer that is one byte short.) *)
Definition config_value (k : Paramkind) (s : string) : Paramtype :=
  match k with
  | CHAR => character (first_char s)
  | FLTPNT => fltpnt (atof s)
  | INTEGER => longint (atoi s)
  | STRING => string_ s
  end.

Fixpoint config_params (name s : string) (tbl : list Param) : list Param * bool :=
  match tbl with
  | [] => ([], false)
  | paramptr :: tbl' =>
      if String.eqb name (paramname paramptr)
      then (mkParam (idx paramptr) (paramname paramptr) (type paramptr)
              (defaultvalue paramptr) (config_value (type paramptr) s) :: tbl', true)
      else let '(t, b) := config_params name s tbl' in (paramptr :: t, b)
  end.

Fixpoint configfile_loop (lines : list string) (st : State) : result State :=
  match lines with
  | [] => Ok st
  | inputline :: lines' =>
      argtbl <- parse_input_line inputline 2 ;;
      if (length argtbl =? 2)%nat then
        r <- config_classes (arg argtbl 0)
               (param_string (param_value METDEVSEPARATORIDX (paramtbl st)))
               (atof (arg argtbl 1)) (classtbl st) ;;
        let '(params, legal) := config_params (arg argtbl 0) (arg argtbl 1) (paramtbl st) in
        let st := set_paramtbl params (set_classtbl (fst r) st) in
        configfile_loop lines'
          (if snd r || legal then st else log (UnknownParameter (arg argtbl 0)) st)
      else if negb (length argtbl =? 0)%nat
      then configfile_loop lines' (log (BadConfigLine (arg argtbl 0)) st)
      else configfile_loop lines' st
  end.

(** [read_configfile]; [configfile] is the content of the file named by
    [configfilename], or [None] when [fopen] fails. *)
Definition read_configfile (configfile : option string) (st : State) : result State :=
  match configfile with
  | None => Exit 1 ConfigNotOpened
  | Some s => configfile_loop (file_lines s) st
  end.

(** ** Row Reshaper and Aggregator *)

Definition set_value (i : Z) (v : Q) (tbl : list Q) : result (list Q) :=
  if (0 <=? i) && (i <? Z.of_nat (length tbl)) then Ok (<[Z.to_nat i := v]> tbl)
  else Crash OutOfBounds.

(** The body of the loop over the metrics in [read_vector_stanza]. *)
Definition vector_metric (rowidx : Z) (s : string) (metricptr : Metric) : result Metric :=
  let value := atof s in
  let number := met_number metricptr + 1 in
  let max := MAX (met_max metricptr) value in
  let sum := (met_sum metricptr + value)%Q in
  match devicetbl metricptr with
  | [] => Crash NullDeref
  | deviceptr :: tbl' =>
      values <- set_value rowidx value (valuetbl deviceptr) ;;
      Ok (mkMetric (metricname metricptr) number max sum
            (mkDevice (devicename deviceptr) (dev_number deviceptr + 1) (MAX max value)
               (dev_sum deviceptr + value)%Q (scale deviceptr) values (fileptr deviceptr)
             :: tbl'))
  end.

Fixpoint vector_metrics (rowidx : Z) (argtbl : list string) (metricidx : nat)
  (tbl : list Metric) : result (list Metric) :=
  match tbl with
  | [] => Ok []
  | metricptr :: tbl' =>
      m <- vector_metric rowidx (arg argtbl metricidx) metricptr ;;
      t <- vector_metrics rowidx argtbl (S metricidx) tbl' ;;
      Ok (m :: t)
  end.

(** One well-formed line of a vector stanza. *)
Definition vector_row (classptr : Class) (rowidx : Z) (argtbl : list string) : result Class :=
  if rowidx >=? startrow classptr then
    t <- vector_metrics rowidx argtbl 0 (metrictbl classptr) ;;
    Ok (set_metrictbl t classptr)
  else Ok classptr.

Fixpoint vector_rows (lines : list string) (classptr : Class) (rowidx : Z) (st : State)
  : result (Class * Z * State) :=
  match lines with
  | [] => Ok (classptr, rowidx, st)
  | inputline :: lines' =>
      let st := next_line lines' st in
      argtbl <- parse_input_line inputline MAXNUMMETRICS ;;
      if (length argtbl =? length (metrictbl classptr))%nat then
        c <- vector_row classptr rowidx argtbl ;;
        vector_rows lines' c (rowidx + 1) st
      else if (length argtbl =? 0)%nat then Ok (classptr, rowidx, st)
      else vector_rows lines' classptr (rowidx + 1)
             (log (VectorBadData (inputlinectr st) (classname classptr)) st)
  end.

Definition read_vector_stanza (classptr : Class) (st : State) : result (Class * State) :=
  r <- vector_rows (rest (inputfile st)) classptr 0 st ;;
  let '(c, rowidx, st) := r in
  Ok (c, if negb (rowidx =? count st)
         then log (VectorRowCount (classname c) (count st) rowidx) st else st).

(** The body of the loop over the metrics in [read_array_stanza], once
    [rowidx/metricptr->numdevices >= classptr->startrow] holds. *)
Definition array_metric (rowidx : Z) (s : string) (metricptr : Metric) : result Metric :=
  let value := atof s in
  let deviceidx := Z.rem rowidx (numdevices metricptr) in
  match (if 0 <=? deviceidx then devicetbl metricptr !! Z.to_nat deviceidx else None) with
  | None => Crash OutOfBounds
  | Some deviceptr =>
      values <- set_value (Z.quot rowidx (numdevices metricptr)) value (valuetbl deviceptr) ;;
      Ok (mkMetric (metricname metricptr) (met_number metricptr + 1)
            (MAX (met_max metricptr) value) (met_sum metricptr + value)%Q
            (<[Z.to_nat deviceidx :=
                 mkDevice (devicename deviceptr) (dev_number deviceptr + 1)
                   (MAX (dev_max deviceptr) value) (dev_sum deviceptr + value)%Q
                   (scale deviceptr) values (fileptr deviceptr)]> (devicetbl metricptr)))
  end.

(** The loop over the metrics for one well-formed line; [metricptr] is the
    index of the metric the pointer was last set to. *)
Fixpoint array_metrics (startrow_ rowidx : Z) (argtbl : list string) (metricidx : nat)
  (tbl : list Metric) (metricptr : option nat) : result (list Metric * option nat) :=
  match tbl with
  | [] => Ok ([], metricptr)
  | m :: tbl' =>
      if numdevices m =? 0 then Crash DivByZero
      else if Z.quot rowidx (numdevices m) >=? startrow_ then
        m' <- array_metric rowidx (arg argtbl (metricidx + 1)) m ;;
        r <- array_metrics startrow_ rowidx argtbl (S metricidx) tbl' (Some metricidx) ;;
        Ok (m' :: fst r, snd r)
      else Ok (m :: tbl', Some metricidx)
  end.

Definition array_row (classptr : Class) (rowidx : Z) (argtbl : list string)
  (metricptr : option nat) : result (Class * option nat) :=
  r <- array_metrics (startrow classptr) rowidx argtbl 0 (metrictbl classptr) metricptr ;;
  Ok (set_metrictbl (fst r) classptr, snd r).

Fixpoint array_rows (lines : list string) (classptr : Class) (rowidx : Z)
  (metricptr : option nat) (st : State) : result (Class * Z * option nat * State) :=
  match lines with
  | [] => Ok (classptr, rowidx, metricptr, st)
  | inputline :: lines' =>
      let st := next_line lines' st in
      argtbl <- parse_input_line inputline (MAXNUMMETRICS + 1) ;;
      if (length argtbl =? length (metrictbl classptr) + 1)%nat then
        r <- array_row classptr rowidx argtbl metricptr ;;
        array_rows lines' (fst r) (rowidx + 1) (snd r) st
      else if (length argtbl =? 0)%nat then Ok (classptr, rowidx, metricptr, st)
      else array_rows lines' classptr (rowidx + 1) metricptr
             (log (ArrayBadData (inputlinectr st) (classname classptr)) st)
  end.

Definition read_array_stanza (classptr : Class) (st : State) : result (Class * State) :=
  r <- array_rows (rest (inputfile st)) classptr 0 None st ;;
  let '(c, rowidx, metricptr, st) := r in
  match metricptr with
  | None => Crash NullDeref          (* metricptr->numdevices with metricptr == NULL *)
  | Some i =>
      match metrictbl c !! i with
      | None => Crash OutOfBounds
      | Some m =>
          Ok (c, if negb (rowidx =? count st * numdevices m)
                 then log (ArrayRowCount (classname c) (count st * numdevices m) rowidx) st
                 else st)
      end
  end.

(** ** Output Emitters *)

(** [deviceptr->scale != 0] *)
Definition active (d : Device) : bool := negb (Qeq_bool (scale d) 0).

(** [valueptr[rowidx]] *)
Definition get_value (i : Z) (tbl : list Q) : result Q :=
  match (if 0 <=? i then tbl !! Z.to_nat i else None) with
  | Some v => Ok v
  | None => Crash OutOfBounds
  end.

(** The devices that the emitters visit for a metric: [devicetbl[0]] alone
    for a vector class (a NULL table is dereferenced), every device for an
    array class. *)
Definition emitted_devices (classptr : Class) (metricptr : Metric) : result (list Device) :=
  if (classtype classptr =? VECTORCLASS)%char then
    match devicetbl metricptr with
    | [] => Crash NullDeref
    | deviceptr :: _ => Ok [deviceptr]
    end
  else Ok (devicetbl metricptr).

(** The name of a series in a header: the metric name for a vector class,
    the compound name for an array class. *)
Definition series_name (sep : string) (classptr : Class) (metricptr : Metric)
  (deviceptr : Device) : string :=
  if (classtype classptr =? VECTORCLASS)%char then metricname metricptr
  else metric_device_name sep metricptr deviceptr.

Fixpoint header_devices (sep : string) (classptr : Class) (metricptr : Metric)
  (tbl : list Device) : list string :=
  match tbl with
  | [] => []
  | deviceptr :: tbl' =>
      if active deviceptr
      then series_name sep classptr metricptr deviceptr
           :: header_devices sep classptr metricptr tbl'
      else header_devices sep classptr metricptr tbl'
  end.

Fixpoint header_metrics (sep : string) (classptr : Class) (tbl : list Metric)
  : result (list string) :=
  match tbl with
  | [] => Ok []
  | metricptr :: tbl' =>
      ds <- emitted_devices classptr metricptr ;;
      names <- header_metrics sep classptr tbl' ;;
      Ok (header_devices sep classptr metricptr ds ++ names)%list
  end.

Fixpoint header_classes (sep : string) (tbl : list Class) : result (list string) :=
  match tbl with
  | [] => Ok []
  | classptr :: tbl' =>
      names <- header_metrics sep classptr (metrictbl classptr) ;;
      names' <- header_classes sep tbl' ;;
      Ok (names ++ names')%list
  end.

(** [output_singlefile_headers]: the line ["Time"] followed by the names. *)
Definition output_singlefile_headers (st : State) : result State :=
  names <- header_classes (param_string (param_value METDEVSEPARATORIDX (paramtbl st)))
             (classtbl st) ;;
  Ok (set_singlefile (singlefile st ++ [SHeader names]) st).

(** The fields that one row of [output_singlefile_body] writes for the
    devices of a metric. *)
Fixpoint body_devices (fullscale_ : Q) (startrow_ rowidx : Z) (tbl : list Device)
  : result (list (option Q)) :=
  match tbl with
  | [] => Ok []
  | deviceptr :: tbl' =>
      if active deviceptr then
        if rowidx >=? startrow_ then
          v <- get_value rowidx (valuetbl deviceptr) ;;
          fields <- body_devices fullscale_ startrow_ rowidx tbl' ;;
          Ok (Some (fullscale_ / scale deviceptr * v)%Q :: fields)
        else
          fields <- body_devices fullscale_ startrow_ rowidx tbl' ;;
          Ok (None :: fields)
      else body_devices fullscale_ startrow_ rowidx tbl'
  end.

Fixpoint body_metrics (fullscale_ : Q) (rowidx : Z) (classptr : Class) (tbl : list Metric)
  : result (list (option Q)) :=
  match tbl with
  | [] => Ok []
  | metricptr :: tbl' =>
      ds <- emitted_devices classptr metricptr ;;
      fields <- body_devices fullscale_ (startrow classptr) rowidx ds ;;
      fields' <- body_metrics fullscale_ rowidx classptr tbl' ;;
      Ok (fields ++ fields')%list
  end.

Fixpoint body_classes (fullscale_ : Q) (rowidx : Z) (tbl : list Class)
  : result (list (option Q)) :=
  match tbl with
  | [] => Ok []
  | classptr :: tbl' =>
      fields <- body_metrics fullscale_ rowidx classptr (metrictbl classptr) ;;
      fields' <- body_classes fullscale_ rowidx tbl' ;;
      Ok (fields ++ fields')%list
  end.

(** [rowtimestamp = timestamp+(rowidx+1)*interval] *)
Definition rowtimestamp (st : State) (timestamp rowidx : Z) : Z :=
  timestamp + (rowidx + 1) * interval st.

(** The loop [for (rowidx=0; rowidx<count; rowidx++)], as [n] further rows
    from [rowidx]. *)
Fixpoint singlefile_rows (n : nat) (rowidx timestamp : Z) (st : State) : result State :=
  match n with
  | O => Ok st
  | S n' =>
      fields <- body_classes (fullscale st) rowidx (classtbl st) ;;
      singlefile_rows n' (rowidx + 1) timestamp
        (set_singlefile (singlefile st ++ [SRow (rowtimestamp st timestamp rowidx) fields]) st)
  end.

Definition output_singlefile_body (timestamp : Z) (st : State) : result State :=
  singlefile_rows (Z.to_nat (count st)) 0 timestamp st.

(** [fprintf(deviceptr->fileptr, ...)] *)
Definition fprintf_device (l : MultiLine) (d : Device) : result Device :=
  match fileptr d with
  | None => Crash NullDeref
  | Some lines =>
      Ok (mkDevice (devicename d) (dev_number d) (dev_max d) (dev_sum d) (scale d)
            (valuetbl d) (Some (lines ++ [l])%list))
  end.

(** [open_multifile] followed by the header line. *)
Definition open_device (name : string) (d : Device) : Device :=
  if active d then
    mkDevice (devicename d) (dev_number d) (dev_max d) (dev_sum d) (scale d)
      (valuetbl d) (Some [MHeader name (scale d)])
  else d.

Definition prepare_metric (sep : string) (classptr : Class) (metricptr : Metric)
  : result Metric :=
  if (classtype classptr =? VECTORCLASS)%char then
    match devicetbl metricptr with
    | [] => Crash NullDeref
    | deviceptr :: tbl' =>
        Ok (set_devicetbl (open_device (metricname metricptr) deviceptr :: tbl') metricptr)
    end
  else
    Ok (set_devicetbl
          (map (fun d => open_device (metric_device_name sep metricptr d) d)
             (devicetbl metricptr)) metricptr).

Fixpoint prepare_metrics (sep : string) (classptr : Class) (tbl : list Metric)
  : result (list Metric) :=
  match tbl with
  | [] => Ok []
  | metricptr :: tbl' =>
      m <- prepare_metric sep classptr metricptr ;;
      t <- prepare_metrics sep classptr tbl' ;;
      Ok (m :: t)
  end.

Fixpoint prepare_classes (sep : string) (tbl : list Class) : result (list Class) :=
  match tbl with
  | [] => Ok []
  | classptr :: tbl' =>
      t <- prepare_metrics sep classptr (metrictbl classptr) ;;
      t' <- prepare_classes sep tbl' ;;
      Ok (set_metrictbl t classptr :: t')
  end.

(** [prepare_multi_output_files]; [multifiledirname] tells whether the
    directory option was given. *)
Definition prepare_multi_output_files (multifiledirname : bool) (st : State) : result State :=
  if multifiledirname then
    t <- prepare_classes (param_string (param_value METDEVSEPARATORIDX (paramtbl st)))
           (classtbl st) ;;
    Ok (set_classtbl t st)
  else Ok st.

(** What one row of [output_multifile_bodies_data] does with one device. *)
Definition multifile_device (fullscale_ : Q) (startrow_ rowidx ts : Z) (deviceptr : Device)
  : result Device :=
  if active deviceptr then
    if rowidx >=? startrow_ then
      v <- get_value rowidx (valuetbl deviceptr) ;;
      fprintf_device (MData ts (fullscale_ / scale deviceptr * v)%Q) deviceptr
    else Ok deviceptr
  else Ok deviceptr.

Fixpoint multifile_devices (fullscale_ : Q) (startrow_ rowidx ts : Z) (tbl : list Device)
  : result (list Device) :=
  match tbl with
  | [] => Ok []
  | deviceptr :: tbl' =>
      d <- multifile_device fullscale_ startrow_ rowidx ts deviceptr ;;
      t <- multifile_devices fullscale_ startrow_ rowidx ts tbl' ;;
      Ok (d :: t)
  end.

Definition multifile_metric (fullscale_ : Q) (rowidx ts : Z) (classptr : Class)
  (metricptr : Metric) : result Metric :=
  if (classtype classptr =? VECTORCLASS)%char then
    match devicetbl metricptr with
    | [] => Crash NullDeref
    | deviceptr :: tbl' =>
        d <- multifile_device fullscale_ (startrow classptr) rowidx ts deviceptr ;;
        Ok (set_devicetbl (d :: tbl') metricptr)
    end
  else
    t <- multifile_devices fullscale_ (startrow classptr) rowidx ts (devicetbl metricptr) ;;
    Ok (set_devicetbl t metricptr).

Fixpoint multifile_metrics (fullscale_ : Q) (rowidx ts : Z) (classptr : Class)
  (tbl : list Metric) : result (list Metric) :=
  match tbl with
  | [] => Ok []
  | metricptr :: tbl' =>
      m <- multifile_metric fullscale_ rowidx ts classptr metricptr ;;
      t <- multifile_metrics fullscale_ rowidx ts classptr tbl' ;;
      Ok (m :: t)
  end.

Fixpoint multifile_classes (fullscale_ : Q) (rowidx ts : Z) (tbl : list Class)
  : result (list Class) :=
  match tbl with
  | [] => Ok []
  | classptr :: tbl' =>
      t <- multifile_metrics fullscale_ rowidx ts classptr (metrictbl classptr) ;;
      t' <- multifile_classes fullscale_ rowidx ts tbl' ;;
      Ok (set_metrictbl t classptr :: t')
  end.

Fixpoint multifile_rows (n : nat) (rowidx timestamp : Z) (st : State) : result State :=
  match n with
  | O => Ok st
  | S n' =>
      t <- multifile_classes (fullscale st) rowidx (rowtimestamp st timestamp rowidx)
             (classtbl st) ;;
      multifile_rows n' (rowidx + 1) timestamp (set_classtbl t st)
  end.

Definition output_multifile_bodies_data (timestamp : Z) (st : State) : result State :=
  multifile_rows (Z.to_nat (count st)) 0 timestamp st.

Definition prepare_single_output_file (singlefilename : bool) (st : State) : result State :=
  if singlefilename then output_singlefile_headers st else Ok st.

(** ** [read_inputfile] and [main] *)

(** The command line: [-c] with the content of the configuration file
    ([Some None] when it cannot be opened), [-s], [-m]. *)
Record Options : Type := mkOptions {
  configfilename : option (option string);
  singlefilename : bool;
  multifiledirname : bool
}.

(** An input file argument: ["-"] with what standard input delivers, or a
    path with the content of the file ([None] when [fopen] fails). *)
Inductive Input : Type :=
| Standard (s : string)
| Named (s : option string).

Fixpoint read_classes (classes : list Class) (st : State) : result (list Class * State) :=
  match classes with
  | [] => Ok ([], st)
  | classptr :: classes' =>
      st <- skip_to_stanza (datastanza classptr) false st ;;
      r <- (if (classtype classptr =? VECTORCLASS)%char
            then read_vector_stanza classptr st
            else read_array_stanza classptr st) ;;
      r' <- read_classes classes' (snd r) ;;
      Ok (fst r :: fst r', snd r')
  end.

(** The loop [while (1)] of [read_inputfile]: every iteration that goes on
    has read at least one line, so [fuel] above the number of lines left is
    never used up. *)
Fixpoint read_inputfile_loop (fuel : nat) (opts : Options) (timestamp : Z) (st : State)
  : result (Z * State) :=
  match fuel with
  | O => Crash OutOfFuel
  | S fuel' =>
      st <- skip_to_stanza DATESTR false st ;;
      match rest (inputfile st) with
      | [] => Ok (timestamp, st)
      | inputline :: lines' =>
          let st := next_line lines' st in
          argtbl <- parse_input_line inputline NUMDATEARGS ;;
          let timestamp :=
            if (length argtbl =? NUMDATEARGS)%nat then atol (arg argtbl TIMESTAMPIDX)
            else timestamp in
          let st :=
            if (length argtbl =? NUMDATEARGS)%nat then st
            else log (ReadDateError (inputlinectr st)) st in
          r <- read_classes (classtbl st) st ;;
          let st := set_classtbl (fst r) (snd r) in
          st <- (if singlefilename opts then output_singlefile_body timestamp st else Ok st) ;;
          st <- (if multifiledirname opts then output_multifile_bodies_data timestamp st
                 else Ok st) ;;
          read_inputfile_loop fuel' opts timestamp st
      end
  end.

Definition read_inputfile (opts : Options) (st : State) : result (Z * State) :=
  let st := set_inputlinectr 0 st in
  read_inputfile_loop (S (length (rest (inputfile st)))) opts 0 st.

(** The block of [main] guarded by [firstfileflag]: first the parameters,
    the time values and the METADATA block, *)
Definition schema (st : State) : result State :=
  st <- initialize_parameters st ;;
  st <- initialize_time_values st ;;
  initialize_metadata st.

(** then the first DATE block, the devices of the data stanzas and the
    configuration file, *)
Definition discover (opts : Options) (st : State) : result State :=
  st <- schema st ;;
  st <- initialize_timestamp st ;;
  st <- initialize_classes st ;;
  match configfilename opts with
  | Some configfile => read_configfile configfile st
  | None => Ok st
  end.

(** then the check of the metric names and the output files. *)
Definition first_file (opts : Options) (st : State) : result State :=
  st <- discover opts st ;;
  st <- check_metric_names st ;;
  st <- prepare_single_output_file (singlefilename opts) st ;;
  prepare_multi_output_files (multifiledirname opts) st.

Definition open_input (a : Input) : option Stream :=
  match a with
  | Standard s => Some (stdin s)
  | Named (Some s) => Some (fopen s)
  | Named None => None
  end.

(** The loop of [main] over the input file arguments. *)
Fixpoint main_loop (opts : Options) (argv : list Input) (firstfileflag : bool) (st : State)
  : result State :=
  match argv with
  | [] => Ok st
  | a :: argv' =>
      match open_input a with
      | None => main_loop opts argv' firstfileflag (log InputNotOpened st)
      | Some f =>
          let st := set_inputfile f st in
          st <- (if firstfileflag then first_file opts st else Ok st) ;;
          r <- read_inputfile opts st ;;
          main_loop opts argv' false (snd r)
      end
  end.

(** [main] up to [exit(0)]; the clockticks file, the parameter table and the
    summary that it prints afterwards do not change the state modelled
    here.  [Ok st] is the state at [exit(0)]. *)
Definition start_state (opts : Options) : State :=
  if negb (singlefilename opts) && negb (multifiledirname opts)
  then log NoOutputFile initial_state else initial_state.

Definition main (opts : Options) (argv : list Input) : result State :=
  match argv with
  | [] => Exit 1 Usage
  | _ => main_loop opts argv true (start_state opts)
  end.

(** ** The clockticks file: [populate_clockticks] *)

(** The fields of [struct tm] that the program reads. *)
Record tm : Type := mkTm {
  tm_hour : Z;
  tm_min : Z;
  tm_sec : Z
}.

(** [localtime] of the C library (it depends on the time zone of the
    process): a parameter of the development, like [atof]. *)
Variable localtime : Z -> tm.

Definition NUMCLOCKTICKSLEVELS : nat := 8.

(** [MIN(a,b) = ((a)<(b)?(a):(b))] on [time_t]. *)
Definition MIN (a b : Z) : Z := if a <? b then a else b.

Definition param_longint (v : Paramtype) : Z :=
  match v with longint z => z | _ => 0 end.

(** What [populate_clockticks] reports on stderr. *)
Inductive ClockDiag : Set :=
| NotAMultiple (level : Z) (ticks : Z) (level' : Z) (ticks' : Z)
| NoValidLevels.

(** What it writes to the clockticks file: the header line, and the lines
    ["%s 0"] and ["%s %d"] of a tick, with the time stamp that [strftime]
    formats. *)
Inductive ClockLine : Type :=
| CHeader (name : string) (fullscale_ : Q)
| CTick (timestamp : Z) (height : Z).

(** [paramtbl[paramidx].value.longint] for the level parameters, in order. *)
Definition level_values (tbl : list Param) : list Z :=
  map (fun paramidx => param_longint (param_value paramidx tbl))
    (seq CLOCKTICKSLEV0IDX NUMCLOCKTICKSLEVELS).

(** The loop over the level parameters: it stops at the first value that is
    not positive, and returns early (the right summand) at a level that does
    not divide the level before it.  [clockticktbl] holds the [levelctr]
    levels stored so far. *)
Fixpoint clocktick_levels (values : list Z) (clockticktbl : list Z) (minclocktick : Z)
  : (list Z * Z) + ClockDiag :=
  match values with
  | [] => inl (clockticktbl, minclocktick)
  | v :: values' =>
      if v >? 0 then
        let levelctr := Z.of_nat (length clockticktbl) in
        match last clockticktbl with
        | Some prev =>
            if negb (Z.rem prev v =? 0)
            then inr (NotAMultiple (levelctr - 1) prev levelctr v)
            else clocktick_levels values' (clockticktbl ++ [v])%list (MIN v minclocktick)
        | None => clocktick_levels values' (clockticktbl ++ [v])%list (MIN v minclocktick)
        end
      else inl (clockticktbl, minclocktick)
  end.

(** The inner loop over the levels: the index of the first level that
    divides [clockticktime]. *)
Fixpoint find_level (clockticktime : Z) (levels : list Z) (levelidx : Z) : result (option Z) :=
  match levels with
  | [] => Ok None
  | level :: levels' =>
      if level =? 0 then Crash DivByZero
      else if Z.rem clockticktime level =? 0 then Ok (Some levelidx)
      else find_level clockticktime levels' (levelidx + 1)
  end.

(** The loop [for (timestamp=begtimestamp; timestamp<=endtimestamp;
    timestamp+=minclocktick)]. *)
Fixpoint clockticks_loop (fuel : nat) (levels : list Z) (minclocktick endtimestamp timestamp : Z)
  : result (list ClockLine) :=
  match fuel with
  | O => Crash OutOfFuel
  | S fuel' =>
      if timestamp <=? endtimestamp then
        let t := localtime timestamp in
        let clockticktime := 3600 * tm_hour t + 60 * tm_min t + tm_sec t in
        r <- find_level clockticktime levels 0 ;;
        ticks <- clockticks_loop fuel' levels minclocktick endtimestamp
                   (timestamp + minclocktick) ;;
        Ok (match r with
            | Some levelidx =>
                [CTick timestamp 0;
                 CTick timestamp (2 * (levelidx - Z.of_nat (length levels)))]
            | None => []
            end ++ ticks)%list
      else Ok []
  end.

Definition begtimestamp (minclocktick : Z) (st : State) : Z :=
  Z.quot (firsttimestamp st) minclocktick * minclocktick.

Definition endtimestamp (minclocktick lasttimestamp : Z) (st : State) : Z :=
  (Z.quot (lasttimestamp + count st * interval st) minclocktick + 1) * minclocktick.

(** [populate_clockticks]: the lines written to the clockticks file, which
    [prepare_multi_output_files] has just created, and the diagnostic. *)
Definition populate_clockticks (lasttimestamp : Z) (st : State)
  : result (list ClockLine * option ClockDiag) :=
  match clocktick_levels (level_values (paramtbl st)) [] (10 * 365 * 24 * 60 * 60) with
  | inr d => Ok ([], Some d)
  | inl (clockticktbl, minclocktick) =>
      if minclocktick =? 0 then Crash DivByZero
      else
        let beg := begtimestamp minclocktick st in
        let end_ := endtimestamp minclocktick lasttimestamp st in
        ticks <- clockticks_loop (S (Z.to_nat (end_ - beg + 1))) clockticktbl minclocktick
                   end_ beg ;;
        Ok (CHeader (param_string (param_value CLOCKTICKSFILENAMEIDX (paramtbl st)))
              (fullscale st) :: ticks,
            if (length clockticktbl =? 0)%nat then Some NoValidLevels else None)
  end.

(** ** [output_data_values_summary] *)

(** A line of the summary on stdout: the title line, the line of a metric
    and the line of a device of an array class, each with the name, the max,
    the average and the number of values. *)
Inductive SummaryLine : Type :=
| SumTitle
| SumMetric (name : string) (max : Q) (avg : option Q) (number : Z)
| SumDevice (name : string) (max : Q) (avg : option Q) (number : Z).

(** [sum/number] in double arithmetic.  With [number == 0] the quotient is
    no number ([0.0/0] is a NaN, any other sum gives an infinity): [None]. *)
Definition average (sum : Q) (number : Z) : option Q :=
  if number =? 0 then None else Some (sum / inject_Z number)%Q.

Definition summary_device (sep : string) (metricptr : Metric) (deviceptr : Device)
  : SummaryLine :=
  SumDevice (metric_device_name sep metricptr deviceptr) (dev_max deviceptr)
    (average (dev_sum deviceptr) (dev_number deviceptr)) (dev_number deviceptr).

Definition summary_metric (sep : string) (classptr : Class) (metricptr : Metric)
  : list SummaryLine :=
  SumMetric (metricname metricptr) (met_max metricptr)
    (average (met_sum metricptr) (met_number metricptr)) (met_number metricptr)
  :: (if (classtype classptr =? VECTORCLASS)%char then []
      else map (summary_device sep metricptr) (devicetbl metricptr)).

Definition summary_class (sep : string) (classptr : Class) : list SummaryLine :=
  flat_map (summary_metric sep classptr) (metrictbl classptr).

Definition output_data_values_summary (st : State) : list SummaryLine :=
  SumTitle
  :: flat_map (summary_class (param_string (param_value METDEVSEPARATORIDX (paramtbl st))))
       (classtbl st).

(** ** Predicates used in the statements *)

(** No quote character occurs in the string. *)
Fixpoint quote_free (s : string) : bool :=
  match s with
  | EmptyString => true
  | String c s' => negb (c =? QUOTECHAR)%char && quote_free s'
  end.

(** The string is empty or its last character is white space. *)
Fixpoint ends_blank (s : string) : bool :=
  match s with
  | EmptyString => true
  | String c EmptyString => WHITESPACE c
  | String _ s' => ends_blank s'
  end.

(** A device whose first [MAXDEVNAMELEN] characters are those of [name] is
    in the table of the metric. *)
Definition registered (name : string) (m : Metric) : Prop :=
  exists d, In d (devicetbl m) /\
            strncpy MAXDEVNAMELEN (devicename d) = strncpy MAXDEVNAMELEN name.

(** No line of the stanza, up to the line that ends it or the end of the
    file, tokenizes into [nm + 1] fields. *)
Fixpoint no_well_formed_line (nm : nat) (lines : list string) : bool :=
  match lines with
  | [] => true
  | inputline :: lines' =>
      match parse_input_line inputline (MAXNUMMETRICS + 1) with
      | Ok argtbl =>
          if (length argtbl =? nm + 1)%nat then false
          else if (length argtbl =? 0)%nat then true
          else no_well_formed_line nm lines'
      | _ => false
      end
  end.

(** A line of a DATE block that carries a time stamp, and a line without a
    token (blank or comment only), which ends the block. *)
Definition timestamp_line (inputline tok : string) : Prop :=
  parse_input_line inputline NUMDATEARGS = Ok [tok].

Definition blank_line (inputline : string) : Prop :=
  parse_input_line inputline NUMDATEARGS = Ok [].

(** The outcome is not an [exit]. *)
Definition no_exit {A : Type} (r : result A) : Prop :=
  forall code d, r <> Exit code d.

(** The metric names of the class table, class by class. *)
Definition metric_names (tbl : list Class) : list (list string) :=
  map (fun c => map metricname (metrictbl c)) tbl.

(** Two distinct metrics of the table, in one class or in two, have the
    same name. *)
Definition has_duplicate_names (tbl : list Class) : Prop :=
  exists (c1 m1 c2 m2 : nat) (n1 n2 : list string) (name : string),
    metric_names tbl !! c1 = Some n1 /\ n1 !! m1 = Some name /\
    metric_names tbl !! c2 = Some n2 /\ n2 !! m2 = Some name /\
    (c1 <> c2 \/ m1 <> m2).

(** A line of a data stanza with at least one token: it does not end the
    stanza. *)
Definition has_token (maxargs : nat) (inputline : string) : Prop :=
  exists tok argtbl, parse_input_line inputline maxargs = Ok (tok :: argtbl).

(** Every metric of the class has a device, and row [rowidx] of the stanza
    falls inside the buffer of every device. *)
Definition row_in_buffers (classptr : Class) (rowidx : Z) : Prop :=
  forall m, In m (metrictbl classptr) ->
    0 < numdevices m /\
    forall d, In d (devicetbl m) ->
      rowidx / numdevices m < Z.of_nat (length (valuetbl d)).

(** Two states that differ at most in the position of the input stream. *)
Definition agree_but_rest (st st' : State) : Prop := set_rest [] st = set_rest [] st'.

(** A series as the emitters see it: the start row of its class, its name
    in the headers, its device. *)
Definition Series : Type := (Z * string * Device)%type.

Definition ser_name (s : Series) : string := snd (fst s).
Definition ser_active (s : Series) : bool := active (snd s).

(** The series of the class table in the order of the emitters' loops: the
    first device of every metric of a vector class, every device of every
    metric of an array class. *)
Definition emitted (c : Class) (m : Metric) : list Device :=
  if (classtype c =? VECTORCLASS)%char then take 1 (devicetbl m) else devicetbl m.

Definition metric_series (sep : string) (c : Class) (m : Metric) : list Series :=
  map (fun d => (startrow c, series_name sep c m d, d)) (emitted c m).

Definition class_series (sep : string) (c : Class) : list Series :=
  flat_map (metric_series sep c) (metrictbl c).

Definition series (sep : string) (tbl : list Class) : list Series :=
  flat_map (class_series sep) tbl.

(** The value of a series normalized for row [rowidx]. *)
Definition normalized (fullscale_ : Q) (rowidx : Z) (d : Device) : Q :=
  (fullscale_ / scale d * nth (Z.to_nat rowidx) (valuetbl d) 0)%Q.

(** What the emitters are specified to do with one series: the field of the
    wide table for row [rowidx], the file opened for the series, the line
    added to that file for row [rowidx]. *)
Definition wide_field (fullscale_ : Q) (rowidx : Z) (s : Series) : option Q :=
  let '(sr, _, d) := s in
  if rowidx >=? sr then Some (normalized fullscale_ rowidx d) else None.

Definition set_fileptr (f : option (list MultiLine)) (d : Device) : Device :=
  mkDevice (devicename d) (dev_number d) (dev_max d) (dev_sum d) (scale d) (valuetbl d) f.

Definition narrow_open (s : Series) : Series :=
  let '(sr, name, d) := s in
  (sr, name, if active d then set_fileptr (Some [MHeader name (scale d)]) d else d).

Definition narrow_line (fullscale_ : Q) (rowidx ts : Z) (s : Series) : Series :=
  let '(sr, name, d) := s in
  (sr, name,
   if active d && (rowidx >=? sr)
   then set_fileptr
          (Some (default [] (fileptr d) ++ [MData ts (normalized fullscale_ rowidx d)])%list) d
   else d).

(** Every metric of a vector class has its device. *)
Definition vector_has_device (tbl : list Class) : Prop :=
  forall c m, In c tbl -> In m (metrictbl c) ->
    (classtype c =? VECTORCLASS)%char = true -> devicetbl m <> [].

(** Row [rowidx] can be read from the buffer of every active series that
    has started. *)
Definition row_readable (sep : string) (rowidx : Z) (tbl : list Class) : Prop :=
  forall sr name d, In (sr, name, d) (series sep tbl) ->
    active d = true -> sr <= rowidx ->
    0 <= rowidx < Z.of_nat (length (valuetbl d)).

(** The file of every active series is open. *)
Definition files_open (sep : string) (tbl : list Class) : Prop :=
  forall sr name d, In (sr, name, d) (series sep tbl) ->
    active d = true -> fileptr d <> None.

(** Slot [i] of the buffer of device [k] of a metric, and of metric [j] of a
    class. *)
Definition dslot (m : Metric) (k i : nat) : option Q :=
  match devicetbl m !! k with
  | Some d => valuetbl d !! i
  | None => None
  end.

Definition slot (c : Class) (j k i : nat) : option Q :=
  match metrictbl c !! j with
  | Some m => dslot m k i
  | None => None
  end.

(** Sums over the devices of a metric. *)
Definition Zsum (l : list Z) : Z := fold_right Z.add 0 l.
Definition Qsum (l : list Q) : Q := fold_right Qplus 0%Q l.

(** The aggregates of a metric agree with those of its devices: the count
    and the sum are the sums over the devices, and the max is the maximum of
    the devices' maxima (an upper bound that one device attains). *)
Definition aggregates_consistent (m : Metric) : Prop :=
  met_number m = Zsum (map dev_number (devicetbl m)) /\
  (met_sum m == Qsum (map dev_sum (devicetbl m)))%Q /\
  (forall d, In d (devicetbl m) -> (dev_max d <= met_max m)%Q) /\
  (devicetbl m <> [] -> exists d, In d (devicetbl m) /\ (dev_max d == met_max m)%Q).

(** No running max is negative. *)
Definition max_nonneg (m : Metric) : Prop :=
  (0 <= met_max m)%Q /\ forall d, In d (devicetbl m) -> (0 <= dev_max d)%Q.

(** The invariant of a metric: the two properties above, and a max of zero
    as long as the metric has no device. *)
Definition metric_inv (m : Metric) : Prop :=
  aggregates_consistent m /\ max_nonneg m /\ (devicetbl m = [] -> (met_max m == 0)%Q).

Definition classes_inv (tbl : list Class) : Prop :=
  Forall (fun c => Forall metric_inv (metrictbl c)) tbl.

(** The aggregates of a metric and of its devices, without the scale, the
    buffer and the file. *)
Definition dev_view (d : Device) : Z * Q * Q := (dev_number d, dev_max d, dev_sum d).

Definition met_view (m : Metric) : Z * Q * Q * list (Z * Q * Q) :=
  (met_number m, met_max m, met_sum m, map dev_view (devicetbl m)).

Definition classes_view (tbl : list Class) : list (list (Z * Q * Q * list (Z * Q * Q))) :=
  map (fun c => map met_view (metrictbl c)) tbl.

(** ** Example inputs *)

(** Two samples of a vector class with two metrics and of an array class
    with one metric and two devices. *)
Definition example_file : string :=
"TIME_VALUES:
2 60

METADATA:
cpu V 1 us sy
io A 1 tps

DATE:
1000

cpu:
1 2
3 4

io:
sda 5
sdb 6
sda 7
sdb 8

".

Definition example_config : string :=
"us 10
tps_sdb 50
".

(** A second file for the same schema: its DATE block has no time stamp
    line, and its vector stanza stops after the first row. *)
Definition truncated_file : string :=
"DATE:

cpu:
9 9

io:
sda 1
sdb 1
sda 1
sdb 1

".

(** The metric name [us] is declared in two classes. *)
Definition duplicate_file : string :=
"TIME_VALUES:
2 60

METADATA:
cpu V 1 us sy
io A 1 us

DATE:
1000

cpu:
1 2
3 4

io:
sda 5
sdb 6
sda 7
sdb 8

".

(** The same schema with a vector line of three fields for two metrics. *)
Definition duplicate_file_bad_data : string :=
"TIME_VALUES:
2 60

METADATA:
cpu V 1 us sy
io A 1 us

DATE:
1000

cpu:
1 2 3
".

(** An array class whose data stanza is empty. *)
Definition empty_array_file : string :=
"TIME_VALUES:
2 60

METADATA:
io A 1 tps

DATE:
1000

io:

".

(** Every value of the vector metric is negative. *)
Definition negative_file : string :=
"TIME_VALUES:
2 60

METADATA:
temp V 1 celsius

DATE:
1000

temp:
-5
-3

".

Definition example_options : Options := mkOptions (Some (Some example_config)) true true.
Definition plain_options : Options := mkOptions None true true.

Definition example_device (name : string) (s : Q) (values : list Q) : Device :=
  mkDevice name 0 0 0 s values None.

(** An array class with one metric on two devices, and a vector class with
    one metric, with old values in the buffers. *)
Definition example_array_class : Class :=
  mkClass "io" ARRAYCLASS 0
    [mkMetric "tps" 0 0 0
       [example_device "sda" 0 [9; 9]%Q; example_device "sdb" 50 [9; 9]%Q]].

Definition example_vector_class : Class :=
  mkClass "cpu" VECTORCLASS 0 [mkMetric "us" 0 0 0 [example_device "None" 10 [9; 9]%Q]].

Definition example_stream (lines : list string) : State :=
  set_inputfile (mkStream lines lines false) (set_time_values 2 60 initial_state).

(** A line as [fgets] returns it. *)
Definition line (s : string) : string := s ++ String newline EmptyString.

(** The line of the wide table for row [rowidx]: its time stamp and one
    field per series whose scale is not zero. *)
Definition wide_row (sep : string) (timestamp : Z) (st : State) (rowidx : Z) : SingleLine :=
  SRow (rowtimestamp st timestamp rowidx)
    (map (wide_field (fullscale st) rowidx)
       (List.filter ser_active (series sep (classtbl st)))).

(** What the rows [rowidx], ..., [rowidx + n - 1] of
    [output_multifile_bodies_data] do with one series, row after row. *)
Definition narrow_rows (st : State) (timestamp rowidx : Z) (n : nat) (s : Series) : Series :=
  fold_left
    (fun s k =>
       narrow_line (fullscale st) (rowidx + Z.of_nat k)
         (rowtimestamp st timestamp (rowidx + Z.of_nat k)) s)
    (seq 0 n) s.

(** [vector_has_device] for one class. *)
Definition vector_class_has_device (c : Class) : Prop :=
  (classtype c =? VECTORCLASS)%char = true -> Forall (fun m => devicetbl m <> []) (metrictbl c).

(** A state after discovery: the parameters at their defaults, two samples,
    the two example classes. *)
Definition example_state : State :=
  set_classtbl [example_vector_class; example_array_class]
    (set_fullscale 100
       (set_paramtbl
          (map (fun p => mkParam (idx p) (paramname p) (type p) (defaultvalue p)
                           (defaultvalue p)) static_paramtbl)
          (example_stream []))).

(** The outcome is neither an [exit] nor the exhaustion of a loop bound of
    the model. *)
Definition benign {A : Type} (r : result A) : Prop :=
  no_exit r /\ r <> Crash OutOfFuel.

(** The number of lines left in the input stream. *)
Definition remaining (st : State) : nat := length (rest (inputfile st)).

(** The outcome is not the exhaustion of a loop bound of the model. *)
Definition fuel_ok {A : Type} (r : result A) : Prop := r <> Crash OutOfFuel.

(** ** Further predicates: the tokenizer *)

(** No white space character occurs in the string; every character of the
    string is white space. *)
Fixpoint blank_free (s : string) : bool :=
  match s with
  | EmptyString => true
  | String c s' => negb (WHITESPACE c) && blank_free s'
  end.

Fixpoint all_blank (s : string) : bool :=
  match s with
  | EmptyString => true
  | String c s' => WHITESPACE c && all_blank s'
  end.

(** An unquoted field: not empty, without white space, and not starting
    with the comment or the quote character. *)
Definition plain_token (tok : string) : bool :=
  match tok with
  | EmptyString => false
  | String c _ => negb (c =? COMMENTCHAR)%char && negb (c =? QUOTECHAR)%char && blank_free tok
  end.

(** A separator: white space, at least one character. *)
Definition separator (sep : string) : bool :=
  match sep with
  | EmptyString => false
  | String _ _ => all_blank sep
  end.

(** A line written field by field, every field followed by its separator. *)
Fixpoint render (fields : list (string * string)) : string :=
  match fields with
  | [] => EmptyString
  | (tok, sep) :: fields' => tok ++ sep ++ render fields'
  end.

Definition well_separated (fields : list (string * string)) : Prop :=
  Forall (fun f => plain_token (fst f) = true /\ separator (snd f) = true) fields.

(** ** Further predicates: the input stream *)

(** The state after [n] more successful [fgets] calls, with [lines] left. *)
Definition consumed (n : nat) (lines : list string) (st : State) : State :=
  set_inputlinectr ((inputlinectr st + Z.of_nat n) mod 2 ^ 32) (set_rest lines st).

(** ** Further predicates: the schema *)

(** A metric as [initialize_metadata] leaves it: a name of at most
    [MAXMETNAMELEN] characters, zero aggregates, no device. *)
Definition fresh_metric (m : Metric) : Prop :=
  (String.length (metricname m) <= MAXMETNAMELEN)%nat /\
  met_number m = 0 /\ met_max m = 0%Q /\ met_sum m = 0%Q /\ devicetbl m = [].

(** A class as [initialize_metadata] declares it. *)
Definition declared_class (count_ : Z) (c : Class) : Prop :=
  (String.length (classname c) <= MAXCLSNAMELEN)%nat /\
  (classtype c = VECTORCLASS \/ classtype c = ARRAYCLASS) /\
  0 <= startrow c < count_ /\
  (1 <= length (metrictbl c) <= MAXNUMMETRICS)%nat /\
  Forall fresh_metric (metrictbl c).

(** Two states that differ at most in the position of the input stream and
    in the line counter. *)
Definition same_but_position (st st' : State) : Prop :=
  set_inputlinectr 0 (set_rest [] st') = set_inputlinectr 0 (set_rest [] st).

(** ** Projections of the class table *)

(** The class table seen through a projection of the metrics and one of the
    devices; names, types and start rows of the classes are kept. *)
Definition mproj {X Y : Type} (mbase : Metric -> Y) (dproj : Device -> X) (m : Metric)
  : Y * list X :=
  (mbase m, map dproj (devicetbl m)).

Definition cproj {X Y : Type} (mbase : Metric -> Y) (dproj : Device -> X) (c : Class)
  : string * ascii * Z * list (Y * list X) :=
  (classname c, classtype c, startrow c, map (mproj mbase dproj) (metrictbl c)).

Definition tproj {X Y : Type} (mbase : Metric -> Y) (dproj : Device -> X) (tbl : list Class)
  : list (string * ascii * Z * list (Y * list X)) :=
  map (cproj mbase dproj) tbl.

(** The schema: the classes and metrics with their names, and for every
    device its name, its scale and the size of its buffer. *)
Definition dev_shape (d : Device) : string * Q * nat :=
  (devicename d, scale d, length (valuetbl d)).

Definition shape (tbl : list Class) := tproj metricname dev_shape tbl.

(** The schema without the scales. *)
Definition dev_skeleton (d : Device) : string * nat := (devicename d, length (valuetbl d)).

Definition skeleton (tbl : list Class) := tproj metricname dev_skeleton tbl.

(** Everything but the scales. *)
Definition met_aggregates (m : Metric) : string * Z * Q * Q :=
  (metricname m, met_number m, met_max m, met_sum m).

Definition dev_unscaled (d : Device) : string * Z * Q * Q * list Q * option (list MultiLine) :=
  (devicename d, dev_number d, dev_max d, dev_sum d, valuetbl d, fileptr d).

Definition unscaled (tbl : list Class) := tproj met_aggregates dev_unscaled tbl.

(** ** Frames of the state *)

(** The stream is only read forward: what is left is a suffix of what was
    left before. *)
Definition forward (st st' : State) : Prop :=
  exists pre, rest (inputfile st) = (pre ++ rest (inputfile st'))%list.

(** What the discovery of the first file never changes once the parameters
    are initialized: the scale of the output, the wide table, and which file
    is being read. *)
Definition environment (st : State) : Q * list SingleLine * list string * bool :=
  (fullscale st, singlefile st, contents (inputfile st), is_stdin (inputfile st)).

(** What no function changes once the first input file is discovered. *)
Definition globals (st : State) : Z * Z * Q * Z * list Param * list string * bool :=
  (count st, interval st, fullscale st, firsttimestamp st, paramtbl st,
   contents (inputfile st), is_stdin (inputfile st)).

(** ** Further predicates: the device registry *)

(** A device as [add_device] creates it for a sample count [count_]. *)
Definition fresh_device (count_ : Z) (d : Device) : Prop :=
  (String.length (devicename d) <= MAXDEVNAMELEN)%nat /\
  dev_number d = 0 /\ dev_max d = 0%Q /\ dev_sum d = 0%Q /\ scale d = 0%Q /\
  valuetbl d = repeat 0%Q (Z.to_nat count_) /\ fileptr d = None.

Definition device_names (m : Metric) : list string := map devicename (devicetbl m).

(** The device names after a registration of [name]: unchanged when a name
    with the same first [MAXDEVNAMELEN] characters is known, else extended
    by the name cut to that length. *)
Definition known (name : string) (names : list string) : bool :=
  existsb (fun n => strncmp_eq MAXDEVNAMELEN name n) names.

Definition register (name : string) (names : list string) : list string :=
  if known name names then names else (names ++ [strncpy MAXDEVNAMELEN name])%list.

(** Every metric of the class has the devices [names], all fresh. *)
Definition uniform (count_ : Z) (names : list string) (c : Class) : Prop :=
  Forall (fun m => device_names m = names /\ Forall (fresh_device count_) (devicetbl m))
    (metrictbl c).

(** A class [c'] whose metrics all have the devices [names], against the
    class [c] as declared: names, type, start row and the aggregates of the
    metrics are those of [c]. *)
Definition class_devices (count_ : Z) (names : list string) (c c' : Class) : Prop :=
  classname c' = classname c /\ classtype c' = classtype c /\ startrow c' = startrow c /\
  map met_aggregates (metrictbl c') = map met_aggregates (metrictbl c) /\
  NoDup names /\ Forall (fun n => (String.length n <= MAXDEVNAMELEN)%nat) names /\
  uniform count_ names c'.

(** A class after the discovery of its devices: a vector class has no
    device or the one device [NODEVICENAME] per metric. *)
Definition discovered_class (count_ : Z) (c c' : Class) : Prop :=
  exists names,
    class_devices count_ names c c' /\
    ((classtype c =? VECTORCLASS)%char = true -> names = [] \/ names = [NODEVICENAME]).

(** No metric of the table has a device yet. *)
Definition no_devices (tbl : list Class) : Prop :=
  Forall (fun c => Forall (fun m => devicetbl m = []) (metrictbl c)) tbl.

(** The state of a run that is expected to succeed, for the examples. *)
Definition run_or_initial (r : result State) : State :=
  match r with
  | Ok st => st
  | _ => initial_state
  end.

(** [example_file] once its TIME_VALUES, METADATA and first DATE blocks are
    read. *)
Definition example_declared : State :=
  run_or_initial
    (st <- initialize_parameters (set_inputfile (fopen example_file) initial_state) ;;
     st <- initialize_time_values st ;;
     st <- initialize_metadata st ;;
     initialize_timestamp st).

(** What the functions that follow the discovery of the devices leave
    alone: the stream with its position, and the values read from the
    TIME_VALUES and DATE blocks. *)
Definition settled (st : State) : Stream * Z * Z * Z * Q * Z :=
  (inputfile st, inputlinectr st, count st, interval st, fullscale st, firsttimestamp st).

(** Every buffer of the table has [n] slots. *)
Definition buffers_sized (n : nat) (tbl : list Class) : Prop :=
  Forall (fun c => Forall (fun m => Forall (fun d => length (valuetbl d) = n) (devicetbl m))
                     (metrictbl c)) tbl.

(** The buffers have [count] slots, and a class exists only when
    [count >= 1]. *)
Definition sized (st : State) : Prop :=
  buffers_sized (Z.to_nat (count st)) (classtbl st) /\ (classtbl st = [] \/ 1 <= count st).

(** A configuration file that sets the [fullscale] parameter. *)
Definition fullscale_config : string :=
"fullscale 50
us 10
".

(** ** Further predicates: the wide table *)

(** The number of series with a non-zero scale: per metric, per class, and
    in the table. *)
Definition active_count (c : Class) (m : Metric) : nat :=
  length (List.filter active (emitted c m)).

Definition class_width (c : Class) : nat := list_sum (map (active_count c) (metrictbl c)).

Definition width (tbl : list Class) : nat := list_sum (map class_width tbl).

(** A data line of the wide table with [n] fields. *)
Definition row_of_width (n : nat) (l : SingleLine) : Prop :=
  exists ts fields, l = SRow ts fields /\ length fields = n.

(** The wide table as [main] leaves it: nothing, or a header line followed
    by data lines that have one field per name of the header, [count] lines
    for every DATE block that was read. *)
Definition rectangular (count_ : Z) (lines : list SingleLine) : Prop :=
  lines = [] \/
  exists names rows k,
    lines = SHeader names :: rows /\
    Forall (row_of_width (length names)) rows /\
    length rows = (k * Z.to_nat count_)%nat.

(** The invariant behind it, once the first file is discovered. *)
Definition wide_table (singlefilename_ : bool) (st : State) : Prop :=
  if singlefilename_ then
    exists names rows k,
      singlefile st = SHeader names :: rows /\
      length names = width (classtbl st) /\
      Forall (row_of_width (width (classtbl st))) rows /\
      length rows = (k * Z.to_nat (count st))%nat
  else singlefile st = [].

(** ** Further predicates: the configuration file *)

(** What the configuration file cannot change of a parameter. *)
Definition param_declared (p : Param) : nat * string * Paramkind * Paramtype :=
  (idx p, paramname p, type p, defaultvalue p).

(** ** Further predicates: the emitters *)

(** A metric of a vector class has no device (its table is still NULL). *)
Definition vector_without_device (tbl : list Class) : Prop :=
  exists c m, In c tbl /\ In m (metrictbl c) /\
              (classtype c =? VECTORCLASS)%char = true /\ devicetbl m = [].

(** The file ends right after the header of the data stanza of its vector
    class. *)
Definition headless_file : string :=
"TIME_VALUES:
2 60

METADATA:
cpu V 1 us sy

DATE:
1000

cpu:
".

(** ** Further predicates: the data stanzas *)

(** Every metric of the class has its first device, with a buffer of [n]
    slots. *)
Definition vector_ready (n : nat) (c : Class) : Prop :=
  Forall (fun m => exists d t, devicetbl m = d :: t /\ length (valuetbl d) = n) (metrictbl c).

(** The lines after a stanza: none (end of file), or a first line without
    token. *)
Definition stanza_end (maxargs : nat) (tail_ : list string) : Prop :=
  tail_ = [] \/ exists l t, tail_ = l :: t /\ parse_input_line l maxargs = Ok [].

(** Three rows in the stanza of a vector class for a sample count of 2. *)
Definition overflow_file : string :=
"TIME_VALUES:
2 60

METADATA:
cpu V 1 us sy

DATE:
1000

cpu:
1 2
3 4
5 6

".

(** A line of a data stanza that has tokens, but not [n] of them: it is
    reported and skipped. *)
Definition malformed (maxargs n : nat) (inputline : string) : Prop :=
  exists tok argtbl,
    parse_input_line inputline maxargs = Ok (tok :: argtbl) /\ length (tok :: argtbl) <> n.

(** Standard input with two data sets for an array class: the stanza of the
    first is empty, the stanza of the second is not. *)
Definition late_devices_file : string :=
"TIME_VALUES:
2 60

METADATA:
io A 1 tps

DATE:
1000

io:

DATE:
1120

io:
sda 5
sda 7

".

(** ** Further predicates: the clockticks file *)

(** Every level divides the level before it. *)
Fixpoint divides_chain (levels : list Z) : Prop :=
  match levels with
  | a :: (b :: _) as levels' => Z.rem a b = 0 /\ divides_chain levels'
  | _ => True
  end.

(** The initial value of [minclocktick]: ten years in seconds. *)
Definition TENYEARS : Z := 10 * 365 * 24 * 60 * 60.

(** A pair of tick lines written for [levels] levels between [beg] and
    [end_], on a multiple of [step] from [beg]: a line at height 0 or at a
    negative even height down to [-2 * levels]. *)
Definition tick_between (beg end_ step : Z) (levels : nat) (l : ClockLine) : Prop :=
  exists t h k,
    l = CTick t h /\ 0 <= k /\ t = beg + k * step /\ t <= end_ /\
    (h = 0 \/ exists i, 0 <= i < Z.of_nat levels /\ h = 2 * (i - Z.of_nat levels)).

(** [localtime] for the time zone UTC, for the examples. *)
Definition utc (t : Z) : tm := mkTm ((t mod 86400) / 3600) ((t mod 3600) / 60) (t mod 60).

(** ** Further predicates: the TIME_VALUES block *)

(** A line of the TIME_VALUES block with its two fields. *)
Definition time_values_line (inputline a b : string) : Prop :=
  parse_input_line inputline NUMTIMEVALUES = Ok [a; b].

(** The sample count and the interval after the lines of a block: those of
    the last line. *)
Fixpoint last_time_values (block : list (string * string)) (current : Z * Z) : Z * Z :=
  match block with
  | [] => current
  | (a, b) :: block' => last_time_values block' (atoi a, atoi b)
  end.

(** A file whose TIME_VALUES block has two lines. *)
Definition two_time_values : string :=
"TIME_VALUES:
5 10
2 60 ignored

DATE:
".

(** ** Further predicates: the lines of the configuration file *)

(** The devices that a configuration line starting with [name] selects: the
    devices of a metric called [name], and in an array class the device whose
    compound name is [name]. *)
Definition selects (name sep : string) (c : Class) (m : Metric) (d : Device) : bool :=
  String.eqb name (metricname m) ||
  (negb (classtype c =? VECTORCLASS)%char && String.eqb name (metric_device_name sep m d)).

(** The class table with the scale [q] for the selected devices. *)
Definition rescaled (name sep : string) (q : Q) (tbl : list Class) : list Class :=
  map (fun c =>
         set_metrictbl
           (map (fun m =>
                   set_devicetbl
                     (map (fun d => if selects name sep c m d then set_scale q d else d)
                        (devicetbl m)) m)
              (metrictbl c)) c)
    tbl.

(** The devices as the discovery leaves them: at most one for a metric of a
    vector class, with distinct names for a metric of an array class. *)
Definition distinct_devices (tbl : list Class) : Prop :=
  Forall (fun c =>
            Forall (fun m =>
                      if (classtype c =? VECTORCLASS)%char
                      then (length (devicetbl m) <= 1)%nat
                      else NoDup (device_names m))
              (metrictbl c))
    tbl.

(** Some metric of the table is called [name] or has a device that [name]
    selects. *)
Definition names_a_series (name sep : string) (tbl : list Class) : Prop :=
  exists c m, In c tbl /\ In m (metrictbl c) /\
              (name = metricname m \/
               exists d, In d (devicetbl m) /\ selects name sep c m d = true).

(** ** Further predicates: the summary *)

(** Every metric of the table satisfies [J]. *)
Definition classes_all (J : Metric -> Prop) (tbl : list Class) : Prop :=
  Forall (fun c => Forall J (metrictbl c)) tbl.

(** The sum of a metric and of each of its devices is at most the number of
    values times the max, and no number is negative. *)
Definition averaged (m : Metric) : Prop :=
  0 <= met_number m /\
  (met_sum m <= inject_Z (met_number m) * met_max m)%Q /\
  forall d, In d (devicetbl m) ->
            0 <= dev_number d /\ (dev_sum d <= inject_Z (dev_number d) * dev_max d)%Q.

(** A line of the summary whose average, when there is one, is at most its
    max. *)
Definition summary_line_sound (l : SummaryLine) : Prop :=
  match l with
  | SumTitle => True
  | SumMetric _ max avg number | SumDevice _ max avg number =>
      0 <= number /\ (0 <= max)%Q /\
      match avg with
      | None => number = 0
      | Some a => 0 < number /\ (a <= max)%Q
      end
  end.

(** ** Further predicates: the narrow files *)

Definition is_data (l : MultiLine) : Prop :=
  match l with MData _ _ => True | MHeader _ _ => False end.

(** The file of a series: with [-m] and a scale that is not zero, the header
    line with the name and the scale of the series followed by data lines;
    else no file. *)
Definition narrow_file (multi : bool) (s : Series) : Prop :=
  let '(_, name, d) := s in
  if multi && active d
  then exists data, fileptr d = Some (MHeader name (scale d) :: data) /\ Forall is_data data
  else fileptr d = None.

Definition narrow_files (sep : string) (multi : bool) (tbl : list Class) : Prop :=
  Forall (narrow_file multi) (series sep tbl).

(** No device has a file. *)
Definition closed (tbl : list Class) : Prop :=
  Forall (fun c => Forall (fun m => Forall (fun d => fileptr d = None) (devicetbl m))
                     (metrictbl c)) tbl.

(** The names, the scales and the files. *)
Definition dev_filed (d : Device) : string * Q * option (list MultiLine) :=
  (devicename d, scale d, fileptr d).

Definition filed (tbl : list Class) := tproj metricname dev_filed tbl.

Definition ser_filed (s : Series) : Z * string * (string * Q * option (list MultiLine)) :=
  (fst s, dev_filed (snd s)).

(** The separator of the compound names. *)
Definition separator_of (st : State) : string :=
  param_string (param_value METDEVSEPARATORIDX (paramtbl st)).

(** ** Further predicates: the device names of the data lines *)

(** Two lines with the same fields, but for the first one. *)
Definition same_values (l l' : string) : Prop :=
  exists a a',
    parse_input_line l (MAXNUMMETRICS + 1) = Ok a /\
    parse_input_line l' (MAXNUMMETRICS + 1) = Ok a' /\
    tl a = tl a' /\ length a = length a'.

(** Two states that differ at most in their input stream. *)
Definition same_but_stream (st st' : State) : Prop :=
  set_inputfile (mkStream [] [] false) st = set_inputfile (mkStream [] [] false) st'.

(** Two runs with the same result, up to the input stream. *)
Definition same_stanza (r r' : result (Class * State)) : Prop :=
  match r, r' with
  | Ok (c, st), Ok (c', st') => c = c' /\ same_but_stream st st'
  | Exit n d, Exit n' d' => n = n' /\ d = d'
  | Crash f, Crash f' => f = f'
  | _, _ => False
  end.

(** ** Further predicates: the parameters of the configuration file *)

(** A parameter after one line of the configuration file: a line of two
    fields whose first field is the name of the parameter gives it the value
    read from the second field. *)
Definition apply_setting (p : Param) (inputline : string) : Param :=
  match parse_input_line inputline 2 with
  | Ok [name; s] =>
      if String.eqb name (paramname p)
      then mkParam (idx p) (paramname p) (type p) (defaultvalue p) (config_value (type p) s)
      else p
  | _ => p
  end.

(** A parameter after the lines of the configuration file, in their order. *)
Definition configured (lines : list string) (p : Param) : Param :=
  fold_left apply_setting lines p.

(** ** Properties of the tokenizer *)



Lemma skip_whitespace_length (s : string) :
  (String.length (skip_whitespace s) <= String.length s)%nat.
Proof.
  induction s as [|c s IH]; simpl; [lia|].
  destruct (WHITESPACE c); simpl; lia.
Qed.

Lemma scan_token_length (b : bool) (s : string) :
  (String.length (snd (scan_token b s)) <= String.length s)%nat.
Proof.
  induction s as [|c s IH]; simpl; [lia|].
  destruct (negb (WHITESPACE c) || b); simpl; [|lia].
  destruct ((c =? QUOTECHAR)%char && b); simpl; [lia|].
  destruct (scan_token b s) as [tok r]; simpl in *; lia.
Qed.

Lemma end_token_length (s : string) :
  (String.length (end_token s) <= String.length s)%nat.
Proof.
  destruct s as [|c s]; simpl; [lia|].
  pose proof (skip_whitespace_length s); lia.
Qed.

(** Fuel above the length of the line is never used up: the result does not
    depend on it. *)
Lemma parse_tokens_fuel (f1 : nat) :
  forall (f2 : nat) (s : string) (a n : nat),
    (String.length s < f1)%nat -> (String.length s < f2)%nat ->
    parse_tokens f1 s a n = parse_tokens f2 s a n.
Proof.
  induction f1 as [|f1 IH]; intros f2 s a n H1 H2; [lia|].
  destruct f2 as [|f2]; [lia|].
  destruct s as [|c s]; simpl; [reflexivity|].
  destruct (c =? COMMENTCHAR)%char; [reflexivity|].
  destruct (a <? n)%nat; [|reflexivity].
  assert (Hstep : forall c0 body b,
             (String.length (String c0 body) <= String.length (String c s))%nat ->
             (let '(tok, r) := scan_token b body in
              bind (parse_tokens f1 (end_token r) (S a) n)
                (fun args => Ok (String c0 tok :: args))) =
             (let '(tok, r) := scan_token b body in
              bind (parse_tokens f2 (end_token r) (S a) n)
                (fun args => Ok (String c0 tok :: args)))).
  { intros c0 body b Hle.
    pose proof (scan_token_length b body) as Hs.
    destruct (scan_token b body) as [tok r]; simpl in Hs.
    pose proof (end_token_length r) as He.
    simpl in Hle, H1, H2.
    rewrite (IH f2 (end_token r) (S a) n) by lia. reflexivity. }
  destruct (c =? QUOTECHAR)%char.
  - destruct s as [|c0 body]; [reflexivity|].
    apply Hstep. simpl. lia.
  - apply Hstep. simpl. lia.
Qed.

Lemma parse_tokens_no_fuel_fault (f : nat) :
  forall (s : string) (a n : nat),
    (String.length s < f)%nat -> parse_tokens f s a n <> Crash OutOfFuel.
Proof.
  induction f as [|f IH]; intros s a n H; [lia|].
  destruct s as [|c s]; simpl; [discriminate|].
  destruct (c =? COMMENTCHAR)%char; [discriminate|].
  destruct (a <? n)%nat; [|discriminate].
  assert (Hstep : forall c0 body b,
             (String.length (String c0 body) <= String.length (String c s))%nat ->
             (let '(tok, r) := scan_token b body in
              bind (parse_tokens f (end_token r) (S a) n)
                (fun args => Ok (String c0 tok :: args))) <> Crash OutOfFuel).
  { intros c0 body b Hle.
    pose proof (scan_token_length b body) as Hs.
    destruct (scan_token b body) as [tok r]; simpl in Hs.
    pose proof (end_token_length r) as He.
    simpl in Hle, H.
    specialize (IH (end_token r) (S a) n ltac:(lia)).
    destruct (parse_tokens f (end_token r) (S a) n) as [x|x y|x]; simpl;
      congruence. }
  destruct (c =? QUOTECHAR)%char.
  - destruct s as [|c0 body]; [discriminate|].
    apply Hstep. simpl. lia.
  - apply Hstep. simpl. lia.
Qed.

(** The tokenizer never returns more than [maxargs] tokens. *)
Lemma parse_tokens_bound (f : nat) :
  forall (s : string) (a n : nat) (args : list string),
    parse_tokens f s a n = Ok args -> (a + length args <= Nat.max a n)%nat.
Proof.
  induction f as [|f IH]; intros s a n args H; [discriminate|].
  destruct s as [|c s]; simpl in H; [inversion H; simpl; lia|].
  destruct (c =? COMMENTCHAR)%char; [inversion H; simpl; lia|].
  destruct (a <? n)%nat eqn:Han; [|inversion H; simpl; lia].
  apply Nat.ltb_lt in Han.
  assert (Hstep : forall c0 body b,
             (let '(tok, r) := scan_token b body in
              bind (parse_tokens f (end_token r) (S a) n)
                (fun args => Ok (String c0 tok :: args))) = Ok args ->
             (a + length args <= Nat.max a n)%nat).
  { intros c0 body b Hb.
    destruct (scan_token b body) as [tok r].
    destruct (parse_tokens f (end_token r) (S a) n) as [x|x y|x] eqn:E;
      simpl in Hb; try discriminate.
    inversion Hb; subst. apply IH in E. simpl. lia. }
  destruct (c =? QUOTECHAR)%char.
  - destruct s as [|c0 body]; [discriminate|]. eapply Hstep; eauto.
  - eapply Hstep; eauto.
Qed.

Lemma parse_input_line_bound (s : string) (n : nat) (args : list string) :
  parse_input_line s n = Ok args -> (length args <= n)%nat.
Proof.
  unfold parse_input_line. intros H. apply parse_tokens_bound in H. lia.
Qed.

Lemma length_append (s t : string) :
  String.length (s ++ t) = (String.length s + String.length t)%nat.
Proof. induction s as [|c s IH]; simpl; [reflexivity|]. rewrite IH. reflexivity. Qed.

Lemma skip_whitespace_app (q s : string) :
  skip_whitespace (q ++ s) =
  match skip_whitespace q with
  | EmptyString => skip_whitespace s
  | String x q1 => String x (q1 ++ s)
  end.
Proof.
  induction q as [|y q IH]; simpl.
  - destruct (skip_whitespace s); reflexivity.
  - destruct (WHITESPACE y); [exact IH|reflexivity].
Qed.

Lemma skip_whitespace_head (q : string) (x : ascii) (q1 : string) :
  skip_whitespace q = String x q1 -> WHITESPACE x = false.
Proof.
  induction q as [|y q IH]; simpl; [discriminate|].
  destruct (WHITESPACE y) eqn:E; [exact IH|].
  intros H; inversion H; subst; exact E.
Qed.

Lemma skip_whitespace_quote_free (q : string) :
  quote_free q = true -> quote_free (skip_whitespace q) = true.
Proof.
  induction q as [|y q IH]; simpl; [reflexivity|].
  intros H. apply andb_prop in H as [Hy Hq].
  destruct (WHITESPACE y); [auto|]. simpl. rewrite Hy, Hq. reflexivity.
Qed.

Lemma skip_whitespace_ends_blank (q : string) :
  ends_blank q = true -> ends_blank (skip_whitespace q) = true.
Proof.
  induction q as [|y q IH]; [reflexivity|].
  intros H. cbn [skip_whitespace].
  destruct (WHITESPACE y) eqn:E; [|exact H].
  apply IH. destruct q; [reflexivity|exact H].
Qed.

(** An unquoted token inside a line that ends blank stops at white space of
    that line, whatever follows the line. *)
Lemma scan_token_app (q s : string) :
  q <> EmptyString -> ends_blank q = true -> quote_free q = true ->
  exists tok w r,
    scan_token false q = (tok, String w r) /\
    scan_token false (q ++ s) = (tok, String w (r ++ s)) /\
    ends_blank r = true /\ quote_free r = true /\
    (String.length r < String.length q)%nat.
Proof.
  induction q as [|y q IH]; intros Hne Hb Hq; [congruence|].
  cbn [quote_free] in Hq. apply andb_prop in Hq as [Hy Hq].
  change (String y q ++ s) with (String y (q ++ s)).
  cbn [scan_token]. rewrite orb_false_r, andb_false_r.
  destruct (WHITESPACE y) eqn:Ey; cbn [negb].
  - exists EmptyString, y, q. repeat split; auto.
    destruct q; [reflexivity|exact Hb].
  - assert (Hne' : q <> EmptyString).
    { intros ->. simpl in Hb. congruence. }
    assert (Hb' : ends_blank q = true).
    { destruct q; [congruence|exact Hb]. }
    destruct (IH Hne' Hb' Hq) as (tok & w & r & H1 & H2 & H3 & H4 & H5).
    rewrite H1, H2.
    exists (String y tok), w, r. repeat split; auto. simpl. lia.
Qed.

Lemma comment_cut (f : nat) :
  forall (q c : string) (a n : nat),
    quote_free q = true -> ends_blank q = true ->
    (String.length (q ++ String COMMENTCHAR c) < f)%nat ->
    parse_tokens f (skip_whitespace (q ++ String COMMENTCHAR c)) a n =
    parse_tokens f (skip_whitespace q) a n.
Proof.
  induction f as [|f IH]; intros q c a n Hq Hb Hlen; [lia|].
  rewrite skip_whitespace_app.
  pose proof (skip_whitespace_quote_free q Hq) as Hq1.
  pose proof (skip_whitespace_ends_blank q Hb) as Hb1.
  pose proof (skip_whitespace_length q) as Hl1.
  destruct (skip_whitespace q) as [|x q1] eqn:E.
  - reflexivity.
  - pose proof (skip_whitespace_head _ _ _ E) as Hx.
    cbn [parse_tokens].
    destruct (x =? COMMENTCHAR)%char; [reflexivity|].
    cbn [quote_free] in Hq1. apply andb_prop in Hq1 as [Hxq Hq1].
    apply negb_true_iff in Hxq. rewrite Hxq.
    destruct (a <? n)%nat; [|reflexivity].
    destruct q1 as [|z q2].
    { simpl in Hb1. congruence. }
    destruct (scan_token_app (String z q2) (String COMMENTCHAR c)
                ltac:(discriminate) Hb1 Hq1)
      as (tok & w & r & H1 & H2 & H3 & H4 & H5).
    rewrite H1, H2. cbn [end_token].
    rewrite IH; auto.
    rewrite length_append in *. simpl in *. lia.
Qed.


(** ** Properties of the device registry *)


Lemma newdeviceflag_false (name : string) (tbl : list Device) :
  newdeviceflag name tbl false = false.
Proof.
  induction tbl as [|d tbl IH]; simpl; [reflexivity|].
  destruct (strncmp_eq MAXDEVNAMELEN name (devicename d)); exact IH.
Qed.

Lemma newdeviceflag_spec (name : string) (tbl : list Device) :
  newdeviceflag name tbl true = false <->
  exists d, In d tbl /\ strncpy MAXDEVNAMELEN (devicename d) = strncpy MAXDEVNAMELEN name.
Proof.
  induction tbl as [|d tbl IH]; simpl.
  - split; [discriminate|]. intros (d & [] & _).
  - unfold strncmp_eq at 1.
    destruct (String.eqb_spec (strncpy MAXDEVNAMELEN name)
                (strncpy MAXDEVNAMELEN (devicename d))) as [E|E].
    + split; [|intros _; apply newdeviceflag_false].
      intros _. exists d. split; [left; reflexivity|symmetry; exact E].
    + rewrite IH. split.
      * intros (d' & Hin & Hd'). exists d'. split; [right; exact Hin|exact Hd'].
      * intros (d' & [Hin|Hin] & Hd').
        -- subst d'. exfalso. apply E. symmetry. exact Hd'.
        -- exists d'. split; assumption.
Qed.

Lemma strncpy_idempotent (n : nat) (s : string) : strncpy n (strncpy n s) = strncpy n s.
Proof.
  revert s. induction n as [|n IH]; intros [|c s]; simpl; try reflexivity.
  rewrite IH. reflexivity.
Qed.

(** C8.  Registration is idempotent per metric: [add_device] with a name
    already registered for the metric returns the metric unchanged (table,
    count and every device as they were); with a new name it appends
    exactly one device, named by the first [MAXDEVNAMELEN] characters, with
    zero count, max, sum and scale and a buffer of [count] slots that are
    all zero, and leaves the devices registered before as they were; adding
    the same name again changes nothing. *)
Theorem add_device_first_seen_wins (count_ : Z) (m : Metric) (name : string) :
  0 <= count_ ->
  (registered name m -> add_device count_ m name = m) /\
  (~ registered name m ->
   exists d,
     devicetbl (add_device count_ m name) = (devicetbl m ++ [d])%list /\
     numdevices (add_device count_ m name) = numdevices m + 1 /\
     devicename d = strncpy MAXDEVNAMELEN name /\
     dev_number d = 0 /\ dev_max d = 0%Q /\ dev_sum d = 0%Q /\ scale d = 0%Q /\
     Z.of_nat (length (valuetbl d)) = count_ /\
     Forall (fun v => v = 0%Q) (valuetbl d) /\
     metricname (add_device count_ m name) = metricname m /\
     met_number (add_device count_ m name) = met_number m /\
     met_max (add_device count_ m name) = met_max m /\
     met_sum (add_device count_ m name) = met_sum m) /\
  add_device count_ (add_device count_ m name) name = add_device count_ m name.
Proof.
  intros Hc.
  assert (Hreg : registered name m -> add_device count_ m name = m).
  { intros H. unfold add_device.
    apply newdeviceflag_spec in H. rewrite H. reflexivity. }
  split; [exact Hreg|]. split.
  - intros Hn. unfold add_device, numdevices.
    destruct (newdeviceflag name (devicetbl m) true) eqn:E.
    + eexists. split; [reflexivity|]. simpl.
      rewrite length_app, repeat_length. simpl.
      repeat split; try reflexivity; try lia.
      apply List.Forall_forall. intros v Hv. apply repeat_spec in Hv. exact Hv.
    + apply newdeviceflag_spec in E. contradiction.
  - destruct (newdeviceflag name (devicetbl m) true) eqn:E.
    + assert (Hr : registered name (add_device count_ m name)).
      { unfold add_device. rewrite E. eexists. split.
        - cbn [devicetbl]. apply in_or_app. right. left. reflexivity.
        - exact (strncpy_idempotent _ _). }
      unfold add_device at 1.
      apply newdeviceflag_spec in Hr. rewrite Hr. reflexivity.
    + unfold add_device. rewrite E. rewrite E. reflexivity.
Qed.

(** ** The end-of-stanza check of [read_array_stanza] *)

Lemma array_rows_no_well_formed_line (lines : list string) :
  forall (classptr : Class) (rowidx : Z) (st : State),
    no_well_formed_line (length (metrictbl classptr)) lines = true ->
    exists rowidx' st',
      array_rows lines classptr rowidx None st = Ok (classptr, rowidx', None, st').
Proof.
  induction lines as [|l lines IH]; intros classptr rowidx st H.
  - exists rowidx, st. reflexivity.
  - cbn [no_well_formed_line] in H. cbn [array_rows].
    destruct (parse_input_line l (MAXNUMMETRICS + 1)) as [argtbl| |]; try discriminate.
    cbn [bind].
    destruct (length argtbl =? length (metrictbl classptr) + 1)%nat; [discriminate|].
    destruct (length argtbl =? 0)%nat.
    + eexists _, _. reflexivity.
    + apply IH. exact H.
Qed.

(** C9.  When the data stanza of an array class has no well-formed line
    before the line that ends it (a line without token, or the end of the
    file), [metricptr] is still NULL at the row-count check after the loop,
    and [read_array_stanza] dereferences it. *)
Theorem read_array_stanza_null_metricptr (classptr : Class) (st : State) :
  no_well_formed_line (length (metrictbl classptr)) (rest (inputfile st)) = true ->
  read_array_stanza classptr st = Crash NullDeref.
Proof.
  intros H. unfold read_array_stanza.
  destruct (array_rows_no_well_formed_line _ classptr 0 st H) as (r & st' & E).
  rewrite E. reflexivity.
Qed.

(** ** [read_inputfile] never calls [exit], and its loop bound suffices *)

Create HintDb benign.

Lemma benign_Ok {A : Type} (a : A) : benign (Ok a).
Proof. split; [intros c d|]; discriminate. Qed.

Lemma benign_Crash {A : Type} (f : Fault) : f <> OutOfFuel -> benign (@Crash A f).
Proof. intros H. split; [intros c d; discriminate|congruence]. Qed.

Lemma benign_bind {A B : Type} (r : result A) (k : A -> result B) :
  benign r -> (forall a, benign (k a)) -> benign (bind r k).
Proof.
  intros [Hr1 Hr2] Hk. destruct r as [a|c' d'|f]; cbn [bind].
  - apply Hk.
  - exfalso. exact (Hr1 c' d' eq_refl).
  - split; [intros c d; discriminate|].
    intros E. apply Hr2. inversion E. reflexivity.
Qed.

#[local] Hint Resolve benign_Ok : benign.

(** Splits the matches and conditionals of a goal [benign _], and goes
    through [bind] with the lemmas of the hint database. *)
Ltac benign_step :=
  match goal with
  | |- benign (Ok _) => apply benign_Ok
  | |- benign (Crash _) => apply benign_Crash; discriminate
  | |- benign (bind _ _) => apply benign_bind; [|intros ?]
  | |- benign (let '(_, _) := ?x in _) => destruct x
  | |- benign (match ?x with _ => _ end) => destruct x
  | |- benign (if ?b then _ else _) => destruct b
  end.

Ltac benign_tac := repeat (try solve [eauto with benign]; benign_step).

Lemma parse_tokens_no_exit (f : nat) :
  forall s a n, no_exit (parse_tokens f s a n).
Proof.
  induction f as [|f IH]; intros s a n c d; cbn [parse_tokens]; [discriminate|].
  destruct s as [|x s]; [discriminate|].
  destruct (x =? COMMENTCHAR)%char; [discriminate|].
  destruct (a <? n)%nat; [|discriminate].
  destruct (if (x =? QUOTECHAR)%char then s else String x s) as [|c0 body];
    [discriminate|].
  destruct (scan_token _ body) as [tok r].
  specialize (IH (end_token r) (S a) n c d).
  destruct (parse_tokens f (end_token r) (S a) n); cbn [bind]; congruence.
Qed.

Lemma parse_input_line_benign (s : string) (n : nat) : benign (parse_input_line s n).
Proof.
  split; [apply parse_tokens_no_exit|].
  apply parse_tokens_no_fuel_fault. lia.
Qed.

Lemma skip_to_stanza_benign (stanza : string) (st : State) :
  benign (skip_to_stanza stanza false st).
Proof.
  unfold skip_to_stanza. destruct (skip_lines stanza (rest (inputfile st)) st) as [b st'].
  rewrite andb_false_r. apply benign_Ok.
Qed.

#[local] Hint Resolve parse_input_line_benign skip_to_stanza_benign : benign.

Lemma set_value_benign (i : Z) (v : Q) (tbl : list Q) : benign (set_value i v tbl).
Proof. unfold set_value. benign_tac. Qed.

Lemma get_value_benign (i : Z) (tbl : list Q) : benign (get_value i tbl).
Proof. unfold get_value. benign_tac. Qed.

#[local] Hint Resolve set_value_benign get_value_benign : benign.

Lemma vector_metric_benign rowidx s m : benign (vector_metric rowidx s m).
Proof. unfold vector_metric. benign_tac. Qed.

#[local] Hint Resolve vector_metric_benign : benign.

Lemma vector_metrics_benign rowidx argtbl (tbl : list Metric) :
  forall i, benign (vector_metrics rowidx argtbl i tbl).
Proof. induction tbl; intros i; cbn [vector_metrics]; benign_tac. Qed.

#[local] Hint Resolve vector_metrics_benign : benign.

Lemma vector_row_benign c rowidx argtbl : benign (vector_row c rowidx argtbl).
Proof. unfold vector_row. benign_tac. Qed.

#[local] Hint Resolve vector_row_benign : benign.

Lemma vector_rows_benign (lines : list string) :
  forall c rowidx st, benign (vector_rows lines c rowidx st).
Proof. induction lines; intros c rowidx st; cbn [vector_rows]; benign_tac. Qed.

#[local] Hint Resolve vector_rows_benign : benign.

Lemma read_vector_stanza_benign c st : benign (read_vector_stanza c st).
Proof. unfold read_vector_stanza. benign_tac. Qed.

Lemma array_metric_benign rowidx s m : benign (array_metric rowidx s m).
Proof. unfold array_metric. benign_tac. Qed.

#[local] Hint Resolve array_metric_benign : benign.

Lemma array_metrics_benign sr rowidx argtbl (tbl : list Metric) :
  forall i p, benign (array_metrics sr rowidx argtbl i tbl p).
Proof. induction tbl; intros i p; cbn [array_metrics]; benign_tac. Qed.

#[local] Hint Resolve array_metrics_benign : benign.

Lemma array_row_benign c rowidx argtbl p : benign (array_row c rowidx argtbl p).
Proof. unfold array_row. benign_tac. Qed.

#[local] Hint Resolve array_row_benign : benign.

Lemma array_rows_benign (lines : list string) :
  forall c rowidx p st, benign (array_rows lines c rowidx p st).
Proof. induction lines; intros c rowidx p st; cbn [array_rows]; benign_tac. Qed.

#[local] Hint Resolve array_rows_benign : benign.

Lemma read_array_stanza_benign c st : benign (read_array_stanza c st).
Proof. unfold read_array_stanza. benign_tac. Qed.

#[local] Hint Resolve read_vector_stanza_benign read_array_stanza_benign : benign.

Lemma read_classes_benign (classes : list Class) :
  forall st, benign (read_classes classes st).
Proof. induction classes; intros st; cbn [read_classes]; benign_tac. Qed.

Lemma emitted_devices_benign c m : benign (emitted_devices c m).
Proof. unfold emitted_devices. benign_tac. Qed.

#[local] Hint Resolve read_classes_benign emitted_devices_benign : benign.

Lemma body_devices_benign fs sr rowidx (tbl : list Device) :
  benign (body_devices fs sr rowidx tbl).
Proof. induction tbl; cbn [body_devices]; benign_tac. Qed.

#[local] Hint Resolve body_devices_benign : benign.

Lemma body_metrics_benign fs rowidx c (tbl : list Metric) :
  benign (body_metrics fs rowidx c tbl).
Proof. induction tbl; cbn [body_metrics]; benign_tac. Qed.

#[local] Hint Resolve body_metrics_benign : benign.

Lemma body_classes_benign fs rowidx (tbl : list Class) :
  benign (body_classes fs rowidx tbl).
Proof. induction tbl; cbn [body_classes]; benign_tac. Qed.

#[local] Hint Resolve body_classes_benign : benign.

Lemma singlefile_rows_benign (n : nat) :
  forall rowidx ts st, benign (singlefile_rows n rowidx ts st).
Proof. induction n; intros rowidx ts st; cbn [singlefile_rows]; benign_tac. Qed.

Lemma fprintf_device_benign l d : benign (fprintf_device l d).
Proof. unfold fprintf_device. benign_tac. Qed.

#[local] Hint Resolve singlefile_rows_benign fprintf_device_benign : benign.

Lemma multifile_device_benign fs sr rowidx ts d :
  benign (multifile_device fs sr rowidx ts d).
Proof. unfold multifile_device. benign_tac. Qed.

#[local] Hint Resolve multifile_device_benign : benign.

Lemma multifile_devices_benign fs sr rowidx ts (tbl : list Device) :
  benign (multifile_devices fs sr rowidx ts tbl).
Proof. induction tbl; cbn [multifile_devices]; benign_tac. Qed.

#[local] Hint Resolve multifile_devices_benign : benign.

Lemma multifile_metric_benign fs rowidx ts c m :
  benign (multifile_metric fs rowidx ts c m).
Proof. unfold multifile_metric. benign_tac. Qed.

#[local] Hint Resolve multifile_metric_benign : benign.

Lemma multifile_metrics_benign fs rowidx ts c (tbl : list Metric) :
  benign (multifile_metrics fs rowidx ts c tbl).
Proof. induction tbl; cbn [multifile_metrics]; benign_tac. Qed.

#[local] Hint Resolve multifile_metrics_benign : benign.

Lemma multifile_classes_benign fs rowidx ts (tbl : list Class) :
  benign (multifile_classes fs rowidx ts tbl).
Proof. induction tbl; cbn [multifile_classes]; benign_tac. Qed.

#[local] Hint Resolve multifile_classes_benign : benign.

Lemma multifile_rows_benign (n : nat) :
  forall rowidx ts st, benign (multifile_rows n rowidx ts st).
Proof. induction n; intros rowidx ts st; cbn [multifile_rows]; benign_tac. Qed.

#[local] Hint Resolve multifile_rows_benign : benign.

Lemma no_exit_bind {A B : Type} (r : result A) (k : A -> result B) :
  no_exit r -> (forall a, no_exit (k a)) -> no_exit (bind r k).
Proof.
  intros Hr Hk c d. destruct r as [a|c' d'|f]; cbn [bind].
  - apply Hk.
  - intros _. exact (Hr c' d' eq_refl).
  - discriminate.
Qed.

Lemma read_inputfile_loop_no_exit (fuel : nat) :
  forall opts ts st, no_exit (read_inputfile_loop fuel opts ts st).
Proof.
  induction fuel as [|fuel IH]; intros opts ts st; cbn [read_inputfile_loop];
    [intros c d; discriminate|].
  apply no_exit_bind; [apply skip_to_stanza_benign|intros s1].
  destruct (rest (inputfile s1)) as [|l lines]; [intros c d; discriminate|].
  apply no_exit_bind; [apply parse_input_line_benign|intros argtbl].
  apply no_exit_bind; [apply read_classes_benign|intros r].
  apply no_exit_bind; [|intros s3].
  { destruct (singlefilename opts); [apply singlefile_rows_benign|apply benign_Ok]. }
  apply no_exit_bind; [|intros s4; apply IH].
  destruct (multifiledirname opts); [apply multifile_rows_benign|apply benign_Ok].
Qed.

Lemma read_inputfile_no_exit (opts : Options) (st : State) :
  no_exit (read_inputfile opts st).
Proof. apply read_inputfile_loop_no_exit. Qed.

(** ** The DATE block of the first input file *)

Lemma timestamp_loop_end (tail_ : list string) (n : Z) (st : State) :
  tail_ = [] \/ (exists l t, tail_ = l :: t /\ blank_line l) ->
  exists st', timestamp_loop tail_ n st = Ok (n, st') /\
              firsttimestamp st' = firsttimestamp st.
Proof.
  intros [->|(l & t & -> & Hl)].
  - exists st. split; reflexivity.
  - cbn [timestamp_loop]. unfold blank_line in Hl. rewrite Hl. cbn.
    eexists. split; reflexivity.
Qed.

Lemma timestamp_loop_block (block : list string) :
  forall (tail_ : list string) (n : Z) (st : State),
    Forall (fun l => exists tok, timestamp_line l tok) block ->
    tail_ = [] \/ (exists l t, tail_ = l :: t /\ blank_line l) ->
    exists st',
      timestamp_loop (block ++ tail_) n st = Ok (n + Z.of_nat (length block), st').
Proof.
  induction block as [|l block IH]; intros tail_ n st Hb Ht.
  - destruct (timestamp_loop_end tail_ n st Ht) as (st' & E & _).
    exists st'. cbn [app length]. rewrite E. f_equal. f_equal. lia.
  - apply Forall_cons in Hb as [(tok & Hl) Hb].
    cbn [app timestamp_loop]. unfold timestamp_line in Hl. rewrite Hl. cbn [bind].
    change (length [tok] =? NUMDATEARGS)%nat with true. cbv iota.
    destruct (IH tail_ (n + 1)
                (set_firsttimestamp (atol (arg [tok] TIMESTAMPIDX))
                   (next_line (block ++ tail_) st)) Hb Ht) as (st' & E).
    exists st'. rewrite E. f_equal. f_equal. cbn [length]. lia.
Qed.

(** C6 (amended).  For the first input file of a run, [initialize_timestamp]
    requires exactly one time stamp line in the first DATE block: when the
    lines between the DATE marker and the line that ends the block (a line
    without token, or the end of the file) are [block], the run goes on
    with the time stamp of the line if [block] is one line, and aborts with
    exit code 1 if [block] has no line or more than one.  The DATE blocks
    that [read_inputfile] reads afterwards, in this file and in every other
    one, are not checked: [read_inputfile] never exits. *)
Theorem initialize_timestamp_exactly_one
  (st st1 : State) (block tail_ : list string) :
  skip_to_stanza DATESTR true st = Ok st1 ->
  rest (inputfile st1) = (block ++ tail_)%list ->
  Forall (fun l => exists tok, timestamp_line l tok) block ->
  tail_ = [] \/ (exists l t, tail_ = l :: t /\ blank_line l) ->
  (forall l tok, block = [l] -> timestamp_line l tok ->
     exists st2, initialize_timestamp st = Ok st2 /\ firsttimestamp st2 = atol tok) /\
  (length block <> 1%nat ->
     exists ctr,
       initialize_timestamp st =
       Exit 1 (FirstTimestampCount (Z.of_nat (length block)) ctr)) /\
  (forall opts st0, no_exit (read_inputfile opts st0)).
Proof.
  intros Hs Hr Hb Ht. split; [|split; [|exact read_inputfile_no_exit]].
  - intros l tok -> Hl. unfold initialize_timestamp. rewrite Hs. cbn [bind].
    rewrite Hr. cbn [app timestamp_loop].
    unfold timestamp_line in Hl. rewrite Hl. cbn [bind].
    change (length [tok] =? NUMDATEARGS)%nat with true. cbv iota.
    destruct (timestamp_loop_end tail_ (0 + 1)
                (set_firsttimestamp (atol (arg [tok] TIMESTAMPIDX))
                   (next_line ([] ++ tail_) st1)) Ht) as (st' & E & Hf).
    cbn [app] in E. rewrite E. cbn [bind]. cbn.
    exists st'. split; [reflexivity|]. rewrite Hf. reflexivity.
  - intros Hn. unfold initialize_timestamp. rewrite Hs. cbn [bind]. rewrite Hr.
    destruct (timestamp_loop_block block tail_ 0 st1 Hb Ht) as (st' & E).
    rewrite E. cbn [bind].
    destruct (0 + Z.of_nat (length block) =? 1) eqn:E1.
    + apply Z.eqb_eq in E1. lia.
    + cbn. eexists. reflexivity.
Qed.

(** ** Duplicate metric names *)

Lemma lookup_map {A B : Type} (f : A -> B) (l : list A) (i : nat) :
  map f l !! i = option_map f (l !! i).
Proof.
  revert i. induction l as [|x l IH]; intros [|i]; simpl; auto.
Qed.

Lemma metrics_from_lookup (tbl : list Metric) :
  forall (c k m : nat) (met : Metric),
    tbl !! m = Some met -> In (c, (k + m)%nat, met) (metrics_from c k tbl).
Proof.
  induction tbl as [|x tbl IH]; intros c k [|m] met H; simpl in H; try discriminate.
  - inversion H; subst. left. f_equal. f_equal. lia.
  - right. replace (k + S m)%nat with (S k + m)%nat by lia. apply IH. exact H.
Qed.

Lemma classes_from_lookup (tbl : list Class) :
  forall (k c m : nat) (cls : Class) (met : Metric),
    tbl !! c = Some cls -> metrictbl cls !! m = Some met ->
    In ((k + c)%nat, m, met) (classes_from k tbl).
Proof.
  induction tbl as [|x tbl IH]; intros k [|c] m cls met H1 H2; simpl in H1;
    try discriminate; cbn [classes_from]; apply in_or_app.
  - inversion H1; subst. left. rewrite Nat.add_0_r.
    exact (metrics_from_lookup _ k 0%nat m met H2).
  - right. replace (k + S c)%nat with (S k + c)%nat by lia. eapply IH; eauto.
Qed.

Lemma metric_names_lookup (tbl : list Class) (c m : nat) (n : list string) (name : string) :
  metric_names tbl !! c = Some n -> n !! m = Some name ->
  exists cls met, tbl !! c = Some cls /\ metrictbl cls !! m = Some met /\
                  metricname met = name.
Proof.
  unfold metric_names. rewrite lookup_map.
  destruct (tbl !! c) as [cls|] eqn:E1; cbn [option_map]; [|discriminate].
  intros H; inversion H; subst; clear H.
  rewrite lookup_map. destruct (metrictbl cls !! m) as [met|] eqn:E2; cbn [option_map];
    [|discriminate].
  intros H; inversion H; subst. exists cls, met. repeat split; auto.
Qed.

Lemma check_metric_names_duplicate (st : State) :
  has_duplicate_names (classtbl st) ->
  exists name, check_metric_names st = Exit 1 (DuplicateMetric name).
Proof.
  intros (c1 & m1 & c2 & m2 & n1 & n2 & name & H1 & H2 & H3 & H4 & Hne).
  destruct (metric_names_lookup _ _ _ _ _ H1 H2) as (cls1 & met1 & L1 & L2 & E1).
  destruct (metric_names_lookup _ _ _ _ _ H3 H4) as (cls2 & met2 & L3 & L4 & E2).
  pose proof (classes_from_lookup _ 0%nat _ _ _ _ L1 L2) as I1.
  pose proof (classes_from_lookup _ 0%nat _ _ _ _ L3 L4) as I2.
  cbn [Nat.add] in I1, I2.
  unfold check_metric_names.
  destruct (List.find _ (classes_from 0 (classtbl st))) as [[[c m] met]|] eqn:F.
  - eexists. reflexivity.
  - exfalso.
    pose proof (List.find_none _ _ F _ I1) as N. cbv beta in N.
    assert (T : existsb (duplicates (c1, m1, met1)) (classes_from 0 (classtbl st)) = true).
    { apply existsb_exists. exists (c2, m2, met2). split; [exact I2|].
      cbn [duplicates]. rewrite E1, E2, String.eqb_refl, andb_true_r.
      destruct Hne as [Hne|Hne]; apply Nat.eqb_neq in Hne; rewrite Hne; cbn;
        [reflexivity|apply orb_true_r]. }
    congruence.
Qed.

(** The steps between the METADATA block and the check leave the metric
    names as they were declared. *)
Lemma skip_lines_classtbl (stanza : string) (lines : list string) :
  forall st, classtbl (snd (skip_lines stanza lines st)) = classtbl st.
Proof.
  induction lines as [|l lines IH]; intros st; cbn [skip_lines]; [reflexivity|].
  destruct (String.eqb (chop l) stanza); [reflexivity|]. rewrite IH. reflexivity.
Qed.

Lemma skip_to_stanza_classtbl (stanza : string) (flag : bool) (st st' : State) :
  skip_to_stanza stanza flag st = Ok st' -> classtbl st' = classtbl st.
Proof.
  unfold skip_to_stanza. pose proof (skip_lines_classtbl stanza (rest (inputfile st)) st) as H.
  destruct (skip_lines stanza (rest (inputfile st)) st) as [b st1].
  destruct (negb b && flag); [discriminate|]. intros E; inversion E; subst. exact H.
Qed.

Lemma timestamp_loop_classtbl (lines : list string) :
  forall n st n' st',
    timestamp_loop lines n st = Ok (n', st') -> classtbl st' = classtbl st.
Proof.
  induction lines as [|l lines IH]; intros n st n' st' H; cbn [timestamp_loop] in H.
  - inversion H; reflexivity.
  - destruct (parse_input_line l NUMDATEARGS) as [argtbl| |]; try discriminate.
    cbn [bind] in H.
    destruct (length argtbl =? NUMDATEARGS)%nat.
    + apply IH in H. exact H.
    + destruct (length argtbl =? 0)%nat.
      * inversion H; reflexivity.
      * apply IH in H. exact H.
Qed.

Lemma initialize_timestamp_classtbl (st st' : State) :
  initialize_timestamp st = Ok st' -> classtbl st' = classtbl st.
Proof.
  unfold initialize_timestamp.
  destruct (skip_to_stanza DATESTR true st) as [st1| |] eqn:E; try discriminate.
  cbn [bind]. apply skip_to_stanza_classtbl in E.
  destruct (timestamp_loop (rest (inputfile st1)) 0 st1) as [[n st2]| |] eqn:E2;
    try discriminate.
  cbn [bind]. apply timestamp_loop_classtbl in E2.
  destruct (negb (n =? 1)); [discriminate|]. intros H; inversion H; subst. congruence.
Qed.

Lemma add_device_metricname count_ m name :
  metricname (add_device count_ m name) = metricname m.
Proof. unfold add_device. destruct (newdeviceflag _ _ _); reflexivity. Qed.

Lemma add_class_device_names count_ c name :
  map metricname (metrictbl (add_class_device count_ c name)) = map metricname (metrictbl c).
Proof.
  unfold add_class_device. cbn [metrictbl set_metrictbl].
  induction (metrictbl c) as [|m tbl IH]; [reflexivity|].
  cbn [map]. rewrite add_device_metricname, IH. reflexivity.
Qed.

Lemma add_class_device_length count_ c name :
  length (metrictbl (add_class_device count_ c name)) = length (metrictbl c).
Proof. unfold add_class_device. cbn [metrictbl set_metrictbl]. apply length_map. Qed.

Lemma array_devices_loop_names (lines : list string) :
  forall c st c' st',
    array_devices_loop lines c st = Ok (c', st') ->
    map metricname (metrictbl c') = map metricname (metrictbl c).
Proof.
  induction lines as [|l lines IH]; intros c st c' st' H; cbn [array_devices_loop] in H.
  - inversion H; reflexivity.
  - destruct (parse_input_line l (MAXNUMMETRICS + 1)) as [argtbl| |]; try discriminate.
    cbn [bind] in H.
    destruct (length argtbl =? length (metrictbl c) + 1)%nat.
    + apply IH in H. rewrite H. apply add_class_device_names.
    + destruct (length argtbl =? 0)%nat; [inversion H; reflexivity|discriminate].
Qed.

Lemma vector_devices_names c st c' st' :
  vector_devices c st = Ok (c', st') ->
  map metricname (metrictbl c') = map metricname (metrictbl c).
Proof.
  unfold vector_devices. destruct (rest (inputfile st)) as [|l lines].
  - intros H; inversion H; reflexivity.
  - destruct (parse_input_line l MAXNUMMETRICS) as [argtbl| |]; try discriminate.
    cbn [bind]. destruct (length argtbl =? length (metrictbl c))%nat; [|discriminate].
    intros H; inversion H; subst. apply add_class_device_names.
Qed.

Lemma classes_loop_names (classes : list Class) :
  forall st classes' st',
    classes_loop classes st = Ok (classes', st') ->
    metric_names classes' = metric_names classes.
Proof.
  induction classes as [|c classes IH]; intros st classes' st' H; cbn [classes_loop] in H.
  - inversion H; reflexivity.
  - destruct (skip_to_stanza (datastanza c) true st) as [st1| |]; try discriminate.
    cbn [bind] in H.
    destruct (if (classtype c =? VECTORCLASS)%char then vector_devices c st1
              else array_devices_loop (rest (inputfile st1)) c st1)
      as [[c1 st2]| |] eqn:E; try discriminate.
    cbn [bind] in H.
    destruct (classes_loop classes st2) as [[cs st3]| |] eqn:E2; try discriminate.
    cbn [bind] in H. inversion H; subst.
    unfold metric_names. cbn [map]. f_equal.
    + destruct (classtype c =? VECTORCLASS)%char;
        [eapply vector_devices_names|eapply array_devices_loop_names]; eauto.
    + eapply IH; eauto.
Qed.

Lemma initialize_classes_names (st st' : State) :
  initialize_classes st = Ok st' ->
  metric_names (classtbl st') = metric_names (classtbl st).
Proof.
  unfold initialize_classes.
  destruct (classes_loop (classtbl st) st) as [[cs st1]| |] eqn:E; try discriminate.
  cbn [bind]. intros H; inversion H; subst.
  apply classes_loop_names in E. rewrite <- E.
  unfold rewind. destruct (is_stdin _); reflexivity.
Qed.

Lemma config_metric_name vector name sep q m r :
  config_metric vector name sep q m = Ok r -> metricname (fst r) = metricname m.
Proof.
  unfold config_metric. destruct vector.
  - destruct (String.eqb name (metricname m)).
    + destruct (devicetbl m); [discriminate|]. intros H; inversion H; reflexivity.
    + intros H; inversion H; reflexivity.
  - destruct (String.eqb name (metricname m)).
    + intros H; inversion H; reflexivity.
    + destruct (scale_named_device name sep q m (devicetbl m)).
      intros H; inversion H; reflexivity.
Qed.

Lemma config_metrics_names vector name sep q (tbl : list Metric) :
  forall r, config_metrics vector name sep q tbl = Ok r ->
            map metricname (fst r) = map metricname tbl.
Proof.
  induction tbl as [|m tbl IH]; intros r H; cbn [config_metrics] in H.
  - inversion H; reflexivity.
  - destruct (config_metric vector name sep q m) as [r1| |] eqn:E1; try discriminate.
    cbn [bind] in H.
    destruct (config_metrics vector name sep q tbl) as [r2| |] eqn:E2; try discriminate.
    cbn [bind] in H. inversion H; subst. cbn [fst map].
    rewrite (config_metric_name _ _ _ _ _ _ E1), (IH _ eq_refl). reflexivity.
Qed.

Lemma config_classes_names name sep q (tbl : list Class) :
  forall r, config_classes name sep q tbl = Ok r ->
            metric_names (fst r) = metric_names tbl.
Proof.
  induction tbl as [|c tbl IH]; intros r H; cbn [config_classes] in H.
  - inversion H; reflexivity.
  - destruct (config_metrics _ name sep q (metrictbl c)) as [r1| |] eqn:E1;
      try discriminate.
    cbn [bind] in H.
    destruct (config_classes name sep q tbl) as [r2| |] eqn:E2; try discriminate.
    cbn [bind] in H. inversion H; subst. unfold metric_names. cbn [fst map].
    cbn [metrictbl set_metrictbl].
    rewrite (config_metrics_names _ _ _ _ _ _ E1).
    f_equal. exact (IH _ eq_refl).
Qed.

Lemma configfile_loop_names (lines : list string) :
  forall st st', configfile_loop lines st = Ok st' ->
                 metric_names (classtbl st') = metric_names (classtbl st).
Proof.
  induction lines as [|l lines IH]; intros st st' H; cbn [configfile_loop] in H.
  - inversion H; reflexivity.
  - destruct (parse_input_line l 2) as [argtbl| |]; try discriminate.
    cbn [bind] in H.
    destruct (length argtbl =? 2)%nat.
    + destruct (config_classes _ _ _ (classtbl st)) as [r| |] eqn:E; try discriminate.
      cbn [bind] in H.
      destruct (config_params _ _ (paramtbl st)) as [params legal].
      apply IH in H. rewrite H. apply config_classes_names in E.
      destruct (snd r || legal); exact E.
    + destruct (negb (length argtbl =? 0)%nat); apply IH in H; exact H.
Qed.

Lemma discover_names (opts : Options) (st sc st1 : State) :
  schema st = Ok sc -> discover opts st = Ok st1 ->
  metric_names (classtbl st1) = metric_names (classtbl sc).
Proof.
  intros Hs. unfold discover. rewrite Hs. cbn [bind].
  destruct (initialize_timestamp sc) as [s1| |] eqn:E1; try discriminate. cbn [bind].
  destruct (initialize_classes s1) as [s2| |] eqn:E2; try discriminate. cbn [bind].
  apply initialize_timestamp_classtbl in E1. apply initialize_classes_names in E2.
  rewrite E1 in E2.
  destruct (configfilename opts) as [[s|]|].
  - unfold read_configfile. intros H. apply configfile_loop_names in H. congruence.
  - discriminate.
  - intros H; inversion H; subst. exact E2.
Qed.


(** ** The reshape of an array stanza *)

Lemma lookup_In {A : Type} (l : list A) (i : nat) (x : A) : l !! i = Some x -> In x l.
Proof.
  revert i. induction l as [|y l IH]; intros [|i] H; simpl in H; try discriminate.
  - inversion H. left. reflexivity.
  - right. eapply IH. exact H.
Qed.

Lemma set_value_ok (i : Z) (v : Q) (tbl : list Q) :
  0 <= i < Z.of_nat (length tbl) ->
  set_value i v tbl = Ok (<[Z.to_nat i := v]> tbl).
Proof.
  intros [H1 H2]. unfold set_value.
  apply Z.leb_le in H1. apply Z.ltb_lt in H2. rewrite H1, H2. reflexivity.
Qed.

Lemma array_metric_spec (rowidx : Z) (s : string) (m : Metric) :
  0 <= rowidx -> 0 < numdevices m ->
  (forall d, In d (devicetbl m) ->
     rowidx / numdevices m < Z.of_nat (length (valuetbl d))) ->
  exists m' d,
    array_metric rowidx s m = Ok m' /\
    metricname m' = metricname m /\
    numdevices m' = numdevices m /\
    devicetbl m' !! Z.to_nat (rowidx mod numdevices m) = Some d /\
    valuetbl d !! Z.to_nat (rowidx / numdevices m) = Some (atof s) /\
    (forall k, k <> Z.to_nat (rowidx mod numdevices m) ->
       devicetbl m' !! k = devicetbl m !! k).
Proof.
  intros Hr Hn Hb. unfold array_metric.
  rewrite Z.rem_mod_nonneg, Z.quot_div_nonneg by lia.
  pose proof (Z.mod_pos_bound rowidx (numdevices m) Hn) as Hm.
  pose proof (Z.div_pos rowidx (numdevices m) Hr Hn) as Hd.
  destruct (0 <=? rowidx mod numdevices m) eqn:E; [|apply Z.leb_gt in E; lia].
  destruct (devicetbl m !! Z.to_nat (rowidx mod numdevices m)) as [d|] eqn:L.
  - pose proof (Hb d (lookup_In _ _ _ L)) as Hlen.
    rewrite set_value_ok by (clear -Hd Hlen; revert Hd Hlen; generalize (rowidx / numdevices m); intros; lia).
    cbn [bind].
    eexists _, _. split; [reflexivity|]. cbn [metricname devicetbl].
    assert (Hk : (Z.to_nat (rowidx mod numdevices m) < length (devicetbl m))%nat).
    { apply lookup_lt_Some in L. exact L. }
    repeat split.
    + unfold numdevices. cbn [devicetbl]. rewrite length_insert. reflexivity.
    + apply list_lookup_insert_eq. exact Hk.
    + cbn [valuetbl]. apply list_lookup_insert_eq.
      clear -Hd Hlen. revert Hd Hlen. generalize (rowidx / numdevices m). intros; lia.
    + intros k Hne. apply list_lookup_insert_ne. auto.
  - apply lookup_ge_None in L. clear -L Hm. revert L Hm.
    generalize (rowidx mod numdevices m). unfold numdevices. intros; lia.
Qed.

(** The loop over the metrics: the metrics up to the first one whose sample
    row is before the start row are updated by [array_metric], that one and
    the ones after it are left as they are. *)
Lemma array_metrics_spec (sr rowidx : Z) (argtbl : list string) (tbl : list Metric) :
  forall (k : nat) (p : option nat),
    0 <= rowidx ->
    (forall m, In m tbl -> 0 < numdevices m /\
       forall d, In d (devicetbl m) ->
         rowidx / numdevices m < Z.of_nat (length (valuetbl d))) ->
    exists tbl' p',
      array_metrics sr rowidx argtbl k tbl p = Ok (tbl', p') /\
      length tbl' = length tbl /\
      forall j m, tbl !! j = Some m ->
        ((forall i mi, (i <= j)%nat -> tbl !! i = Some mi ->
            sr <= rowidx / numdevices mi) ->
         exists m', tbl' !! j = Some m' /\
                    array_metric rowidx (arg argtbl (k + j + 1)) m = Ok m') /\
        ((exists i mi, (i <= j)%nat /\ tbl !! i = Some mi /\
            rowidx / numdevices mi < sr) ->
         tbl' !! j = Some m).
Proof.
  induction tbl as [|m0 tbl IH]; intros k p Hr Hb.
  - exists [], p. split; [reflexivity|]. split; [reflexivity|].
    intros j m H. destruct j; discriminate.
  - cbn [array_metrics].
    destruct (Hb m0 (or_introl eq_refl)) as [Hn0 Hb0].
    destruct (numdevices m0 =? 0) eqn:E0; [apply Z.eqb_eq in E0; lia|].
    rewrite Z.quot_div_nonneg by lia.
    destruct (rowidx / numdevices m0 >=? sr) eqn:Ege.
    + destruct (array_metric_spec rowidx (arg argtbl (k + 1)) m0 Hr Hn0 Hb0)
        as (m0' & d & Em & _).
      rewrite Em. cbn [bind].
      destruct (IH (S k) (Some k) Hr (fun m Hm => Hb m (or_intror Hm)))
        as (tbl' & p' & Et & Hl & Hspec).
      rewrite Et. cbn [bind fst snd].
      eexists _, _. split; [reflexivity|]. split; [simpl; lia|].
      intros [|j] m Hj; simpl in Hj.
      * inversion Hj; subst. split.
        -- intros _. exists m0'. split; [reflexivity|].
           replace (k + 0 + 1)%nat with (k + 1)%nat by lia. exact Em.
        -- intros (i & mi & Hi & Hmi & Hlt).
           assert (i = 0%nat) by lia. subst i. simpl in Hmi. inversion Hmi; subst.
           apply Z.geb_le in Ege. lia.
      * destruct (Hspec j m Hj) as [H1 H2]. split.
        -- intros Hall.
           destruct H1 as (m' & L' & Em').
           { intros i mi Hi Hmi. apply (Hall (S i) mi); [lia|exact Hmi]. }
           exists m'. split; [exact L'|].
           replace (k + S j + 1)%nat with (S k + j + 1)%nat by lia. exact Em'.
        -- intros (i & mi & Hi & Hmi & Hlt).
           destruct i as [|i].
           ++ simpl in Hmi. inversion Hmi; subst. apply Z.geb_le in Ege. lia.
           ++ simpl. apply H2. exists i, mi. split; [lia|]. split; assumption.
    + exists (m0 :: tbl), (Some k). split; [reflexivity|]. split; [reflexivity|].
      assert (Hlt : rowidx / numdevices m0 < sr).
      { destruct (Z.geb_spec (rowidx / numdevices m0) sr); [discriminate|lia]. }
      intros j m Hj. split.
      * intros Hall. specialize (Hall 0%nat m0 ltac:(lia) eq_refl). lia.
      * intros _. exact Hj.
Qed.


Lemma next_line_agree (lines : list string) (st st' : State) :
  agree_but_rest st st' -> next_line lines st = next_line lines st'.
Proof.
  unfold agree_but_rest, next_line, set_rest, set_inputlinectr.
  destruct st as [[c r s] ? ? ? ? ? ? ? ? ?], st' as [[c' r' s'] ? ? ? ? ? ? ? ? ?].
  cbn. intros H. inversion H; subst. reflexivity.
Qed.

Lemma agree_next_line (l1 l2 : list string) (st st' : State) :
  agree_but_rest st st' -> agree_but_rest (next_line l1 st) (next_line l2 st').
Proof.
  unfold agree_but_rest, next_line, set_rest, set_inputlinectr.
  destruct st as [[c r s] ? ? ? ? ? ? ? ? ?], st' as [[c' r' s'] ? ? ? ? ? ? ? ? ?].
  cbn. intros H. inversion H; subst. reflexivity.
Qed.

Lemma agree_log (d d' : Diag) (st st' : State) :
  d = d' -> agree_but_rest st st' -> agree_but_rest (log d st) (log d' st').
Proof.
  unfold agree_but_rest, log, set_rest.
  destruct st as [[c r s] ? ? ? ? ? ? ? ? ?], st' as [[c' r' s'] ? ? ? ? ? ? ? ? ?].
  cbn. intros -> H. inversion H; subst. reflexivity.
Qed.

Lemma agree_inputlinectr (st st' : State) :
  agree_but_rest st st' -> inputlinectr st = inputlinectr st'.
Proof.
  unfold agree_but_rest, set_rest. intros H.
  apply (f_equal inputlinectr) in H. exact H.
Qed.

Lemma agree_refl (st : State) : agree_but_rest st st.
Proof. reflexivity. Qed.

(** The lines before line [l] of the stanza are read first, then the loop
    goes on with [l]. *)
Lemma array_rows_app (l : string) (post pre : list string) :
  Forall (has_token (MAXNUMMETRICS + 1)) pre ->
  forall c r p st st',
    agree_but_rest st st' ->
    array_rows (pre ++ l :: post) c r p st =
    bind (array_rows pre c r p st')
      (fun y => let '(c1, r1, p1, st1) := y in array_rows (l :: post) c1 r1 p1 st1).
Proof.
  induction pre as [|a pre IH]; intros Hpre c r p st st' Hag.
  - cbn [app array_rows bind]. rewrite (next_line_agree post st st' Hag). reflexivity.
  - apply Forall_cons in Hpre as [(tok & args & Ha) Hpre].
    cbn [app array_rows]. rewrite Ha. cbn [bind].
    destruct (length (tok :: args) =? length (metrictbl c) + 1)%nat.
    + destruct (array_row c r (tok :: args) p) as [[c' p']| |]; cbn [bind fst snd];
        try reflexivity.
      apply IH; auto. apply agree_next_line. exact Hag.
    + cbn [length Nat.eqb].
      rewrite (agree_inputlinectr _ _ (agree_next_line (pre ++ l :: post) pre _ _ Hag)).
      apply IH; auto. apply agree_log; [reflexivity|]. apply agree_next_line. exact Hag.
Qed.

Lemma array_rows_rowidx (pre : list string) :
  Forall (has_token (MAXNUMMETRICS + 1)) pre ->
  forall c r p st c1 r1 p1 st1,
    array_rows pre c r p st = Ok (c1, r1, p1, st1) ->
    r1 = r + Z.of_nat (length pre).
Proof.
  induction pre as [|a pre IH]; intros Hpre c r p st c1 r1 p1 st1 H.
  - cbn in H. inversion H; subst. cbn. lia.
  - apply Forall_cons in Hpre as [(tok & args & Ha) Hpre].
    cbn [array_rows] in H. rewrite Ha in H. cbn [bind] in H.
    destruct (length (tok :: args) =? length (metrictbl c) + 1)%nat.
    + destruct (array_row c r (tok :: args) p) as [[c' p']| |]; cbn [bind fst snd] in H;
        try discriminate.
      apply IH in H; auto. cbn [length]. lia.
    + cbn [length Nat.eqb] in H. apply IH in H; auto. cbn [length]. lia.
Qed.

(** C1.  In the data stanza of an array class, a well-formed line (one that
    tokenizes into [nummetrics + 1] fields) at physical row index [r],
    counted from 0 over the lines of the stanza, is processed with
    [rowidx = r]; for every metric of the class, in order, its value goes to
    the device in slot [r mod numdevices] of the device table of that metric
    and is stored in the buffer of that device at index [r / numdevices],
    with the device count of that metric; as soon as one metric has
    [r / numdevices] before the start row, that metric and the metrics after
    it are left as they were.  (The row must fall inside the buffers:
    [row_in_buffers].) *)
Theorem array_line_mapping
  (classptr c1 : Class) (st st1 : State) (pre post : list string) (l : string)
  (argtbl : list string) (r1 : Z) (p1 : option nat) :
  let r := Z.of_nat (length pre) in
  Forall (has_token (MAXNUMMETRICS + 1)) pre ->
  array_rows pre classptr 0 None st = Ok (c1, r1, p1, st1) ->
  parse_input_line l (MAXNUMMETRICS + 1) = Ok argtbl ->
  length argtbl = S (length (metrictbl c1)) ->
  row_in_buffers c1 r ->
  r1 = r /\
  exists c2 p2,
    array_row c1 r argtbl p1 = Ok (c2, p2) /\
    array_rows (pre ++ l :: post) classptr 0 None st =
      array_rows post c2 (r + 1) p2 (next_line post st1) /\
    length (metrictbl c2) = length (metrictbl c1) /\
    forall j m, metrictbl c1 !! j = Some m ->
      ((forall i mi, (i <= j)%nat -> metrictbl c1 !! i = Some mi ->
          startrow c1 <= r / numdevices mi) ->
       exists m' d,
         metrictbl c2 !! j = Some m' /\
         numdevices m' = numdevices m /\
         devicetbl m' !! Z.to_nat (r mod numdevices m) = Some d /\
         valuetbl d !! Z.to_nat (r / numdevices m) = Some (atof (arg argtbl (j + 1))) /\
         (forall k, k <> Z.to_nat (r mod numdevices m) ->
            devicetbl m' !! k = devicetbl m !! k)) /\
      ((exists i mi, (i <= j)%nat /\ metrictbl c1 !! i = Some mi /\
          r / numdevices mi < startrow c1) ->
       metrictbl c2 !! j = Some m).
Proof.
  intros r Hpre Hrows Hl Hlen Hbuf.
  pose proof (array_rows_rowidx pre Hpre _ _ _ _ _ _ _ _ Hrows) as Hr1.
  rewrite Z.add_0_l in Hr1. subst r1. fold r in Hrows. split; [reflexivity|].
  assert (Hr0 : 0 <= r) by (unfold r; lia).
  destruct (array_metrics_spec (startrow c1) r argtbl (metrictbl c1) 0 p1 Hr0 Hbuf)
    as (tbl' & p' & Em & Hlen' & Hspec).
  exists (set_metrictbl tbl' c1), p'.
  assert (Erow : array_row c1 r argtbl p1 = Ok (set_metrictbl tbl' c1, p')).
  { unfold array_row. rewrite Em. reflexivity. }
  split; [exact Erow|]. split.
  - rewrite (array_rows_app l post pre Hpre classptr 0 None st st (agree_refl st)).
    rewrite Hrows. cbn [bind array_rows]. rewrite Hl. cbn [bind].
    rewrite Hlen. replace (S (length (metrictbl c1)) =? length (metrictbl c1) + 1)%nat
      with true by (symmetry; apply Nat.eqb_eq; lia).
    rewrite Erow. reflexivity.
  - split; [exact Hlen'|].
    intros j m Hj. destruct (Hspec j m Hj) as [H1 H2]. split.
    + intros Hall. destruct (H1 Hall) as (m' & L' & Em').
      assert (Hin : In m (metrictbl c1)) by (eapply lookup_In; eauto).
      destruct (Hbuf m Hin) as [Hn Hb].
      destruct (array_metric_spec r (arg argtbl (0 + j + 1)) m Hr0 Hn Hb)
        as (m'' & d & Em'' & _ & Hnd & Hd & Hv & Hothers).
      rewrite Em' in Em''. inversion Em''; subst m''.
      exists m', d. repeat split; auto.
    + exact H2.
Qed.

(** ** The emitters and the scale factors *)


Lemma emitted_devices_ok (c : Class) (m : Metric) :
  ((classtype c =? VECTORCLASS)%char = true -> devicetbl m <> []) ->
  emitted_devices c m = Ok (emitted c m).
Proof.
  unfold emitted_devices, emitted. destruct (classtype c =? VECTORCLASS)%char.
  - intros H. destruct (devicetbl m); [exfalso; apply H; reflexivity|reflexivity].
  - reflexivity.
Qed.

Lemma header_devices_spec (sep : string) (c : Class) (m : Metric) (ds : list Device) :
  header_devices sep c m ds =
  map ser_name
    (List.filter ser_active (map (fun d => (startrow c, series_name sep c m d, d)) ds)).
Proof.
  induction ds as [|d ds IH]; [reflexivity|].
  cbn [header_devices map List.filter]. unfold ser_active at 1. cbn [snd].
  destruct (active d); cbn [map]; rewrite IH; reflexivity.
Qed.

Lemma header_metrics_spec (sep : string) (c : Class) (tbl : list Metric) :
  (forall m, In m tbl -> (classtype c =? VECTORCLASS)%char = true -> devicetbl m <> []) ->
  header_metrics sep c tbl =
  Ok (map ser_name (List.filter ser_active (flat_map (metric_series sep c) tbl))).
Proof.
  induction tbl as [|m tbl IH]; intros H; [reflexivity|].
  cbn [header_metrics flat_map].
  rewrite emitted_devices_ok by (apply H; left; reflexivity). cbn [bind].
  rewrite IH by (intros m' Hm'; apply H; right; exact Hm'). cbn [bind].
  rewrite header_devices_spec, List.filter_app, List.map_app. reflexivity.
Qed.

Lemma header_classes_spec (sep : string) (tbl : list Class) :
  vector_has_device tbl ->
  header_classes sep tbl = Ok (map ser_name (List.filter ser_active (series sep tbl))).
Proof.
  unfold series. induction tbl as [|c tbl IH]; intros H; [reflexivity|].
  cbn [header_classes flat_map].
  rewrite header_metrics_spec by (intros m Hm; apply (H c m); [left; reflexivity|exact Hm]).
  cbn [bind].
  rewrite IH by (intros c' m Hc'; apply (H c' m); right; exact Hc'). cbn [bind].
  unfold class_series at 2. rewrite List.filter_app, List.map_app. reflexivity.
Qed.

Lemma get_value_ok (i : Z) (tbl : list Q) :
  0 <= i < Z.of_nat (length tbl) -> get_value i tbl = Ok (nth (Z.to_nat i) tbl 0%Q).
Proof.
  intros [H1 H2]. unfold get_value. apply Z.leb_le in H1 as H1'. rewrite H1'.
  destruct (tbl !! Z.to_nat i) as [v|] eqn:E.
  - f_equal. symmetry. apply nth_lookup_Some with (d := 0%Q) in E. exact E.
  - apply lookup_ge_None in E. lia.
Qed.

Lemma body_devices_spec (fs : Q) (sr rowidx : Z) (name : Device -> string)
  (ds : list Device) :
  (forall d, In d ds -> active d = true -> sr <= rowidx ->
     0 <= rowidx < Z.of_nat (length (valuetbl d))) ->
  body_devices fs sr rowidx ds =
  Ok (map (wide_field fs rowidx)
        (List.filter ser_active (map (fun d => (sr, name d, d)) ds))).
Proof.
  induction ds as [|d ds IH]; intros H; [reflexivity|].
  cbn [body_devices map List.filter]. unfold ser_active at 1. cbn [snd].
  specialize (IH (fun d' Hd' => H d' (or_intror Hd'))).
  destruct (active d) eqn:Ea; [|exact IH].
  cbn [map wide_field]. destruct (rowidx >=? sr) eqn:Er.
  - rewrite get_value_ok by (apply H; [left; reflexivity|exact Ea|apply Z.geb_le; exact Er]).
    cbn [bind]. rewrite IH. reflexivity.
  - rewrite IH. reflexivity.
Qed.

Lemma metric_series_In (sep : string) (c : Class) (m : Metric) (d : Device) :
  In d (emitted c m) -> In (startrow c, series_name sep c m d, d) (metric_series sep c m).
Proof.
  intros H. unfold metric_series.
  apply in_map_iff. exists d. split; [reflexivity|exact H].
Qed.

Lemma body_metrics_spec (sep : string) (fs : Q) (rowidx : Z) (c : Class)
  (tbl : list Metric) :
  (forall m, In m tbl -> (classtype c =? VECTORCLASS)%char = true -> devicetbl m <> []) ->
  (forall sr name d, In (sr, name, d) (flat_map (metric_series sep c) tbl) ->
     active d = true -> sr <= rowidx -> 0 <= rowidx < Z.of_nat (length (valuetbl d))) ->
  body_metrics fs rowidx c tbl =
  Ok (map (wide_field fs rowidx)
        (List.filter ser_active (flat_map (metric_series sep c) tbl))).
Proof.
  induction tbl as [|m tbl IH]; intros H Hr; [reflexivity|].
  cbn [body_metrics flat_map].
  rewrite emitted_devices_ok by (apply H; left; reflexivity). cbn [bind].
  rewrite (body_devices_spec fs (startrow c) rowidx (series_name sep c m)).
  - cbn [bind]. rewrite IH.
    + cbn [bind]. rewrite List.filter_app, List.map_app. reflexivity.
    + intros m' Hm'. apply H. right. exact Hm'.
    + intros sr name d Hin. apply (Hr sr name d). cbn [flat_map].
      apply in_or_app. right. exact Hin.
  - intros d Hd. apply (Hr (startrow c) (series_name sep c m d) d).
    cbn [flat_map]. apply in_or_app. left. apply metric_series_In. exact Hd.
Qed.

Lemma body_classes_spec (sep : string) (fs : Q) (rowidx : Z) (tbl : list Class) :
  vector_has_device tbl -> row_readable sep rowidx tbl ->
  body_classes fs rowidx tbl =
  Ok (map (wide_field fs rowidx) (List.filter ser_active (series sep tbl))).
Proof.
  unfold series. induction tbl as [|c tbl IH]; intros H Hr; [reflexivity|].
  cbn [body_classes flat_map].
  rewrite (body_metrics_spec sep).
  - cbn [bind]. rewrite IH.
    + cbn [bind]. rewrite List.filter_app, List.map_app. reflexivity.
    + intros c' m Hc'. apply (H c' m). right. exact Hc'.
    + intros sr name d Hin. apply (Hr sr name d). unfold series. cbn [flat_map].
      apply in_or_app. right. exact Hin.
  - intros m Hm. apply (H c m); [left; reflexivity|exact Hm].
  - intros sr name d Hin. apply (Hr sr name d). unfold series. cbn [flat_map].
    apply in_or_app. left. exact Hin.
Qed.

Lemma open_device_devicename (name : string) (d : Device) :
  devicename (open_device name d) = devicename d.
Proof. unfold open_device. destruct (active d); reflexivity. Qed.

Lemma open_device_narrow (sr : Z) (name : string) (d : Device) :
  narrow_open (sr, name, d) = (sr, name, open_device name d).
Proof. reflexivity. Qed.

Lemma prepare_metric_spec (sep : string) (c : Class) (m : Metric) :
  ((classtype c =? VECTORCLASS)%char = true -> devicetbl m <> []) ->
  exists m', prepare_metric sep c m = Ok m' /\
             metric_series sep c m' = map narrow_open (metric_series sep c m).
Proof.
  intros H. unfold prepare_metric, metric_series, emitted, series_name.
  destruct (classtype c =? VECTORCLASS)%char.
  - destruct (devicetbl m) as [|d tbl']; [exfalso; apply H; reflexivity|].
    eexists. split; reflexivity.
  - eexists. split; [reflexivity|]. cbn [devicetbl set_devicetbl].
    rewrite !List.map_map. apply map_ext. intros d.
    rewrite open_device_narrow. unfold metric_device_name. cbn [metricname set_devicetbl].
    rewrite open_device_devicename. reflexivity.
Qed.

Lemma prepare_metrics_spec (sep : string) (c : Class) (tbl : list Metric) :
  (forall m, In m tbl -> (classtype c =? VECTORCLASS)%char = true -> devicetbl m <> []) ->
  exists t, prepare_metrics sep c tbl = Ok t /\
            flat_map (metric_series sep c) t =
            map narrow_open (flat_map (metric_series sep c) tbl).
Proof.
  induction tbl as [|m tbl IH]; intros H.
  - exists []. split; reflexivity.
  - destruct (prepare_metric_spec sep c m (H m (or_introl eq_refl))) as (m' & E1 & S1).
    destruct (IH (fun m0 Hm0 => H m0 (or_intror Hm0))) as (t & E2 & S2).
    exists (m' :: t). cbn [prepare_metrics]. rewrite E1. cbn [bind]. rewrite E2.
    split; [reflexivity|]. cbn [flat_map]. rewrite S1, S2, List.map_app. reflexivity.
Qed.

Lemma metric_series_set_metrictbl (sep : string) (t : list Metric) (c : Class) (m : Metric) :
  metric_series sep (set_metrictbl t c) m = metric_series sep c m.
Proof. reflexivity. Qed.

Lemma class_series_set_metrictbl (sep : string) (t : list Metric) (c : Class) :
  class_series sep (set_metrictbl t c) = flat_map (metric_series sep c) t.
Proof. reflexivity. Qed.

Lemma prepare_classes_spec (sep : string) (tbl : list Class) :
  vector_has_device tbl ->
  exists tbl', prepare_classes sep tbl = Ok tbl' /\
               series sep tbl' = map narrow_open (series sep tbl).
Proof.
  unfold series. induction tbl as [|c tbl IH]; intros H.
  - exists []. split; reflexivity.
  - destruct (prepare_metrics_spec sep c (metrictbl c)
                (fun m Hm => H c m (or_introl eq_refl) Hm)) as (t & E1 & S1).
    destruct (IH (fun c' m Hc' => H c' m (or_intror Hc'))) as (tbl' & E2 & S2).
    exists (set_metrictbl t c :: tbl'). cbn [prepare_classes]. rewrite E1. cbn [bind].
    rewrite E2. split; [reflexivity|]. cbn [flat_map].
    rewrite class_series_set_metrictbl, S1, S2, List.map_app. reflexivity.
Qed.

Lemma multifile_device_spec (fs : Q) (sr rowidx ts : Z) (name : string) (d : Device) :
  (active d = true -> sr <= rowidx -> 0 <= rowidx < Z.of_nat (length (valuetbl d))) ->
  (active d = true -> fileptr d <> None) ->
  exists d', multifile_device fs sr rowidx ts d = Ok d' /\
             narrow_line fs rowidx ts (sr, name, d) = (sr, name, d') /\
             devicename d' = devicename d.
Proof.
  intros Hr Ho. unfold multifile_device, narrow_line.
  destruct (active d) eqn:Ea; cbn [andb]; [|eexists; repeat split; reflexivity].
  destruct (rowidx >=? sr) eqn:Er; [|eexists; repeat split; reflexivity].
  rewrite get_value_ok by (apply Hr; [reflexivity|apply Z.geb_le; exact Er]).
  cbn [bind]. unfold fprintf_device.
  destruct (fileptr d) as [lines|] eqn:Ef; [|exfalso; apply Ho; reflexivity].
  eexists. repeat split; reflexivity.
Qed.

Lemma multifile_devices_spec (fs : Q) (sr rowidx ts : Z) (name : Device -> string)
  (ds : list Device) :
  (forall d, In d ds -> active d = true -> sr <= rowidx ->
     0 <= rowidx < Z.of_nat (length (valuetbl d))) ->
  (forall d, In d ds -> active d = true -> fileptr d <> None) ->
  (forall d d', devicename d' = devicename d -> name d' = name d) ->
  exists ds', multifile_devices fs sr rowidx ts ds = Ok ds' /\
              map (fun d => (sr, name d, d)) ds' =
              map (narrow_line fs rowidx ts) (map (fun d => (sr, name d, d)) ds).
Proof.
  induction ds as [|d ds IH]; intros Hr Ho Hn.
  - exists []. split; reflexivity.
  - destruct (multifile_device_spec fs sr rowidx ts (name d) d
                (Hr d (or_introl eq_refl)) (Ho d (or_introl eq_refl)))
      as (d' & E1 & S1 & N1).
    destruct (IH (fun d0 Hd0 => Hr d0 (or_intror Hd0))
                (fun d0 Hd0 => Ho d0 (or_intror Hd0)) Hn) as (ds' & E2 & S2).
    exists (d' :: ds'). cbn [multifile_devices]. rewrite E1. cbn [bind]. rewrite E2.
    split; [reflexivity|]. cbn [map]. rewrite S1, S2, (Hn d d' N1). reflexivity.
Qed.

Lemma series_name_devicename (sep : string) (c : Class) (m m' : Metric) (d d' : Device) :
  metricname m' = metricname m -> devicename d' = devicename d ->
  series_name sep c m' d' = series_name sep c m d.
Proof.
  intros Hm Hd. unfold series_name, metric_device_name. rewrite Hm, Hd. reflexivity.
Qed.

Lemma multifile_metric_spec (sep : string) (fs : Q) (rowidx ts : Z) (c : Class)
  (m : Metric) :
  ((classtype c =? VECTORCLASS)%char = true -> devicetbl m <> []) ->
  (forall sr name d, In (sr, name, d) (metric_series sep c m) ->
     active d = true -> sr <= rowidx -> 0 <= rowidx < Z.of_nat (length (valuetbl d))) ->
  (forall sr name d, In (sr, name, d) (metric_series sep c m) ->
     active d = true -> fileptr d <> None) ->
  exists m', multifile_metric fs rowidx ts c m = Ok m' /\
             metric_series sep c m' =
             map (narrow_line fs rowidx ts) (metric_series sep c m).
Proof.
  intros H Hr Ho. unfold multifile_metric.
  destruct (classtype c =? VECTORCLASS)%char eqn:Ev.
  - destruct (devicetbl m) as [|d tbl'] eqn:Ed; [exfalso; apply H; reflexivity|].
    assert (Hin : In (startrow c, series_name sep c m d, d) (metric_series sep c m)).
    { apply metric_series_In. unfold emitted. rewrite Ev, Ed. left. reflexivity. }
    destruct (multifile_device_spec fs (startrow c) rowidx ts (series_name sep c m d) d
                (Hr _ _ _ Hin) (Ho _ _ _ Hin)) as (d' & E1 & S1 & N1).
    rewrite E1. cbn [bind]. eexists. split; [reflexivity|].
    unfold metric_series, emitted. rewrite Ev, Ed. cbn [devicetbl set_devicetbl take map].
    rewrite S1. f_equal. f_equal. f_equal.
    apply series_name_devicename; [reflexivity|exact N1].
  - destruct (multifile_devices_spec fs (startrow c) rowidx ts (series_name sep c m)
                (devicetbl m)) as (ds' & E1 & S1).
    + intros d Hd. apply (Hr (startrow c) (series_name sep c m d) d).
      apply metric_series_In. unfold emitted. rewrite Ev. exact Hd.
    + intros d Hd. apply (Ho (startrow c) (series_name sep c m d) d).
      apply metric_series_In. unfold emitted. rewrite Ev. exact Hd.
    + intros d d' Hd. apply series_name_devicename; [reflexivity|exact Hd].
    + rewrite E1. cbn [bind]. eexists. split; [reflexivity|].
      unfold metric_series, emitted. rewrite Ev. cbn [devicetbl set_devicetbl]. exact S1.
Qed.

Lemma multifile_metrics_spec (sep : string) (fs : Q) (rowidx ts : Z) (c : Class)
  (tbl : list Metric) :
  (forall m, In m tbl -> (classtype c =? VECTORCLASS)%char = true -> devicetbl m <> []) ->
  (forall sr name d, In (sr, name, d) (flat_map (metric_series sep c) tbl) ->
     active d = true -> sr <= rowidx -> 0 <= rowidx < Z.of_nat (length (valuetbl d))) ->
  (forall sr name d, In (sr, name, d) (flat_map (metric_series sep c) tbl) ->
     active d = true -> fileptr d <> None) ->
  exists t, multifile_metrics fs rowidx ts c tbl = Ok t /\
            flat_map (metric_series sep c) t =
            map (narrow_line fs rowidx ts) (flat_map (metric_series sep c) tbl).
Proof.
  induction tbl as [|m tbl IH]; intros H Hr Ho.
  - exists []. split; reflexivity.
  - destruct (multifile_metric_spec sep fs rowidx ts c m (H m (or_introl eq_refl)))
      as (m' & E1 & S1).
    { intros sr name d Hin. apply (Hr sr name d). cbn [flat_map].
      apply in_or_app. left. exact Hin. }
    { intros sr name d Hin. apply (Ho sr name d). cbn [flat_map].
      apply in_or_app. left. exact Hin. }
    destruct IH as (t & E2 & S2).
    { intros m0 Hm0. apply H. right. exact Hm0. }
    { intros sr name d Hin. apply (Hr sr name d). cbn [flat_map].
      apply in_or_app. right. exact Hin. }
    { intros sr name d Hin. apply (Ho sr name d). cbn [flat_map].
      apply in_or_app. right. exact Hin. }
    exists (m' :: t). cbn [multifile_metrics]. rewrite E1. cbn [bind]. rewrite E2.
    split; [reflexivity|]. cbn [flat_map]. rewrite S1, S2, List.map_app. reflexivity.
Qed.

Lemma multifile_classes_spec (sep : string) (fs : Q) (rowidx ts : Z) (tbl : list Class) :
  vector_has_device tbl -> row_readable sep rowidx tbl -> files_open sep tbl ->
  exists tbl', multifile_classes fs rowidx ts tbl = Ok tbl' /\
               series sep tbl' = map (narrow_line fs rowidx ts) (series sep tbl).
Proof.
  unfold series, row_readable, files_open.
  induction tbl as [|c tbl IH]; intros H Hr Ho.
  - exists []. split; reflexivity.
  - destruct (multifile_metrics_spec sep fs rowidx ts c (metrictbl c)
                (fun m Hm => H c m (or_introl eq_refl) Hm)) as (t & E1 & S1).
    { intros sr name d Hin. apply (Hr sr name d). unfold series. cbn [flat_map].
      apply in_or_app. left. exact Hin. }
    { intros sr name d Hin. apply (Ho sr name d). unfold series. cbn [flat_map].
      apply in_or_app. left. exact Hin. }
    destruct IH as (tbl' & E2 & S2).
    { intros c' m Hc'. apply (H c' m). right. exact Hc'. }
    { intros sr name d Hin. apply (Hr sr name d). unfold series. cbn [flat_map].
      apply in_or_app. right. exact Hin. }
    { intros sr name d Hin. apply (Ho sr name d). unfold series. cbn [flat_map].
      apply in_or_app. right. exact Hin. }
    exists (set_metrictbl t c :: tbl'). cbn [multifile_classes]. rewrite E1. cbn [bind].
    rewrite E2. split; [reflexivity|]. cbn [flat_map].
    rewrite class_series_set_metrictbl, S1, S2, List.map_app. reflexivity.
Qed.

(** The rows of the wide table, for the whole of [output_singlefile_body]. *)
Lemma singlefile_rows_spec (sep : string) (ts : Z) (n : nat) :
  forall (rowidx : Z) (st : State),
    vector_has_device (classtbl st) ->
    (forall k, (k < n)%nat -> row_readable sep (rowidx + Z.of_nat k) (classtbl st)) ->
    singlefile_rows n rowidx ts st =
    Ok (set_singlefile
          (singlefile st ++
           map (fun k => wide_row sep ts st (rowidx + Z.of_nat k)) (seq 0 n)) st).
Proof.
  induction n as [|n IH]; intros rowidx st Hv Hr.
  - cbn [singlefile_rows seq map]. rewrite app_nil_r.
    destruct st; reflexivity.
  - cbn [singlefile_rows].
    rewrite (body_classes_spec sep) by
      (try exact Hv; rewrite <- (Z.add_0_r rowidx); apply (Hr 0%nat); lia).
    cbn [bind]. rewrite IH.
    + f_equal.
      match goal with
      | |- set_singlefile (singlefile (set_singlefile ?l st) ++ ?rows) _ = _ =>
          change (set_singlefile (l ++ rows) st = 
                  set_singlefile
                    (singlefile st ++
                     map (fun k => wide_row sep ts st (rowidx + Z.of_nat k)) (seq 0 (S n)))
                    st)
      end.
      f_equal. rewrite <- app_assoc. f_equal. cbn [seq map app].
      rewrite Z.add_0_r. f_equal.
      rewrite <- seq_shift, List.map_map. apply map_ext. intros k.
      replace (rowidx + 1 + Z.of_nat k) with (rowidx + Z.of_nat (S k)) by lia.
      reflexivity.
    + exact Hv.
    + intros k Hk. cbn [classtbl set_singlefile].
      replace (rowidx + 1 + Z.of_nat k) with (rowidx + Z.of_nat (S k)) by lia.
      apply Hr. lia.
Qed.

(** One row of [output_multifile_bodies_data] keeps what the next row needs. *)
Lemma vector_has_device_Forall (tbl : list Class) :
  vector_has_device tbl <-> Forall vector_class_has_device tbl.
Proof.
  unfold vector_has_device, vector_class_has_device. rewrite List.Forall_forall. split.
  - intros H c Hc Hv. apply List.Forall_forall. intros m Hm. apply (H c m); assumption.
  - intros H c m Hc Hm Hv. specialize (H c Hc Hv). rewrite List.Forall_forall in H.
    apply H. exact Hm.
Qed.

Lemma multifile_devices_length fs sr rowidx ts (tbl : list Device) :
  forall t, multifile_devices fs sr rowidx ts tbl = Ok t -> length t = length tbl.
Proof.
  induction tbl as [|d tbl IH]; intros t H; cbn [multifile_devices] in H.
  - inversion H; reflexivity.
  - destruct (multifile_device fs sr rowidx ts d); try discriminate. cbn [bind] in H.
    destruct (multifile_devices fs sr rowidx ts tbl) as [t'| |]; try discriminate.
    cbn [bind] in H. inversion H; subst. cbn [length]. rewrite (IH _ eq_refl). reflexivity.
Qed.

Lemma multifile_metric_nonempty fs rowidx ts c m m' :
  multifile_metric fs rowidx ts c m = Ok m' -> devicetbl m <> [] -> devicetbl m' <> [].
Proof.
  unfold multifile_metric. destruct (classtype c =? VECTORCLASS)%char.
  - destruct (devicetbl m) as [|d tbl]; [discriminate|].
    destruct (multifile_device fs (startrow c) rowidx ts d); try discriminate.
    cbn [bind]. intros H _; inversion H; subst. discriminate.
  - destruct (multifile_devices fs (startrow c) rowidx ts (devicetbl m)) as [t| |] eqn:E;
      try discriminate.
    cbn [bind]. intros H Hne; inversion H; subst. cbn [devicetbl set_devicetbl].
    apply multifile_devices_length in E. intros ->. apply Hne.
    destruct (devicetbl m); [reflexivity|discriminate].
Qed.

Lemma multifile_metrics_nonempty fs rowidx ts c (tbl : list Metric) :
  forall t, multifile_metrics fs rowidx ts c tbl = Ok t ->
            Forall (fun m => devicetbl m <> []) tbl ->
            Forall (fun m => devicetbl m <> []) t.
Proof.
  induction tbl as [|m tbl IH]; intros t H Hne; cbn [multifile_metrics] in H.
  - inversion H. constructor.
  - destruct (multifile_metric fs rowidx ts c m) as [m'| |] eqn:E1; try discriminate.
    cbn [bind] in H.
    destruct (multifile_metrics fs rowidx ts c tbl) as [t'| |] eqn:E2; try discriminate.
    cbn [bind] in H. inversion H; subst. apply Forall_cons in Hne as [Hm Hne].
    constructor; [eapply multifile_metric_nonempty; eauto|eapply IH; eauto].
Qed.

Lemma multifile_classes_has_device fs rowidx ts (tbl : list Class) :
  forall t, multifile_classes fs rowidx ts tbl = Ok t ->
            vector_has_device tbl -> vector_has_device t.
Proof.
  intros t H Hv. apply vector_has_device_Forall. apply vector_has_device_Forall in Hv.
  revert t H Hv. induction tbl as [|c tbl IH]; intros t H Hv; cbn [multifile_classes] in H.
  - inversion H. constructor.
  - destruct (multifile_metrics fs rowidx ts c (metrictbl c)) as [t1| |] eqn:E1;
      try discriminate.
    cbn [bind] in H.
    destruct (multifile_classes fs rowidx ts tbl) as [t2| |] eqn:E2; try discriminate.
    cbn [bind] in H. inversion H; subst. apply Forall_cons in Hv as [Hc Hv].
    constructor; [|eapply IH; eauto].
    intros Hvec. cbn [metrictbl set_metrictbl]. cbn [classtype set_metrictbl] in Hvec.
    eapply multifile_metrics_nonempty; eauto.
Qed.

Lemma narrow_line_inv fs rowidx ts (s : Series) :
  fst (narrow_line fs rowidx ts s) = fst s /\
  active (snd (narrow_line fs rowidx ts s)) = active (snd s) /\
  valuetbl (snd (narrow_line fs rowidx ts s)) = valuetbl (snd s) /\
  scale (snd (narrow_line fs rowidx ts s)) = scale (snd s) /\
  (fileptr (snd s) <> None -> fileptr (snd (narrow_line fs rowidx ts s)) <> None).
Proof.
  destruct s as [[sr name] d]. unfold narrow_line. cbn [fst snd].
  destruct (active d && (rowidx >=? sr)); repeat split; auto; cbn; discriminate.
Qed.

Lemma row_readable_narrow_line sep fs rowidx ts r (tbl tbl' : list Class) :
  series sep tbl' = map (narrow_line fs rowidx ts) (series sep tbl) ->
  row_readable sep r tbl -> row_readable sep r tbl'.
Proof.
  intros E H sr name d' Hin Ha Hsr. rewrite E in Hin.
  apply in_map_iff in Hin as ([[sr0 name0] d] & Es & Hin).
  destruct (narrow_line_inv fs rowidx ts (sr0, name0, d)) as (H1 & H2 & H3 & _).
  rewrite Es in H1, H2, H3. cbn [fst snd] in H1, H2, H3. inversion H1; subst.
  rewrite H3. apply (H sr0 name0 d Hin); [congruence|exact Hsr].
Qed.

Lemma files_open_narrow_line sep fs rowidx ts (tbl tbl' : list Class) :
  series sep tbl' = map (narrow_line fs rowidx ts) (series sep tbl) ->
  files_open sep tbl -> files_open sep tbl'.
Proof.
  intros E H sr name d' Hin Ha. rewrite E in Hin.
  apply in_map_iff in Hin as ([[sr0 name0] d] & Es & Hin).
  destruct (narrow_line_inv fs rowidx ts (sr0, name0, d)) as (H1 & H2 & _ & _ & H5).
  rewrite Es in H1, H2, H5. cbn [fst snd] in H1, H2, H5. inversion H1; subst.
  apply H5. apply (H sr0 name0 d Hin). congruence.
Qed.

Lemma narrow_rows_S (st : State) (ts rowidx : Z) (n : nat) (s : Series) :
  narrow_rows st ts rowidx (S n) s =
  narrow_rows st ts (rowidx + 1) n
    (narrow_line (fullscale st) rowidx (rowtimestamp st ts rowidx) s).
Proof.
  unfold narrow_rows. cbn [seq fold_left]. rewrite Z.add_0_r.
  generalize (narrow_line (fullscale st) rowidx (rowtimestamp st ts rowidx) s).
  generalize 0%nat. induction n as [|n IH]; intros start a; [reflexivity|].
  cbn [seq fold_left]. rewrite IH. f_equal.
  replace (rowidx + 1 + Z.of_nat start) with (rowidx + Z.of_nat (S start)) by lia.
  reflexivity.
Qed.

(** The rows of the narrow files, for the whole of
    [output_multifile_bodies_data]. *)
Lemma multifile_rows_spec (sep : string) (ts : Z) (n : nat) :
  forall (rowidx : Z) (st : State),
    vector_has_device (classtbl st) ->
    (forall k, (k < n)%nat -> row_readable sep (rowidx + Z.of_nat k) (classtbl st)) ->
    files_open sep (classtbl st) ->
    exists st',
      multifile_rows n rowidx ts st = Ok st' /\
      series sep (classtbl st') = map (narrow_rows st ts rowidx n) (series sep (classtbl st)) /\
      singlefile st' = singlefile st.
Proof.
  induction n as [|n IH]; intros rowidx st Hv Hr Ho.
  - exists st. split; [reflexivity|]. split; [|reflexivity].
    unfold narrow_rows. cbn [seq fold_left]. symmetry. apply map_id.
  - cbn [multifile_rows].
    destruct (multifile_classes_spec sep (fullscale st) rowidx (rowtimestamp st ts rowidx)
                (classtbl st) Hv) as (tbl1 & E1 & S1).
    { rewrite <- (Z.add_0_r rowidx). apply (Hr 0%nat). lia. }
    { exact Ho. }
    rewrite E1. cbn [bind].
    destruct (IH (rowidx + 1) (set_classtbl tbl1 st)) as (st' & E2 & S2 & F2).
    + cbn [classtbl set_classtbl]. eapply multifile_classes_has_device; eauto.
    + intros k Hk. cbn [classtbl set_classtbl].
      eapply row_readable_narrow_line; [exact S1|].
      replace (rowidx + 1 + Z.of_nat k) with (rowidx + Z.of_nat (S k)) by lia.
      apply Hr. lia.
    + cbn [classtbl set_classtbl]. eapply files_open_narrow_line; eauto.
    + exists st'. split; [exact E2|]. split; [|exact F2].
      rewrite S2. cbn [classtbl set_classtbl]. rewrite S1, List.map_map.
      apply map_ext. intros s. rewrite narrow_rows_S. reflexivity.
Qed.

Lemma narrow_rows_inactive (st : State) (ts : Z) (n : nat) :
  forall (rowidx : Z) (sr : Z) (name : string) (d : Device),
    active d = false -> narrow_rows st ts rowidx n (sr, name, d) = (sr, name, d).
Proof.
  induction n as [|n IH]; intros rowidx sr name d Ha; [reflexivity|].
  rewrite narrow_rows_S. unfold narrow_line. rewrite Ha. cbn [andb]. apply IH. exact Ha.
Qed.

(** C3.  The scale factor of a series decides whether it is emitted and how
    its values are normalized.  For a state in which every vector metric has
    its device, with the series in the order of the emitters' loops:
    - [output_singlefile_headers] names exactly the series whose scale is
      not zero, and [output_singlefile_body] writes, for every row, one
      field per such series: the value [fullscale / scale * v] of the stored
      value [v] of that row, or an empty field before the start row of the
      class;
    - [prepare_multi_output_files] opens a file, with its header line, for
      exactly the series whose scale is not zero, and
      [output_multifile_bodies_data] adds, row after row, the line with
      [fullscale / scale * v] to the file of every such series that has
      started, and does nothing for the others;
    - so a series whose scale is zero has no header entry, no field and no
      file.
    [fullscale] is the one global variable in both emitters. *)
Theorem scale_selects_and_normalizes (timestamp : Z) (st : State) :
  let sep := param_string (param_value METDEVSEPARATORIDX (paramtbl st)) in
  let all := series sep (classtbl st) in
  let rows := seq 0 (Z.to_nat (count st)) in
  vector_has_device (classtbl st) ->
  output_singlefile_headers st =
    Ok (set_singlefile
          (singlefile st ++ [SHeader (map ser_name (List.filter ser_active all))]) st) /\
  (exists st', prepare_multi_output_files true st = Ok st' /\
               series sep (classtbl st') = map narrow_open all) /\
  ((forall k, In k rows -> row_readable sep (Z.of_nat k) (classtbl st)) ->
   output_singlefile_body timestamp st =
     Ok (set_singlefile
           (singlefile st ++ map (fun k => wide_row sep timestamp st (Z.of_nat k)) rows)
           st) /\
   (files_open sep (classtbl st) ->
    exists st', output_multifile_bodies_data timestamp st = Ok st' /\
                series sep (classtbl st') =
                  map (narrow_rows st timestamp 0 (Z.to_nat (count st))) all)) /\
  (forall sr name d,
     (scale d == 0)%Q ->
     ser_active (sr, name, d) = false /\
     narrow_open (sr, name, d) = (sr, name, d) /\
     forall rowidx n, narrow_rows st timestamp rowidx n (sr, name, d) = (sr, name, d)) /\
  (forall sr name d v rowidx ts,
     ~ (scale d == 0)%Q -> sr <= rowidx ->
     valuetbl d !! Z.to_nat rowidx = Some v ->
     ser_active (sr, name, d) = true /\
     wide_field (fullscale st) rowidx (sr, name, d) = Some (fullscale st / scale d * v)%Q /\
     fileptr (snd (narrow_open (sr, name, d))) = Some [MHeader name (scale d)] /\
     fileptr (snd (narrow_line (fullscale st) rowidx ts (sr, name, d))) =
       Some (default [] (fileptr d) ++ [MData ts (fullscale st / scale d * v)%Q])%list).
Proof.
  intros sep all rows Hv. split; [|split; [|split; [|split]]].
  - unfold output_singlefile_headers. fold sep.
    rewrite (header_classes_spec sep _ Hv). reflexivity.
  - unfold prepare_multi_output_files. fold sep.
    destruct (prepare_classes_spec sep _ Hv) as (tbl' & E & S).
    rewrite E. cbn [bind]. eexists. split; [reflexivity|exact S].
  - intros Hr.
    assert (Hr' : forall k, (k < Z.to_nat (count st))%nat ->
                    row_readable sep (0 + Z.of_nat k) (classtbl st)).
    { intros k Hk. rewrite Z.add_0_l. apply Hr. apply in_seq. lia. }
    split.
    + unfold output_singlefile_body.
      rewrite (singlefile_rows_spec sep timestamp _ 0 st Hv Hr'). reflexivity.
    + intros Ho. unfold output_multifile_bodies_data.
      destruct (multifile_rows_spec sep timestamp _ 0 st Hv Hr' Ho) as (st' & E & S & _).
      exists st'. split; [exact E|exact S].
  - intros sr name d Hz.
    assert (Ha : active d = false).
    { unfold active. apply Qeq_bool_iff in Hz. rewrite Hz. reflexivity. }
    unfold ser_active, narrow_open. cbn [snd]. rewrite Ha.
    repeat split. intros rowidx n. apply narrow_rows_inactive. exact Ha.
  - intros sr name d v rowidx ts Hz Hr Hv'.
    assert (Ha : active d = true).
    { unfold active. destruct (Qeq_bool (scale d) 0) eqn:E; [|reflexivity].
      apply Qeq_bool_iff in E. contradiction. }
    assert (Hn : nth (Z.to_nat rowidx) (valuetbl d) 0%Q = v).
    { apply nth_lookup_Some with (d := 0%Q) in Hv'. exact Hv'. }
    apply Z.geb_le in Hr.
    unfold ser_active, narrow_open, narrow_line, wide_field, normalized.
    cbn [snd fileptr set_fileptr]. rewrite Ha, Hr, Hn. cbn [andb fileptr set_fileptr].
    auto.
Qed.

(** ** What a pass over a stanza leaves in the buffers *)

Lemma set_value_inv (i : Z) (v : Q) (tbl tbl' : list Q) :
  set_value i v tbl = Ok tbl' ->
  0 <= i < Z.of_nat (length tbl) /\ tbl' = <[Z.to_nat i := v]> tbl.
Proof.
  unfold set_value. destruct (0 <=? i) eqn:E1; [|discriminate].
  destruct (i <? Z.of_nat (length tbl)) eqn:E2; [|discriminate].
  cbn [andb]. intros H. inversion H. apply Z.leb_le in E1. apply Z.ltb_lt in E2. auto.
Qed.

Lemma vector_metric_slots (r : Z) (s : string) (m m' : Metric) :
  vector_metric r s m = Ok m' ->
  0 <= r /\
  dslot m' 0 (Z.to_nat r) = Some (atof s) /\
  forall k i, Z.of_nat i <> r -> dslot m' k i = dslot m k i.
Proof.
  unfold vector_metric, dslot. destruct (devicetbl m) as [|d tbl'] eqn:Ed; [discriminate|].
  destruct (set_value r (atof s) (valuetbl d)) as [values| |] eqn:Ev; try discriminate.
  cbn [bind]. intros H. inversion H; subst; clear H. cbn [devicetbl].
  apply set_value_inv in Ev as [Hr ->]. split; [lia|]. split.
  - cbn. apply list_lookup_insert_eq. lia.
  - intros [|k] i Hi; cbn; [|reflexivity].
    apply list_lookup_insert_ne. lia.
Qed.

Lemma vector_metrics_slots (r : Z) (argtbl : list string) (tbl : list Metric) :
  forall (k : nat) (t : list Metric),
    vector_metrics r argtbl k tbl = Ok t ->
    length t = length tbl /\
    forall j m, tbl !! j = Some m ->
      exists m', t !! j = Some m' /\ 0 <= r /\
                 dslot m' 0 (Z.to_nat r) = Some (atof (arg argtbl (k + j))) /\
                 forall kk i, Z.of_nat i <> r -> dslot m' kk i = dslot m kk i.
Proof.
  induction tbl as [|m0 tbl IH]; intros k t H; cbn [vector_metrics] in H.
  - inversion H; subst. split; [reflexivity|]. intros j m Hj. destruct j; discriminate.
  - destruct (vector_metric r (arg argtbl k) m0) as [m0'| |] eqn:E1; try discriminate.
    cbn [bind] in H.
    destruct (vector_metrics r argtbl (S k) tbl) as [t'| |] eqn:E2; try discriminate.
    cbn [bind] in H. inversion H; subst; clear H.
    destruct (IH _ _ E2) as [Hl Hs]. split; [simpl; lia|].
    intros [|j] m Hj; simpl in Hj.
    + inversion Hj; subst. exists m0'. split; [reflexivity|].
      rewrite Nat.add_0_r. apply vector_metric_slots. exact E1.
    + destruct (Hs j m Hj) as (m' & L & Hm').
      exists m'. split; [exact L|].
      replace (k + S j)%nat with (S k + j)%nat by lia. exact Hm'.
Qed.

Lemma vector_row_slots (c c1 : Class) (r : Z) (argtbl : list string) :
  vector_row c r argtbl = Ok c1 -> 0 <= r ->
  startrow c1 = startrow c /\
  length (metrictbl c1) = length (metrictbl c) /\
  (forall j k i, Z.of_nat i <> r -> slot c1 j k i = slot c j k i) /\
  (startrow c <= r ->
   forall j, (j < length (metrictbl c))%nat ->
     slot c1 j 0 (Z.to_nat r) = Some (atof (arg argtbl j))).
Proof.
  unfold vector_row. intros H Hr0. destruct (r >=? startrow c) eqn:E.
  - destruct (vector_metrics r argtbl 0 (metrictbl c)) as [t| |] eqn:Et; try discriminate.
    cbn [bind] in H. inversion H; subst; clear H.
    destruct (vector_metrics_slots _ _ _ _ _ Et) as [Hl Hs].
    cbn [startrow metrictbl set_metrictbl]. repeat split; auto.
    + intros j k i Hi. unfold slot. cbn [metrictbl set_metrictbl].
      destruct (metrictbl c !! j) as [m|] eqn:Ej.
      * destruct (Hs j m Ej) as (m' & L & _ & _ & Hf). rewrite L. apply Hf. exact Hi.
      * apply lookup_ge_None in Ej. rewrite <- Hl in Ej.
        apply lookup_ge_None in Ej. rewrite Ej. reflexivity.
    + intros _ j Hj. unfold slot. cbn [metrictbl set_metrictbl].
      destruct (lookup_lt_is_Some_2 (metrictbl c) j Hj) as [m Ej].
      destruct (Hs j m Ej) as (m' & L & _ & Hv & _). rewrite L. exact Hv.
  - inversion H; subst. repeat split; auto.
    intros Hs. apply Z.geb_le in Hs. congruence.
Qed.

Lemma vector_rows_frame (lines : list string) :
  forall c r0 st c' r' st',
    vector_rows lines c r0 st = Ok (c', r', st') -> 0 <= r0 ->
    forall j k i, Z.of_nat i < r0 -> slot c' j k i = slot c j k i.
Proof.
  induction lines as [|l lines IH]; intros c r0 st c' r' st' H Hr0 j k i Hi;
    cbn [vector_rows] in H.
  - inversion H; subst. reflexivity.
  - destruct (parse_input_line l MAXNUMMETRICS) as [argtbl| |]; try discriminate.
    cbn [bind] in H.
    destruct (length argtbl =? length (metrictbl c))%nat.
    + destruct (vector_row c r0 argtbl) as [c1| |] eqn:E1; try discriminate.
      cbn [bind] in H.
      rewrite (IH _ _ _ _ _ _ H ltac:(lia) j k i ltac:(lia)).
      apply (vector_row_slots _ _ _ _ E1 Hr0). lia.
    + destruct (length argtbl =? 0)%nat.
      * inversion H; subst. reflexivity.
      * apply (IH _ _ _ _ _ _ H ltac:(lia) j k i ltac:(lia)).
Qed.

Lemma vector_rows_app (l : string) (post pre : list string) :
  Forall (has_token MAXNUMMETRICS) pre ->
  forall c r st st',
    agree_but_rest st st' ->
    vector_rows (pre ++ l :: post) c r st =
    bind (vector_rows pre c r st')
      (fun y => let '(c1, r1, st1) := y in vector_rows (l :: post) c1 r1 st1).
Proof.
  induction pre as [|a pre IH]; intros Hpre c r st st' Hag.
  - cbn [app vector_rows bind]. rewrite (next_line_agree post st st' Hag). reflexivity.
  - apply Forall_cons in Hpre as [(tok & args & Ha) Hpre].
    cbn [app vector_rows]. rewrite Ha. cbn [bind].
    destruct (length (tok :: args) =? length (metrictbl c))%nat.
    + destruct (vector_row c r (tok :: args)) as [c'| |]; cbn [bind]; try reflexivity.
      apply IH; auto. apply agree_next_line. exact Hag.
    + cbn [length Nat.eqb].
      rewrite (agree_inputlinectr _ _ (agree_next_line (pre ++ l :: post) pre _ _ Hag)).
      apply IH; auto. apply agree_log; [reflexivity|]. apply agree_next_line. exact Hag.
Qed.

Lemma vector_rows_rowidx (pre : list string) :
  Forall (has_token MAXNUMMETRICS) pre ->
  forall c r st c1 r1 st1,
    vector_rows pre c r st = Ok (c1, r1, st1) ->
    r1 = r + Z.of_nat (length pre) /\ startrow c1 = startrow c /\
    (0 <= r -> length (metrictbl c1) = length (metrictbl c)).
Proof.
  induction pre as [|a pre IH]; intros Hpre c r st c1 r1 st1 H.
  - cbn in H. inversion H; subst. cbn. repeat split; auto. lia.
  - apply Forall_cons in Hpre as [(tok & args & Ha) Hpre].
    cbn [vector_rows] in H. rewrite Ha in H. cbn [bind] in H.
    destruct (length (tok :: args) =? length (metrictbl c))%nat.
    + destruct (vector_row c r (tok :: args)) as [c'| |] eqn:E; cbn [bind] in H;
        try discriminate.
      apply IH in H as (H1 & H2 & H3); auto. cbn [length].
      split; [lia|]. split.
      * rewrite H2. unfold vector_row in E.
        destruct (r >=? startrow c); [|inversion E; reflexivity].
        destruct (vector_metrics _ _ _ _); try discriminate. inversion E. reflexivity.
      * intros Hr. rewrite H3 by lia. apply (vector_row_slots _ _ _ _ E Hr).
    + cbn [length Nat.eqb] in H. apply IH in H as (H1 & H2 & H3); auto. cbn [length].
      split; [lia|]. split; [exact H2|]. intros Hr. apply H3. lia.
Qed.

Lemma array_metric_slots (r : Z) (s : string) (m m' : Metric) :
  array_metric r s m = Ok m' -> 0 <= r ->
  0 < numdevices m /\ numdevices m' = numdevices m /\
  dslot m' (Z.to_nat (r mod numdevices m)) (Z.to_nat (r / numdevices m)) = Some (atof s) /\
  forall k i,
    k <> Z.to_nat (r mod numdevices m) \/ i <> Z.to_nat (r / numdevices m) ->
    dslot m' k i = dslot m k i.
Proof.
  intros H Hr.
  assert (Hn : 0 < numdevices m).
  { unfold numdevices. destruct (devicetbl m) as [|d tbl] eqn:Ed; [|simpl; lia].
    exfalso. unfold array_metric in H. rewrite Ed in H.
    destruct (0 <=? Z.rem r (numdevices m)); discriminate. }
  split; [exact Hn|].
  unfold array_metric in H.
  rewrite Z.rem_mod_nonneg, Z.quot_div_nonneg in H by lia.
  destruct (0 <=? r mod numdevices m); [|discriminate].
  destruct (devicetbl m !! Z.to_nat (r mod numdevices m)) as [d|] eqn:L; [|discriminate].
  destruct (set_value (r / numdevices m) (atof s) (valuetbl d)) as [values| |] eqn:Ev;
    try discriminate.
  cbn [bind] in H. inversion H; subst; clear H.
  apply set_value_inv in Ev as [Hi ->].
  pose proof (lookup_lt_Some _ _ _ L) as Hk.
  unfold dslot, numdevices at 1. cbn [devicetbl]. rewrite length_insert.
  split; [reflexivity|]. split.
  - rewrite list_lookup_insert_eq by exact Hk. cbn [valuetbl].
    apply list_lookup_insert_eq. revert Hi. generalize (r / numdevices m). intros; lia.
  - intros k i Hki.
    destruct (Nat.eq_dec k (Z.to_nat (r mod numdevices m))) as [->|Hne].
    + rewrite list_lookup_insert_eq by exact Hk. rewrite L. cbn [valuetbl].
      apply list_lookup_insert_ne. destruct Hki; congruence.
    + rewrite list_lookup_insert_ne by congruence. reflexivity.
Qed.

Lemma array_metrics_slots (sr r : Z) (argtbl : list string) (tbl : list Metric) :
  forall (k : nat) (p : option nat) (t : list Metric) (p' : option nat),
    array_metrics sr r argtbl k tbl p = Ok (t, p') -> 0 <= r ->
    length t = length tbl /\
    forall j m, tbl !! j = Some m ->
      exists m', t !! j = Some m' /\ numdevices m' = numdevices m /\
        (forall kk i,
           kk <> Z.to_nat (r mod numdevices m) \/ i <> Z.to_nat (r / numdevices m) ->
           dslot m' kk i = dslot m kk i) /\
        ((forall i0 mi, (i0 <= j)%nat -> tbl !! i0 = Some mi ->
            sr <= r / numdevices mi) ->
         0 < numdevices m /\
         dslot m' (Z.to_nat (r mod numdevices m)) (Z.to_nat (r / numdevices m)) =
           Some (atof (arg argtbl (k + j + 1)))).
Proof.
  induction tbl as [|m0 tbl IH]; intros k p t p' H Hr; cbn [array_metrics] in H.
  - inversion H; subst. split; [reflexivity|]. intros j m Hj. destruct j; discriminate.
  - destruct (numdevices m0 =? 0) eqn:E0; [discriminate|].
    apply Z.eqb_neq in E0.
    assert (Hn0 : 0 < numdevices m0) by (unfold numdevices in *; lia).
    rewrite Z.quot_div_nonneg in H by lia.
    destruct (r / numdevices m0 >=? sr) eqn:Ege.
    + destruct (array_metric r (arg argtbl (k + 1)) m0) as [m0'| |] eqn:E1;
        try discriminate.
      cbn [bind] in H.
      destruct (array_metrics sr r argtbl (S k) tbl (Some k)) as [[t' q]| |] eqn:E2;
        try discriminate.
      cbn [bind fst snd] in H. inversion H; subst; clear H.
      destruct (IH _ _ _ _ E2 Hr) as [Hl Hs]. split; [simpl; lia|].
      intros [|j] m Hj; simpl in Hj.
      * inversion Hj; subst.
        destruct (array_metric_slots _ _ _ _ E1 Hr) as (_ & Hnd & Hv & Hf).
        exists m0'. split; [reflexivity|]. split; [exact Hnd|]. split; [exact Hf|].
        intros _. split; [exact Hn0|].
        replace (k + 0 + 1)%nat with (k + 1)%nat by lia. exact Hv.
      * destruct (Hs j m Hj) as (m' & L & Hnd & Hf & Hv).
        exists m'. split; [exact L|]. split; [exact Hnd|]. split; [exact Hf|].
        intros Hall. replace (k + S j + 1)%nat with (S k + j + 1)%nat by lia.
        apply Hv. intros i0 mi Hi0 Hmi. apply (Hall (S i0) mi); [lia|exact Hmi].
    + inversion H; subst; clear H. split; [reflexivity|].
      intros j m Hj. exists m. split; [exact Hj|]. split; [reflexivity|].
      split; [reflexivity|].
      intros Hall. specialize (Hall 0%nat m0 ltac:(lia) eq_refl).
      destruct (Z.geb_spec (r / numdevices m0) sr); [discriminate|lia].
Qed.

(** Rows from [r0] on leave the slots of the rows before [r0] as they are. *)
Lemma array_rows_frame (lines : list string) :
  forall c r0 p st c' r' p' st',
    array_rows lines c r0 p st = Ok (c', r', p', st') -> 0 <= r0 ->
    startrow c' = startrow c /\
    length (metrictbl c') = length (metrictbl c) /\
    forall j m, metrictbl c !! j = Some m ->
      exists m', metrictbl c' !! j = Some m' /\ numdevices m' = numdevices m /\
        forall kk i,
          (kk < length (devicetbl m))%nat ->
          Z.of_nat i * numdevices m + Z.of_nat kk < r0 ->
          dslot m' kk i = dslot m kk i.
Proof.
  induction lines as [|l lines IH]; intros c r0 p st c' r' p' st' H Hr0;
    cbn [array_rows] in H.
  - inversion H; subst. split; [reflexivity|]. split; [reflexivity|].
    intros j m Hj. exists m. auto.
  - destruct (parse_input_line l (MAXNUMMETRICS + 1)) as [argtbl| |]; try discriminate.
    cbn [bind] in H.
    destruct (length argtbl =? length (metrictbl c) + 1)%nat.
    + destruct (array_row c r0 argtbl p) as [[c1 p1]| |] eqn:E1; try discriminate.
      cbn [bind fst snd] in H.
      unfold array_row in E1.
      destruct (array_metrics (startrow c) r0 argtbl 0 (metrictbl c) p)
        as [[t q]| |] eqn:Em; try discriminate.
      cbn [bind fst snd] in E1. inversion E1; subst; clear E1.
      destruct (array_metrics_slots _ _ _ _ _ _ _ _ Em Hr0) as [Hl Hs].
      destruct (IH _ _ _ _ _ _ _ _ H ltac:(lia)) as (Hsr & Hlen & Hf).
      cbn [startrow metrictbl set_metrictbl] in Hsr, Hlen, Hf.
      split; [exact Hsr|]. split; [congruence|].
      intros j m Hj. destruct (Hs j m Hj) as (m1 & L1 & Hnd1 & Hf1 & _).
      destruct (Hf j m1 L1) as (m' & L' & Hnd' & Hf').
      exists m'. split; [exact L'|]. split; [congruence|].
      intros kk i Hkk Hlt. rewrite Hf'.
      * apply Hf1.
        assert (Hn : 0 < numdevices m) by (unfold numdevices; lia).
        pose proof (Z.div_mod r0 (numdevices m) ltac:(lia)) as Hdm.
        pose proof (Z.mod_pos_bound r0 (numdevices m) Hn) as Hmb.
        pose proof (Z.div_pos r0 (numdevices m) Hr0 Hn) as Hdp.
        destruct (Nat.eq_dec kk (Z.to_nat (r0 mod numdevices m))) as [Ek|Ek];
          [|left; exact Ek].
        right. intros Ei. subst kk i.
        rewrite !Z2Nat.id in Hlt by lia. lia.
      * unfold numdevices in Hnd1. lia.
      * rewrite Hnd1. lia.
    + destruct (length argtbl =? 0)%nat.
      * inversion H; subst. split; [reflexivity|]. split; [reflexivity|].
        intros j m Hj. exists m. auto.
      * destruct (IH _ _ _ _ _ _ _ _ H ltac:(lia)) as (Hsr & Hlen & Hf).
        split; [exact Hsr|]. split; [exact Hlen|].
        intros j m Hj. destruct (Hf j m Hj) as (m' & L' & Hnd' & Hf').
        exists m'. split; [exact L'|]. split; [exact Hnd'|].
        intros kk i Hkk Hlt. apply Hf'; [exact Hkk|lia].
Qed.

Lemma vector_pass_slot (c c' : Class) (st st' : State) (pre post : list string)
  (l : string) (argtbl : list string) :
  rest (inputfile st) = (pre ++ l :: post)%list ->
  Forall (has_token MAXNUMMETRICS) pre ->
  parse_input_line l MAXNUMMETRICS = Ok argtbl ->
  length argtbl = length (metrictbl c) ->
  startrow c <= Z.of_nat (length pre) ->
  read_vector_stanza c st = Ok (c', st') ->
  forall j, (j < length (metrictbl c))%nat ->
    slot c' j 0 (length pre) = Some (atof (arg argtbl j)).
Proof.
  intros Hrest Hpre Hl Hlen Hsr H j Hj. unfold read_vector_stanza in H.
  rewrite Hrest in H.
  rewrite (vector_rows_app l post pre Hpre c 0 st st (agree_refl st)) in H.
  destruct (vector_rows pre c 0 st) as [[[c1 r1] st1]| |] eqn:E1; try discriminate.
  cbn [bind] in H.
  destruct (vector_rows_rowidx pre Hpre _ _ _ _ _ _ E1) as (Hr1 & Hs1 & Hl1).
  specialize (Hl1 ltac:(lia)). rewrite Z.add_0_l in Hr1. subst r1.
  cbn [vector_rows] in H. rewrite Hl in H. cbn [bind] in H.
  rewrite Hlen, <- Hl1, Nat.eqb_refl in H.
  destruct (vector_row c1 (Z.of_nat (length pre)) argtbl) as [c2| |] eqn:E2;
    try discriminate.
  cbn [bind] in H.
  destruct (vector_rows post c2 _ _) as [[[c3 r3] st3]| |] eqn:E3; try discriminate.
  cbn [bind] in H. inversion H; subst; clear H.
  rewrite (vector_rows_frame _ _ _ _ _ _ _ E3 ltac:(lia) j 0%nat (length pre) ltac:(lia)).
  destruct (vector_row_slots _ _ _ _ E2 ltac:(lia)) as (_ & _ & _ & Hv).
  rewrite <- (Nat2Z.id (length pre)) at 1. apply Hv; [lia|]. rewrite Hl1. exact Hj.
Qed.

Lemma array_pass_slot (c c' : Class) (st st' : State) (pre post : list string)
  (l : string) (argtbl : list string) :
  let r := Z.of_nat (length pre) in
  rest (inputfile st) = (pre ++ l :: post)%list ->
  Forall (has_token (MAXNUMMETRICS + 1)) pre ->
  parse_input_line l (MAXNUMMETRICS + 1) = Ok argtbl ->
  length argtbl = S (length (metrictbl c)) ->
  (forall m, In m (metrictbl c) -> startrow c <= r / numdevices m) ->
  read_array_stanza c st = Ok (c', st') ->
  forall j m, metrictbl c !! j = Some m ->
    slot c' j (Z.to_nat (r mod numdevices m)) (Z.to_nat (r / numdevices m)) =
    Some (atof (arg argtbl (j + 1))).
Proof.
  intros r Hrest Hpre Hl Hlen Hsr H j m Hj. unfold read_array_stanza in H.
  rewrite Hrest in H.
  rewrite (array_rows_app l post pre Hpre c 0 None st st (agree_refl st)) in H.
  destruct (array_rows pre c 0 None st) as [[[[c1 r1] p1] st1]| |] eqn:E1;
    try discriminate.
  cbn [bind] in H.
  pose proof (array_rows_rowidx pre Hpre _ _ _ _ _ _ _ _ E1) as Hr1.
  rewrite Z.add_0_l in Hr1. subst r1. fold r in H.
  destruct (array_rows_frame _ _ _ _ _ _ _ _ _ E1 ltac:(lia)) as (Hs1 & Hl1 & Hf1).
  cbn [array_rows] in H. rewrite Hl in H. cbn [bind] in H.
  rewrite Hlen, <- Hl1 in H.
  replace (S (length (metrictbl c1)) =? length (metrictbl c1) + 1)%nat with true in H
    by (symmetry; apply Nat.eqb_eq; lia).
  destruct (array_row c1 r argtbl p1) as [[c2 p2]| |] eqn:E2; try discriminate.
  cbn [bind fst snd] in H.
  destruct (array_rows post c2 (r + 1) p2 _) as [[[[c3 r3] p3] st3]| |] eqn:E3;
    try discriminate.
  cbn [bind] in H.
  assert (Hc : c3 = c').
  { destruct p3; [|discriminate]. destruct (metrictbl c3 !! n); [|discriminate].
    inversion H. reflexivity. }
  subst c3. clear H.
  assert (Hr0 : 0 <= r) by (unfold r; lia).
  unfold array_row in E2.
  destruct (array_metrics (startrow c1) r argtbl 0 (metrictbl c1) p1) as [[t q]| |] eqn:Em;
    try discriminate.
  cbn [bind fst snd] in E2. inversion E2; subst; clear E2.
  destruct (array_metrics_slots _ _ _ _ _ _ _ _ Em Hr0) as [Hl2 Hs2].
  destruct (array_rows_frame _ _ _ _ _ _ _ _ _ E3 ltac:(lia)) as (_ & _ & Hf3).
  cbn [metrictbl set_metrictbl] in Hf3.
  destruct (Hf1 j m Hj) as (m1 & L1 & Hnd1 & _).
  destruct (Hs2 j m1 L1) as (m2 & L2 & Hnd2 & _ & Hv2).
  destruct (Hf3 j m2 L2) as (m3 & L3 & Hnd3 & Hf3').
  unfold slot. rewrite L3.
  destruct Hv2 as [Hn2 Hv2].
  { intros i0 mi Hi0 Hmi. rewrite Hs1.
    destruct (lookup_lt_is_Some_2 (metrictbl c) i0) as [m0 L0].
    { apply lookup_lt_Some in Hmi. lia. }
    destruct (Hf1 i0 m0 L0) as (mi' & Li' & Hndi & _).
    rewrite Hmi in Li'. inversion Li'; subst mi'. rewrite Hndi.
    apply Hsr. eapply lookup_In; eauto. }
  assert (Hn : 0 < numdevices m) by lia.
  pose proof (Z.div_mod r (numdevices m) ltac:(lia)) as Hdm.
  pose proof (Z.mod_pos_bound r (numdevices m) Hn) as Hmb.
  pose proof (Z.div_pos r (numdevices m) Hr0 Hn) as Hdp.
  rewrite Hf3'.
  - rewrite <- Hnd1. replace (j + 1)%nat with (0 + j + 1)%nat by lia. exact Hv2.
  - unfold numdevices in *. lia.
  - rewrite Hnd2, Hnd1. rewrite !Z2Nat.id by lia. lia.
Qed.

(** C4 (amended).  A pass over the data stanza of a class overwrites the
    slots of the rows it finds: when line [l], at physical row [r] of the
    stanza, is well-formed and at or after the start row of the class, then
    once the stanza is read the slot of that row holds the value parsed from
    [l], whatever the buffer held before the pass (slot [r] of the device of
    each metric for a vector class; slot [r / numdevices] of device
    [r mod numdevices] of each metric for an array class).  Nothing is
    stated for a slot whose row is missing from the stanza or malformed: it
    can keep the value of an earlier pass. *)
Theorem stanza_pass_overwrites
  (c c' : Class) (st st' : State) (pre post : list string) (l : string)
  (argtbl : list string) :
  let r := Z.of_nat (length pre) in
  let vector := (classtype c =? VECTORCLASS)%char in
  let maxargs := if vector then MAXNUMMETRICS else (MAXNUMMETRICS + 1)%nat in
  rest (inputfile st) = (pre ++ l :: post)%list ->
  Forall (has_token maxargs) pre ->
  parse_input_line l maxargs = Ok argtbl ->
  length argtbl = (if vector then length (metrictbl c) else S (length (metrictbl c))) ->
  (forall m, In m (metrictbl c) ->
     startrow c <= (if vector then r else r / numdevices m)) ->
  (if vector then read_vector_stanza c st else read_array_stanza c st) = Ok (c', st') ->
  forall j m, metrictbl c !! j = Some m ->
    if vector
    then slot c' j 0 (length pre) = Some (atof (arg argtbl j))
    else slot c' j (Z.to_nat (r mod numdevices m)) (Z.to_nat (r / numdevices m)) =
         Some (atof (arg argtbl (j + 1))).
Proof.
  intros r vector maxargs. subst maxargs.
  destruct vector; intros Hrest Hpre Hl Hlen Hsr H j m Hj.
  - eapply vector_pass_slot; eauto.
    + apply (Hsr m). eapply lookup_In; eauto.
    + apply lookup_lt_Some in Hj. exact Hj.
  - eapply array_pass_slot; eauto.
Qed.

(** ** The running aggregates *)

Lemma MAX_cases (a b : Q) :
  ((b < a)%Q /\ MAX a b = a) \/ ((a <= b)%Q /\ MAX a b = b).
Proof.
  unfold MAX, Qgt_bool. destruct (Qle_bool a b) eqn:E; cbn [negb].
  - right. split; [apply Qle_bool_iff; exact E|reflexivity].
  - left. split; [|reflexivity].
    apply Qnot_le_lt. intros H. apply Qle_bool_iff in H. congruence.
Qed.

Lemma MAX_ge_l (a b : Q) : (a <= MAX a b)%Q.
Proof. destruct (MAX_cases a b) as [[H ->]|[H ->]]; lra. Qed.

Lemma MAX_ge_r (a b : Q) : (b <= MAX a b)%Q.
Proof. destruct (MAX_cases a b) as [[H ->]|[H ->]]; lra. Qed.

Lemma MAX_lub (a b c : Q) : (a <= c)%Q -> (b <= c)%Q -> (MAX a b <= c)%Q.
Proof. intros. destruct (MAX_cases a b) as [[H' ->]|[H' ->]]; lra. Qed.

Lemma Zsum_insert {A : Type} (f : A -> Z) (l : list A) :
  forall (k : nat) (x y : A),
    l !! k = Some x ->
    Zsum (map f (<[k := y]> l)) = Zsum (map f l) - f x + f y.
Proof.
  induction l as [|a l IH]; intros [|k] x y H; simpl in H; try discriminate.
  - inversion H; subst. cbn. lia.
  - change (Zsum (map f (<[S k:=y]> (a :: l))))
      with (f a + Zsum (map f (<[k:=y]> l))).
    change (Zsum (map f (a :: l))) with (f a + Zsum (map f l)).
    rewrite (IH k x y H). lia.
Qed.

Lemma Qsum_insert {A : Type} (f : A -> Q) (l : list A) :
  forall (k : nat) (x y : A),
    l !! k = Some x ->
    (Qsum (map f (<[k := y]> l)) == Qsum (map f l) - f x + f y)%Q.
Proof.
  induction l as [|a l IH]; intros [|k] x y H; simpl in H; try discriminate.
  - inversion H; subst. cbn. lra.
  - change (Qsum (map f (<[S k:=y]> (a :: l))))
      with (f a + Qsum (map f (<[k:=y]> l)))%Q.
    change (Qsum (map f (a :: l))) with (f a + Qsum (map f l))%Q.
    rewrite (IH k x y H). lra.
Qed.

Lemma Zsum_snoc (l : list Z) (x : Z) : Zsum (l ++ [x]) = Zsum l + x.
Proof. unfold Zsum. induction l as [|a l IH]; cbn; [lia|]. rewrite IH. lia. Qed.

Lemma Qsum_snoc (l : list Q) (x : Q) : (Qsum (l ++ [x]) == Qsum l + x)%Q.
Proof. unfold Qsum. induction l as [|a l IH]; cbn; [lra|]. rewrite IH. lra. Qed.

Lemma In_lookup {A : Type} (l : list A) (x : A) : In x l -> exists i, l !! i = Some x.
Proof.
  induction l as [|a l IH]; intros H; [destruct H|destruct H as [H|H]].
  - exists 0%nat. subst. reflexivity.
  - destruct (IH H) as [i Hi]. exists (S i). exact Hi.
Qed.

Lemma In_insert {A : Type} (l : list A) (k : nat) (y x : A) :
  In x (<[k := y]> l) -> x = y \/ In x l.
Proof.
  revert k. induction l as [|a l IH]; intros [|k] H; cbn in H; auto.
  - destruct H as [H|H]; [left; congruence|right; right; exact H].
  - destruct H as [H|H]; [right; left; exact H|].
    destruct (IH k H) as [E|E]; [left; exact E|right; right; exact E].
Qed.

Lemma new_metric_inv (name : string) : metric_inv (new_metric name).
Proof.
  unfold metric_inv, aggregates_consistent, max_nonneg, new_metric. cbn.
  repeat split; try reflexivity; try lra; try contradiction.
Qed.

Lemma add_device_inv (count_ : Z) (m : Metric) (name : string) :
  metric_inv m -> metric_inv (add_device count_ m name).
Proof.
  intros Hm. unfold add_device. destruct (newdeviceflag name (devicetbl m) true); [|exact Hm].
  destruct Hm as ((H1 & H2 & H3 & H4) & (H5 & H6) & H7).
  unfold metric_inv, aggregates_consistent, max_nonneg.
  cbn [met_number met_max met_sum devicetbl].
  rewrite !List.map_app. cbn [map dev_number dev_sum].
  repeat split.
  - rewrite Zsum_snoc. lia.
  - rewrite Qsum_snoc, H2. lra.
  - intros d Hd. apply in_app_or in Hd as [Hd|[<-|[]]]; [apply H3; exact Hd|exact H5].
  - intros _. destruct (devicetbl m) as [|d0 tbl] eqn:Ed.
    + eexists. split; [left; reflexivity|]. cbn [dev_max]. rewrite H7 by reflexivity. lra.
    + destruct (H4 ltac:(discriminate)) as (d & Hd & Hmax).
      exists d. split; [apply in_or_app; left; exact Hd|exact Hmax].
  - exact H5.
  - intros d Hd. apply in_app_or in Hd as [Hd|[<-|[]]]; [apply H6; exact Hd|cbn; lra].
  - intros E. apply app_eq_nil in E as [_ E]. discriminate.
Qed.

Lemma vector_metric_inv (r : Z) (s : string) (m m' : Metric) :
  vector_metric r s m = Ok m' -> metric_inv m -> metric_inv m'.
Proof.
  unfold vector_metric. destruct (devicetbl m) as [|d tbl] eqn:Ed; [discriminate|].
  destruct (set_value r (atof s) (valuetbl d)) as [values| |]; try discriminate.
  cbn [bind]. intros H; inversion H; subst; clear H.
  intros ((H1 & H2 & H3 & H4) & (H5 & H6) & H7). rewrite Ed in *.
  set (v := atof s) in *.
  pose proof (MAX_ge_l (met_max m) v) as G1.
  pose proof (MAX_ge_r (met_max m) v) as G2.
  pose proof (MAX_ge_l (MAX (met_max m) v) v) as G3.
  pose proof (MAX_lub (MAX (met_max m) v) v (MAX (met_max m) v) ltac:(lra) G2) as G4.
  unfold metric_inv, aggregates_consistent, max_nonneg.
  cbn [met_number met_max met_sum devicetbl map dev_number dev_sum dev_max Zsum Qsum
       fold_right] in *.
  repeat split.
  - lia.
  - rewrite H2. lra.
  - intros d' [<-|Hd']; cbn [dev_max]; [exact G4|].
    specialize (H3 d' (or_intror Hd')). lra.
  - intros _. eexists. split; [left; reflexivity|]. cbn [dev_max]. lra.
  - lra.
  - intros d' [<-|Hd']; cbn [dev_max]; [lra|]. apply H6. right. exact Hd'.
  - discriminate.
Qed.

Lemma array_metric_inv (r : Z) (s : string) (m m' : Metric) :
  array_metric r s m = Ok m' -> metric_inv m -> metric_inv m'.
Proof.
  unfold array_metric.
  destruct (if 0 <=? Z.rem r (numdevices m)
            then devicetbl m !! Z.to_nat (Z.rem r (numdevices m)) else None)
    as [d|] eqn:L; [|discriminate].
  destruct (set_value _ (atof s) (valuetbl d)) as [values| |]; try discriminate.
  cbn [bind]. intros H; inversion H; subst; clear H.
  destruct (0 <=? Z.rem r (numdevices m)); [|discriminate].
  set (k := Z.to_nat (Z.rem r (numdevices m))) in *.
  set (v := atof s) in *.
  intros ((H1 & H2 & H3 & H4) & (H5 & H6) & H7).
  pose proof (lookup_In _ _ _ L) as Hd.
  pose proof (MAX_ge_l (met_max m) v) as G1.
  pose proof (MAX_ge_r (met_max m) v) as G2.
  pose proof (MAX_ge_l (dev_max d) v) as G3.
  pose proof (MAX_ge_r (dev_max d) v) as G4.
  pose proof (H3 d Hd) as G5.
  unfold metric_inv, aggregates_consistent, max_nonneg.
  cbn [met_number met_max met_sum devicetbl].
  repeat split.
  - rewrite (Zsum_insert dev_number _ k d _ L). cbn [dev_number]. lia.
  - rewrite (Qsum_insert dev_sum _ k d _ L). cbn [dev_sum]. rewrite H2. lra.
  - intros d' Hd'. apply In_insert in Hd' as [->|Hd']; cbn [dev_max].
    + apply MAX_lub; lra.
    + specialize (H3 d' Hd'). lra.
  - intros _.
    destruct (MAX_cases (met_max m) v) as [[Hlt E]|[Hle E]]; rewrite E.
    + destruct (H4 ltac:(intros E0; rewrite E0 in Hd; destruct Hd)) as (w & Hw & Hmax).
      destruct (In_lookup _ _ Hw) as [i Hi].
      destruct (Nat.eq_dec i k) as [->|Hne].
      * rewrite L in Hi. inversion Hi; subst w.
        eexists. split.
        -- apply list_elem_of_In. apply list_elem_of_lookup. exists k.
           apply list_lookup_insert_eq. apply lookup_lt_Some in L. exact L.
        -- cbn [dev_max]. destruct (MAX_cases (dev_max d) v) as [[I' E']|[I' E']];
             rewrite E'; lra.
      * exists w. split; [|exact Hmax].
        apply list_elem_of_In. apply list_elem_of_lookup. exists i.
        rewrite list_lookup_insert_ne by congruence. exact Hi.
    + eexists. split.
      * apply list_elem_of_In. apply list_elem_of_lookup. exists k.
        apply list_lookup_insert_eq. apply lookup_lt_Some in L. exact L.
      * cbn [dev_max]. destruct (MAX_cases (dev_max d) v) as [[I' E']|[I' E']];
          rewrite E'; lra.
  - lra.
  - intros d' Hd'. apply In_insert in Hd' as [->|Hd']; cbn [dev_max].
    + specialize (H6 d Hd). lra.
    + apply H6. exact Hd'.
  - intros E0. exfalso. apply (f_equal (@length Device)) in E0.
    rewrite length_insert in E0. apply lookup_lt_Some in L. cbn in E0. lia.
Qed.

Lemma vector_metrics_inv (r : Z) (argtbl : list string) (tbl : list Metric) :
  forall k t, vector_metrics r argtbl k tbl = Ok t ->
              Forall metric_inv tbl -> Forall metric_inv t.
Proof.
  induction tbl as [|m tbl IH]; intros k t H Hinv; cbn [vector_metrics] in H.
  - inversion H. constructor.
  - destruct (vector_metric r (arg argtbl k) m) as [m'| |] eqn:E1; try discriminate.
    cbn [bind] in H.
    destruct (vector_metrics r argtbl (S k) tbl) as [t'| |] eqn:E2; try discriminate.
    cbn [bind] in H. inversion H; subst. apply Forall_cons in Hinv as [Hm Hinv].
    constructor; [eapply vector_metric_inv; eauto|eapply IH; eauto].
Qed.

Lemma array_metrics_inv (sr r : Z) (argtbl : list string) (tbl : list Metric) :
  forall k p t p', array_metrics sr r argtbl k tbl p = Ok (t, p') ->
                   Forall metric_inv tbl -> Forall metric_inv t.
Proof.
  induction tbl as [|m tbl IH]; intros k p t p' H Hinv; cbn [array_metrics] in H.
  - inversion H. constructor.
  - destruct (numdevices m =? 0); [discriminate|].
    destruct (Z.quot r (numdevices m) >=? sr).
    + destruct (array_metric r (arg argtbl (k + 1)) m) as [m'| |] eqn:E1; try discriminate.
      cbn [bind] in H.
      destruct (array_metrics sr r argtbl (S k) tbl (Some k)) as [[t' q]| |] eqn:E2;
        try discriminate.
      cbn [bind fst snd] in H. inversion H; subst. apply Forall_cons in Hinv as [Hm Hinv].
      constructor; [eapply array_metric_inv; eauto|eapply IH; eauto].
    + inversion H; subst. exact Hinv.
Qed.

(** The invariant of a class: every metric satisfies [metric_inv]. *)
Lemma vector_row_inv c r argtbl c' :
  vector_row c r argtbl = Ok c' ->
  Forall metric_inv (metrictbl c) -> Forall metric_inv (metrictbl c').
Proof.
  unfold vector_row. destruct (r >=? startrow c).
  - destruct (vector_metrics r argtbl 0 (metrictbl c)) as [t| |] eqn:E; try discriminate.
    cbn [bind]. intros H; inversion H; subst. cbn [metrictbl set_metrictbl].
    eapply vector_metrics_inv; eauto.
  - intros H; inversion H; subst. auto.
Qed.

Lemma array_row_inv c r argtbl p c' p' :
  array_row c r argtbl p = Ok (c', p') ->
  Forall metric_inv (metrictbl c) -> Forall metric_inv (metrictbl c').
Proof.
  unfold array_row.
  destruct (array_metrics (startrow c) r argtbl 0 (metrictbl c) p) as [[t q]| |] eqn:E;
    try discriminate.
  cbn [bind fst snd]. intros H; inversion H; subst. cbn [metrictbl set_metrictbl].
  eapply array_metrics_inv; eauto.
Qed.

Lemma vector_rows_inv (lines : list string) :
  forall c r st c' r' st',
    vector_rows lines c r st = Ok (c', r', st') ->
    Forall metric_inv (metrictbl c) -> Forall metric_inv (metrictbl c').
Proof.
  induction lines as [|l lines IH]; intros c r st c' r' st' H Hinv; cbn [vector_rows] in H.
  - inversion H; subst. exact Hinv.
  - destruct (parse_input_line l MAXNUMMETRICS) as [argtbl| |]; try discriminate.
    cbn [bind] in H.
    destruct (length argtbl =? length (metrictbl c))%nat.
    + destruct (vector_row c r argtbl) as [c1| |] eqn:E1; try discriminate.
      cbn [bind] in H. eapply IH; eauto. eapply vector_row_inv; eauto.
    + destruct (length argtbl =? 0)%nat.
      * inversion H; subst. exact Hinv.
      * eapply IH; eauto.
Qed.

Lemma array_rows_inv (lines : list string) :
  forall c r p st c' r' p' st',
    array_rows lines c r p st = Ok (c', r', p', st') ->
    Forall metric_inv (metrictbl c) -> Forall metric_inv (metrictbl c').
Proof.
  induction lines as [|l lines IH]; intros c r p st c' r' p' st' H Hinv;
    cbn [array_rows] in H.
  - inversion H; subst. exact Hinv.
  - destruct (parse_input_line l (MAXNUMMETRICS + 1)) as [argtbl| |]; try discriminate.
    cbn [bind] in H.
    destruct (length argtbl =? length (metrictbl c) + 1)%nat.
    + destruct (array_row c r argtbl p) as [[c1 p1]| |] eqn:E1; try discriminate.
      cbn [bind fst snd] in H. eapply IH; eauto. eapply array_row_inv; eauto.
    + destruct (length argtbl =? 0)%nat.
      * inversion H; subst. exact Hinv.
      * eapply IH; eauto.
Qed.

Lemma read_vector_stanza_inv c st c' st' :
  read_vector_stanza c st = Ok (c', st') ->
  Forall metric_inv (metrictbl c) -> Forall metric_inv (metrictbl c').
Proof.
  unfold read_vector_stanza.
  destruct (vector_rows (rest (inputfile st)) c 0 st) as [[[c1 r1] st1]| |] eqn:E;
    try discriminate.
  cbn [bind]. intros H; inversion H; subst. eapply vector_rows_inv; eauto.
Qed.

Lemma read_array_stanza_inv c st c' st' :
  read_array_stanza c st = Ok (c', st') ->
  Forall metric_inv (metrictbl c) -> Forall metric_inv (metrictbl c').
Proof.
  unfold read_array_stanza.
  destruct (array_rows (rest (inputfile st)) c 0 None st) as [[[[c1 r1] p1] st1]| |] eqn:E;
    try discriminate.
  cbn [bind]. destruct p1 as [i|]; [|discriminate].
  destruct (metrictbl c1 !! i); [|discriminate].
  intros H; inversion H; subst. eapply array_rows_inv; eauto.
Qed.

(** The invariant only looks at the aggregates. *)
Lemma metric_inv_view (m m' : Metric) :
  met_view m' = met_view m -> metric_inv m -> metric_inv m'.
Proof.
  unfold met_view. intros E. inversion E as [[E1 E2 E3 E4]]; clear E.
  assert (Hn : map dev_number (devicetbl m') = map dev_number (devicetbl m)).
  { transitivity (map (fun v : Z * Q * Q => fst (fst v)) (map dev_view (devicetbl m'))).
    - symmetry. exact (List.map_map dev_view (fun v => fst (fst v)) _).
    - rewrite E4. exact (List.map_map dev_view (fun v => fst (fst v)) _). }
  assert (Hs : map dev_sum (devicetbl m') = map dev_sum (devicetbl m)).
  { transitivity (map (fun v : Z * Q * Q => snd v) (map dev_view (devicetbl m'))).
    - symmetry. exact (List.map_map dev_view (fun v => snd v) _).
    - rewrite E4. exact (List.map_map dev_view (fun v => snd v) _). }
  assert (Hin : forall d', In d' (devicetbl m') ->
                  exists d, In d (devicetbl m) /\ dev_max d = dev_max d').
  { intros d' Hd'. apply (in_map dev_view) in Hd'. rewrite E4 in Hd'.
    apply in_map_iff in Hd' as (d & Ed & Hd). exists d. split; [exact Hd|].
    unfold dev_view in Ed. congruence. }
  assert (Hin' : forall d, In d (devicetbl m) ->
                  exists d', In d' (devicetbl m') /\ dev_max d' = dev_max d).
  { intros d Hd. apply (in_map dev_view) in Hd. rewrite <- E4 in Hd.
    apply in_map_iff in Hd as (d' & Ed & Hd'). exists d'. split; [exact Hd'|].
    unfold dev_view in Ed. congruence. }
  assert (Hnil : devicetbl m' = [] <-> devicetbl m = []).
  { split; intros E0; apply (f_equal (@length _)) in E4; rewrite E0 in E4;
      rewrite !length_map in E4; cbn in E4.
    - destruct (devicetbl m); [reflexivity|discriminate].
    - destruct (devicetbl m'); [reflexivity|discriminate]. }
  intros ((H1 & H2 & H3 & H4) & (H5 & H6) & H7).
  unfold metric_inv, aggregates_consistent, max_nonneg.
  rewrite E1, E2, E3, Hn, Hs. repeat split; auto.
  - intros d' Hd'. destruct (Hin d' Hd') as (d & Hd & <-). apply H3. exact Hd.
  - intros Hne. destruct H4 as (d & Hd & Hmax).
    { intros E0. apply Hne. apply Hnil. exact E0. }
    destruct (Hin' d Hd) as (d' & Hd' & Ed'). exists d'. split; [exact Hd'|].
    rewrite Ed'. exact Hmax.
  - intros d' Hd'. destruct (Hin d' Hd') as (d & Hd & <-). apply H6. exact Hd.
  - intros E0. apply H7. apply Hnil. exact E0.
Qed.

Lemma metrics_inv_view (l : list Metric) :
  forall l', map met_view l' = map met_view l ->
             Forall metric_inv l -> Forall metric_inv l'.
Proof.
  induction l as [|m l IH]; intros [|m' l'] E H; try discriminate; [constructor|].
  cbn [map] in E. apply Forall_cons in H as [Hm H].
  pose proof (f_equal (hd (met_view m)) E) as E1.
  pose proof (f_equal (@tl _) E) as E2. cbn [hd tl] in E1, E2.
  constructor; [exact (metric_inv_view m m' E1 Hm)|exact (IH l' E2 H)].
Qed.

Lemma classes_inv_view (tbl tbl' : list Class) :
  classes_view tbl' = classes_view tbl -> classes_inv tbl -> classes_inv tbl'.
Proof.
  unfold classes_view, classes_inv. revert tbl'.
  induction tbl as [|c tbl IH]; intros [|c' tbl'] E H; try discriminate; [constructor|].
  cbn [map] in E. apply Forall_cons in H as [Hc H].
  pose proof (f_equal (hd []) E) as E1.
  pose proof (f_equal (@tl _) E) as E2. cbn [hd tl] in E1, E2.
  constructor; [exact (metrics_inv_view _ _ E1 Hc)|exact (IH tbl' E2 H)].
Qed.

(** [read_configfile] changes scales only. *)
Lemma scale_named_device_view name sep q m (tbl : list Device) :
  map dev_view (fst (scale_named_device name sep q m tbl)) = map dev_view tbl.
Proof.
  induction tbl as [|d tbl IH]; [reflexivity|]. cbn [scale_named_device].
  destruct (String.eqb name (metric_device_name sep m d)); [reflexivity|].
  destruct (scale_named_device name sep q m tbl) as [t b]. cbn [fst map] in *.
  rewrite IH. reflexivity.
Qed.

Lemma config_metric_view vector name sep q m r :
  config_metric vector name sep q m = Ok r -> met_view (fst r) = met_view m.
Proof.
  unfold config_metric, met_view. destruct vector.
  - destruct (String.eqb name (metricname m)).
    + destruct (devicetbl m) as [|d tbl] eqn:Ed; [discriminate|].
      intros H; inversion H; subst. cbn. reflexivity.
    + intros H; inversion H; reflexivity.
  - destruct (String.eqb name (metricname m)).
    + intros H; inversion H; subst. cbn. rewrite List.map_map. reflexivity.
    + pose proof (scale_named_device_view name sep q m (devicetbl m)) as Hv.
      destruct (scale_named_device name sep q m (devicetbl m)) as [t b].
      intros H; inversion H; subst. cbn in *. rewrite Hv. reflexivity.
Qed.

Lemma config_metrics_view vector name sep q (tbl : list Metric) :
  forall r, config_metrics vector name sep q tbl = Ok r ->
            map met_view (fst r) = map met_view tbl.
Proof.
  induction tbl as [|m tbl IH]; intros r H; cbn [config_metrics] in H.
  - inversion H; reflexivity.
  - destruct (config_metric vector name sep q m) as [r1| |] eqn:E1; try discriminate.
    cbn [bind] in H.
    destruct (config_metrics vector name sep q tbl) as [r2| |] eqn:E2; try discriminate.
    cbn [bind] in H. inversion H; subst. cbn [fst map].
    rewrite (config_metric_view _ _ _ _ _ _ E1), (IH _ eq_refl). reflexivity.
Qed.

Lemma config_classes_view name sep q (tbl : list Class) :
  forall r, config_classes name sep q tbl = Ok r ->
            classes_view (fst r) = classes_view tbl.
Proof.
  induction tbl as [|c tbl IH]; intros r H; cbn [config_classes] in H.
  - inversion H; reflexivity.
  - destruct (config_metrics _ name sep q (metrictbl c)) as [r1| |] eqn:E1;
      try discriminate.
    cbn [bind] in H.
    destruct (config_classes name sep q tbl) as [r2| |] eqn:E2; try discriminate.
    cbn [bind] in H. inversion H; subst. unfold classes_view. cbn [fst map].
    cbn [metrictbl set_metrictbl].
    rewrite (config_metrics_view _ _ _ _ _ _ E1).
    f_equal. exact (IH _ eq_refl).
Qed.

Lemma configfile_loop_inv (lines : list string) :
  forall st st', configfile_loop lines st = Ok st' ->
                 classes_inv (classtbl st) -> classes_inv (classtbl st').
Proof.
  induction lines as [|l lines IH]; intros st st' H Hinv; cbn [configfile_loop] in H.
  - inversion H; subst. exact Hinv.
  - destruct (parse_input_line l 2) as [argtbl| |]; try discriminate.
    cbn [bind] in H.
    destruct (length argtbl =? 2)%nat.
    + destruct (config_classes _ _ _ (classtbl st)) as [r| |] eqn:E; try discriminate.
      cbn [bind] in H.
      destruct (config_params _ _ (paramtbl st)) as [params legal].
      apply config_classes_view in E.
      eapply IH; [exact H|].
      destruct (snd r || legal); cbn; eapply classes_inv_view; eauto.
    + destruct (negb (length argtbl =? 0)%nat); eapply IH; eauto.
Qed.

(** The emitters for the narrow files change file handles only. *)
Lemma open_device_view name d : dev_view (open_device name d) = dev_view d.
Proof. unfold open_device. destruct (active d); reflexivity. Qed.

Lemma prepare_metric_view sep c m m' :
  prepare_metric sep c m = Ok m' -> met_view m' = met_view m.
Proof.
  unfold prepare_metric, met_view. destruct (classtype c =? VECTORCLASS)%char.
  - destruct (devicetbl m) as [|d tbl] eqn:Ed; [discriminate|].
    intros H; inversion H; subst. cbn. rewrite open_device_view. reflexivity.
  - intros H; inversion H; subst. cbn. rewrite List.map_map. f_equal.
    apply map_ext. intros d. apply open_device_view.
Qed.

Lemma prepare_metrics_view sep c (tbl : list Metric) :
  forall t, prepare_metrics sep c tbl = Ok t -> map met_view t = map met_view tbl.
Proof.
  induction tbl as [|m tbl IH]; intros t H; cbn [prepare_metrics] in H.
  - inversion H; reflexivity.
  - destruct (prepare_metric sep c m) as [m'| |] eqn:E1; try discriminate.
    cbn [bind] in H.
    destruct (prepare_metrics sep c tbl) as [t'| |] eqn:E2; try discriminate.
    cbn [bind] in H. inversion H; subst. cbn [map].
    rewrite (prepare_metric_view _ _ _ _ E1), (IH _ eq_refl). reflexivity.
Qed.

Lemma prepare_classes_view sep (tbl : list Class) :
  forall t, prepare_classes sep tbl = Ok t -> classes_view t = classes_view tbl.
Proof.
  induction tbl as [|c tbl IH]; intros t H; cbn [prepare_classes] in H.
  - inversion H; reflexivity.
  - destruct (prepare_metrics sep c (metrictbl c)) as [t1| |] eqn:E1; try discriminate.
    cbn [bind] in H.
    destruct (prepare_classes sep tbl) as [t2| |] eqn:E2; try discriminate.
    cbn [bind] in H. inversion H; subst. unfold classes_view. cbn [map].
    cbn [metrictbl set_metrictbl].
    rewrite (prepare_metrics_view _ _ _ _ E1). f_equal. exact (IH _ eq_refl).
Qed.

Lemma multifile_device_view fs sr rowidx ts d d' :
  multifile_device fs sr rowidx ts d = Ok d' -> dev_view d' = dev_view d.
Proof.
  unfold multifile_device. destruct (active d); [|intros H; inversion H; reflexivity].
  destruct (rowidx >=? sr); [|intros H; inversion H; reflexivity].
  destruct (get_value rowidx (valuetbl d)); try discriminate. cbn [bind].
  unfold fprintf_device. destruct (fileptr d); [|discriminate].
  intros H; inversion H; reflexivity.
Qed.

Lemma multifile_devices_view fs sr rowidx ts (tbl : list Device) :
  forall t, multifile_devices fs sr rowidx ts tbl = Ok t ->
            map dev_view t = map dev_view tbl.
Proof.
  induction tbl as [|d tbl IH]; intros t H; cbn [multifile_devices] in H.
  - inversion H; reflexivity.
  - destruct (multifile_device fs sr rowidx ts d) as [d'| |] eqn:E1; try discriminate.
    cbn [bind] in H.
    destruct (multifile_devices fs sr rowidx ts tbl) as [t'| |] eqn:E2; try discriminate.
    cbn [bind] in H. inversion H; subst. cbn [map].
    rewrite (multifile_device_view _ _ _ _ _ _ E1), (IH _ eq_refl). reflexivity.
Qed.

Lemma multifile_metric_view fs rowidx ts c m m' :
  multifile_metric fs rowidx ts c m = Ok m' -> met_view m' = met_view m.
Proof.
  unfold multifile_metric, met_view. destruct (classtype c =? VECTORCLASS)%char.
  - destruct (devicetbl m) as [|d tbl] eqn:Ed; [discriminate|].
    destruct (multifile_device fs (startrow c) rowidx ts d) as [d'| |] eqn:E1;
      try discriminate.
    cbn [bind]. intros H; inversion H; subst. cbn.
    rewrite (multifile_device_view _ _ _ _ _ _ E1). reflexivity.
  - destruct (multifile_devices fs (startrow c) rowidx ts (devicetbl m)) as [t| |] eqn:E1;
      try discriminate.
    cbn [bind]. intros H; inversion H; subst. cbn.
    rewrite (multifile_devices_view _ _ _ _ _ _ E1). reflexivity.
Qed.

Lemma multifile_metrics_view fs rowidx ts c (tbl : list Metric) :
  forall t, multifile_metrics fs rowidx ts c tbl = Ok t ->
            map met_view t = map met_view tbl.
Proof.
  induction tbl as [|m tbl IH]; intros t H; cbn [multifile_metrics] in H.
  - inversion H; reflexivity.
  - destruct (multifile_metric fs rowidx ts c m) as [m'| |] eqn:E1; try discriminate.
    cbn [bind] in H.
    destruct (multifile_metrics fs rowidx ts c tbl) as [t'| |] eqn:E2; try discriminate.
    cbn [bind] in H. inversion H; subst. cbn [map].
    rewrite (multifile_metric_view _ _ _ _ _ _ E1), (IH _ eq_refl). reflexivity.
Qed.

Lemma multifile_classes_view fs rowidx ts (tbl : list Class) :
  forall t, multifile_classes fs rowidx ts tbl = Ok t ->
            classes_view t = classes_view tbl.
Proof.
  induction tbl as [|c tbl IH]; intros t H; cbn [multifile_classes] in H.
  - inversion H; reflexivity.
  - destruct (multifile_metrics fs rowidx ts c (metrictbl c)) as [t1| |] eqn:E1;
      try discriminate.
    cbn [bind] in H.
    destruct (multifile_classes fs rowidx ts tbl) as [t2| |] eqn:E2; try discriminate.
    cbn [bind] in H. inversion H; subst. unfold classes_view. cbn [map].
    cbn [metrictbl set_metrictbl].
    rewrite (multifile_metrics_view _ _ _ _ _ _ E1). f_equal. exact (IH _ eq_refl).
Qed.

Lemma multifile_rows_inv (n : nat) :
  forall rowidx ts st st',
    multifile_rows n rowidx ts st = Ok st' ->
    classes_inv (classtbl st) -> classes_inv (classtbl st').
Proof.
  induction n as [|n IH]; intros rowidx ts st st' H Hinv; cbn [multifile_rows] in H.
  - inversion H; subst. exact Hinv.
  - destruct (multifile_classes _ _ _ (classtbl st)) as [t| |] eqn:E; try discriminate.
    cbn [bind] in H. eapply IH; [exact H|]. cbn.
    eapply classes_inv_view; [|exact Hinv]. eapply multifile_classes_view; eauto.
Qed.

Lemma singlefile_rows_classtbl (n : nat) :
  forall rowidx ts st st',
    singlefile_rows n rowidx ts st = Ok st' -> classtbl st' = classtbl st.
Proof.
  induction n as [|n IH]; intros rowidx ts st st' H; cbn [singlefile_rows] in H.
  - inversion H; reflexivity.
  - destruct (body_classes _ _ (classtbl st)); try discriminate. cbn [bind] in H.
    apply IH in H. exact H.
Qed.

(** Every step of [main] keeps the invariant of the class table. *)
Lemma initialize_parameters_classtbl st st' :
  initialize_parameters st = Ok st' -> classtbl st' = classtbl st.
Proof.
  unfold initialize_parameters. destruct (initialize_paramtbl 0 (paramtbl st));
    try discriminate.
  cbn [bind]. intros H; inversion H; reflexivity.
Qed.

Lemma time_values_loop_classtbl (lines : list string) :
  forall st st', time_values_loop lines st = Ok st' -> classtbl st' = classtbl st.
Proof.
  induction lines as [|l lines IH]; intros st st' H; cbn [time_values_loop] in H.
  - inversion H; reflexivity.
  - destruct (parse_input_line l NUMTIMEVALUES) as [argtbl| |]; try discriminate.
    cbn [bind] in H.
    destruct (length argtbl =? NUMTIMEVALUES)%nat.
    + apply IH in H. exact H.
    + destruct (length argtbl =? 0)%nat; [inversion H; reflexivity|discriminate].
Qed.

Lemma initialize_time_values_classtbl st st' :
  initialize_time_values st = Ok st' -> classtbl st' = classtbl st.
Proof.
  unfold initialize_time_values.
  destruct (skip_to_stanza TIMEVALUES true st) as [st1| |] eqn:E; try discriminate.
  cbn [bind]. intros H. apply time_values_loop_classtbl in H.
  apply skip_to_stanza_classtbl in E. congruence.
Qed.

Lemma metadata_loop_inv (lines : list string) :
  forall st st', metadata_loop lines st = Ok st' ->
                 classes_inv (classtbl st) -> classes_inv (classtbl st').
Proof.
  induction lines as [|l lines IH]; intros st st' H Hinv; cbn [metadata_loop] in H.
  - inversion H; subst. exact Hinv.
  - destruct (parse_input_line l MAXNUMMETADATA) as [argtbl| |]; try discriminate.
    cbn [bind] in H.
    destruct (NUMMETAITEMS + 1 <=? length argtbl)%nat.
    + destruct (negb _ && negb _); [discriminate|].
      destruct ((atoi (arg argtbl STARTROWIDX) <? 1) || _); [discriminate|].
      eapply IH; [exact H|]. cbn [classtbl set_classtbl next_line set_inputlinectr set_rest].
      apply Forall_app. split; [exact Hinv|].
      constructor; [|constructor]. cbn [metrictbl].
      apply List.Forall_forall. intros m Hm. apply in_map_iff in Hm as (name & <- & _).
      apply new_metric_inv.
    + destruct (length argtbl =? 0)%nat.
      * inversion H; subst. exact Hinv.
      * eapply IH; eauto.
Qed.

Lemma initialize_metadata_inv st st' :
  initialize_metadata st = Ok st' ->
  classes_inv (classtbl st) -> classes_inv (classtbl st').
Proof.
  unfold initialize_metadata.
  destruct (skip_to_stanza METADATASTR true st) as [st1| |] eqn:E; try discriminate.
  cbn [bind]. intros H Hinv. eapply metadata_loop_inv; [exact H|].
  apply skip_to_stanza_classtbl in E. rewrite E. exact Hinv.
Qed.

Lemma add_class_device_inv count_ c name :
  Forall metric_inv (metrictbl c) ->
  Forall metric_inv (metrictbl (add_class_device count_ c name)).
Proof.
  unfold add_class_device. cbn [metrictbl set_metrictbl]. intros H.
  apply List.Forall_forall. intros m Hm. apply in_map_iff in Hm as (m0 & <- & Hm0).
  apply add_device_inv. rewrite List.Forall_forall in H. apply H. exact Hm0.
Qed.

Lemma array_devices_loop_inv (lines : list string) :
  forall c st c' st',
    array_devices_loop lines c st = Ok (c', st') ->
    Forall metric_inv (metrictbl c) -> Forall metric_inv (metrictbl c').
Proof.
  induction lines as [|l lines IH]; intros c st c' st' H Hinv;
    cbn [array_devices_loop] in H.
  - inversion H; subst. exact Hinv.
  - destruct (parse_input_line l (MAXNUMMETRICS + 1)) as [argtbl| |]; try discriminate.
    cbn [bind] in H.
    destruct (length argtbl =? length (metrictbl c) + 1)%nat.
    + eapply IH; [exact H|]. apply add_class_device_inv. exact Hinv.
    + destruct (length argtbl =? 0)%nat; [inversion H; subst; exact Hinv|discriminate].
Qed.

Lemma vector_devices_inv c st c' st' :
  vector_devices c st = Ok (c', st') ->
  Forall metric_inv (metrictbl c) -> Forall metric_inv (metrictbl c').
Proof.
  unfold vector_devices. destruct (rest (inputfile st)) as [|l lines].
  - intros H; inversion H; subst. auto.
  - destruct (parse_input_line l MAXNUMMETRICS) as [argtbl| |]; try discriminate.
    cbn [bind]. destruct (length argtbl =? length (metrictbl c))%nat; [|discriminate].
    intros H; inversion H; subst. apply add_class_device_inv.
Qed.

Lemma classes_loop_inv (classes : list Class) :
  forall st classes' st',
    classes_loop classes st = Ok (classes', st') ->
    classes_inv classes -> classes_inv classes'.
Proof.
  unfold classes_inv.
  induction classes as [|c classes IH]; intros st classes' st' H Hinv;
    cbn [classes_loop] in H.
  - inversion H; subst. constructor.
  - destruct (skip_to_stanza (datastanza c) true st) as [st1| |]; try discriminate.
    cbn [bind] in H.
    destruct (if (classtype c =? VECTORCLASS)%char then vector_devices c st1
              else array_devices_loop (rest (inputfile st1)) c st1)
      as [[c1 st2]| |] eqn:E; try discriminate.
    cbn [bind] in H.
    destruct (classes_loop classes st2) as [[cs st3]| |] eqn:E2; try discriminate.
    cbn [bind] in H. inversion H; subst. apply Forall_cons in Hinv as [Hc Hinv].
    constructor; [|eapply IH; eauto].
    destruct (classtype c =? VECTORCLASS)%char;
      [eapply vector_devices_inv|eapply array_devices_loop_inv]; eauto.
Qed.

Lemma initialize_classes_inv st st' :
  initialize_classes st = Ok st' ->
  classes_inv (classtbl st) -> classes_inv (classtbl st').
Proof.
  unfold initialize_classes.
  destruct (classes_loop (classtbl st) st) as [[cs st1]| |] eqn:E; try discriminate.
  cbn [bind]. intros H Hinv; inversion H; subst.
  apply classes_loop_inv in E; [|exact Hinv].
  unfold rewind. destruct (is_stdin _); exact E.
Qed.

Lemma discover_inv opts st st' :
  discover opts st = Ok st' ->
  classes_inv (classtbl st) -> classes_inv (classtbl st').
Proof.
  unfold discover, schema. intros H Hinv.
  destruct (initialize_parameters st) as [s1| |] eqn:E1; try discriminate.
  cbn [bind] in H.
  destruct (initialize_time_values s1) as [s2| |] eqn:E2; try discriminate.
  cbn [bind] in H.
  destruct (initialize_metadata s2) as [s3| |] eqn:E3; try discriminate.
  cbn [bind] in H.
  destruct (initialize_timestamp s3) as [s4| |] eqn:E4; try discriminate.
  cbn [bind] in H.
  destruct (initialize_classes s4) as [s5| |] eqn:E5; try discriminate.
  cbn [bind] in H.
  apply initialize_parameters_classtbl in E1.
  apply initialize_time_values_classtbl in E2.
  apply initialize_timestamp_classtbl in E4.
  assert (H5 : classes_inv (classtbl s5)).
  { eapply initialize_classes_inv; [exact E5|]. rewrite E4.
    eapply initialize_metadata_inv; [exact E3|]. rewrite E2, E1. exact Hinv. }
  destruct (configfilename opts) as [[s|]|].
  - eapply configfile_loop_inv; eauto.
  - discriminate.
  - inversion H; subst. exact H5.
Qed.

Lemma first_file_inv opts st st' :
  first_file opts st = Ok st' ->
  classes_inv (classtbl st) -> classes_inv (classtbl st').
Proof.
  unfold first_file. intros H Hinv.
  destruct (discover opts st) as [s1| |] eqn:E1; try discriminate. cbn [bind] in H.
  apply discover_inv in E1; [|exact Hinv].
  unfold check_metric_names in H.
  destruct (List.find _ _) as [[[? ?] ?]|]; try discriminate. cbn [bind] in H.
  unfold prepare_single_output_file, output_singlefile_headers in H.
  assert (exists s2, classtbl s2 = classtbl s1 /\
                     prepare_multi_output_files (multifiledirname opts) s2 = Ok st')
    as (s2 & E2 & H2).
  { destruct (singlefilename opts).
    - destruct (header_classes _ (classtbl s1)); try discriminate.
      cbn [bind] in H. eexists. split; [|exact H]. reflexivity.
    - cbn [bind] in H. exists s1. split; [reflexivity|exact H]. }
  unfold prepare_multi_output_files in H2. rewrite <- E2 in E1.
  destruct (multifiledirname opts).
  - destruct (prepare_classes _ (classtbl s2)) as [t| |] eqn:E3; try discriminate.
    cbn [bind] in H2. inversion H2; subst. cbn.
    eapply classes_inv_view; [|exact E1]. eapply prepare_classes_view; eauto.
  - inversion H2; subst. exact E1.
Qed.

Lemma read_classes_inv (classes : list Class) :
  forall st r, read_classes classes st = Ok r ->
               classes_inv classes -> classes_inv (fst r).
Proof.
  unfold classes_inv.
  induction classes as [|c classes IH]; intros st r H Hinv; cbn [read_classes] in H.
  - inversion H; subst. constructor.
  - destruct (skip_to_stanza (datastanza c) false st) as [st1| |]; try discriminate.
    cbn [bind] in H.
    destruct (if (classtype c =? VECTORCLASS)%char then read_vector_stanza c st1
              else read_array_stanza c st1) as [[c1 st2]| |] eqn:E; try discriminate.
    cbn [bind fst snd] in H.
    destruct (read_classes classes st2) as [r2| |] eqn:E2; try discriminate.
    cbn [bind] in H. inversion H; subst. apply Forall_cons in Hinv as [Hc Hinv].
    cbn [fst]. constructor; [|eapply IH; eauto].
    destruct (classtype c =? VECTORCLASS)%char;
      [eapply read_vector_stanza_inv|eapply read_array_stanza_inv]; eauto.
Qed.

Lemma read_inputfile_loop_inv (fuel : nat) :
  forall opts ts st r,
    read_inputfile_loop fuel opts ts st = Ok r ->
    classes_inv (classtbl st) -> classes_inv (classtbl (snd r)).
Proof.
  induction fuel as [|fuel IH]; intros opts ts st r H Hinv;
    cbn [read_inputfile_loop] in H; [discriminate|].
  destruct (skip_to_stanza DATESTR false st) as [s1| |] eqn:E1; try discriminate.
  cbn [bind] in H. apply skip_to_stanza_classtbl in E1.
  destruct (rest (inputfile s1)) as [|l lines].
  - inversion H; subst. cbn [snd]. rewrite E1. exact Hinv.
  - destruct (parse_input_line l NUMDATEARGS) as [argtbl| |]; try discriminate.
    cbn [bind] in H.
    match type of H with
    | bind (read_classes ?t ?s) _ = _ =>
        destruct (read_classes t s) as [rc| |] eqn:E2; try discriminate;
        assert (Hc : classes_inv (fst rc))
    end.
    { eapply read_classes_inv; [exact E2|].
      destruct (length argtbl =? NUMDATEARGS)%nat; cbn; rewrite E1; exact Hinv. }
    cbn [bind] in H.
    match type of H with
    | bind ?x _ = _ => destruct x as [s3| |] eqn:E3; try discriminate
    end.
    cbn [bind] in H.
    match type of H with
    | bind ?x _ = _ => destruct x as [s4| |] eqn:E4; try discriminate
    end.
    cbn [bind] in H. eapply IH; [exact H|].
    assert (H3 : classes_inv (classtbl s3)).
    { destruct (singlefilename opts).
      - unfold output_singlefile_body in E3. apply singlefile_rows_classtbl in E3.
        rewrite E3. exact Hc.
      - inversion E3; subst. exact Hc. }
    destruct (multifiledirname opts).
    + unfold output_multifile_bodies_data in E4. eapply multifile_rows_inv; eauto.
    + inversion E4; subst. exact H3.
Qed.

Lemma main_loop_inv opts (argv : list Input) :
  forall flag st st',
    main_loop opts argv flag st = Ok st' ->
    classes_inv (classtbl st) -> classes_inv (classtbl st').
Proof.
  induction argv as [|a argv IH]; intros flag st st' H Hinv; cbn [main_loop] in H.
  - inversion H; subst. exact Hinv.
  - destruct (open_input a) as [f|].
    + match type of H with
      | bind ?x _ = _ => destruct x as [s1| |] eqn:E1; try discriminate
      end.
      cbn [bind] in H.
      destruct (read_inputfile opts s1) as [r| |] eqn:E2; try discriminate.
      cbn [bind] in H. eapply IH; [exact H|].
      unfold read_inputfile in E2. eapply read_inputfile_loop_inv; [exact E2|].
      cbn. destruct flag.
      * eapply first_file_inv; [exact E1|]. exact Hinv.
      * inversion E1; subst. exact Hinv.
    + eapply IH; [exact H|]. exact Hinv.
Qed.

Lemma main_inv opts argv st : main opts argv = Ok st -> classes_inv (classtbl st).
Proof.
  unfold main. destruct argv as [|a argv]; [discriminate|].
  intros H. eapply main_loop_inv; [exact H|].
  unfold start_state. destruct (negb _ && negb _); constructor.
Qed.

Lemma classes_inv_In (tbl : list Class) (c : Class) (m : Metric) :
  classes_inv tbl -> In c tbl -> In m (metrictbl c) -> metric_inv m.
Proof.
  unfold classes_inv. rewrite List.Forall_forall. intros H Hc Hm.
  specialize (H c Hc). rewrite List.Forall_forall in H. apply H. exact Hm.
Qed.


Lemma MAX_negative (a v : Q) : (0 <= a)%Q -> (v < 0)%Q -> MAX a v = a.
Proof.
  intros Ha Hv. destruct (MAX_cases a v) as [[_ E]|[Hle _]]; [exact E|lra].
Qed.

Lemma fold_MAX_negative (vs : list Q) :
  Forall (fun v => (v < 0)%Q) vs -> fold_left MAX vs 0%Q = 0%Q.
Proof.
  induction vs as [|v vs IH]; intros H; [reflexivity|].
  apply Forall_cons in H as [Hv H]. cbn [fold_left].
  rewrite MAX_negative by (try exact Hv; lra). apply IH. exact H.
Qed.


(** ** The loop bounds of the model are never exhausted *)

Lemma skip_lines_remaining (stanza : string) (lines : list string) :
  forall (st : State) (N : nat),
    (length lines <= N)%nat -> (remaining st <= N)%nat ->
    (remaining (snd (skip_lines stanza lines st)) <= N)%nat.
Proof.
  induction lines as [|l lines IH]; intros st N Hl Hr; cbn [skip_lines]; [exact Hr|].
  cbn [length] in Hl.
  destruct (String.eqb (chop l) stanza); cbn [snd].
  - unfold remaining. cbn. lia.
  - apply IH; [lia|]. unfold remaining. cbn. lia.
Qed.

Lemma skip_to_stanza_remaining (stanza : string) (flag : bool) (st st' : State) :
  skip_to_stanza stanza flag st = Ok st' -> (remaining st' <= remaining st)%nat.
Proof.
  unfold skip_to_stanza.
  pose proof (skip_lines_remaining stanza (rest (inputfile st)) st (remaining st)
                (Nat.le_refl _) (Nat.le_refl _)) as H.
  destruct (skip_lines stanza (rest (inputfile st)) st) as [b s1].
  destruct (negb b && flag); [discriminate|]. intros E; inversion E; subst. exact H.
Qed.

Lemma vector_rows_remaining (lines : list string) :
  forall c r st N c' r' st',
    (length lines <= N)%nat -> (remaining st <= N)%nat ->
    vector_rows lines c r st = Ok (c', r', st') -> (remaining st' <= N)%nat.
Proof.
  induction lines as [|l lines IH]; intros c r st N c' r' st' Hl Hr H;
    cbn [vector_rows] in H.
  - inversion H; subst. exact Hr.
  - cbn [length] in Hl.
    destruct (parse_input_line l MAXNUMMETRICS) as [argtbl| |]; try discriminate.
    cbn [bind] in H.
    destruct (length argtbl =? length (metrictbl c))%nat.
    + destruct (vector_row c r argtbl) as [c1| |]; try discriminate. cbn [bind] in H.
      eapply IH; [| |exact H]; [lia|unfold remaining; cbn; lia].
    + destruct (length argtbl =? 0)%nat.
      * inversion H; subst. unfold remaining. cbn. lia.
      * eapply IH; [| |exact H]; [lia|unfold remaining; cbn; lia].
Qed.

Lemma array_rows_remaining (lines : list string) :
  forall c r p st N c' r' p' st',
    (length lines <= N)%nat -> (remaining st <= N)%nat ->
    array_rows lines c r p st = Ok (c', r', p', st') -> (remaining st' <= N)%nat.
Proof.
  induction lines as [|l lines IH]; intros c r p st N c' r' p' st' Hl Hr H;
    cbn [array_rows] in H.
  - inversion H; subst. exact Hr.
  - cbn [length] in Hl.
    destruct (parse_input_line l (MAXNUMMETRICS + 1)) as [argtbl| |]; try discriminate.
    cbn [bind] in H.
    destruct (length argtbl =? length (metrictbl c) + 1)%nat.
    + destruct (array_row c r argtbl p) as [[c1 p1]| |]; try discriminate.
      cbn [bind fst snd] in H.
      eapply IH; [| |exact H]; [lia|unfold remaining; cbn; lia].
    + destruct (length argtbl =? 0)%nat.
      * inversion H; subst. unfold remaining. cbn. lia.
      * eapply IH; [| |exact H]; [lia|unfold remaining; cbn; lia].
Qed.

Lemma read_vector_stanza_remaining c st c' st' :
  read_vector_stanza c st = Ok (c', st') -> (remaining st' <= remaining st)%nat.
Proof.
  unfold read_vector_stanza.
  destruct (vector_rows (rest (inputfile st)) c 0 st) as [[[c1 r1] st1]| |] eqn:E;
    try discriminate.
  cbn [bind]. intros H; inversion H; subst.
  apply vector_rows_remaining with (N := remaining st) in E; try (unfold remaining; lia).
  destruct (negb (r1 =? count st1)); exact E.
Qed.

Lemma read_array_stanza_remaining c st c' st' :
  read_array_stanza c st = Ok (c', st') -> (remaining st' <= remaining st)%nat.
Proof.
  unfold read_array_stanza.
  destruct (array_rows (rest (inputfile st)) c 0 None st) as [[[[c1 r1] p1] st1]| |] eqn:E;
    try discriminate.
  cbn [bind]. destruct p1 as [i|]; [|discriminate].
  destruct (metrictbl c1 !! i) as [m|]; [|discriminate].
  intros H; inversion H; subst.
  apply array_rows_remaining with (N := remaining st) in E; try (unfold remaining; lia).
  destruct (negb (r1 =? count st1 * numdevices m)); exact E.
Qed.

Lemma read_classes_remaining (classes : list Class) :
  forall st r, read_classes classes st = Ok r -> (remaining (snd r) <= remaining st)%nat.
Proof.
  induction classes as [|c classes IH]; intros st r H; cbn [read_classes] in H.
  - inversion H; subst. cbn [snd]. lia.
  - destruct (skip_to_stanza (datastanza c) false st) as [st1| |] eqn:E1; try discriminate.
    cbn [bind] in H. apply skip_to_stanza_remaining in E1.
    destruct (if (classtype c =? VECTORCLASS)%char then read_vector_stanza c st1
              else read_array_stanza c st1) as [[c1 st2]| |] eqn:E2; try discriminate.
    cbn [bind fst snd] in H.
    assert (H2 : (remaining st2 <= remaining st1)%nat).
    { destruct (classtype c =? VECTORCLASS)%char;
        [eapply read_vector_stanza_remaining|eapply read_array_stanza_remaining]; eauto. }
    destruct (read_classes classes st2) as [r2| |] eqn:E3; try discriminate.
    cbn [bind] in H. inversion H; subst. cbn [snd]. apply IH in E3. lia.
Qed.

Lemma singlefile_rows_inputfile (n : nat) :
  forall rowidx ts st st',
    singlefile_rows n rowidx ts st = Ok st' -> inputfile st' = inputfile st.
Proof.
  induction n as [|n IH]; intros rowidx ts st st' H; cbn [singlefile_rows] in H.
  - inversion H; reflexivity.
  - destruct (body_classes _ _ (classtbl st)); try discriminate. cbn [bind] in H.
    apply IH in H. exact H.
Qed.

Lemma multifile_rows_inputfile (n : nat) :
  forall rowidx ts st st',
    multifile_rows n rowidx ts st = Ok st' -> inputfile st' = inputfile st.
Proof.
  induction n as [|n IH]; intros rowidx ts st st' H; cbn [multifile_rows] in H.
  - inversion H; reflexivity.
  - destruct (multifile_classes _ _ _ (classtbl st)); try discriminate. cbn [bind] in H.
    apply IH in H. exact H.
Qed.

Lemma fuel_ok_bind {A B : Type} (r : result A) (k : A -> result B) :
  fuel_ok r -> (forall a, r = Ok a -> fuel_ok (k a)) -> fuel_ok (bind r k).
Proof.
  unfold fuel_ok. intros Hr Hk. destruct r as [a|c d|f]; cbn [bind].
  - apply Hk. reflexivity.
  - discriminate.
  - intros E. apply Hr. inversion E. reflexivity.
Qed.

Lemma benign_fuel_ok {A : Type} (r : result A) : benign r -> fuel_ok r.
Proof. intros [_ H]. exact H. Qed.

(** Every iteration of the loop of [read_inputfile] that goes on has read a
    line: a bound above the number of lines left is enough. *)
Lemma read_inputfile_loop_fuel (fuel : nat) :
  forall opts ts st,
    (remaining st < fuel)%nat -> fuel_ok (read_inputfile_loop fuel opts ts st).
Proof.
  induction fuel as [|fuel IH]; intros opts ts st Hf; [lia|].
  cbn [read_inputfile_loop].
  apply fuel_ok_bind; [apply benign_fuel_ok, skip_to_stanza_benign|intros s1 E1].
  apply skip_to_stanza_remaining in E1.
  destruct (rest (inputfile s1)) as [|l lines] eqn:Er; [discriminate|].
  apply fuel_ok_bind; [apply benign_fuel_ok, parse_input_line_benign|intros argtbl _].
  apply fuel_ok_bind; [apply benign_fuel_ok, read_classes_benign|intros r E3].
  assert (H3 : (remaining (snd r) <= length lines)%nat).
  { apply read_classes_remaining in E3.
    destruct (length argtbl =? NUMDATEARGS)%nat; unfold remaining in *; cbn in E3; lia. }
  apply fuel_ok_bind.
  { apply benign_fuel_ok.
    destruct (singlefilename opts); [apply singlefile_rows_benign|apply benign_Ok]. }
  intros s3 E4.
  assert (H4 : inputfile s3 = inputfile (snd r)).
  { destruct (singlefilename opts).
    - apply singlefile_rows_inputfile in E4. exact E4.
    - inversion E4; reflexivity. }
  apply fuel_ok_bind.
  { apply benign_fuel_ok.
    destruct (multifiledirname opts); [apply multifile_rows_benign|apply benign_Ok]. }
  intros s4 E5.
  assert (H5 : inputfile s4 = inputfile s3).
  { destruct (multifiledirname opts).
    - apply multifile_rows_inputfile in E5. exact E5.
    - inversion E5; reflexivity. }
  apply IH. unfold remaining in *. rewrite H5, H4. rewrite Er in E1. cbn in E1. lia.
Qed.

Lemma read_inputfile_benign (opts : Options) (st : State) :
  benign (read_inputfile opts st).
Proof.
  split; [apply read_inputfile_no_exit|].
  apply read_inputfile_loop_fuel. unfold remaining. cbn. lia.
Qed.

Create HintDb fuel.

Lemma fuel_ok_Ok {A : Type} (a : A) : fuel_ok (Ok a).
Proof. discriminate. Qed.

Lemma fuel_ok_Exit {A : Type} (c : Z) (d : Diag) : fuel_ok (@Exit A c d).
Proof. discriminate. Qed.

#[local] Hint Resolve fuel_ok_Ok fuel_ok_Exit : fuel.

Ltac fuel_step :=
  match goal with
  | |- fuel_ok (Ok _) => apply fuel_ok_Ok
  | |- fuel_ok (Exit _ _) => apply fuel_ok_Exit
  | |- fuel_ok (Crash _) => discriminate
  | |- fuel_ok (bind _ _) => apply fuel_ok_bind; [|intros ? _]
  | |- fuel_ok (let '(_, _) := ?x in _) => destruct x
  | |- fuel_ok (match ?x with _ => _ end) => destruct x
  | |- fuel_ok (if ?b then _ else _) => destruct b
  end.

Ltac fuel_tac := repeat (try solve [eauto with fuel]; fuel_step).

Lemma parse_input_line_fuel_ok (s : string) (n : nat) : fuel_ok (parse_input_line s n).
Proof. apply benign_fuel_ok, parse_input_line_benign. Qed.

Lemma skip_to_stanza_fuel_ok stanza flag st : fuel_ok (skip_to_stanza stanza flag st).
Proof. unfold skip_to_stanza. fuel_tac. Qed.

Lemma read_inputfile_fuel_ok opts st : fuel_ok (read_inputfile opts st).
Proof. apply benign_fuel_ok, read_inputfile_benign. Qed.

#[local] Hint Resolve parse_input_line_fuel_ok skip_to_stanza_fuel_ok
  read_inputfile_fuel_ok : fuel.

Lemma initialize_paramtbl_fuel_ok (tbl : list Param) :
  forall i, fuel_ok (initialize_paramtbl i tbl).
Proof. induction tbl; intros i; cbn [initialize_paramtbl]; fuel_tac. Qed.

#[local] Hint Resolve initialize_paramtbl_fuel_ok : fuel.

Lemma time_values_loop_fuel_ok (lines : list string) :
  forall st, fuel_ok (time_values_loop lines st).
Proof. induction lines; intros st; cbn [time_values_loop]; fuel_tac. Qed.

Lemma metadata_loop_fuel_ok (lines : list string) :
  forall st, fuel_ok (metadata_loop lines st).
Proof. induction lines; intros st; cbn [metadata_loop]; fuel_tac. Qed.

Lemma timestamp_loop_fuel_ok (lines : list string) :
  forall n st, fuel_ok (timestamp_loop lines n st).
Proof. induction lines; intros n st; cbn [timestamp_loop]; fuel_tac. Qed.

Lemma array_devices_loop_fuel_ok (lines : list string) :
  forall c st, fuel_ok (array_devices_loop lines c st).
Proof. induction lines; intros c st; cbn [array_devices_loop]; fuel_tac. Qed.

Lemma vector_devices_fuel_ok c st : fuel_ok (vector_devices c st).
Proof. unfold vector_devices. fuel_tac. Qed.

#[local] Hint Resolve time_values_loop_fuel_ok metadata_loop_fuel_ok
  timestamp_loop_fuel_ok array_devices_loop_fuel_ok vector_devices_fuel_ok : fuel.

Lemma classes_loop_fuel_ok (classes : list Class) :
  forall st, fuel_ok (classes_loop classes st).
Proof. induction classes; intros st; cbn [classes_loop]; fuel_tac. Qed.

Lemma config_metric_fuel_ok vector name sep q m :
  fuel_ok (config_metric vector name sep q m).
Proof. unfold config_metric. fuel_tac. Qed.

#[local] Hint Resolve classes_loop_fuel_ok config_metric_fuel_ok : fuel.

Lemma config_metrics_fuel_ok vector name sep q (tbl : list Metric) :
  fuel_ok (config_metrics vector name sep q tbl).
Proof. induction tbl; cbn [config_metrics]; fuel_tac. Qed.

#[local] Hint Resolve config_metrics_fuel_ok : fuel.

Lemma config_classes_fuel_ok name sep q (tbl : list Class) :
  fuel_ok (config_classes name sep q tbl).
Proof. induction tbl; cbn [config_classes]; fuel_tac. Qed.

#[local] Hint Resolve config_classes_fuel_ok : fuel.

Lemma configfile_loop_fuel_ok (lines : list string) :
  forall st, fuel_ok (configfile_loop lines st).
Proof. induction lines; intros st; cbn [configfile_loop]; fuel_tac. Qed.

#[local] Hint Resolve configfile_loop_fuel_ok : fuel.

Lemma header_metrics_fuel_ok sep c (tbl : list Metric) : fuel_ok (header_metrics sep c tbl).
Proof.
  induction tbl; cbn [header_metrics]; fuel_tac.
  apply benign_fuel_ok, emitted_devices_benign.
Qed.

#[local] Hint Resolve header_metrics_fuel_ok : fuel.

Lemma header_classes_fuel_ok sep (tbl : list Class) : fuel_ok (header_classes sep tbl).
Proof. induction tbl; cbn [header_classes]; fuel_tac. Qed.

Lemma prepare_metric_fuel_ok sep c m : fuel_ok (prepare_metric sep c m).
Proof. unfold prepare_metric. fuel_tac. Qed.

#[local] Hint Resolve header_classes_fuel_ok prepare_metric_fuel_ok : fuel.

Lemma prepare_metrics_fuel_ok sep c (tbl : list Metric) :
  fuel_ok (prepare_metrics sep c tbl).
Proof. induction tbl; cbn [prepare_metrics]; fuel_tac. Qed.

#[local] Hint Resolve prepare_metrics_fuel_ok : fuel.

Lemma prepare_classes_fuel_ok sep (tbl : list Class) : fuel_ok (prepare_classes sep tbl).
Proof. induction tbl; cbn [prepare_classes]; fuel_tac. Qed.

#[local] Hint Resolve prepare_classes_fuel_ok : fuel.

Lemma first_file_fuel_ok opts st : fuel_ok (first_file opts st).
Proof.
  unfold first_file, discover, schema, initialize_parameters, initialize_time_values,
    initialize_metadata, initialize_timestamp, initialize_classes, read_configfile,
    check_metric_names, prepare_single_output_file, output_singlefile_headers,
    prepare_multi_output_files.
  fuel_tac.
Qed.

#[local] Hint Resolve first_file_fuel_ok : fuel.

Lemma main_loop_fuel_ok opts (argv : list Input) :
  forall flag st, fuel_ok (main_loop opts argv flag st).
Proof. induction argv; intros flag st; cbn [main_loop]; fuel_tac. Qed.

(** No loop bound of the model is reached in a run of [main]: the outcome is
    the state at [exit(0)], an [exit(1)] with its diagnostic, or undefined
    behaviour of the C program. *)
Lemma main_fuel_ok (opts : Options) (argv : list Input) : fuel_ok (main opts argv).
Proof. unfold main. destruct argv; [discriminate|]. apply main_loop_fuel_ok. Qed.

(** ** Further properties of the tokenizer *)

Lemma append_assoc_ (s t u : string) : ((s ++ t) ++ u = s ++ (t ++ u))%string.
Proof. induction s as [|c s IH]; simpl; [reflexivity|]. now rewrite IH. Qed.

Lemma skip_whitespace_suffix (s : string) :
  exists p, s = (p ++ skip_whitespace s)%string.
Proof.
  induction s as [|c s [p IH]]; simpl; [exists EmptyString; reflexivity|].
  destruct (WHITESPACE c).
  - exists (String c p). simpl. now rewrite <- IH.
  - exists EmptyString. reflexivity.
Qed.

(** The inner loop splits the string: the characters stepped over, then the
    string at which it stops. *)
Lemma scan_token_split (b : bool) (s : string) :
  forall tok r, scan_token b s = (tok, r) -> s = (tok ++ r)%string.
Proof.
  induction s as [|c s IH]; simpl; intros tok r H.
  - inversion H. reflexivity.
  - destruct (negb (WHITESPACE c) || b).
    + destruct ((c =? QUOTECHAR)%char && b).
      * inversion H. reflexivity.
      * destruct (scan_token b s) as [tok' r'] eqn:E. inversion H; subst.
        simpl. now rewrite <- (IH tok' r).
    + inversion H. reflexivity.
Qed.

Lemma end_token_suffix (s : string) :
  exists p, s = (p ++ end_token s)%string.
Proof.
  destruct s as [|c s]; simpl; [exists EmptyString; reflexivity|].
  destruct (skip_whitespace_suffix s) as [p Hp].
  exists (String c p). simpl. now rewrite <- Hp.
Qed.

Lemma parse_tokens_outcome (f : nat) :
  forall (s : string) (a n : nat),
    (String.length s < f)%nat ->
    (exists args, parse_tokens f s a n = Ok args /\
                  Forall (fun tok => tok <> EmptyString) args) \/
    (parse_tokens f s a n = Crash OutOfBounds /\
     exists p, s = (p ++ String QUOTECHAR EmptyString)%string).
Proof.
  induction f as [|f IH]; intros s a n H; [lia|].
  destruct s as [|c s]; simpl; [left; eexists; split; [reflexivity|constructor]|].
  destruct (c =? COMMENTCHAR)%char; [left; eexists; split; [reflexivity|constructor]|].
  destruct (a <? n)%nat; [|left; eexists; split; [reflexivity|constructor]].
  assert (Hstep : forall c0 body b pre,
             String c s = (pre ++ String c0 body)%string ->
             (exists args,
                 (let '(tok, r) := scan_token b body in
                  bind (parse_tokens f (end_token r) (S a) n)
                    (fun args => Ok (String c0 tok :: args))) = Ok args /\
                 Forall (fun tok => tok <> EmptyString) args) \/
             ((let '(tok, r) := scan_token b body in
               bind (parse_tokens f (end_token r) (S a) n)
                 (fun args => Ok (String c0 tok :: args))) = Crash OutOfBounds /\
              exists p, String c s = (p ++ String QUOTECHAR EmptyString)%string)).
  { intros c0 body b pre Hs.
    pose proof (scan_token_length b body) as Hl.
    destruct (scan_token b body) as [tok r] eqn:E; simpl in Hl.
    pose proof (end_token_length r) as He.
    assert (Hlen : (String.length (String c0 body) <= String.length (String c s))%nat).
    { rewrite Hs, length_append. lia. }
    simpl in Hlen, H.
    destruct (IH (end_token r) (S a) n ltac:(lia)) as [[args [Ha Hf]]|[Ha [p Hp]]].
    - left. rewrite Ha. simpl. eexists; split; [reflexivity|].
      constructor; [discriminate|exact Hf].
    - right. rewrite Ha. simpl. split; [reflexivity|].
      apply scan_token_split in E. destruct (end_token_suffix r) as [p' Hp'].
      exists (pre ++ String c0 (tok ++ p' ++ p))%string.
      rewrite Hs, E, Hp' at 1. rewrite Hp at 1.
      rewrite !append_assoc_. simpl. rewrite !append_assoc_. reflexivity. }
  destruct (c =? QUOTECHAR)%char eqn:Eq.
  - destruct s as [|c0 body].
    + right. split; [reflexivity|]. exists EmptyString.
      apply Ascii.eqb_eq in Eq. subst. reflexivity.
    + apply (Hstep c0 body true (String c EmptyString)). reflexivity.
  - apply (Hstep c s false EmptyString). reflexivity.
Qed.

(** X1.  [parse_input_line] either returns at most [maxargs] tokens, none of
    them empty, or reads past the end of the line; the latter only when the
    last character of the line is a quote that opens a field.  It never
    exits and never stores a pointer beyond [argtbl[maxargs-1]]. *)
Theorem parse_input_line_outcome (inputline : string) (maxargs : nat) :
  (exists argtbl,
      parse_input_line inputline maxargs = Ok argtbl /\
      (length argtbl <= maxargs)%nat /\
      Forall (fun tok => tok <> EmptyString) argtbl) \/
  (parse_input_line inputline maxargs = Crash OutOfBounds /\
   exists p, inputline = (p ++ String QUOTECHAR EmptyString)%string).
Proof.
  unfold parse_input_line.
  destruct (parse_tokens_outcome (S (String.length (skip_whitespace inputline)))
              (skip_whitespace inputline) 0 maxargs ltac:(lia))
    as [[args [Ha Hf]]|[Ha [p Hp]]].
  - left. exists args. split; [exact Ha|]. split; [|exact Hf].
    apply parse_tokens_bound in Ha. lia.
  - right. split; [exact Ha|].
    destruct (skip_whitespace_suffix inputline) as [p' Hp'].
    exists (p' ++ p)%string. rewrite Hp' at 1. rewrite Hp at 1.
    now rewrite append_assoc_.
Qed.

(** Only the comparison of [argidx] with [maxargs] matters. *)
Lemma parse_tokens_shift (f : nat) :
  forall (s : string) (a n : nat),
    parse_tokens f s (S a) (S n) = parse_tokens f s a n.
Proof.
  induction f as [|f IH]; intros s a n; [reflexivity|].
  destruct s as [|c s]; simpl; [reflexivity|].
  destruct (c =? COMMENTCHAR)%char; [reflexivity|].
  change (S a <? S n)%nat with (a <? n)%nat.
  destruct (a <? n)%nat; [|reflexivity].
  destruct (c =? QUOTECHAR)%char.
  - destruct s as [|c0 body]; [reflexivity|].
    destruct (scan_token true body) as [tok r]. now rewrite IH.
  - destruct (scan_token false s) as [tok r]. now rewrite IH.
Qed.

Lemma skip_whitespace_all_blank (w s : string) :
  all_blank w = true -> skip_whitespace (w ++ s) = skip_whitespace s.
Proof.
  induction w as [|c w IH]; simpl; intros H; [reflexivity|].
  apply andb_true_iff in H as [H1 H2]. rewrite H1. auto.
Qed.

Lemma scan_token_plain (tok : string) :
  forall (w : ascii) (s : string),
    blank_free tok = true -> WHITESPACE w = true ->
    scan_token false (tok ++ String w s) = (tok, String w s).
Proof.
  induction tok as [|c tok IH]; simpl; intros w s Hb Hw.
  - rewrite Hw. reflexivity.
  - apply andb_true_iff in Hb as [H1 H2]. rewrite H1. simpl.
    rewrite andb_false_r. rewrite (IH w s H2 Hw). reflexivity.
Qed.

Lemma skip_whitespace_render (fields : list (string * string)) :
  well_separated fields -> skip_whitespace (render fields) = render fields.
Proof.
  intros H. destruct H as [|[tok sep] fields [Hp _] _]; [reflexivity|].
  simpl in *. destruct tok as [|c tok]; [discriminate|]. simpl in *.
  apply andb_true_iff in Hp as [_ Hp]. apply andb_true_iff in Hp as [Hp _].
  apply negb_true_iff in Hp. now rewrite Hp.
Qed.

Lemma parse_tokens_render (fields : list (string * string)) :
  forall (f a n : nat),
    well_separated fields ->
    (String.length (render fields) < f)%nat ->
    parse_tokens f (render fields) a n = Ok (take (n - a) (map fst fields)).
Proof.
  induction fields as [|[tok sep] fields IH]; intros f a n Hw Hf.
  - destruct f; [simpl in Hf; lia|]. simpl. now rewrite take_nil.
  - destruct f as [|f]; [lia|].
    inversion Hw as [|x l [Hp Hs] Hw']; subst. simpl in Hp, Hs.
    destruct tok as [|c tok]; [discriminate|].
    destruct sep as [|w sep]; [discriminate|].
    simpl in Hp, Hs.
    apply andb_true_iff in Hp as [Hp Hb]. apply andb_true_iff in Hp as [Hc Hq].
    apply andb_true_iff in Hb as [Hb1 Hb2].
    apply andb_true_iff in Hs as [Hs1 Hs2].
    apply negb_true_iff in Hc, Hq.
    cbn [render fst snd map]. cbn [append parse_tokens]. rewrite Hc, Hq.
    destruct (a <? n)%nat eqn:Han.
    + apply Nat.ltb_lt in Han.
      change ((tok ++ String w sep ++ render fields)%string)
        with ((tok ++ String w (sep ++ render fields))%string).
      rewrite (scan_token_plain tok w _ Hb2 Hs1).
      cbn [end_token]. rewrite (skip_whitespace_all_blank _ _ Hs2).
      rewrite (skip_whitespace_render _ Hw').
      rewrite (IH f (S a) n Hw').
      * simpl. replace (n - a)%nat with (S (n - S a)) by lia. reflexivity.
      * cbn [render String.length append] in Hf. rewrite !length_append in Hf.
        cbn [String.length] in Hf. rewrite length_append in Hf. lia.
    + apply Nat.ltb_ge in Han. replace (n - a)%nat with 0%nat by lia. reflexivity.
Qed.

(** X2.  Round trip of unquoted fields: a line written as fields without
    white space (none starting with the quote or the comment character),
    each followed by at least one white space character, after any leading
    white space, tokenizes into exactly those fields, in order; when there
    are more than [maxargs] of them the first [maxargs] are returned and the
    others are ignored. *)
Theorem parse_input_line_render
  (lead : string) (fields : list (string * string)) (maxargs : nat) :
  all_blank lead = true -> well_separated fields ->
  parse_input_line (lead ++ render fields) maxargs = Ok (take maxargs (map fst fields)).
Proof.
  intros Hl Hw. unfold parse_input_line.
  rewrite (skip_whitespace_all_blank _ _ Hl), (skip_whitespace_render _ Hw).
  rewrite (parse_tokens_render fields _ 0 maxargs Hw) by lia.
  now rewrite Nat.sub_0_r.
Qed.

Lemma scan_token_quoted (body : string) :
  forall (s : string),
    quote_free body = true ->
    scan_token true (body ++ String QUOTECHAR s) = (body, String QUOTECHAR s) /\
    scan_token true body = (body, EmptyString).
Proof.
  induction body as [|c body IH]; simpl; intros s H.
  - split; reflexivity.
  - apply andb_true_iff in H as [H1 H2]. apply negb_true_iff in H1.
    rewrite orb_true_r, H1. simpl.
    destruct (IH s H2) as [E1 E2]. rewrite E1, E2. split; reflexivity.
Qed.

Lemma parse_tokens_quoted (f : nat) (c0 : ascii) (body tail_ : string) (a n : nat) :
  quote_free body = true -> (a < n)%nat ->
  parse_tokens (S f) (String QUOTECHAR (String c0 body ++ String QUOTECHAR tail_)) a n =
    (args <- parse_tokens f (skip_whitespace tail_) (S a) n ;; Ok (String c0 body :: args)) /\
  parse_tokens (S f) (String QUOTECHAR (String c0 body)) a n =
    (args <- parse_tokens f EmptyString (S a) n ;; Ok (String c0 body :: args)).
Proof.
  intros Hq Han. apply Nat.ltb_lt in Han.
  destruct (scan_token_quoted body tail_ Hq) as [E1 E2].
  cbn [parse_tokens append].
  change (QUOTECHAR =? COMMENTCHAR)%char with false.
  rewrite Ascii.eqb_refl, Han. cbv iota. rewrite E1, E2. split; reflexivity.
Qed.


(** ** The stanza locator *)

Lemma consumed_next_line (n : nat) (l1 l2 : list string) (st : State) :
  next_line l2 (consumed n l1 st) = consumed (S n) l2 st.
Proof.
  unfold next_line, consumed, set_inputlinectr, set_rest. cbn.
  rewrite Zplus_mod_idemp_l.
  replace (inputlinectr st + Z.of_nat n + 1) with (inputlinectr st + Z.of_nat (S n)) by lia.
  reflexivity.
Qed.

Lemma consumed_of_next_line (n : nat) (l1 l2 : list string) (st : State) :
  consumed n l2 (next_line l1 st) = consumed (S n) l2 st.
Proof.
  unfold next_line, consumed, set_inputlinectr, set_rest. cbn.
  rewrite Zplus_mod_idemp_l.
  replace (inputlinectr st + 1 + Z.of_nat n) with (inputlinectr st + Z.of_nat (S n)) by lia.
  reflexivity.
Qed.

Lemma skip_lines_no_match (stanza : string) (pre : list string) :
  forall (st : State) (lines : list string),
    Forall (fun x => chop x <> stanza) pre ->
    skip_lines stanza (pre ++ lines) st =
    match pre with
    | [] => skip_lines stanza lines st
    | _ => skip_lines stanza lines (consumed (length pre) lines st)
    end.
Proof.
  induction pre as [|x pre IH]; intros st lines H; [reflexivity|].
  inversion H as [|? ? Hx Hp]; subst.
  cbn [app skip_lines]. apply String.eqb_neq in Hx. rewrite Hx.
  rewrite (IH _ lines Hp). destruct pre as [|y pre].
  - reflexivity.
  - now rewrite consumed_of_next_line.
Qed.

(** X4.  [skip_to_stanza] stops right after the first line that, without
    its last character, equals [stanza]: the lines before it are read and
    counted, the lines after it are left in the stream, and nothing else
    changes.  Without such a line the whole stream is read; the program
    then exits with code 1 if the stanza is mandatory. *)
Theorem skip_to_stanza_first_match
  (stanza : string) (mandatoryflag : bool) (st : State) (pre : list string) :
  Forall (fun x => chop x <> stanza) pre ->
  (forall l post,
     rest (inputfile st) = (pre ++ l :: post)%list -> chop l = stanza ->
     skip_to_stanza stanza mandatoryflag st = Ok (consumed (S (length pre)) post st)) /\
  (rest (inputfile st) = pre ->
     skip_to_stanza stanza true st = Exit 1 (StanzaNotFound stanza) /\
     skip_to_stanza stanza false st =
       Ok (match pre with [] => st | _ => consumed (length pre) [] st end)).
Proof.
  intros Hpre. split.
  - intros l post Hr Hl. unfold skip_to_stanza. rewrite Hr.
    rewrite (skip_lines_no_match stanza pre st (l :: post) Hpre).
    apply String.eqb_eq in Hl.
    destruct pre as [|x pre]; cbn [skip_lines]; rewrite Hl; cbn.
    + reflexivity.
    + now rewrite consumed_next_line.
  - intros Hr. unfold skip_to_stanza. rewrite Hr.
    rewrite <- (app_nil_r pre) at 1 2.
    rewrite (skip_lines_no_match stanza pre st [] Hpre).
    destruct pre; cbn; split; reflexivity.
Qed.

Lemma chop_snoc (s : string) (c : ascii) : chop (s ++ String c EmptyString) = s.
Proof.
  induction s as [|x s IH]; [reflexivity|].
  cbn [append chop]. rewrite IH.
  destruct (s ++ String c EmptyString)%string eqn:E; [|reflexivity].
  destruct s; discriminate.
Qed.

Lemma chop_length (s : string) :
  s <> EmptyString -> S (String.length (chop s)) = String.length s.
Proof.
  induction s as [|x s IH]; [congruence|]. intros _.
  destruct s as [|y s]; [reflexivity|].
  change (chop (String x (String y s))) with (String x (chop (String y s))).
  cbn [String.length]. f_equal. apply IH. discriminate.
Qed.

Lemma chop_neq (s : string) : s <> EmptyString -> chop s <> s.
Proof.
  intros Hs H. apply chop_length in Hs. rewrite H in Hs. lia.
Qed.

(** X5.  The comparison ignores the last character of the line, whatever it
    is ([inputline[strlen(inputline)-1] = 0]): a line that is the stanza
    name followed by any one character is the header; and a header that is
    the last line of the file without its newline loses its last character
    and is not recognised. *)
Theorem skip_to_stanza_last_character
  (stanza : string) (st : State) :
  (forall c post flag,
     rest (inputfile st) = (stanza ++ String c EmptyString)%string :: post ->
     skip_to_stanza stanza flag st = Ok (next_line post st)) /\
  (stanza <> EmptyString -> rest (inputfile st) = [stanza] ->
   skip_to_stanza stanza true st = Exit 1 (StanzaNotFound stanza)).
Proof.
  split.
  - intros c post flag Hr. unfold skip_to_stanza. rewrite Hr. cbn [skip_lines].
    rewrite chop_snoc, String.eqb_refl. reflexivity.
  - intros Hs Hr. unfold skip_to_stanza. rewrite Hr. cbn [skip_lines].
    apply chop_neq, String.eqb_neq in Hs. rewrite Hs. reflexivity.
Qed.

(** ** Frames: what the stream functions leave alone *)

Lemma same_but_position_refl (st : State) : same_but_position st st.
Proof. reflexivity. Qed.

Lemma same_but_position_trans (st1 st2 st3 : State) :
  same_but_position st1 st2 -> same_but_position st2 st3 -> same_but_position st1 st3.
Proof. unfold same_but_position. congruence. Qed.

Lemma same_but_position_next_line (lines : list string) (st : State) :
  same_but_position st (next_line lines st).
Proof. reflexivity. Qed.

Lemma same_but_position_fields (st st' : State) :
  same_but_position st st' ->
  classtbl st' = classtbl st /\ count st' = count st /\ interval st' = interval st /\
  fullscale st' = fullscale st /\ firsttimestamp st' = firsttimestamp st /\
  paramtbl st' = paramtbl st /\ singlefile st' = singlefile st /\ stderr st' = stderr st /\
  contents (inputfile st') = contents (inputfile st) /\
  is_stdin (inputfile st') = is_stdin (inputfile st).
Proof.
  unfold same_but_position. intros H.
  repeat split;
    [ apply (f_equal classtbl) in H | apply (f_equal count) in H
    | apply (f_equal interval) in H | apply (f_equal fullscale) in H
    | apply (f_equal firsttimestamp) in H | apply (f_equal paramtbl) in H
    | apply (f_equal singlefile) in H | apply (f_equal stderr) in H
    | apply (f_equal (fun s => contents (inputfile s))) in H
    | apply (f_equal (fun s => is_stdin (inputfile s))) in H ]; exact H.
Qed.

Lemma skip_lines_position (stanza : string) (lines : list string) :
  forall st, same_but_position st (snd (skip_lines stanza lines st)).
Proof.
  induction lines as [|l lines IH]; intros st; cbn [skip_lines]; [reflexivity|].
  destruct (String.eqb (chop l) stanza); [reflexivity|].
  eapply same_but_position_trans; [|apply IH]. reflexivity.
Qed.

Lemma skip_to_stanza_position (stanza : string) (flag : bool) (st st' : State) :
  skip_to_stanza stanza flag st = Ok st' -> same_but_position st st'.
Proof.
  unfold skip_to_stanza. intros H.
  pose proof (skip_lines_position stanza (rest (inputfile st)) st) as Hp.
  destruct (skip_lines stanza (rest (inputfile st)) st) as [b s].
  destruct (negb b && flag); inversion H; subst. exact Hp.
Qed.

(** ** The schema builder *)

Lemma strncpy_length (n : nat) (s : string) : (String.length (strncpy n s) <= n)%nat.
Proof.
  revert s. induction n as [|n IH]; intros s; [destruct s; simpl; lia|].
  destruct s as [|c s]; simpl; [lia|]. specialize (IH s). lia.
Qed.

Lemma new_metric_fresh (name : string) : fresh_metric (new_metric name).
Proof.
  unfold fresh_metric, new_metric. cbn [metricname met_number met_max met_sum devicetbl].
  split; [apply strncpy_length|]. repeat split; reflexivity.
Qed.

Lemma metadata_loop_classes (lines : list string) :
  forall (st st' : State),
    metadata_loop lines st = Ok st' ->
    count st' = count st /\
    exists new, classtbl st' = (classtbl st ++ new)%list /\
                Forall (declared_class (count st)) new.
Proof.
  induction lines as [|l lines IH]; intros st st' H; cbn [metadata_loop] in H.
  - inversion H; subst. split; [reflexivity|]. exists []. now rewrite app_nil_r.
  - destruct (parse_input_line l MAXNUMMETADATA) as [argtbl| |] eqn:E; try discriminate.
    cbn [bind] in H. apply parse_input_line_bound in E.
    destruct (NUMMETAITEMS + 1 <=? length argtbl)%nat eqn:En.
    + apply Nat.leb_le in En.
      destruct (negb (first_char (arg argtbl CLASSTYPEIDX) =? VECTORCLASS)%char &&
                negb (first_char (arg argtbl CLASSTYPEIDX) =? ARRAYCLASS)%char) eqn:Et;
        [discriminate|].
      destruct ((atoi (arg argtbl STARTROWIDX) <? 1)
                || (atoi (arg argtbl STARTROWIDX) >? count (next_line lines st))) eqn:Es;
        [discriminate|].
      apply IH in H. destruct H as [Hc [new [Ht Hn]]].
      cbn [count classtbl next_line set_classtbl set_inputlinectr set_rest] in Hc, Ht, Hn. split; [exact Hc|].
      eexists (_ :: new). rewrite Ht, <- app_assoc. split; [reflexivity|].
      constructor; [|exact Hn].
      apply orb_false_iff in Es as [Es1 Es2].
      apply Z.ltb_ge in Es1. rewrite Z.gtb_ltb in Es2. apply Z.ltb_ge in Es2.
      cbn [count classtbl next_line set_classtbl set_inputlinectr set_rest] in Es2.
      unfold declared_class.
      cbn [classname classtype startrow metrictbl].
      split; [apply strncpy_length|]. split.
      { apply andb_false_iff in Et as [Et|Et]; apply negb_false_iff, Ascii.eqb_eq in Et; auto. }
      split; [lia|]. split.
      { rewrite length_map, length_drop. unfold MAXNUMMETADATA, NUMMETAITEMS, MAXNUMMETRICS in *.
        lia. }
      apply List.Forall_forall. intros m Hm. apply in_map_iff in Hm as [name [<- _]].
      apply new_metric_fresh.
    + destruct (length argtbl =? 0)%nat.
      * inversion H; subst. split; [reflexivity|]. exists []. now rewrite app_nil_r.
      * apply IH in H. exact H.
Qed.

(** X6.  What [initialize_metadata] declares.  The classes it appends to
    the table, one per METADATA line of at least four fields, all have type
    ['V'] or ['A'], a start row between 0 and [count - 1] (the 1-based row
    of the file minus one), between 1 and [MAXNUMMETRICS] metrics, names cut
    to 32 characters, and metrics with zero aggregates and no device; the
    sample count is not changed.  (So a class exists only when
    [count >= 1].) *)
Theorem initialize_metadata_declares (st st' : State) :
  initialize_metadata st = Ok st' ->
  count st' = count st /\
  exists new, classtbl st' = (classtbl st ++ new)%list /\
              Forall (declared_class (count st)) new /\
              (new <> [] -> 1 <= count st).
Proof.
  unfold initialize_metadata. intros H.
  destruct (skip_to_stanza METADATASTR true st) as [st1| |] eqn:E; try discriminate.
  cbn [bind] in H. apply metadata_loop_classes in H.
  apply skip_to_stanza_position, same_but_position_fields in E.
  destruct E as [Ht [Hc _]]. rewrite Hc, Ht in H.
  destruct H as [H1 [new [H2 H3]]]. split; [exact H1|].
  exists new. split; [exact H2|]. split; [exact H3|].
  intros Hne. destruct H3 as [|c new' [_ [_ [Hs _]]] _]; [congruence|]. lia.
Qed.

(** ** The check of the metric names *)

Lemma metrics_from_In (tbl : list Metric) :
  forall (c k c' mi : nat) (m : Metric),
    In (c', mi, m) (metrics_from c k tbl) ->
    c' = c /\ exists j, mi = (k + j)%nat /\ tbl !! j = Some m.
Proof.
  induction tbl as [|x tbl IH]; intros c k c' mi m H; [destruct H|].
  destruct H as [H|H].
  - inversion H; subst. split; [reflexivity|]. exists 0%nat. split; [lia|reflexivity].
  - apply IH in H as [-> [j [-> Hj]]]. split; [reflexivity|].
    exists (S j). split; [lia|exact Hj].
Qed.

Lemma classes_from_In (tbl : list Class) :
  forall (k ci mi : nat) (m : Metric),
    In (ci, mi, m) (classes_from k tbl) ->
    exists c cls, ci = (k + c)%nat /\ tbl !! c = Some cls /\ metrictbl cls !! mi = Some m.
Proof.
  induction tbl as [|x tbl IH]; intros k ci mi m H; [destruct H|].
  cbn [classes_from] in H. apply in_app_or in H as [H|H].
  - apply metrics_from_In in H as [-> [j [-> Hj]]].
    exists 0%nat, x. split; [lia|]. split; [reflexivity|exact Hj].
  - apply IH in H as [c [cls [-> [Hc Hm]]]].
    exists (S c), cls. split; [lia|]. split; [exact Hc|exact Hm].
Qed.

Lemma metric_names_of (tbl : list Class) (c mi : nat) (cls : Class) (m : Metric) :
  tbl !! c = Some cls -> metrictbl cls !! mi = Some m ->
  metric_names tbl !! c = Some (map metricname (metrictbl cls)) /\
  map metricname (metrictbl cls) !! mi = Some (metricname m).
Proof.
  intros Hc Hm. unfold metric_names. rewrite !lookup_map, Hc, Hm. split; reflexivity.
Qed.

(** X7.  [check_metric_names] lets the run go on, with the state as it
    was, exactly when no two distinct metrics of the table have equal names;
    otherwise it exits with code 1 and the message for a duplicated name.
    It has no other outcome. *)
Theorem check_metric_names_passes_iff (st : State) :
  (check_metric_names st = Ok st <-> ~ has_duplicate_names (classtbl st)) /\
  (check_metric_names st = Ok st \/
   exists name, check_metric_names st = Exit 1 (DuplicateMetric name)).
Proof.
  assert (Hout : check_metric_names st = Ok st \/
                 exists name, check_metric_names st = Exit 1 (DuplicateMetric name)).
  { unfold check_metric_names.
    destruct (List.find _ _) as [[[c1 m1] met1]|]; [right; eexists; reflexivity|now left]. }
  split; [|exact Hout]. split.
  - intros H Hd. apply check_metric_names_duplicate in Hd as [name Hd]. congruence.
  - intros Hn. destruct Hout as [H|[name H]]; [exact H|]. exfalso. apply Hn.
    unfold check_metric_names in H.
    destruct (List.find _ _) as [[[c1 m1] met1]|] eqn:E; [|discriminate].
    apply List.find_some in E as [Hin Hex].
    apply existsb_exists in Hex as [[[c2 m2] met2] [Hin2 Hd]].
    apply classes_from_In in Hin as [i1 [cls1 [-> [Hc1 Hm1]]]].
    apply classes_from_In in Hin2 as [i2 [cls2 [-> [Hc2 Hm2]]]].
    cbn [duplicates] in Hd. apply andb_true_iff in Hd as [Hneq Heq].
    apply String.eqb_eq in Heq.
    destruct (metric_names_of _ _ _ _ _ Hc1 Hm1) as [A1 B1].
    destruct (metric_names_of _ _ _ _ _ Hc2 Hm2) as [A2 B2].
    exists i1, m1, i2, m2, (map metricname (metrictbl cls1)),
      (map metricname (metrictbl cls2)), (metricname met1).
    split; [exact A1|]. split; [exact B1|]. split; [exact A2|].
    split; [rewrite Heq; exact B2|].
    apply orb_true_iff in Hneq as [Hneq|Hneq];
      apply negb_true_iff, Nat.eqb_neq in Hneq; [left|right]; lia.
Qed.

(** ** What the passes over the class table leave alone

    The lemmas of this section are stated for any projection of the metrics
    and of the devices; each one uses the hypotheses that its function
    needs: that the projection ignores the aggregates, the values stored in
    a buffer, the file, or the scale. *)

Ltac bind_ok H :=
  repeat match type of H with
         | bind ?r _ = Ok _ =>
             let E := fresh "E" in
             destruct r eqn:E; cbn [bind] in H; [|discriminate H|discriminate H]
         end.

Lemma map_insert_same {A B : Type} (f : A -> B) (l : list A) :
  forall (k : nat) (x y : A),
    l !! k = Some x -> f y = f x -> map f (<[k := y]> l) = map f l.
Proof.
  induction l as [|a l IH]; intros k x y Hk Hf; [reflexivity|].
  destruct k as [|k]; cbn in *.
  - inversion Hk; subst. now rewrite Hf.
  - f_equal. eapply IH; eauto.
Qed.

Section Projection.

Context {X Y : Type}.
Variable mbase : Metric -> Y.
Variable dproj : Device -> X.

Hypothesis mbase_devicetbl : forall t m, mbase (set_devicetbl t m) = mbase m.
Hypothesis mbase_aggregates :
  forall m number max sum t, mbase (mkMetric (metricname m) number max sum t) = mbase m.
Hypothesis dproj_value :
  forall d number max sum values,
    length values = length (valuetbl d) ->
    dproj (mkDevice (devicename d) number max sum (scale d) values (fileptr d)) = dproj d.
Hypothesis dproj_file : forall f d, dproj (set_fileptr f d) = dproj d.
Hypothesis dproj_scale : forall q d, dproj (set_scale q d) = dproj d.

Lemma set_value_length (i : Z) (v : Q) (tbl tbl' : list Q) :
  set_value i v tbl = Ok tbl' -> length tbl' = length tbl.
Proof.
  intros H. apply set_value_inv in H as [_ ->]. apply length_insert.
Qed.

Lemma vector_metric_proj rowidx s m m' :
  vector_metric rowidx s m = Ok m' -> mproj mbase dproj m' = mproj mbase dproj m.
Proof using mbase_aggregates dproj_value.
  unfold vector_metric. destruct (devicetbl m) as [|d tbl] eqn:Ed; [discriminate|].
  intros H. bind_ok H. inversion H; subst. unfold mproj.
  cbn [devicetbl map]. rewrite mbase_aggregates, Ed. cbn [map].
  rewrite dproj_value by (eapply set_value_length; eauto). reflexivity.
Qed.

Lemma vector_metrics_proj rowidx argtbl (tbl : list Metric) :
  forall k t, vector_metrics rowidx argtbl k tbl = Ok t -> map (mproj mbase dproj) t = map (mproj mbase dproj) tbl.
Proof using mbase_aggregates dproj_value.
  induction tbl as [|m tbl IH]; intros k t H; cbn [vector_metrics] in H.
  - inversion H; reflexivity.
  - bind_ok H. inversion H; subst. cbn [map].
    erewrite vector_metric_proj, IH by eauto. reflexivity.
Qed.

Lemma vector_row_proj c rowidx argtbl c' :
  vector_row c rowidx argtbl = Ok c' -> cproj mbase dproj c' = cproj mbase dproj c.
Proof using mbase_aggregates dproj_value.
  unfold vector_row. destruct (rowidx >=? startrow c).
  - intros H. bind_ok H. inversion H; subst. unfold cproj.
    cbn [classname classtype startrow metrictbl set_metrictbl].
    erewrite vector_metrics_proj by eauto. reflexivity.
  - intros H; inversion H; reflexivity.
Qed.

Lemma vector_rows_proj (lines : list string) :
  forall c rowidx st c' rowidx' st',
    vector_rows lines c rowidx st = Ok (c', rowidx', st') -> cproj mbase dproj c' = cproj mbase dproj c.
Proof using mbase_aggregates dproj_value.
  induction lines as [|l lines IH]; intros c rowidx st c' rowidx' st' H;
    cbn [vector_rows] in H.
  - inversion H; reflexivity.
  - bind_ok H. destruct (length _ =? length (metrictbl c))%nat.
    + bind_ok H. apply IH in H. rewrite H. eapply vector_row_proj; eauto.
    + destruct (length _ =? 0)%nat; [inversion H; reflexivity|].
      apply IH in H. exact H.
Qed.

Lemma read_vector_stanza_proj c st c' st' :
  read_vector_stanza c st = Ok (c', st') -> cproj mbase dproj c' = cproj mbase dproj c.
Proof using mbase_aggregates dproj_value.
  unfold read_vector_stanza. intros H. bind_ok H.
  destruct a as [[c1 r1] s1]. inversion H; subst. eapply vector_rows_proj; eauto.
Qed.

Lemma array_metric_proj rowidx s m m' :
  array_metric rowidx s m = Ok m' -> mproj mbase dproj m' = mproj mbase dproj m.
Proof using mbase_aggregates dproj_value.
  unfold array_metric.
  destruct (if 0 <=? Z.rem rowidx (numdevices m)
            then devicetbl m !! Z.to_nat (Z.rem rowidx (numdevices m)) else None)
    as [d|] eqn:Ed; [|discriminate].
  destruct (0 <=? Z.rem rowidx (numdevices m)); [|discriminate].
  intros H. bind_ok H. inversion H; subst. unfold mproj. cbn [devicetbl].
  rewrite mbase_aggregates. f_equal.
  eapply map_insert_same; [exact Ed|].
  apply dproj_value. eapply set_value_length; eauto.
Qed.

Lemma array_metrics_proj sr rowidx argtbl (tbl : list Metric) :
  forall k p r, array_metrics sr rowidx argtbl k tbl p = Ok r ->
                map (mproj mbase dproj) (fst r) = map (mproj mbase dproj) tbl.
Proof using mbase_aggregates dproj_value.
  induction tbl as [|m tbl IH]; intros k p r H; cbn [array_metrics] in H.
  - inversion H; reflexivity.
  - destruct (numdevices m =? 0); [discriminate|].
    destruct (Z.quot rowidx (numdevices m) >=? sr).
    + bind_ok H. inversion H; subst. cbn [fst map].
      erewrite array_metric_proj, IH by eauto. reflexivity.
    + inversion H; reflexivity.
Qed.

Lemma array_row_proj c rowidx argtbl p r :
  array_row c rowidx argtbl p = Ok r -> cproj mbase dproj (fst r) = cproj mbase dproj c.
Proof using mbase_aggregates dproj_value.
  unfold array_row. intros H. bind_ok H. inversion H; subst. unfold cproj.
  cbn [fst classname classtype startrow metrictbl set_metrictbl].
  erewrite array_metrics_proj by eauto. reflexivity.
Qed.

Lemma array_rows_proj (lines : list string) :
  forall c rowidx p st c' rowidx' p' st',
    array_rows lines c rowidx p st = Ok (c', rowidx', p', st') -> cproj mbase dproj c' = cproj mbase dproj c.
Proof using mbase_aggregates dproj_value.
  induction lines as [|l lines IH]; intros c rowidx p st c' rowidx' p' st' H;
    cbn [array_rows] in H.
  - inversion H; reflexivity.
  - bind_ok H. destruct (length _ =? length (metrictbl c) + 1)%nat.
    + bind_ok H. apply IH in H. rewrite H. eapply array_row_proj; eauto.
    + destruct (length _ =? 0)%nat; [inversion H; reflexivity|].
      apply IH in H. exact H.
Qed.

Lemma read_array_stanza_proj c st c' st' :
  read_array_stanza c st = Ok (c', st') -> cproj mbase dproj c' = cproj mbase dproj c.
Proof using mbase_aggregates dproj_value.
  unfold read_array_stanza. intros H. bind_ok H.
  destruct a as [[[c1 r1] p1] s1]. destruct p1 as [i|]; [|discriminate].
  destruct (metrictbl c1 !! i); [|discriminate].
  inversion H; subst. eapply array_rows_proj; eauto.
Qed.

Lemma read_classes_proj (classes : list Class) :
  forall st r, read_classes classes st = Ok r -> tproj mbase dproj (fst r) = tproj mbase dproj classes.
Proof using mbase_aggregates dproj_value.
  induction classes as [|c classes IH]; intros st r H; cbn [read_classes] in H.
  - inversion H; reflexivity.
  - bind_ok H. inversion H; subst. unfold tproj. cbn [fst map].
    f_equal; [|eapply IH; eauto].
    destruct a0 as [c1 s1]. cbn [fst].
    destruct (classtype c =? VECTORCLASS)%char;
      [eapply read_vector_stanza_proj|eapply read_array_stanza_proj]; eauto.
Qed.

Lemma multifile_device_proj fs sr rowidx ts d d' :
  multifile_device fs sr rowidx ts d = Ok d' -> dproj d' = dproj d.
Proof using dproj_file.
  unfold multifile_device. destruct (active d); [|intros H; inversion H; reflexivity].
  destruct (rowidx >=? sr); [|intros H; inversion H; reflexivity].
  intros H. bind_ok H. unfold fprintf_device in H.
  destruct (fileptr d); [|discriminate]. inversion H; subst.
  apply (dproj_file (Some _) d).
Qed.

Lemma multifile_devices_proj fs sr rowidx ts (tbl : list Device) :
  forall t, multifile_devices fs sr rowidx ts tbl = Ok t -> map dproj t = map dproj tbl.
Proof using dproj_file.
  induction tbl as [|d tbl IH]; intros t H; cbn [multifile_devices] in H.
  - inversion H; reflexivity.
  - bind_ok H. inversion H; subst. cbn [map].
    erewrite multifile_device_proj, IH by eauto. reflexivity.
Qed.

Lemma multifile_metric_proj fs rowidx ts c m m' :
  multifile_metric fs rowidx ts c m = Ok m' -> mproj mbase dproj m' = mproj mbase dproj m.
Proof using mbase_devicetbl dproj_file.
  unfold multifile_metric, mproj. destruct (classtype c =? VECTORCLASS)%char.
  - destruct (devicetbl m) as [|d tbl] eqn:Ed; [discriminate|].
    intros H. bind_ok H. inversion H; subst.
    rewrite mbase_devicetbl. cbn [devicetbl set_devicetbl map].
    erewrite multifile_device_proj by eauto. reflexivity.
  - intros H. bind_ok H. inversion H; subst.
    rewrite mbase_devicetbl. cbn [devicetbl set_devicetbl].
    erewrite multifile_devices_proj by eauto. reflexivity.
Qed.

Lemma multifile_metrics_proj fs rowidx ts c (tbl : list Metric) :
  forall t, multifile_metrics fs rowidx ts c tbl = Ok t -> map (mproj mbase dproj) t = map (mproj mbase dproj) tbl.
Proof using mbase_devicetbl dproj_file.
  induction tbl as [|m tbl IH]; intros t H; cbn [multifile_metrics] in H.
  - inversion H; reflexivity.
  - bind_ok H. inversion H; subst. cbn [map].
    erewrite multifile_metric_proj, IH by eauto. reflexivity.
Qed.

Lemma multifile_classes_proj fs rowidx ts (tbl : list Class) :
  forall t, multifile_classes fs rowidx ts tbl = Ok t -> tproj mbase dproj t = tproj mbase dproj tbl.
Proof using mbase_devicetbl dproj_file.
  induction tbl as [|c tbl IH]; intros t H; cbn [multifile_classes] in H.
  - inversion H; reflexivity.
  - bind_ok H. inversion H; subst. unfold tproj, cproj. cbn [map].
    cbn [classname classtype startrow metrictbl set_metrictbl].
    erewrite multifile_metrics_proj by eauto. f_equal. eapply IH; eauto.
Qed.

Lemma multifile_rows_proj (n : nat) :
  forall rowidx ts st st',
    multifile_rows n rowidx ts st = Ok st' -> tproj mbase dproj (classtbl st') = tproj mbase dproj (classtbl st).
Proof using mbase_devicetbl dproj_file.
  induction n as [|n IH]; intros rowidx ts st st' H; cbn [multifile_rows] in H.
  - inversion H; reflexivity.
  - bind_ok H. apply IH in H. rewrite H. cbn [classtbl set_classtbl].
    eapply multifile_classes_proj; eauto.
Qed.

Lemma scale_named_device_proj name sep q m (tbl : list Device) :
  map dproj (fst (scale_named_device name sep q m tbl)) = map dproj tbl.
Proof using dproj_scale.
  induction tbl as [|d tbl IH]; [reflexivity|]. cbn [scale_named_device].
  destruct (String.eqb name (metric_device_name sep m d)).
  - cbn [fst map]. now rewrite dproj_scale.
  - destruct (scale_named_device name sep q m tbl) as [t b]. cbn [fst map] in *.
    now rewrite IH.
Qed.

Lemma config_metric_proj vector name sep q m r :
  config_metric vector name sep q m = Ok r -> mproj mbase dproj (fst r) = mproj mbase dproj m.
Proof using mbase_devicetbl dproj_scale.
  unfold config_metric, mproj. destruct vector.
  - destruct (String.eqb name (metricname m)).
    + destruct (devicetbl m) as [|d tbl] eqn:Ed; [discriminate|].
      intros H; inversion H; subst. cbn [fst]. rewrite mbase_devicetbl.
      cbn [devicetbl set_devicetbl map]. now rewrite dproj_scale.
    + intros H; inversion H; reflexivity.
  - destruct (String.eqb name (metricname m)).
    + intros H; inversion H; subst. cbn [fst]. rewrite mbase_devicetbl.
      cbn [devicetbl set_devicetbl]. rewrite List.map_map. f_equal.
      apply map_ext. intros d. apply dproj_scale.
    + pose proof (scale_named_device_proj name sep q m (devicetbl m)) as Hv.
      destruct (scale_named_device name sep q m (devicetbl m)) as [t b].
      intros H; inversion H; subst. cbn [fst] in *. rewrite mbase_devicetbl.
      cbn [devicetbl set_devicetbl]. now rewrite Hv.
Qed.

Lemma config_metrics_proj vector name sep q (tbl : list Metric) :
  forall r, config_metrics vector name sep q tbl = Ok r ->
            map (mproj mbase dproj) (fst r) = map (mproj mbase dproj) tbl.
Proof using mbase_devicetbl dproj_scale.
  induction tbl as [|m tbl IH]; intros r H; cbn [config_metrics] in H.
  - inversion H; reflexivity.
  - bind_ok H. inversion H; subst. cbn [fst map].
    erewrite config_metric_proj, IH by eauto. reflexivity.
Qed.

Lemma config_classes_proj name sep q (tbl : list Class) :
  forall r, config_classes name sep q tbl = Ok r -> tproj mbase dproj (fst r) = tproj mbase dproj tbl.
Proof using mbase_devicetbl dproj_scale.
  induction tbl as [|c tbl IH]; intros r H; cbn [config_classes] in H.
  - inversion H; reflexivity.
  - bind_ok H. inversion H; subst. unfold tproj, cproj. cbn [fst map].
    cbn [classname classtype startrow metrictbl set_metrictbl].
    erewrite config_metrics_proj by eauto. f_equal. eapply IH; eauto.
Qed.

Lemma configfile_loop_proj (lines : list string) :
  forall st st', configfile_loop lines st = Ok st' ->
                 tproj mbase dproj (classtbl st') = tproj mbase dproj (classtbl st).
Proof using mbase_devicetbl dproj_scale.
  induction lines as [|l lines IH]; intros st st' H; cbn [configfile_loop] in H.
  - inversion H; reflexivity.
  - bind_ok H. destruct (length _ =? 2)%nat.
    + bind_ok H. destruct (config_params _ _ (paramtbl st)) as [params legal].
      apply IH in H. rewrite H.
      destruct (snd _ || legal); cbn [classtbl log set_paramtbl set_classtbl];
        eapply config_classes_proj; eauto.
    + destruct (negb _); apply IH in H; exact H.
Qed.

Lemma open_device_proj name d : dproj (open_device name d) = dproj d.
Proof using dproj_file.
  unfold open_device. destruct (active d); [|reflexivity].
  apply (dproj_file (Some _) d).
Qed.

Lemma prepare_metric_proj sep c m m' :
  prepare_metric sep c m = Ok m' -> mproj mbase dproj m' = mproj mbase dproj m.
Proof using mbase_devicetbl dproj_file.
  unfold prepare_metric, mproj. destruct (classtype c =? VECTORCLASS)%char.
  - destruct (devicetbl m) as [|d tbl] eqn:Ed; [discriminate|].
    intros H; inversion H; subst. rewrite mbase_devicetbl.
    cbn [devicetbl set_devicetbl map]. now rewrite open_device_proj.
  - intros H; inversion H; subst. rewrite mbase_devicetbl.
    cbn [devicetbl set_devicetbl]. rewrite List.map_map. f_equal.
    apply map_ext. intros d. apply open_device_proj.
Qed.

Lemma prepare_metrics_proj sep c (tbl : list Metric) :
  forall t, prepare_metrics sep c tbl = Ok t -> map (mproj mbase dproj) t = map (mproj mbase dproj) tbl.
Proof using mbase_devicetbl dproj_file.
  induction tbl as [|m tbl IH]; intros t H; cbn [prepare_metrics] in H.
  - inversion H; reflexivity.
  - bind_ok H. inversion H; subst. cbn [map].
    erewrite prepare_metric_proj, IH by eauto. reflexivity.
Qed.

Lemma prepare_classes_proj sep (tbl : list Class) :
  forall t, prepare_classes sep tbl = Ok t -> tproj mbase dproj t = tproj mbase dproj tbl.
Proof using mbase_devicetbl dproj_file.
  induction tbl as [|c tbl IH]; intros t H; cbn [prepare_classes] in H.
  - inversion H; reflexivity.
  - bind_ok H. inversion H; subst. unfold tproj, cproj. cbn [map].
    cbn [classname classtype startrow metrictbl set_metrictbl].
    erewrite prepare_metrics_proj by eauto. f_equal. eapply IH; eauto.
Qed.

Lemma prepare_multi_output_files_proj flag st st' :
  prepare_multi_output_files flag st = Ok st' ->
  tproj mbase dproj (classtbl st') = tproj mbase dproj (classtbl st).
Proof using mbase_devicetbl dproj_file.
  unfold prepare_multi_output_files. destruct flag; [|intros H; inversion H; reflexivity].
  intros H. bind_ok H. inversion H; subst. cbn [classtbl set_classtbl].
  eapply prepare_classes_proj; eauto.
Qed.

Lemma read_inputfile_loop_proj (fuel : nat) :
  forall opts ts st r,
    read_inputfile_loop fuel opts ts st = Ok r ->
    tproj mbase dproj (classtbl (snd r)) = tproj mbase dproj (classtbl st).
Proof using mbase_aggregates mbase_devicetbl dproj_value dproj_file.
  induction fuel as [|fuel IH]; intros opts ts st r H;
    cbn [read_inputfile_loop] in H; [discriminate|].
  destruct (skip_to_stanza DATESTR false st) as [s1| |] eqn:E1; try discriminate.
  cbn [bind] in H. apply skip_to_stanza_classtbl in E1.
  destruct (rest (inputfile s1)) as [|l lines].
  - inversion H; subst. cbn [snd]. now rewrite E1.
  - destruct (parse_input_line l NUMDATEARGS) as [argtbl| |]; try discriminate.
    cbn [bind] in H.
    match type of H with
    | bind (read_classes ?t ?s) _ = _ =>
        destruct (read_classes t s) as [rc| |] eqn:E2; try discriminate;
        assert (Hc : tproj mbase dproj (fst rc) = tproj mbase dproj (classtbl st))
    end.
    { apply read_classes_proj in E2. rewrite E2.
      destruct (length argtbl =? NUMDATEARGS)%nat; cbn; now rewrite E1. }
    cbn [bind] in H.
    match type of H with
    | bind ?x _ = _ => destruct x as [s3| |] eqn:E3; try discriminate
    end.
    cbn [bind] in H.
    match type of H with
    | bind ?x _ = _ => destruct x as [s4| |] eqn:E4; try discriminate
    end.
    cbn [bind] in H. apply IH in H. rewrite H.
    assert (H3 : tproj mbase dproj (classtbl s3) = tproj mbase dproj (classtbl st)).
    { destruct (singlefilename opts).
      - unfold output_singlefile_body in E3. apply singlefile_rows_classtbl in E3.
        rewrite E3. exact Hc.
      - inversion E3; subst. exact Hc. }
    destruct (multifiledirname opts).
    + unfold output_multifile_bodies_data in E4. apply multifile_rows_proj in E4.
      now rewrite E4.
    + inversion E4; subst. exact H3.
Qed.

Lemma read_inputfile_proj opts st r :
  read_inputfile opts st = Ok r -> tproj mbase dproj (classtbl (snd r)) = tproj mbase dproj (classtbl st).
Proof using mbase_aggregates mbase_devicetbl dproj_value dproj_file.
  unfold read_inputfile. intros H. apply read_inputfile_loop_proj in H. exact H.
Qed.

End Projection.

(** The three projections used below. *)
Lemma dev_shape_value (d : Device) (number : Z) (max sum : Q) (values : list Q) :
  length values = length (valuetbl d) ->
  dev_shape (mkDevice (devicename d) number max sum (scale d) values (fileptr d)) =
  dev_shape d.
Proof. unfold dev_shape. cbn. now intros ->. Qed.

Lemma dev_skeleton_value (d : Device) (number : Z) (max sum : Q) (values : list Q) :
  length values = length (valuetbl d) ->
  dev_skeleton (mkDevice (devicename d) number max sum (scale d) values (fileptr d)) =
  dev_skeleton d.
Proof. unfold dev_skeleton. cbn. now intros ->. Qed.

(** ** Frames of the functions that read the stream *)

Lemma forward_refl (st : State) : forward st st.
Proof. exists []. reflexivity. Qed.

Lemma forward_trans (st1 st2 st3 : State) :
  forward st1 st2 -> forward st2 st3 -> forward st1 st3.
Proof.
  intros [p1 H1] [p2 H2]. exists (p1 ++ p2)%list. now rewrite H1, H2, app_assoc.
Qed.

Lemma forward_next_line (l : string) (lines : list string) (st : State) :
  rest (inputfile st) = l :: lines -> forward st (next_line lines st).
Proof. intros H. exists [l]. now rewrite H. Qed.

Lemma skip_lines_forward (stanza : string) (lines : list string) :
  forall st, rest (inputfile st) = lines ->
             forward st (snd (skip_lines stanza lines st)) /\
             (fst (skip_lines stanza lines st) = true ->
              exists pre l,
                lines = (pre ++ l :: rest (inputfile (snd (skip_lines stanza lines st))))%list /\
                chop l = stanza).
Proof.
  induction lines as [|l lines IH]; intros st Hr; cbn [skip_lines].
  - split; [apply forward_refl|discriminate].
  - destruct (String.eqb (chop l) stanza) eqn:E.
    + cbn [fst snd]. split; [exact (forward_next_line l lines st Hr)|]. intros _.
      exists [], l. apply String.eqb_eq in E. split; [reflexivity|exact E].
    + destruct (IH (next_line lines st) eq_refl) as [Hf Hfound]. split.
      * eapply forward_trans; [exact (forward_next_line l lines st Hr)|exact Hf].
      * intros Ht. destruct (Hfound Ht) as [pre [x [Hp Hx]]].
        exists (l :: pre), x. split; [now rewrite Hp at 1|exact Hx].
Qed.

Lemma skip_to_stanza_forward (stanza : string) (flag : bool) (st st' : State) :
  skip_to_stanza stanza flag st = Ok st' ->
  forward st st' /\
  (flag = true ->
   exists pre l, rest (inputfile st) = (pre ++ l :: rest (inputfile st'))%list /\
                 chop l = stanza).
Proof.
  unfold skip_to_stanza. intros H.
  destruct (skip_lines_forward stanza (rest (inputfile st)) st eq_refl) as [Hf Hfound].
  destruct (skip_lines stanza (rest (inputfile st)) st) as [b s]. cbn [fst snd] in *.
  destruct b; cbn in H.
  - inversion H; subst. split; [exact Hf|]. intros _. now apply Hfound.
  - destruct flag; [discriminate|]. inversion H; subst. split; [exact Hf|discriminate].
Qed.

Lemma skip_to_stanza_environment (stanza : string) (flag : bool) (st st' : State) :
  skip_to_stanza stanza flag st = Ok st' ->
  environment st' = environment st /\ globals st' = globals st.
Proof.
  intros H. apply skip_to_stanza_position, same_but_position_fields in H.
  destruct H as (_ & H1 & H2 & H3 & H4 & H5 & H6 & _ & H7 & H8).
  unfold environment, globals. now rewrite H1, H2, H3, H4, H5, H6, H7, H8.
Qed.

(** The discovery loops: the environment is kept and the stream moves
    forward. *)
Lemma time_values_loop_reads (lines : list string) :
  forall st st', rest (inputfile st) = lines ->
                 time_values_loop lines st = Ok st' ->
                 environment st' = environment st /\ forward st st'.
Proof.
  induction lines as [|l lines IH]; intros st st' Hr H; cbn [time_values_loop] in H.
  - inversion H; subst. split; [reflexivity|apply forward_refl].
  - pose proof (forward_next_line l lines st Hr) as Hn.
    bind_ok H. destruct (length _ =? NUMTIMEVALUES)%nat.
    + apply IH in H; [|reflexivity]. destruct H as [He Hf].
      split; [exact He|]. eapply forward_trans; [exact Hn|].
      destruct Hf as [pre Hp]. exists pre. exact Hp.
    + destruct (length _ =? 0)%nat; [|discriminate].
      inversion H; subst. split; [reflexivity|exact Hn].
Qed.

Lemma initialize_time_values_reads (st st' : State) :
  initialize_time_values st = Ok st' ->
  environment st' = environment st /\ forward st st'.
Proof.
  unfold initialize_time_values. intros H. bind_ok H.
  apply time_values_loop_reads in H; [|reflexivity]. destruct H as [He Hf].
  pose proof (skip_to_stanza_environment _ _ _ _ E) as [He' _].
  apply skip_to_stanza_forward in E as [Hf' _].
  split; [congruence|eapply forward_trans; eauto].
Qed.

Lemma metadata_loop_reads (lines : list string) :
  forall st st', rest (inputfile st) = lines ->
                 metadata_loop lines st = Ok st' ->
                 environment st' = environment st /\ forward st st'.
Proof.
  induction lines as [|l lines IH]; intros st st' Hr H; cbn [metadata_loop] in H.
  - inversion H; subst. split; [reflexivity|apply forward_refl].
  - pose proof (forward_next_line l lines st Hr) as Hn.
    bind_ok H. destruct (NUMMETAITEMS + 1 <=? length _)%nat.
    + destruct (negb _ && negb _); [discriminate|].
      destruct (_ || _); [discriminate|].
      apply IH in H; [|reflexivity]. destruct H as [He Hf].
      split; [exact He|]. eapply forward_trans; [exact Hn|].
      destruct Hf as [pre Hp]. exists pre. exact Hp.
    + destruct (length _ =? 0)%nat.
      * inversion H; subst. split; [reflexivity|exact Hn].
      * apply IH in H; [|reflexivity]. destruct H as [He Hf].
        split; [exact He|]. eapply forward_trans; [exact Hn|].
        destruct Hf as [pre Hp]. exists pre. exact Hp.
Qed.

Lemma initialize_metadata_reads (st st' : State) :
  initialize_metadata st = Ok st' ->
  environment st' = environment st /\ forward st st'.
Proof.
  unfold initialize_metadata. intros H. bind_ok H.
  apply metadata_loop_reads in H; [|reflexivity]. destruct H as [He Hf].
  pose proof (skip_to_stanza_environment _ _ _ _ E) as [He' _].
  apply skip_to_stanza_forward in E as [Hf' _].
  split; [congruence|eapply forward_trans; eauto].
Qed.

Lemma timestamp_loop_reads (lines : list string) :
  forall n st n' st', rest (inputfile st) = lines ->
                      timestamp_loop lines n st = Ok (n', st') ->
                      environment st' = environment st /\ count st' = count st /\
                      forward st st'.
Proof.
  induction lines as [|l lines IH]; intros n st n' st' Hr H; cbn [timestamp_loop] in H.
  - inversion H; subst. repeat split. apply forward_refl.
  - pose proof (forward_next_line l lines st Hr) as Hn.
    bind_ok H. destruct (length _ =? NUMDATEARGS)%nat.
    + apply IH in H; [|reflexivity]. destruct H as (He & Hc & Hf).
      split; [exact He|]. split; [exact Hc|]. eapply forward_trans; [exact Hn|].
      destruct Hf as [pre Hp]. exists pre. exact Hp.
    + destruct (length _ =? 0)%nat.
      * inversion H; subst. repeat split. exact Hn.
      * apply IH in H; [|reflexivity]. destruct H as (He & Hc & Hf).
        split; [exact He|]. split; [exact Hc|]. eapply forward_trans; [exact Hn|].
        destruct Hf as [pre Hp]. exists pre. exact Hp.
Qed.

Lemma initialize_timestamp_reads (st st' : State) :
  initialize_timestamp st = Ok st' ->
  environment st' = environment st /\ count st' = count st /\
  exists pre l post,
    rest (inputfile st) = (pre ++ l :: post ++ rest (inputfile st'))%list /\
    chop l = DATESTR.
Proof.
  unfold initialize_timestamp. intros H. bind_ok H. destruct a0 as [n s].
  destruct (negb (n =? 1)); [discriminate|]. inversion H; subst.
  apply timestamp_loop_reads in E0; [|reflexivity]. destruct E0 as (He & Hc & [post Hf]).
  pose proof (skip_to_stanza_environment _ _ _ _ E) as [He' Hg].
  apply skip_to_stanza_forward in E as [_ Hfound].
  destruct (Hfound eq_refl) as [pre [l [Hp Hl]]].
  split; [congruence|]. split.
  { apply (f_equal (fun g => fst (fst (fst (fst (fst (fst g))))))) in Hg.
    cbn in Hg. congruence. }
  exists pre, l, post. rewrite Hp, Hf. split; [reflexivity|exact Hl].
Qed.

(** ** The device registry *)

Lemma strncpy_short (n : nat) (s : string) :
  (String.length s <= n)%nat -> strncpy n s = s.
Proof.
  revert s. induction n as [|n IH]; intros s H; destruct s as [|c s]; simpl in *;
    try reflexivity; [lia|]. rewrite IH by lia. reflexivity.
Qed.

Lemma newdeviceflag_known (name : string) (tbl : list Device) :
  newdeviceflag name tbl true = negb (known name (map devicename tbl)).
Proof.
  unfold known.
  assert (G : forall flag, newdeviceflag name tbl flag =
                           flag && negb (existsb (fun n => strncmp_eq MAXDEVNAMELEN name n)
                                           (map devicename tbl))).
  { induction tbl as [|d tbl IH]; intros flag; cbn [newdeviceflag map existsb].
    - now rewrite andb_true_r.
    - rewrite IH. destruct (strncmp_eq MAXDEVNAMELEN name (devicename d)); cbn.
      + now rewrite andb_false_r.
      + reflexivity. }
  rewrite G. reflexivity.
Qed.

Lemma add_device_names (count_ : Z) (m : Metric) (name : string) :
  device_names (add_device count_ m name) = register name (device_names m).
Proof.
  unfold add_device, register, device_names. rewrite newdeviceflag_known.
  destruct (known name (map devicename (devicetbl m))); cbn [negb]; [reflexivity|].
  cbn [devicetbl]. rewrite map_app. reflexivity.
Qed.

Lemma add_device_fresh (count_ : Z) (m : Metric) (name : string) :
  Forall (fresh_device count_) (devicetbl m) ->
  Forall (fresh_device count_) (devicetbl (add_device count_ m name)).
Proof.
  intros H. unfold add_device.
  destruct (newdeviceflag name (devicetbl m) true); [|exact H].
  cbn [devicetbl]. apply Forall_app. split; [exact H|].
  constructor; [|constructor]. unfold fresh_device.
  cbn [devicename dev_number dev_max dev_sum scale valuetbl fileptr].
  split; [apply strncpy_length|]. repeat split; reflexivity.
Qed.

Lemma add_device_aggregates (count_ : Z) (m : Metric) (name : string) :
  met_aggregates (add_device count_ m name) = met_aggregates m.
Proof. unfold add_device. destruct (newdeviceflag _ _ _); reflexivity. Qed.

Lemma register_NoDup (name : string) (names : list string) :
  NoDup names -> Forall (fun n => (String.length n <= MAXDEVNAMELEN)%nat) names ->
  NoDup (register name names).
Proof.
  intros Hn Hl. unfold register. destruct (known name names) eqn:E; [exact Hn|].
  apply NoDup_app. split; [exact Hn|]. split; [|apply NoDup_singleton].
  intros x Hx Hin. apply list_elem_of_singleton in Hin. subst x.
  assert (K : known name names = true); [|congruence].
  unfold known. apply existsb_exists. exists (strncpy MAXDEVNAMELEN name).
  split; [apply list_elem_of_In; exact Hx|].
  unfold strncmp_eq. rewrite strncpy_idempotent. apply String.eqb_refl.
Qed.

Lemma register_short (name : string) (names : list string) :
  Forall (fun n => (String.length n <= MAXDEVNAMELEN)%nat) names ->
  Forall (fun n => (String.length n <= MAXDEVNAMELEN)%nat) (register name names).
Proof.
  intros H. unfold register. destruct (known name names); [exact H|].
  apply Forall_app. split; [exact H|]. constructor; [apply strncpy_length|constructor].
Qed.

Lemma add_class_device_uniform (count_ : Z) (names : list string) (c : Class) (name : string) :
  uniform count_ names c -> uniform count_ (register name names) (add_class_device count_ c name).
Proof.
  unfold uniform, add_class_device. cbn [metrictbl set_metrictbl].
  intros H. induction H as [|m tbl [Hn Hf] _ IH]; cbn [map]; constructor; [|exact IH].
  split; [rewrite add_device_names; now rewrite Hn|now apply add_device_fresh].
Qed.

Lemma add_class_device_frame (count_ : Z) (c : Class) (name : string) :
  classname (add_class_device count_ c name) = classname c /\
  classtype (add_class_device count_ c name) = classtype c /\
  startrow (add_class_device count_ c name) = startrow c /\
  map met_aggregates (metrictbl (add_class_device count_ c name)) =
  map met_aggregates (metrictbl c).
Proof.
  unfold add_class_device. cbn [classname classtype startrow metrictbl set_metrictbl].
  repeat split. rewrite List.map_map. apply map_ext. intros m. apply add_device_aggregates.
Qed.

Lemma class_devices_refl (count_ : Z) (c : Class) :
  Forall (fun m => devicetbl m = []) (metrictbl c) -> class_devices count_ [] c c.
Proof.
  intros H. unfold class_devices. repeat split; try reflexivity; try constructor.
  unfold uniform. eapply Forall_impl; [exact H|]. intros m Hm. cbn beta in *.
  unfold device_names. rewrite Hm. split; [reflexivity|constructor].
Qed.

Lemma class_devices_add (count_ : Z) (names : list string) (c c' : Class) (name : string) :
  class_devices count_ names c c' ->
  class_devices count_ (register name names) c (add_class_device count_ c' name).
Proof.
  intros (H1 & H2 & H3 & H4 & H5 & H6 & H7).
  destruct (add_class_device_frame count_ c' name) as (F1 & F2 & F3 & F4).
  unfold class_devices. rewrite F1, F2, F3, F4.
  repeat split; try assumption.
  - now apply register_NoDup.
  - now apply register_short.
  - now apply add_class_device_uniform.
Qed.

Lemma array_devices_loop_devices (lines : list string) :
  forall (c0 c : Class) (st : State) (c' : Class) (st' : State) (names : list string),
    rest (inputfile st) = lines ->
    array_devices_loop lines c st = Ok (c', st') ->
    class_devices (count st) names c0 c ->
    (exists names', class_devices (count st) names' c0 c') /\
    environment st' = environment st /\ globals st' = globals st /\ forward st st'.
Proof.
  induction lines as [|l lines IH]; intros c0 c st c' st' names Hr H Hc;
    cbn [array_devices_loop] in H.
  - inversion H; subst. split; [eauto|]. repeat split. apply forward_refl.
  - pose proof (forward_next_line l lines st Hr) as Hn.
    bind_ok H. destruct (length _ =? length (metrictbl c) + 1)%nat.
    + eapply IH in H; [|reflexivity|].
      * destruct H as (Hd & He & Hg & Hf). split; [exact Hd|].
        split; [exact He|]. split; [exact Hg|].
        eapply forward_trans; [exact Hn|]. destruct Hf as [pre Hp]. exists pre. exact Hp.
      * apply class_devices_add. exact Hc.
    + destruct (length _ =? 0)%nat; [|discriminate].
      inversion H; subst. split; [eauto|]. repeat split. exact Hn.
Qed.

Lemma vector_devices_devices (c0 c : Class) (st : State) (c' : Class) (st' : State) :
  vector_devices c st = Ok (c', st') ->
  class_devices (count st) [] c0 c ->
  (class_devices (count st) [] c0 c' \/ class_devices (count st) [NODEVICENAME] c0 c') /\
  environment st' = environment st /\ globals st' = globals st /\ forward st st'.
Proof.
  unfold vector_devices. intros H Hc.
  destruct (rest (inputfile st)) as [|l lines] eqn:Hr.
  - inversion H; subst. split; [now left|]. repeat split. apply forward_refl.
  - pose proof (forward_next_line l lines st Hr) as Hn.
    bind_ok H. destruct (length _ =? length (metrictbl c))%nat; [|discriminate].
    inversion H; subst. split; [|repeat split; exact Hn].
    right. apply (class_devices_add _ _ _ _ NODEVICENAME) in Hc. exact Hc.
Qed.

Lemma classes_loop_devices (classes : list Class) :
  forall (st : State) (classes' : list Class) (st' : State),
    classes_loop classes st = Ok (classes', st') ->
    no_devices classes ->
    Forall2 (discovered_class (count st)) classes classes' /\
    environment st' = environment st /\ globals st' = globals st /\ forward st st'.
Proof.
  induction classes as [|c classes IH]; intros st classes' st' H Hno;
    cbn [classes_loop] in H.
  - inversion H; subst. split; [constructor|]. repeat split. apply forward_refl.
  - apply Forall_cons in Hno as [Hc Hno].
    destruct (skip_to_stanza (datastanza c) true st) as [s1| |] eqn:E1; try discriminate.
    cbn [bind] in H.
    pose proof (skip_to_stanza_environment _ _ _ _ E1) as [He1 Hg1].
    apply skip_to_stanza_forward in E1 as [Hf1 _].
    assert (Hk1 : count s1 = count st).
    { apply (f_equal (fun g => fst (fst (fst (fst (fst (fst g))))))) in Hg1. exact Hg1. }
    match type of H with
    | bind ?x _ = _ => destruct x as [[c1 s2]| |] eqn:E2; try discriminate
    end.
    cbn [bind] in H.
    destruct (classes_loop classes s2) as [[cl s3]| |] eqn:E3; try discriminate.
    cbn [bind] in H. inversion H; subst.
    assert (Hstep : discovered_class (count st) c c1 /\
                    environment s2 = environment s1 /\ globals s2 = globals s1 /\
                    forward s1 s2).
    { pose proof (class_devices_refl (count s1) c Hc) as H0.
      destruct (classtype c =? VECTORCLASS)%char eqn:Et.
      - apply (vector_devices_devices c) in E2; [|exact H0].
        destruct E2 as (Hd & He & Hg & Hf). rewrite Hk1 in Hd.
        split; [|auto]. destruct Hd as [Hd|Hd]; eexists; (split; [exact Hd|]); auto.
      - eapply (array_devices_loop_devices _ c) in E2; [|reflexivity|exact H0].
        destruct E2 as ([names' Hd] & He & Hg & Hf). rewrite Hk1 in Hd.
        split; [|auto]. exists names'. split; [exact Hd|]. intros Hv. congruence. }
    destruct Hstep as (Hd & He2 & Hg2 & Hf2).
    assert (Hk2 : count s2 = count st).
    { apply (f_equal (fun g => fst (fst (fst (fst (fst (fst g))))))) in Hg2.
      cbn in Hg2. congruence. }
    apply IH in E3; [|exact Hno]. destruct E3 as (Hd3 & He3 & Hg3 & Hf3).
    rewrite Hk2 in Hd3.
    split; [constructor; assumption|].
    split; [congruence|]. split; [congruence|].
    eapply forward_trans; [exact Hf1|]. eapply forward_trans; eauto.
Qed.

(** X8.  What [initialize_classes] discovers, from a table whose metrics
    have no device yet: in every class all metrics get the same devices, in
    the same order, with names that are pairwise distinct and cut to 32
    characters; every device is as [add_device] creates it (zero count, max,
    sum and scale, a zeroed buffer of [count] slots, no file); a vector
    class gets the one device [NODEVICENAME] per metric, or none when the
    file ends at its stanza header; names, types, start rows and the
    aggregates of the metrics are left as declared, and so is [count]. *)
Theorem initialize_classes_discovers (st st' : State) :
  initialize_classes st = Ok st' ->
  no_devices (classtbl st) ->
  count st' = count st /\
  Forall2 (discovered_class (count st)) (classtbl st) (classtbl st').
Proof.
  unfold initialize_classes. intros H Hno. bind_ok H. destruct a as [classes s].
  inversion H; subst. apply classes_loop_devices in E; [|exact Hno].
  destruct E as (Hd & _ & Hg & _).
  apply (f_equal (fun g => fst (fst (fst (fst (fst (fst g))))))) in Hg. cbn in Hg.
  split.
  - unfold rewind. destruct (is_stdin _); cbn; exact Hg.
  - unfold rewind. destruct (is_stdin _); cbn; exact Hd.
Qed.

(** ** Frames of the first-file block of [main] *)

Lemma array_devices_loop_reads (lines : list string) :
  forall c st c' st', rest (inputfile st) = lines ->
    array_devices_loop lines c st = Ok (c', st') ->
    environment st' = environment st /\ globals st' = globals st /\ forward st st'.
Proof.
  induction lines as [|l lines IH]; intros c st c' st' Hr H; cbn [array_devices_loop] in H.
  - inversion H; subst. repeat split. apply forward_refl.
  - pose proof (forward_next_line l lines st Hr) as Hn.
    bind_ok H. destruct (length _ =? length (metrictbl c) + 1)%nat.
    + apply IH in H; [|reflexivity]. destruct H as (He & Hg & Hf).
      split; [exact He|]. split; [exact Hg|].
      eapply forward_trans; [exact Hn|]. destruct Hf as [pre Hp]. exists pre. exact Hp.
    + destruct (length _ =? 0)%nat; [|discriminate].
      inversion H; subst. repeat split. exact Hn.
Qed.

Lemma vector_devices_reads c st c' st' :
  vector_devices c st = Ok (c', st') ->
  environment st' = environment st /\ globals st' = globals st /\ forward st st'.
Proof.
  unfold vector_devices. intros H.
  destruct (rest (inputfile st)) as [|l lines] eqn:Hr.
  - inversion H; subst. repeat split. apply forward_refl.
  - pose proof (forward_next_line l lines st Hr) as Hn.
    bind_ok H. destruct (length _ =? length (metrictbl c))%nat; [|discriminate].
    inversion H; subst. repeat split. exact Hn.
Qed.

Lemma classes_loop_reads (classes : list Class) :
  forall st classes' st',
    classes_loop classes st = Ok (classes', st') ->
    environment st' = environment st /\ globals st' = globals st /\ forward st st'.
Proof.
  induction classes as [|c classes IH]; intros st classes' st' H; cbn [classes_loop] in H.
  - inversion H; subst. repeat split. apply forward_refl.
  - destruct (skip_to_stanza (datastanza c) true st) as [s1| |] eqn:E1; try discriminate.
    cbn [bind] in H.
    pose proof (skip_to_stanza_environment _ _ _ _ E1) as [He1 Hg1].
    apply skip_to_stanza_forward in E1 as [Hf1 _].
    match type of H with
    | bind ?x _ = _ => destruct x as [[c1 s2]| |] eqn:E2; try discriminate
    end.
    cbn [bind] in H.
    destruct (classes_loop classes s2) as [[cl s3]| |] eqn:E3; try discriminate.
    cbn [bind] in H. inversion H; subst.
    assert (Hstep : environment s2 = environment s1 /\ globals s2 = globals s1 /\
                    forward s1 s2).
    { destruct (classtype c =? VECTORCLASS)%char.
      - eapply vector_devices_reads; eauto.
      - eapply array_devices_loop_reads; [reflexivity|eauto]. }
    destruct Hstep as (He2 & Hg2 & Hf2).
    apply IH in E3. destruct E3 as (He3 & Hg3 & Hf3).
    split; [congruence|]. split; [congruence|].
    eapply forward_trans; [exact Hf1|]. eapply forward_trans; eauto.
Qed.

Lemma initialize_parameters_frame st st' :
  initialize_parameters st = Ok st' ->
  inputfile st' = inputfile st /\ singlefile st' = singlefile st /\
  inputlinectr st' = inputlinectr st.
Proof.
  unfold initialize_parameters. intros H. bind_ok H. inversion H; subst.
  repeat split.
Qed.

Lemma configfile_loop_settled (lines : list string) :
  forall st st', configfile_loop lines st = Ok st' ->
                 settled st' = settled st /\ singlefile st' = singlefile st.
Proof.
  induction lines as [|l lines IH]; intros st st' H; cbn [configfile_loop] in H.
  - inversion H; subst. split; reflexivity.
  - bind_ok H. destruct (length _ =? 2)%nat.
    + bind_ok H. destruct (config_params _ _ (paramtbl st)) as [params legal].
      apply IH in H. destruct H as [H1 H2]. rewrite H1, H2.
      destruct (snd _ || legal); split; reflexivity.
    + destruct (negb _); apply IH in H; exact H.
Qed.

Lemma read_configfile_settled cfg st st' :
  read_configfile cfg st = Ok st' ->
  settled st' = settled st /\ singlefile st' = singlefile st.
Proof.
  unfold read_configfile. destruct cfg; [|discriminate]. apply configfile_loop_settled.
Qed.

Lemma check_metric_names_same st st' : check_metric_names st = Ok st' -> st' = st.
Proof.
  unfold check_metric_names. destruct (List.find _ _) as [[[? ?] ?]|]; [discriminate|].
  intros H; inversion H; reflexivity.
Qed.

Lemma prepare_single_output_file_settled flag st st' :
  prepare_single_output_file flag st = Ok st' ->
  settled st' = settled st /\ classtbl st' = classtbl st /\ paramtbl st' = paramtbl st.
Proof.
  unfold prepare_single_output_file, output_singlefile_headers.
  destruct flag; [|intros H; inversion H; repeat split].
  intros H. bind_ok H. inversion H; subst. repeat split.
Qed.

Lemma prepare_multi_output_files_settled flag st st' :
  prepare_multi_output_files flag st = Ok st' ->
  settled st' = settled st /\ singlefile st' = singlefile st /\ paramtbl st' = paramtbl st.
Proof.
  unfold prepare_multi_output_files.
  destruct flag; [|intros H; inversion H; repeat split].
  intros H. bind_ok H. inversion H; subst. repeat split.
Qed.

Lemma environment_fields (st st' : State) :
  environment st' = environment st ->
  fullscale st' = fullscale st /\ singlefile st' = singlefile st /\
  contents (inputfile st') = contents (inputfile st) /\
  is_stdin (inputfile st') = is_stdin (inputfile st).
Proof. unfold environment. intros H. inversion H. repeat split; assumption. Qed.

Lemma globals_fields (st st' : State) :
  globals st' = globals st ->
  count st' = count st /\ interval st' = interval st /\ fullscale st' = fullscale st /\
  firsttimestamp st' = firsttimestamp st /\ paramtbl st' = paramtbl st /\
  contents (inputfile st') = contents (inputfile st) /\
  is_stdin (inputfile st') = is_stdin (inputfile st).
Proof. unfold globals. intros H. inversion H. repeat split; assumption. Qed.

Lemma settled_fields (st st' : State) :
  settled st' = settled st ->
  inputfile st' = inputfile st /\ inputlinectr st' = inputlinectr st /\
  count st' = count st /\ interval st' = interval st /\ fullscale st' = fullscale st /\
  firsttimestamp st' = firsttimestamp st.
Proof. unfold settled. intros H. inversion H. repeat split; assumption. Qed.

(** The stages of the first-file block, with the names used below. *)
Lemma first_file_stages opts st st' :
  first_file opts st = Ok st' ->
  exists s1 s2 s3 s4 s5 s6 s7 s8,
    initialize_parameters st = Ok s1 /\ initialize_time_values s1 = Ok s2 /\
    initialize_metadata s2 = Ok s3 /\ initialize_timestamp s3 = Ok s4 /\
    initialize_classes s4 = Ok s5 /\
    (match configfilename opts with
     | Some cfg => read_configfile cfg s5
     | None => Ok s5
     end) = Ok s6 /\
    check_metric_names s6 = Ok s7 /\
    prepare_single_output_file (singlefilename opts) s7 = Ok s8 /\
    prepare_multi_output_files (multifiledirname opts) s8 = Ok st'.
Proof.
  unfold first_file, discover, schema. intros H.
  destruct (initialize_parameters st) as [s1| |] eqn:E1; try discriminate.
  cbn [bind] in H.
  destruct (initialize_time_values s1) as [s2| |] eqn:E2; try discriminate.
  cbn [bind] in H.
  destruct (initialize_metadata s2) as [s3| |] eqn:E3; try discriminate.
  cbn [bind] in H.
  destruct (initialize_timestamp s3) as [s4| |] eqn:E4; try discriminate.
  cbn [bind] in H.
  destruct (initialize_classes s4) as [s5| |] eqn:E5; try discriminate.
  cbn [bind] in H.
  match type of H with
  | bind ?x _ = _ => destruct x as [s6| |] eqn:E6; try discriminate
  end.
  cbn [bind] in H.
  destruct (check_metric_names s6) as [s7| |] eqn:E7; try discriminate.
  cbn [bind] in H.
  destruct (prepare_single_output_file (singlefilename opts) s7) as [s8| |] eqn:E8;
    try discriminate.
  cbn [bind] in H.
  exists s1, s2, s3, s4, s5, s6, s7, s8. repeat split; assumption.
Qed.

Lemma initialize_classes_stream st st' :
  initialize_classes st = Ok st' ->
  environment st' = environment st /\ globals st' = globals st /\
  (is_stdin (inputfile st) = false ->
   rest (inputfile st') = contents (inputfile st) /\ inputlinectr st' = 0) /\
  (is_stdin (inputfile st) = true -> forward st st').
Proof.
  unfold initialize_classes. intros H. bind_ok H. destruct a as [classes s].
  inversion H; subst. apply classes_loop_reads in E. destruct E as (He & Hg & Hf).
  pose proof (environment_fields _ _ He) as (_ & _ & Hc & Hs).
  unfold rewind. cbn [inputfile set_classtbl]. rewrite Hs.
  destruct (is_stdin (inputfile st)) eqn:Ei.
  - split; [exact He|]. split; [exact Hg|]. split; [discriminate|]. intros _.
    destruct Hf as [pre Hp]. exists pre. exact Hp.
  - split; [rewrite <- He; unfold environment; cbn; now rewrite Hc|].
    split; [rewrite <- Hg; unfold globals; cbn; now rewrite Hc|].
    split; [|discriminate]. intros _. cbn. split; [exact Hc|reflexivity].
Qed.

(** X9.  Where the first-file block of [main] leaves the input stream.  A
    named file is rewound: [read_inputfile] then reads it again from its
    first line, with the line counter at 0.  Standard input cannot be
    rewound: the stream is left where the discovery stopped, after the
    header of the first DATE block, so that the first data set is not seen
    by [read_inputfile]. *)
Theorem first_file_stream (opts : Options) (st st' : State) :
  first_file opts st = Ok st' ->
  contents (inputfile st') = contents (inputfile st) /\
  is_stdin (inputfile st') = is_stdin (inputfile st) /\
  (is_stdin (inputfile st) = false ->
   rest (inputfile st') = contents (inputfile st) /\ inputlinectr st' = 0) /\
  (is_stdin (inputfile st) = true ->
   exists pre l post,
     rest (inputfile st) = (pre ++ l :: post ++ rest (inputfile st'))%list /\
     chop l = DATESTR).
Proof.
  intros H. apply first_file_stages in H.
  destruct H as (s1 & s2 & s3 & s4 & s5 & s6 & s7 & s8 &
                 E1 & E2 & E3 & E4 & E5 & E6 & E7 & E8 & E9).
  apply initialize_parameters_frame in E1 as (F1 & _ & _).
  apply initialize_time_values_reads in E2 as (He2 & Hf2).
  apply initialize_metadata_reads in E3 as (He3 & Hf3).
  apply initialize_timestamp_reads in E4 as (He4 & _ & pre4 & l & post4 & Hp4 & Hl).
  apply initialize_classes_stream in E5 as (He5 & _ & Hn5 & Hs5).
  assert (F6 : inputfile s6 = inputfile s5 /\ inputlinectr s6 = inputlinectr s5).
  { destruct (configfilename opts) as [cfg|].
    - apply read_configfile_settled in E6 as [E6 _].
      apply settled_fields in E6 as (A & B & _). split; assumption.
    - inversion E6; subst. split; reflexivity. }
  apply check_metric_names_same in E7. subst s7.
  apply prepare_single_output_file_settled in E8 as (E8 & _).
  apply settled_fields in E8 as (F8 & G8 & _).
  apply prepare_multi_output_files_settled in E9 as (E9 & _).
  apply settled_fields in E9 as (F9 & G9 & _).
  destruct F6 as [F6 G6].
  apply environment_fields in He2 as (_ & _ & C2 & S2).
  apply environment_fields in He3 as (_ & _ & C3 & S3).
  apply environment_fields in He4 as (_ & _ & C4 & S4).
  apply environment_fields in He5 as (_ & _ & C5 & S5).
  rewrite F9, F8, F6, G9, G8, G6.
  assert (HS : is_stdin (inputfile s4) = is_stdin (inputfile st)) by congruence.
  assert (HC : contents (inputfile s4) = contents (inputfile st)) by congruence.
  split; [congruence|]. split; [congruence|]. split.
  - intros Hi. rewrite <- HC. apply Hn5. congruence.
  - intros Hi. rewrite HS in Hs5. destruct (Hs5 Hi) as [pre5 Hp5].
    destruct Hf2 as [pre2 Hp2]. destruct Hf3 as [pre3 Hp3].
    exists (pre2 ++ pre3 ++ pre4)%list, l, (post4 ++ pre5)%list.
    rewrite <- F1, Hp2, Hp3, Hp4, Hp5. rewrite <- ?app_assoc. cbn [app].
    rewrite <- ?app_assoc. split; [reflexivity|exact Hl].
Qed.

(** ** Frames of [read_inputfile] *)

Lemma vector_rows_reads (lines : list string) :
  forall c r st c' r' st', rest (inputfile st) = lines ->
    vector_rows lines c r st = Ok (c', r', st') ->
    (environment st' = environment st /\ globals st' = globals st /\
     classtbl st' = classtbl st) /\ forward st st'.
Proof.
  induction lines as [|l lines IH]; intros c r st c' r' st' Hr H; cbn [vector_rows] in H.
  - inversion H; subst. repeat split. apply forward_refl.
  - pose proof (forward_next_line l lines st Hr) as Hn.
    bind_ok H. destruct (length _ =? length (metrictbl c))%nat.
    + bind_ok H. apply IH in H; [|reflexivity]. destruct H as (He & Hf).
      split; [exact He|]. eapply forward_trans; [exact Hn|].
      destruct Hf as [pre Hp]. exists pre. exact Hp.
    + destruct (length _ =? 0)%nat.
      * inversion H; subst. repeat split. exact Hn.
      * apply IH in H; [|reflexivity]. destruct H as (He & Hf).
        split; [exact He|]. eapply forward_trans; [exact Hn|].
        destruct Hf as [pre Hp]. exists pre. exact Hp.
Qed.

Lemma array_rows_reads (lines : list string) :
  forall c r p st c' r' p' st', rest (inputfile st) = lines ->
    array_rows lines c r p st = Ok (c', r', p', st') ->
    (environment st' = environment st /\ globals st' = globals st /\
     classtbl st' = classtbl st) /\ forward st st'.
Proof.
  induction lines as [|l lines IH]; intros c r p st c' r' p' st' Hr H;
    cbn [array_rows] in H.
  - inversion H; subst. repeat split. apply forward_refl.
  - pose proof (forward_next_line l lines st Hr) as Hn.
    bind_ok H. destruct (length _ =? length (metrictbl c) + 1)%nat.
    + bind_ok H. apply IH in H; [|reflexivity]. destruct H as (He & Hf).
      split; [exact He|]. eapply forward_trans; [exact Hn|].
      destruct Hf as [pre Hp]. exists pre. exact Hp.
    + destruct (length _ =? 0)%nat.
      * inversion H; subst. repeat split. exact Hn.
      * apply IH in H; [|reflexivity]. destruct H as (He & Hf).
        split; [exact He|]. eapply forward_trans; [exact Hn|].
        destruct Hf as [pre Hp]. exists pre. exact Hp.
Qed.

Lemma read_vector_stanza_reads c st c' st' :
  read_vector_stanza c st = Ok (c', st') ->
  (environment st' = environment st /\ globals st' = globals st /\
   classtbl st' = classtbl st) /\ forward st st'.
Proof.
  unfold read_vector_stanza. intros H. bind_ok H. destruct a as [[c1 r1] s1].
  apply vector_rows_reads in E; [|reflexivity]. destruct E as ((He & Hg & Hc) & Hf).
  inversion H; subst. destruct (negb _).
  - split; [repeat split; assumption|]. destruct Hf as [pre Hp]. exists pre. exact Hp.
  - split; [repeat split; assumption|exact Hf].
Qed.

Lemma read_array_stanza_reads c st c' st' :
  read_array_stanza c st = Ok (c', st') ->
  (environment st' = environment st /\ globals st' = globals st /\
   classtbl st' = classtbl st) /\ forward st st'.
Proof.
  unfold read_array_stanza. intros H. bind_ok H. destruct a as [[[c1 r1] p1] s1].
  apply array_rows_reads in E; [|reflexivity]. destruct E as ((He & Hg & Hc) & Hf).
  destruct p1 as [i|]; [|discriminate]. destruct (metrictbl c1 !! i); [|discriminate].
  inversion H; subst. destruct (negb _).
  - split; [repeat split; assumption|]. destruct Hf as [pre Hp]. exists pre. exact Hp.
  - split; [repeat split; assumption|exact Hf].
Qed.

Lemma read_classes_reads (classes : list Class) :
  forall st r, read_classes classes st = Ok r ->
    (environment (snd r) = environment st /\ globals (snd r) = globals st /\
     classtbl (snd r) = classtbl st) /\ forward st (snd r).
Proof.
  induction classes as [|c classes IH]; intros st r H; cbn [read_classes] in H.
  - inversion H; subst. repeat split. apply forward_refl.
  - destruct (skip_to_stanza (datastanza c) false st) as [s1| |] eqn:E1; try discriminate.
    cbn [bind] in H.
    pose proof (skip_to_stanza_environment _ _ _ _ E1) as [He1 Hg1].
    pose proof (skip_to_stanza_classtbl _ _ _ _ E1) as Hc1.
    apply skip_to_stanza_forward in E1 as [Hf1 _].
    match type of H with
    | bind ?x _ = _ => destruct x as [[c1 s2]| |] eqn:E2; try discriminate
    end.
    cbn [bind fst snd] in H.
    destruct (read_classes classes s2) as [r2| |] eqn:E3; try discriminate.
    cbn [bind] in H. inversion H; subst. cbn [snd].
    assert (Hstep : (environment s2 = environment s1 /\ globals s2 = globals s1 /\
                     classtbl s2 = classtbl s1) /\ forward s1 s2).
    { destruct (classtype c =? VECTORCLASS)%char.
      - eapply read_vector_stanza_reads; eauto.
      - eapply read_array_stanza_reads; eauto. }
    destruct Hstep as ((He2 & Hg2 & Hc2) & Hf2).
    apply IH in E3. destruct E3 as ((He3 & Hg3 & Hc3) & Hf3).
    split; [repeat split; congruence|].
    eapply forward_trans; [exact Hf1|]. eapply forward_trans; eauto.
Qed.

Lemma singlefile_rows_frame (n : nat) :
  forall rowidx ts st st',
    singlefile_rows n rowidx ts st = Ok st' ->
    settled st' = settled st /\ paramtbl st' = paramtbl st /\ classtbl st' = classtbl st.
Proof.
  induction n as [|n IH]; intros rowidx ts st st' H; cbn [singlefile_rows] in H.
  - inversion H; repeat split.
  - bind_ok H. apply IH in H. exact H.
Qed.

Lemma multifile_rows_frame (n : nat) :
  forall rowidx ts st st',
    multifile_rows n rowidx ts st = Ok st' ->
    settled st' = settled st /\ paramtbl st' = paramtbl st /\
    singlefile st' = singlefile st.
Proof.
  induction n as [|n IH]; intros rowidx ts st st' H; cbn [multifile_rows] in H.
  - inversion H; repeat split.
  - bind_ok H. apply IH in H. exact H.
Qed.

Lemma settled_globals (st st' : State) :
  settled st' = settled st -> paramtbl st' = paramtbl st ->
  globals st' = globals st /\ forward st st'.
Proof.
  intros H Hp. apply settled_fields in H as (Hi & _ & H1 & H2 & H3 & H4).
  unfold globals. rewrite Hi, H1, H2, H3, H4, Hp. split; [reflexivity|].
  exists []. now rewrite Hi.
Qed.

Lemma read_inputfile_loop_globals (fuel : nat) :
  forall opts ts st r,
    read_inputfile_loop fuel opts ts st = Ok r ->
    globals (snd r) = globals st /\ forward st (snd r).
Proof.
  induction fuel as [|fuel IH]; intros opts ts st r H;
    cbn [read_inputfile_loop] in H; [discriminate|].
  destruct (skip_to_stanza DATESTR false st) as [s1| |] eqn:E1; try discriminate.
  cbn [bind] in H.
  pose proof (skip_to_stanza_environment _ _ _ _ E1) as [_ Hg1].
  apply skip_to_stanza_forward in E1 as [Hf1 _].
  destruct (rest (inputfile s1)) as [|l lines] eqn:Hr.
  - inversion H; subst. cbn [snd]. split; assumption.
  - pose proof (forward_next_line l lines s1 Hr) as Hn.
    destruct (parse_input_line l NUMDATEARGS) as [argtbl| |]; try discriminate.
    cbn [bind] in H.
    match type of H with
    | bind (read_classes ?t ?s) _ = _ =>
        destruct (read_classes t s) as [rc| |] eqn:E2; try discriminate;
        assert (Hc : globals (snd rc) = globals s1 /\ forward s1 (snd rc))
    end.
    { apply read_classes_reads in E2. destruct E2 as ((_ & Hg & _) & Hf).
      destruct (length argtbl =? NUMDATEARGS)%nat.
      - split; [exact Hg|]. eapply forward_trans; [exact Hn|exact Hf].
      - split; [exact Hg|]. eapply forward_trans; [exact Hn|].
        destruct Hf as [pre Hp]. exists pre. exact Hp. }
    destruct Hc as [Hg2 Hf2]. cbn [bind] in H.
    match type of H with
    | bind ?x _ = _ => destruct x as [s3| |] eqn:E3; try discriminate
    end.
    cbn [bind] in H.
    match type of H with
    | bind ?x _ = _ => destruct x as [s4| |] eqn:E4; try discriminate
    end.
    cbn [bind] in H. apply IH in H. destruct H as [Hg5 Hf5].
    assert (H3 : globals s3 = globals (snd rc) /\ forward (snd rc) s3).
    { destruct (singlefilename opts).
      - unfold output_singlefile_body in E3. apply singlefile_rows_frame in E3.
        destruct E3 as (A & B & _). apply settled_globals in A; [|exact B].
        destruct A as [A1 [pre A2]]. split; [exact A1|]. exists pre. exact A2.
      - inversion E3; subst. split; [reflexivity|]. exists []. reflexivity. }
    assert (H4 : globals s4 = globals s3 /\ forward s3 s4).
    { destruct (multifiledirname opts).
      - unfold output_multifile_bodies_data in E4. apply multifile_rows_frame in E4.
        destruct E4 as (A & B & _). apply settled_globals; assumption.
      - inversion E4; subst. split; [reflexivity|apply forward_refl]. }
    destruct H3 as [Hg3 Hf3]. destruct H4 as [Hg4 Hf4].
    split; [congruence|].
    eapply forward_trans; [exact Hf1|]. eapply forward_trans; [exact Hf2|].
    eapply forward_trans; [exact Hf3|]. eapply forward_trans; eauto.
Qed.

(** X10.  [read_inputfile] never changes the schema: whatever the file
    holds, the classes with their names, types and start rows, the metrics
    with their names, the devices with their names and scales, and the size
    of every buffer are afterwards as before; so are [count], [interval],
    [fullscale], [firsttimestamp] and the parameter table.  The stream of
    the file is only read forward.  (A METADATA or TIME_VALUES block in a
    later file has no effect.) *)
Theorem read_inputfile_keeps_schema (opts : Options) (st : State) (ts : Z) (st' : State) :
  read_inputfile opts st = Ok (ts, st') ->
  shape (classtbl st') = shape (classtbl st) /\
  globals st' = globals st /\
  forward st st'.
Proof.
  intros H. split.
  - apply (read_inputfile_proj metricname dev_shape) in H; try exact H.
    + reflexivity.
    + reflexivity.
    + exact dev_shape_value.
    + reflexivity.
  - unfold read_inputfile in H. apply read_inputfile_loop_globals in H.
    cbn [snd] in H. destruct H as [Hg [pre Hf]]. split; [exact Hg|].
    exists pre. exact Hf.
Qed.

(** ** The buffers hold [count] values *)

Lemma skeleton_sized (n : nat) (tbl : list Class) :
  forall tbl', skeleton tbl' = skeleton tbl -> buffers_sized n tbl -> buffers_sized n tbl'.
Proof.
  unfold skeleton, tproj, buffers_sized.
  induction tbl as [|c tbl IH]; intros [|c' tbl'] E H; try discriminate; [constructor|].
  cbn [map] in E. apply Forall_cons in H as [Hc H].
  pose proof (f_equal (@tl _) E) as E2. cbn [tl] in E2.
  assert (E1 : map (mproj metricname dev_skeleton) (metrictbl c') =
               map (mproj metricname dev_skeleton) (metrictbl c)).
  { unfold cproj in E. congruence. }
  constructor; [|exact (IH tbl' E2 H)]. clear -E1 Hc.
  revert E1 Hc. generalize (metrictbl c') as l'. generalize (metrictbl c) as l.
  induction l as [|m l IHl]; intros [|m' l'] E H; try discriminate; [constructor|].
  cbn [map] in E. apply Forall_cons in H as [Hm H].
  pose proof (f_equal (@tl _) E) as E2. cbn [tl] in E2.
  assert (E1 : map dev_skeleton (devicetbl m') = map dev_skeleton (devicetbl m)).
  { unfold mproj in E. congruence. }
  constructor; [|exact (IHl l' E2 H)]. clear -E1 Hm.
  revert E1 Hm. generalize (devicetbl m') as t'. generalize (devicetbl m) as t.
  induction t as [|d t IHt]; intros [|d' t'] E H; try discriminate; [constructor|].
  cbn [map] in E. apply Forall_cons in H as [Hd H].
  pose proof (f_equal (@tl _) E) as E2. cbn [tl] in E2.
  constructor; [|exact (IHt t' E2 H)].
  unfold dev_skeleton in E. congruence.
Qed.

Lemma skeleton_nil (tbl : list Class) : skeleton tbl = skeleton [] -> tbl = [].
Proof. destruct tbl; [reflexivity|discriminate]. Qed.

Lemma sized_skeleton (st st' : State) :
  skeleton (classtbl st') = skeleton (classtbl st) -> count st' = count st ->
  sized st -> sized st'.
Proof.
  intros Hs Hc [H1 H2]. unfold sized. rewrite Hc. split.
  - eapply skeleton_sized; eauto.
  - destruct H2 as [H2|H2]; [left|right; exact H2].
    rewrite H2 in Hs. now apply skeleton_nil.
Qed.

Lemma discovered_class_sized (count_ : Z) (c c' : Class) :
  discovered_class count_ c c' ->
  Forall (fun m => Forall (fun d => length (valuetbl d) = Z.to_nat count_) (devicetbl m))
    (metrictbl c').
Proof.
  intros [names [(_ & _ & _ & _ & _ & _ & Hu) _]]. unfold uniform in Hu.
  eapply Forall_impl; [exact Hu|]. intros m [_ Hf]. cbn beta.
  eapply Forall_impl; [exact Hf|]. intros d (_ & _ & _ & _ & _ & Hv & _). cbn beta.
  rewrite Hv. apply repeat_length.
Qed.

Lemma first_file_sized opts st st' :
  first_file opts st = Ok st' -> classtbl st = [] -> sized st'.
Proof.
  intros H Hnil. apply first_file_stages in H.
  destruct H as (s1 & s2 & s3 & s4 & s5 & s6 & s7 & s8 &
                 E1 & E2 & E3 & E4 & E5 & E6 & E7 & E8 & E9).
  apply initialize_parameters_classtbl in E1.
  apply initialize_time_values_classtbl in E2.
  assert (H3 : no_devices (classtbl s3) /\ (classtbl s3 = [] \/ 1 <= count s3)).
  { unfold initialize_metadata in E3. bind_ok E3.
    pose proof (skip_to_stanza_position _ _ _ _ E) as Hp.
    apply same_but_position_fields in Hp as (Ht & Hc & _).
    apply metadata_loop_classes in E3 as (Hc3 & new & Hn & Hd).
    rewrite Ht, E2, E1, Hnil in Hn. cbn [app] in Hn. rewrite Hn, Hc3. split.
    - unfold no_devices. eapply Forall_impl; [exact Hd|].
      intros c (_ & _ & _ & _ & Hf). cbn beta. eapply Forall_impl; [exact Hf|].
      intros m Hm. apply Hm.
    - destruct Hd as [|c new (_ & _ & Hs & _) _]; [now left|right; lia]. }
  destruct H3 as [Hno Hne].
  pose proof (initialize_timestamp_classtbl _ _ E4) as T4.
  apply initialize_timestamp_reads in E4 as (_ & C4 & _).
  rewrite <- T4 in Hno.
  assert (H5 : sized s5).
  { unfold initialize_classes in E5. bind_ok E5. destruct a as [classes s].
    inversion E5; subst. apply classes_loop_devices in E; [|exact Hno].
    destruct E as (Hd & _ & Hg & _). apply globals_fields in Hg as (Hc & _).
    assert (Hk : count (rewind (set_classtbl classes s)) = count s4).
    { unfold rewind. destruct (is_stdin _); cbn; exact Hc. }
    assert (Ht : classtbl (rewind (set_classtbl classes s)) = classes).
    { unfold rewind. destruct (is_stdin _); reflexivity. }
    unfold sized. rewrite Hk, Ht. split.
    - unfold buffers_sized. clear -Hd. induction Hd as [|c c' l l' Hc _ IH]; constructor.
      + eapply discovered_class_sized; eauto.
      + exact IH.
    - destruct Hne as [Hne|Hne]; [left|right; lia].
      rewrite T4, Hne in Hd. inversion Hd. reflexivity. }
  assert (H6 : sized s6).
  { destruct (configfilename opts) as [cfg|]; [|inversion E6; subst; exact H5].
    unfold read_configfile in E6. destruct cfg as [cfg|]; [|discriminate].
    pose proof (configfile_loop_settled _ _ _ E6) as [Hs _].
    apply settled_fields in Hs as (_ & _ & Hc & _).
    eapply sized_skeleton; [|exact Hc|exact H5].
    apply (configfile_loop_proj metricname dev_skeleton) in E6; try exact E6; reflexivity. }
  apply check_metric_names_same in E7. subst s7.
  assert (H8 : sized s8).
  { apply prepare_single_output_file_settled in E8 as (Hs & Ht & _).
    apply settled_fields in Hs as (_ & _ & Hc & _).
    eapply sized_skeleton; [|exact Hc|exact H6]. now rewrite Ht. }
  pose proof (prepare_multi_output_files_settled _ _ _ E9) as (Hs & _).
  apply settled_fields in Hs as (_ & _ & Hc & _).
  eapply sized_skeleton; [|exact Hc|exact H8].
  apply (prepare_multi_output_files_proj metricname dev_skeleton) in E9; try exact E9;
    reflexivity.
Qed.

Lemma read_inputfile_sized opts st r :
  read_inputfile opts st = Ok r -> sized st -> sized (snd r).
Proof.
  intros H Hs. eapply sized_skeleton; [| |exact Hs].
  - apply (read_inputfile_proj metricname dev_skeleton) in H; try exact H;
      try reflexivity. exact dev_skeleton_value.
  - unfold read_inputfile in H. apply read_inputfile_loop_globals in H.
    destruct H as [Hg _]. apply globals_fields in Hg as (Hc & _). exact Hc.
Qed.

Lemma main_loop_sized opts (argv : list Input) :
  forall flag st st',
    main_loop opts argv flag st = Ok st' ->
    (flag = true -> classtbl st = []) -> sized st -> sized st'.
Proof.
  induction argv as [|a argv IH]; intros flag st st' H Hflag Hs; cbn [main_loop] in H.
  - inversion H; subst. exact Hs.
  - destruct (open_input a) as [f|].
    + match type of H with
      | bind ?x _ = _ => destruct x as [s1| |] eqn:E1; try discriminate
      end.
      cbn [bind] in H.
      destruct (read_inputfile opts s1) as [r| |] eqn:E2; try discriminate.
      cbn [bind] in H. eapply IH; [exact H|discriminate|].
      eapply read_inputfile_sized; [exact E2|].
      destruct flag.
      * eapply first_file_sized; [exact E1|]. cbn. now apply Hflag.
      * inversion E1; subst. exact Hs.
    + eapply IH; [exact H| |exact Hs]. exact Hflag.
Qed.

(** X11.  At [exit(0)] of [main], for every command line and every list of
    input files, the buffer of every device has exactly [count] slots (the
    sample count of the TIME_VALUES block of the first file), whatever
    later files declare; and a class exists only when [count >= 1]. *)
Theorem buffers_hold_count (opts : Options) (argv : list Input) (st : State) :
  main opts argv = Ok st ->
  (forall c m d, In c (classtbl st) -> In m (metrictbl c) -> In d (devicetbl m) ->
                 Z.of_nat (length (valuetbl d)) = count st) /\
  (classtbl st <> [] -> 1 <= count st).
Proof.
  unfold main. destruct argv as [|a argv]; [discriminate|]. intros H.
  apply main_loop_sized in H.
  - destruct H as [Hb Hc]. split.
    + intros c m d Ic Im Id. destruct Hc as [Hc|Hc]; [rewrite Hc in Ic; destruct Ic|].
      unfold buffers_sized in Hb. rewrite List.Forall_forall in Hb.
      specialize (Hb c Ic). rewrite List.Forall_forall in Hb.
      specialize (Hb m Im). rewrite List.Forall_forall in Hb.
      rewrite (Hb d Id). lia.
    + intros Hne. destruct Hc as [Hc|Hc]; [congruence|exact Hc].
  - intros _. unfold start_state. destruct (negb _ && negb _); reflexivity.
  - unfold sized, start_state.
    destruct (negb _ && negb _); (split; [constructor|left; reflexivity]).
Qed.

(** ** The scale of the output *)

Lemma initialize_parameters_fullscale st st' :
  initialize_parameters st = Ok st' -> paramtbl st = static_paramtbl ->
  fullscale st' = 100%Q.
Proof.
  unfold initialize_parameters. intros H Hp. rewrite Hp in H.
  assert (E : exists tbl, initialize_paramtbl 0 static_paramtbl = Ok tbl /\
                          param_fltpnt (param_value FULLSCALEIDX tbl) = 100%Q).
  { eexists. split; [vm_compute; reflexivity|reflexivity]. }
  destruct E as [tbl [E1 E2]]. rewrite E1 in H. cbn [bind] in H.
  inversion H; subst. cbn [fullscale set_fullscale]. exact E2.
Qed.

Lemma first_file_fullscale opts st st' :
  first_file opts st = Ok st' -> paramtbl st = static_paramtbl -> fullscale st' = 100%Q.
Proof.
  intros H Hp. apply first_file_stages in H.
  destruct H as (s1 & s2 & s3 & s4 & s5 & s6 & s7 & s8 &
                 E1 & E2 & E3 & E4 & E5 & E6 & E7 & E8 & E9).
  apply initialize_parameters_fullscale in E1; [|exact Hp].
  apply initialize_time_values_reads in E2 as (He2 & _).
  apply initialize_metadata_reads in E3 as (He3 & _).
  apply initialize_timestamp_reads in E4 as (He4 & _).
  apply initialize_classes_stream in E5 as (He5 & _).
  apply environment_fields in He2 as (F2 & _).
  apply environment_fields in He3 as (F3 & _).
  apply environment_fields in He4 as (F4 & _).
  apply environment_fields in He5 as (F5 & _).
  assert (F6 : fullscale s6 = fullscale s5).
  { destruct (configfilename opts) as [cfg|]; [|inversion E6; reflexivity].
    apply read_configfile_settled in E6 as [E6 _].
    apply settled_fields in E6 as (_ & _ & _ & _ & F & _). exact F. }
  apply check_metric_names_same in E7. subst s7.
  apply prepare_single_output_file_settled in E8 as (E8 & _).
  apply settled_fields in E8 as (_ & _ & _ & _ & F8 & _).
  apply prepare_multi_output_files_settled in E9 as (E9 & _).
  apply settled_fields in E9 as (_ & _ & _ & _ & F9 & _).
  congruence.
Qed.

Lemma main_loop_fullscale opts (argv : list Input) :
  forall flag st st',
    main_loop opts argv flag st = Ok st' ->
    (if flag then paramtbl st = static_paramtbl /\ fullscale st = 0%Q
     else fullscale st = 100%Q) ->
    fullscale st' = 100%Q \/
    (flag = true /\ fullscale st' = 0%Q /\ Forall (fun a => open_input a = None) argv).
Proof.
  induction argv as [|a argv IH]; intros flag st st' H Hst; cbn [main_loop] in H.
  - inversion H; subst. destruct flag; [right|left; exact Hst].
    split; [reflexivity|]. split; [apply Hst|constructor].
  - destruct (open_input a) as [f|] eqn:Ea.
    + match type of H with
      | bind ?x _ = _ => destruct x as [s1| |] eqn:E1; try discriminate
      end.
      cbn [bind] in H.
      destruct (read_inputfile opts s1) as [r| |] eqn:E2; try discriminate.
      cbn [bind] in H. left.
      assert (F1 : fullscale s1 = 100%Q).
      { destruct flag.
        - eapply first_file_fullscale; [exact E1|]. apply Hst.
        - inversion E1; subst. exact Hst. }
      unfold read_inputfile in E2. apply read_inputfile_loop_globals in E2 as [Hg _].
      apply globals_fields in Hg as (_ & _ & F2 & _). cbn in F2.
      apply IH in H; [|cbn; congruence].
      destruct H as [H|[H _]]; [exact H|discriminate].
    + apply IH in H; [|destruct flag; exact Hst].
      destruct H as [H|(H0 & H1 & H2)]; [left; exact H|right].
      split; [exact H0|]. split; [exact H1|constructor; assumption].
Qed.

(** X12.  The scale of the output is the default of the program: at
    [exit(0)] of [main] the global [fullscale], which both emitters use to
    normalize, is 100, whatever the configuration file sets (a [fullscale]
    line of the configuration file changes the entry of the parameter
    table, read after the global was set, and nothing else), and whatever
    the input files hold.  It is 0, as at program start, only when no input
    file could be opened. *)
Theorem fullscale_is_the_default (opts : Options) (argv : list Input) (st : State) :
  main opts argv = Ok st ->
  fullscale st = 100%Q \/
  (fullscale st = 0%Q /\ Forall (fun a => open_input a = None) argv).
Proof.
  unfold main. destruct argv as [|a argv]; [discriminate|]. intros H.
  apply main_loop_fullscale in H.
  - destruct H as [H|(_ & H1 & H2)]; [left; exact H|right; split; assumption].
  - unfold start_state. destruct (negb _ && negb _); split; reflexivity.
Qed.

(** ** The wide table is rectangular *)

Lemma list_sum_cons (a : nat) (l : list nat) : list_sum (a :: l) = (a + list_sum l)%nat.
Proof. reflexivity. Qed.

Lemma emitted_devices_emitted c m ds : emitted_devices c m = Ok ds -> ds = emitted c m.
Proof.
  unfold emitted_devices, emitted. destruct (classtype c =? VECTORCLASS)%char.
  - destruct (devicetbl m); [discriminate|]. intros H; inversion H; reflexivity.
  - intros H; inversion H; reflexivity.
Qed.

Lemma header_devices_length sep c m (ds : list Device) :
  length (header_devices sep c m ds) = length (List.filter active ds).
Proof.
  induction ds as [|d ds IH]; [reflexivity|]. cbn [header_devices List.filter].
  destruct (active d); cbn [length]; now rewrite IH.
Qed.

Lemma header_metrics_length sep c (tbl : list Metric) :
  forall names, header_metrics sep c tbl = Ok names ->
                length names = list_sum (map (active_count c) tbl).
Proof.
  induction tbl as [|m tbl IH]; intros names H; cbn [header_metrics] in H.
  - inversion H; reflexivity.
  - bind_ok H. inversion H; subst. apply emitted_devices_emitted in E. subst.
    rewrite length_app, header_devices_length. cbn [map].
    rewrite list_sum_cons, (IH _ eq_refl). reflexivity.
Qed.

Lemma header_classes_length sep (tbl : list Class) :
  forall names, header_classes sep tbl = Ok names -> length names = width tbl.
Proof.
  induction tbl as [|c tbl IH]; intros names H; cbn [header_classes] in H.
  - inversion H; reflexivity.
  - bind_ok H. inversion H; subst. rewrite length_app.
    apply header_metrics_length in E. rewrite E, (IH _ eq_refl). reflexivity.
Qed.

Lemma body_devices_length fs sr r (ds : list Device) :
  forall fields, body_devices fs sr r ds = Ok fields ->
                 length fields = length (List.filter active ds).
Proof.
  induction ds as [|d ds IH]; intros fields H; cbn [body_devices] in H.
  - inversion H; reflexivity.
  - cbn [List.filter]. destruct (active d).
    + destruct (r >=? sr); bind_ok H; inversion H; subst; cbn [length];
        now rewrite (IH _ eq_refl).
    + now apply IH.
Qed.

Lemma body_metrics_length fs r c (tbl : list Metric) :
  forall fields, body_metrics fs r c tbl = Ok fields ->
                 length fields = list_sum (map (active_count c) tbl).
Proof.
  induction tbl as [|m tbl IH]; intros fields H; cbn [body_metrics] in H.
  - inversion H; reflexivity.
  - bind_ok H. inversion H; subst. apply emitted_devices_emitted in E. subst.
    apply body_devices_length in E0. rewrite length_app, E0. cbn [map].
    rewrite list_sum_cons, (IH _ eq_refl). reflexivity.
Qed.

Lemma body_classes_length fs r (tbl : list Class) :
  forall fields, body_classes fs r tbl = Ok fields -> length fields = width tbl.
Proof.
  induction tbl as [|c tbl IH]; intros fields H; cbn [body_classes] in H.
  - inversion H; reflexivity.
  - bind_ok H. inversion H; subst. rewrite length_app.
    apply body_metrics_length in E. rewrite E, (IH _ eq_refl). reflexivity.
Qed.

Lemma singlefile_rows_rows (n : nat) :
  forall rowidx ts st st',
    singlefile_rows n rowidx ts st = Ok st' ->
    exists rows, singlefile st' = (singlefile st ++ rows)%list /\ length rows = n /\
                 Forall (row_of_width (width (classtbl st))) rows.
Proof.
  induction n as [|n IH]; intros rowidx ts st st' H; cbn [singlefile_rows] in H.
  - inversion H; subst. exists []. rewrite app_nil_r. repeat split. constructor.
  - bind_ok H. apply IH in H. destruct H as (rows & H1 & H2 & H3).
    cbn [singlefile classtbl set_singlefile] in H1, H3.
    eexists (_ :: rows). rewrite H1, <- app_assoc. split; [reflexivity|].
    split; [cbn [length]; now rewrite H2|].
    constructor; [|exact H3]. eexists _, _. split; [reflexivity|].
    eapply body_classes_length; eauto.
Qed.

Lemma shape_active (l : list Device) :
  forall l', map dev_shape l' = map dev_shape l ->
             length (List.filter active l') = length (List.filter active l).
Proof.
  induction l as [|d l IH]; intros [|d' l'] E; try discriminate; [reflexivity|].
  cbn [map] in E. pose proof (f_equal (@tl _) E) as E2. cbn [tl] in E2.
  assert (Hs : scale d' = scale d) by (unfold dev_shape in E; congruence).
  assert (Ha : active d' = active d) by (unfold active; now rewrite Hs).
  cbn [List.filter]. rewrite Ha.
  destruct (active d); cbn [length]; now rewrite (IH l' E2).
Qed.

Lemma shape_width (tbl : list Class) :
  forall tbl', shape tbl' = shape tbl -> width tbl' = width tbl.
Proof.
  unfold shape, tproj, width.
  induction tbl as [|c tbl IH]; intros [|c' tbl'] E; try discriminate; [reflexivity|].
  cbn [map] in E. pose proof (f_equal (@tl _) E) as E2. cbn [tl] in E2.
  assert (Et : classtype c' = classtype c) by (unfold cproj in E; congruence).
  assert (E1 : map (mproj metricname dev_shape) (metrictbl c') =
               map (mproj metricname dev_shape) (metrictbl c)).
  { unfold cproj in E. congruence. }
  cbn [map]. rewrite !list_sum_cons, (IH tbl' E2). f_equal.
  unfold class_width. clear -Et E1.
  revert E1. generalize (metrictbl c') as l'. generalize (metrictbl c) as l.
  induction l as [|m l IHl]; intros [|m' l'] E; try discriminate; [reflexivity|].
  cbn [map] in E. pose proof (f_equal (@tl _) E) as E2. cbn [tl] in E2.
  assert (Ed : map dev_shape (devicetbl m') = map dev_shape (devicetbl m)).
  { unfold mproj in E. congruence. }
  cbn [map]. rewrite !list_sum_cons, (IHl l' E2). f_equal.
  unfold active_count, emitted. rewrite Et.
  destruct (classtype c =? VECTORCLASS)%char; [|now apply shape_active].
  apply shape_active.
  destruct (devicetbl m') as [|d' t']; destruct (devicetbl m) as [|d t]; try discriminate;
    [reflexivity|]. cbn [take map] in *. f_equal. exact (f_equal (hd (dev_shape d)) Ed).
Qed.

Lemma wide_table_shape flag (st st' : State) :
  shape (classtbl st') = shape (classtbl st) -> count st' = count st ->
  singlefile st' = singlefile st -> wide_table flag st -> wide_table flag st'.
Proof.
  intros Hs Hc Hf. unfold wide_table. rewrite Hf, Hc, (shape_width _ _ Hs). auto.
Qed.

Lemma wide_table_rows (st st' : State) (rows : list SingleLine) :
  classtbl st' = classtbl st -> count st' = count st ->
  singlefile st' = (singlefile st ++ rows)%list ->
  length rows = Z.to_nat (count st) ->
  Forall (row_of_width (width (classtbl st))) rows ->
  wide_table true st -> wide_table true st'.
Proof.
  intros Ht Hc Hf Hl Hr (names & rows0 & k & H1 & H2 & H3 & H4).
  exists names, (rows0 ++ rows)%list, (S k). rewrite Hf, Ht, Hc, H1.
  split; [reflexivity|]. split; [exact H2|]. split; [apply Forall_app; now split|].
  rewrite length_app, H4, Hl. cbn [Nat.mul]. lia.
Qed.

Lemma read_inputfile_loop_wide (fuel : nat) :
  forall opts ts st r,
    read_inputfile_loop fuel opts ts st = Ok r ->
    wide_table (singlefilename opts) st -> wide_table (singlefilename opts) (snd r).
Proof.
  induction fuel as [|fuel IH]; intros opts ts st r H Hw;
    cbn [read_inputfile_loop] in H; [discriminate|].
  destruct (skip_to_stanza DATESTR false st) as [s1| |] eqn:E1; try discriminate.
  cbn [bind] in H.
  apply skip_to_stanza_position, same_but_position_fields in E1.
  destruct E1 as (T1 & C1 & _ & _ & _ & _ & S1 & _).
  assert (W1 : wide_table (singlefilename opts) s1).
  { eapply wide_table_shape; [| | |exact Hw]; congruence. }
  destruct (rest (inputfile s1)) as [|l lines] eqn:Hr.
  - inversion H; subst. exact W1.
  - destruct (parse_input_line l NUMDATEARGS) as [argtbl| |]; try discriminate.
    cbn [bind] in H.
    match type of H with
    | bind (read_classes ?t ?s) _ = _ =>
        destruct (read_classes t s) as [rc| |] eqn:E2; try discriminate;
        assert (W2 : wide_table (singlefilename opts) (set_classtbl (fst rc) (snd rc)))
    end.
    { pose proof (read_classes_proj metricname dev_shape
                    ltac:(reflexivity) dev_shape_value _ _ _ E2) as Hs.
      apply read_classes_reads in E2. destruct E2 as ((He & Hg & _) & _).
      apply environment_fields in He as (_ & Hf & _).
      apply globals_fields in Hg as (Hc & _).
      eapply wide_table_shape; [| | |exact W1].
      - unfold shape. cbn [classtbl set_classtbl]. rewrite Hs.
        destruct (length argtbl =? NUMDATEARGS)%nat; reflexivity.
      - cbn [count set_classtbl]. rewrite Hc.
        destruct (length argtbl =? NUMDATEARGS)%nat; reflexivity.
      - cbn [singlefile set_classtbl]. rewrite Hf.
        destruct (length argtbl =? NUMDATEARGS)%nat; reflexivity. }
    cbn [bind] in H.
    match type of H with
    | bind ?x _ = _ => destruct x as [s3| |] eqn:E3; try discriminate
    end.
    cbn [bind] in H.
    match type of H with
    | bind ?x _ = _ => destruct x as [s4| |] eqn:E4; try discriminate
    end.
    cbn [bind] in H. eapply IH; [exact H|].
    assert (W3 : wide_table (singlefilename opts) s3).
    { destruct (singlefilename opts) eqn:Es.
      - unfold output_singlefile_body in E3.
        pose proof (singlefile_rows_frame _ _ _ _ _ E3) as (Hs & _ & Ht).
        apply settled_fields in Hs as (_ & _ & Hc & _).
        apply singlefile_rows_rows in E3 as (rows & R1 & R2 & R3).
        eapply wide_table_rows; eauto.
      - inversion E3; subst. exact W2. }
    destruct (multifiledirname opts).
    + unfold output_multifile_bodies_data in E4.
      pose proof (multifile_rows_frame _ _ _ _ _ E4) as (Hs & _ & Hf).
      apply settled_fields in Hs as (_ & _ & Hc & _).
      eapply wide_table_shape; [| | |exact W3]; try assumption.
      apply (multifile_rows_proj metricname dev_shape) in E4; try exact E4; reflexivity.
    + inversion E4; subst. exact W3.
Qed.

Lemma first_file_wide opts st st' :
  first_file opts st = Ok st' -> singlefile st = [] ->
  wide_table (singlefilename opts) st'.
Proof.
  intros H Hnil. apply first_file_stages in H.
  destruct H as (s1 & s2 & s3 & s4 & s5 & s6 & s7 & s8 &
                 E1 & E2 & E3 & E4 & E5 & E6 & E7 & E8 & E9).
  apply initialize_parameters_frame in E1 as (_ & F1 & _).
  apply initialize_time_values_reads in E2 as (He2 & _).
  apply initialize_metadata_reads in E3 as (He3 & _).
  apply initialize_timestamp_reads in E4 as (He4 & _).
  apply initialize_classes_stream in E5 as (He5 & _).
  apply environment_fields in He2 as (_ & F2 & _).
  apply environment_fields in He3 as (_ & F3 & _).
  apply environment_fields in He4 as (_ & F4 & _).
  apply environment_fields in He5 as (_ & F5 & _).
  assert (F6 : singlefile s6 = singlefile s5).
  { destruct (configfilename opts) as [cfg|]; [|inversion E6; reflexivity].
    apply read_configfile_settled in E6 as [_ E6]. exact E6. }
  apply check_metric_names_same in E7. subst s7.
  assert (N6 : singlefile s6 = []) by congruence.
  assert (W8 : wide_table (singlefilename opts) s8).
  { unfold prepare_single_output_file, output_singlefile_headers in E8.
    unfold wide_table. destruct (singlefilename opts).
    - bind_ok E8. inversion E8; subst. cbn [singlefile classtbl count set_singlefile].
      rewrite N6. exists a, [], 0%nat. split; [reflexivity|].
      split; [eapply header_classes_length; eauto|]. split; [constructor|reflexivity].
    - inversion E8; subst. exact N6. }
  pose proof (prepare_multi_output_files_settled _ _ _ E9) as (Hs & Hf & _).
  apply settled_fields in Hs as (_ & _ & Hc & _).
  eapply wide_table_shape; [| | |exact W8]; try assumption.
  apply (prepare_multi_output_files_proj metricname dev_shape) in E9; try exact E9;
    reflexivity.
Qed.

Lemma main_loop_wide opts (argv : list Input) :
  forall flag st st',
    main_loop opts argv flag st = Ok st' ->
    (if flag then singlefile st = [] else wide_table (singlefilename opts) st) ->
    singlefile st' = [] \/ wide_table (singlefilename opts) st'.
Proof.
  induction argv as [|a argv IH]; intros flag st st' H Hst; cbn [main_loop] in H.
  - inversion H; subst. destruct flag; [left|right]; exact Hst.
  - destruct (open_input a) as [f|].
    + match type of H with
      | bind ?x _ = _ => destruct x as [s1| |] eqn:E1; try discriminate
      end.
      cbn [bind] in H.
      destruct (read_inputfile opts s1) as [r| |] eqn:E2; try discriminate.
      cbn [bind] in H. eapply (IH false); [exact H|].
      unfold read_inputfile in E2. eapply read_inputfile_loop_wide; [exact E2|].
      assert (W1 : wide_table (singlefilename opts) s1).
      { destruct flag.
        - eapply first_file_wide; [exact E1|]. exact Hst.
        - inversion E1; subst. exact Hst. }
      revert W1. unfold wide_table. destruct (singlefilename opts); auto.
    + eapply IH; [exact H|]. destruct flag; exact Hst.
Qed.


(** ** The configuration file *)

Lemma config_params_declared (name s : string) (tbl : list Param) :
  map param_declared (fst (config_params name s tbl)) = map param_declared tbl.
Proof.
  induction tbl as [|p tbl IH]; [reflexivity|]. cbn [config_params].
  destruct (String.eqb name (paramname p)); [reflexivity|].
  destruct (config_params name s tbl) as [t b]. cbn [fst map] in *. now rewrite IH.
Qed.

Lemma configfile_loop_changes (lines : list string) :
  forall st st', configfile_loop lines st = Ok st' ->
    map param_declared (paramtbl st') = map param_declared (paramtbl st) /\
    exists new, stderr st' = (new ++ stderr st)%list.
Proof.
  induction lines as [|l lines IH]; intros st st' H; cbn [configfile_loop] in H.
  - inversion H; subst. split; [reflexivity|]. exists []. reflexivity.
  - bind_ok H. destruct (length _ =? 2)%nat.
    + bind_ok H.
      pose proof (config_params_declared (arg a 0) (arg a 1) (paramtbl st)) as Hd.
      destruct (config_params _ _ (paramtbl st)) as [params legal]. cbn [fst] in Hd.
      apply IH in H. destruct H as [H1 [new H2]].
      destruct (snd _ || legal); cbn [paramtbl stderr log set_paramtbl set_classtbl] in *.
      * split; [congruence|]. exists new. exact H2.
      * split; [congruence|]. eexists (new ++ [_])%list. rewrite H2, <- app_assoc. reflexivity.
    + destruct (negb _); apply IH in H; destruct H as [H1 [new H2]].
      * split; [exact H1|]. cbn [stderr log] in H2.
        eexists (new ++ [_])%list. rewrite H2, <- app_assoc. reflexivity.
      * split; [exact H1|]. exists new. exact H2.
Qed.

(** X14.  What [read_configfile] can change: the scales of the devices, the
    values of the parameter table, and the diagnostics written to stderr
    (it only adds to them).  The classes, metrics and devices with their
    names, aggregates, buffers and files, the declared parameters (index,
    name, type, default), the input stream, the wide table, [count],
    [interval], [firsttimestamp] and the global [fullscale] are as before. *)
Theorem read_configfile_changes (configfile : option string) (st st' : State) :
  read_configfile configfile st = Ok st' ->
  unscaled (classtbl st') = unscaled (classtbl st) /\
  map param_declared (paramtbl st') = map param_declared (paramtbl st) /\
  settled st' = settled st /\ singlefile st' = singlefile st /\
  exists new, stderr st' = (new ++ stderr st)%list.
Proof.
  unfold read_configfile. destruct configfile as [s|]; [|discriminate]. intros H.
  pose proof (configfile_loop_settled _ _ _ H) as [Hs Hf].
  pose proof (configfile_loop_changes _ _ _ H) as [Hp He].
  apply (configfile_loop_proj met_aggregates dev_unscaled) in H; try exact H;
    try reflexivity.
  repeat split; assumption.
Qed.

(** ** The emitters and a vector class without device *)

Lemma header_metrics_outcome sep c (tbl : list Metric) :
  (exists names, header_metrics sep c tbl = Ok names /\
                 forall m, In m tbl -> (classtype c =? VECTORCLASS)%char = true ->
                           devicetbl m <> []) \/
  (header_metrics sep c tbl = Crash NullDeref /\
   (classtype c =? VECTORCLASS)%char = true /\ exists m, In m tbl /\ devicetbl m = []).
Proof.
  induction tbl as [|m tbl IH]; cbn [header_metrics].
  - left. eexists. split; [reflexivity|]. intros m [].
  - unfold emitted_devices. destruct (classtype c =? VECTORCLASS)%char eqn:Et.
    + destruct (devicetbl m) as [|d t] eqn:Ed.
      * right. split; [reflexivity|]. split; [reflexivity|]. exists m. split; [now left|exact Ed].
      * cbn [bind]. destruct IH as [[names [E Hn]]|[E [_ [m0 [Hm Hd]]]]]; rewrite E; cbn [bind].
        -- left. eexists. split; [reflexivity|]. intros m1 [<-|H1] Hv; [congruence|auto].
        -- right. split; [reflexivity|]. split; [reflexivity|]. exists m0. split; [now right|exact Hd].
    + cbn [bind]. destruct IH as [[names [E Hn]]|[E [Hv _]]]; [|discriminate].
      rewrite E. cbn [bind]. left. eexists. split; [reflexivity|]. intros m1 _ Hv. discriminate.
Qed.

Lemma header_classes_outcome sep (tbl : list Class) :
  (exists names, header_classes sep tbl = Ok names /\ vector_has_device tbl) \/
  (header_classes sep tbl = Crash NullDeref /\ vector_without_device tbl).
Proof.
  induction tbl as [|c tbl IH]; cbn [header_classes].
  - left. eexists. split; [reflexivity|]. intros c m [].
  - destruct (header_metrics_outcome sep c (metrictbl c))
      as [[names [E Hn]]|[E [Hv [m [Hm Hd]]]]]; rewrite E; cbn [bind].
    + destruct IH as [[names' [E' Hn']]|[E' [c0 [m0 (Hc & Hm & Hv & Hd)]]]];
        rewrite E'; cbn [bind].
      * left. eexists. split; [reflexivity|].
        intros c1 m1 [<-|Hc1] Hm1 Hv1; [now apply Hn|eapply Hn'; eauto].
      * right. split; [reflexivity|]. exists c0, m0. repeat split; auto. now right.
    + right. split; [reflexivity|]. exists c, m. repeat split; auto. now left.
Qed.

Lemma prepare_metrics_outcome sep c (tbl : list Metric) :
  (exists t, prepare_metrics sep c tbl = Ok t /\
             forall m, In m tbl -> (classtype c =? VECTORCLASS)%char = true ->
                       devicetbl m <> []) \/
  (prepare_metrics sep c tbl = Crash NullDeref /\
   (classtype c =? VECTORCLASS)%char = true /\ exists m, In m tbl /\ devicetbl m = []).
Proof.
  induction tbl as [|m tbl IH]; cbn [prepare_metrics].
  - left. eexists. split; [reflexivity|]. intros m [].
  - unfold prepare_metric. destruct (classtype c =? VECTORCLASS)%char eqn:Et.
    + destruct (devicetbl m) as [|d t] eqn:Ed.
      * right. split; [reflexivity|]. split; [reflexivity|]. exists m. split; [now left|exact Ed].
      * cbn [bind]. destruct IH as [[names [E Hn]]|[E [_ [m0 [Hm Hd]]]]]; rewrite E; cbn [bind].
        -- left. eexists. split; [reflexivity|]. intros m1 [<-|H1] Hv; [congruence|auto].
        -- right. split; [reflexivity|]. split; [reflexivity|]. exists m0. split; [now right|exact Hd].
    + cbn [bind]. destruct IH as [[names [E Hn]]|[E [Hv _]]]; [|discriminate].
      rewrite E. cbn [bind]. left. eexists. split; [reflexivity|]. intros m1 _ Hv. discriminate.
Qed.

Lemma prepare_classes_outcome sep (tbl : list Class) :
  (exists t, prepare_classes sep tbl = Ok t /\ vector_has_device tbl) \/
  (prepare_classes sep tbl = Crash NullDeref /\ vector_without_device tbl).
Proof.
  induction tbl as [|c tbl IH]; cbn [prepare_classes].
  - left. eexists. split; [reflexivity|]. intros c m [].
  - destruct (prepare_metrics_outcome sep c (metrictbl c))
      as [[names [E Hn]]|[E [Hv [m [Hm Hd]]]]]; rewrite E; cbn [bind].
    + destruct IH as [[names' [E' Hn']]|[E' [c0 [m0 (Hc & Hm & Hv & Hd)]]]];
        rewrite E'; cbn [bind].
      * left. eexists. split; [reflexivity|].
        intros c1 m1 [<-|Hc1] Hm1 Hv1; [now apply Hn|eapply Hn'; eauto].
      * right. split; [reflexivity|]. exists c0, m0. repeat split; auto. now right.
    + right. split; [reflexivity|]. exists c, m. repeat split; auto. now left.
Qed.

Lemma vector_without_device_not_has (tbl : list Class) :
  vector_without_device tbl -> ~ vector_has_device tbl.
Proof. intros (c & m & Hc & Hm & Hv & Hd) H. exact (H c m Hc Hm Hv Hd). Qed.

(** X15.  Writing the header of the wide table and opening the narrow
    files both read [devicetbl[0]] of every metric of a vector class.  When
    some metric of a vector class has no device (the first file ended right
    after the header of its data stanza, so that [initialize_classes]
    registered none), each of them dereferences the NULL table; otherwise
    each of them succeeds. *)
Theorem emitters_need_a_vector_device (st : State) :
  (vector_without_device (classtbl st) ->
   output_singlefile_headers st = Crash NullDeref /\
   prepare_multi_output_files true st = Crash NullDeref) /\
  (vector_has_device (classtbl st) ->
   (exists st', output_singlefile_headers st = Ok st') /\
   (exists st', prepare_multi_output_files true st = Ok st')).
Proof.
  unfold output_singlefile_headers, prepare_multi_output_files.
  set (sep := param_string (param_value METDEVSEPARATORIDX (paramtbl st))).
  destruct (header_classes_outcome sep (classtbl st)) as [[names [E1 H1]]|[E1 H1]];
    destruct (prepare_classes_outcome sep (classtbl st)) as [[t [E2 H2]]|[E2 H2]];
    rewrite E1, E2; cbn [bind]; split; intros H;
    try (exfalso; eapply vector_without_device_not_has; eassumption);
    split; try reflexivity; eexists; reflexivity.
Qed.

(** ** The capacity of the buffers of a vector class *)

Lemma vector_metric_ready (n : nat) (r : Z) (s : string) (m : Metric) :
  (exists d t, devicetbl m = d :: t /\ length (valuetbl d) = n) ->
  (0 <= r < Z.of_nat n -> exists m', vector_metric r s m = Ok m') /\
  (Z.of_nat n <= r -> vector_metric r s m = Crash OutOfBounds).
Proof.
  intros (d & t & Hd & Hl). unfold vector_metric. rewrite Hd. split; intros Hr.
  - rewrite set_value_ok by lia. cbn [bind]. eexists. reflexivity.
  - unfold set_value. rewrite Hl.
    replace ((0 <=? r) && (r <? Z.of_nat n)) with false; [reflexivity|].
    symmetry. apply andb_false_iff. right. apply Z.ltb_ge. exact Hr.
Qed.

Lemma vector_metrics_ready (n : nat) (r : Z) (argtbl : list string) (tbl : list Metric) :
  forall k,
    Forall (fun m => exists d t, devicetbl m = d :: t /\ length (valuetbl d) = n) tbl ->
    (0 <= r < Z.of_nat n -> exists t, vector_metrics r argtbl k tbl = Ok t) /\
    (Z.of_nat n <= r -> tbl <> [] -> vector_metrics r argtbl k tbl = Crash OutOfBounds).
Proof.
  induction tbl as [|m tbl IH]; intros k H; cbn [vector_metrics].
  - split; [intros _; eexists; reflexivity|intros _ Hne; congruence].
  - apply Forall_cons in H as [Hm H].
    destruct (vector_metric_ready n r (arg argtbl k) m Hm) as [Hok Hbad].
    destruct (IH (S k) H) as [IHok _]. split; intros Hr.
    + destruct (Hok Hr) as [m' E]. rewrite E. cbn [bind].
      destruct (IHok Hr) as [t E']. rewrite E'. cbn [bind]. eexists. reflexivity.
    + intros _. rewrite (Hbad Hr). reflexivity.
Qed.

Lemma vector_ready_proj (n : nat) (c c' : Class) :
  cproj metricname dev_skeleton c' = cproj metricname dev_skeleton c ->
  vector_ready n c -> vector_ready n c'.
Proof.
  unfold vector_ready, cproj. intros E H.
  assert (E1 : map (mproj metricname dev_skeleton) (metrictbl c') =
               map (mproj metricname dev_skeleton) (metrictbl c)) by congruence.
  clear E. revert E1 H. generalize (metrictbl c') as l'. generalize (metrictbl c) as l.
  induction l as [|m l IH]; intros [|m' l'] E H; try discriminate; [constructor|].
  cbn [map] in E. apply Forall_cons in H as [(d & t & Hd & Hl) H].
  pose proof (f_equal (@tl _) E) as E2. cbn [tl] in E2.
  constructor; [|exact (IH l' E2 H)].
  assert (Ed : map dev_skeleton (devicetbl m') = map dev_skeleton (devicetbl m)).
  { unfold mproj in E. congruence. }
  rewrite Hd in Ed. destruct (devicetbl m') as [|d' t']; [discriminate|].
  exists d', t'. split; [reflexivity|]. cbn [map] in Ed. unfold dev_skeleton in Ed. congruence.
Qed.

Lemma vector_row_ready (n : nat) (c : Class) (r : Z) (argtbl : list string) :
  vector_ready n c -> 0 <= r < Z.of_nat n ->
  exists c', vector_row c r argtbl = Ok c' /\ vector_ready n c' /\
             startrow c' = startrow c /\ length (metrictbl c') = length (metrictbl c).
Proof.
  intros Hc Hr.
  assert (G : exists c', vector_row c r argtbl = Ok c').
  { unfold vector_row. destruct (r >=? startrow c); [|eexists; reflexivity].
    destruct (vector_metrics_ready n r argtbl (metrictbl c) 0 Hc) as [Hok _].
    destruct (Hok Hr) as [t E]. rewrite E. cbn [bind]. eexists. reflexivity. }
  destruct G as [c' E]. exists c'. split; [exact E|].
  pose proof (vector_row_proj metricname dev_skeleton
                ltac:(reflexivity) dev_skeleton_value _ _ _ _ E) as Hp.
  split; [eapply vector_ready_proj; eauto|].
  apply vector_row_slots in E; [|lia]. destruct E as (A & B & _). split; assumption.
Qed.

Lemma vector_rows_within (n : nat) (pre : list string) :
  forall (c : Class) (r : Z) (st : State),
    vector_ready n c -> Forall (has_token MAXNUMMETRICS) pre ->
    0 <= r -> r + Z.of_nat (length pre) <= Z.of_nat n ->
    exists c' st',
      vector_rows pre c r st = Ok (c', r + Z.of_nat (length pre), st') /\
      vector_ready n c' /\ startrow c' = startrow c /\
      length (metrictbl c') = length (metrictbl c) /\
      rest (inputfile st') = match pre with [] => rest (inputfile st) | _ => [] end.
Proof.
  induction pre as [|l pre IH]; intros c r st Hc Hp H0 Hn.
  - exists c, st. cbn [vector_rows length]. rewrite Z.add_0_r. repeat split. exact Hc.
  - apply Forall_cons in Hp as [[tok [args Hl]] Hp]. cbn [vector_rows length] in *.
    rewrite Hl. cbn [bind].
    assert (Hrest : forall c1 s1,
               vector_ready n c1 -> startrow c1 = startrow c ->
               length (metrictbl c1) = length (metrictbl c) ->
               rest (inputfile s1) = pre ->
               exists c' st',
                 vector_rows pre c1 (r + 1) s1 = Ok (c', r + Z.of_nat (S (length pre)), st') /\
                 vector_ready n c' /\ startrow c' = startrow c /\
                 length (metrictbl c') = length (metrictbl c) /\ rest (inputfile st') = []).
    { intros c1 s1 H1 H2 H3 H4.
      destruct (IH c1 (r + 1) s1 H1 Hp ltac:(lia) ltac:(lia)) as (c' & st' & E & R1 & R2 & R3 & R4).
      exists c', st'. replace (r + Z.of_nat (S (length pre))) with (r + 1 + Z.of_nat (length pre)) by lia.
      split; [exact E|]. split; [exact R1|]. split; [congruence|]. split; [congruence|].
      rewrite R4. destruct pre; [exact H4|reflexivity]. }
    destruct (length (tok :: args) =? length (metrictbl c))%nat.
    + destruct (vector_row_ready n c r (tok :: args) Hc ltac:(lia)) as (c1 & E1 & R1 & R2 & R3).
      rewrite E1. cbn [bind]. apply Hrest; auto.
    + cbn [length Nat.eqb]. apply Hrest; auto.
Qed.

(** X16.  The capacity of the buffers of a vector class.  With a buffer of
    [n] slots for every metric ([n] is [count] after discovery), a data
    stanza of at most [n] lines (each with at least one token, well-formed
    or not) is read without fault: [read_vector_stanza] returns, with the
    stream after the line that ends the stanza.  A well-formed line at row
    [n], the row after the last slot, is written past the end of the
    buffer. *)
Theorem vector_stanza_capacity (c : Class) (st : State) (n : nat) (pre : list string) :
  vector_ready n c -> metrictbl c <> [] ->
  Forall (has_token MAXNUMMETRICS) pre ->
  (forall tail_,
     rest (inputfile st) = (pre ++ tail_)%list -> stanza_end MAXNUMMETRICS tail_ ->
     (length pre <= n)%nat ->
     exists c' st', read_vector_stanza c st = Ok (c', st') /\
                    vector_ready n c' /\ rest (inputfile st') = tl tail_) /\
  (forall l post argtbl,
     rest (inputfile st) = (pre ++ l :: post)%list ->
     parse_input_line l MAXNUMMETRICS = Ok argtbl ->
     length argtbl = length (metrictbl c) ->
     length pre = n -> startrow c <= Z.of_nat n ->
     read_vector_stanza c st = Crash OutOfBounds).
Proof.
  intros Hc Hne Hp. split.
  - intros tail_ Hr He Hn. unfold read_vector_stanza. rewrite Hr.
    destruct (vector_rows_within n pre c 0 st Hc Hp ltac:(lia) ltac:(lia))
      as (c1 & s1 & E & R1 & R2 & R3 & R4).
    destruct He as [->|(l & t & -> & Hl)].
    + rewrite app_nil_r, E. cbn [bind]. eexists _, _. split; [reflexivity|].
      split; [exact R1|]. cbn [tl].
      assert (Hs : rest (inputfile s1) = []).
      { rewrite R4. destruct pre; [|reflexivity]. rewrite Hr. reflexivity. }
      destruct (negb _); cbn; exact Hs.
    + rewrite (vector_rows_app l t pre Hp c 0 st st (agree_refl st)), E. cbn [bind].
      cbn [vector_rows]. rewrite Hl. cbn [bind length].
      destruct (metrictbl c1) as [|m1 tbl1] eqn:Em.
      { exfalso. apply Hne. destruct (metrictbl c); [reflexivity|discriminate]. }
      cbn [length Nat.eqb]. eexists _, _. split; [reflexivity|].
      split; [exact R1|]. cbn [tl]. destruct (negb _); reflexivity.
  - intros l post argtbl Hr Hl Ha Hn Hs. unfold read_vector_stanza. rewrite Hr.
    destruct (vector_rows_within n pre c 0 st Hc Hp ltac:(lia) ltac:(lia))
      as (c1 & s1 & E & R1 & R2 & R3 & R4).
    rewrite (vector_rows_app l post pre Hp c 0 st st (agree_refl st)), E. cbn [bind].
    cbn [vector_rows]. rewrite Hl. cbn [bind]. rewrite Ha, <- R3, Nat.eqb_refl.
    unfold vector_row. rewrite R2.
    replace (0 + Z.of_nat (length pre) >=? startrow c) with true
      by (symmetry; apply Z.geb_le; lia).
    destruct (vector_metrics_ready n (0 + Z.of_nat (length pre)) argtbl (metrictbl c1) 0 R1)
      as [_ Hbad].
    rewrite Hbad; [reflexivity|lia|].
    intros E0. apply Hne. rewrite E0 in R3. destruct (metrictbl c); [reflexivity|discriminate].
Qed.

(** ** An array class without device *)

Lemma array_rows_malformed (pre : list string) :
  forall (c : Class) (r : Z) (p : option nat) (st : State),
    Forall (malformed (MAXNUMMETRICS + 1) (S (length (metrictbl c)))) pre ->
    exists st', array_rows pre c r p st = Ok (c, r + Z.of_nat (length pre), p, st').
Proof.
  induction pre as [|x pre IH]; intros c r p st H.
  - exists st. cbn [array_rows length]. now rewrite Z.add_0_r.
  - apply Forall_cons in H as [(tok & args & Hx & Hn) H]. cbn [array_rows].
    rewrite Hx. cbn [bind].
    replace (length (tok :: args) =? length (metrictbl c) + 1)%nat with false
      by (symmetry; apply Nat.eqb_neq; lia).
    cbn [length Nat.eqb].
    destruct (IH c (r + 1) p
                (log (ArrayBadData (inputlinectr (next_line pre st)) (classname c))
                   (next_line pre st)) H) as [st' E].
    exists st'.
    replace (r + Z.of_nat (S (length pre))) with (r + 1 + Z.of_nat (length pre)) by lia.
    exact E.
Qed.

Lemma malformed_has_token (maxargs n : nat) (l : string) :
  malformed maxargs n l -> has_token maxargs l.
Proof. intros (tok & args & H & _). exists tok, args. exact H. Qed.

(** X17.  An array class whose first metric has no device (no line of its
    stanza was well-formed when the devices were discovered): the first
    well-formed line of its data stanza makes [read_array_stanza] divide by
    [numdevices], which is zero.  Lines with a wrong number of fields before
    it are reported and skipped. *)
Theorem array_stanza_without_device
  (c : Class) (st : State) (pre post : list string) (l : string) (argtbl : list string) :
  rest (inputfile st) = (pre ++ l :: post)%list ->
  Forall (malformed (MAXNUMMETRICS + 1) (S (length (metrictbl c)))) pre ->
  parse_input_line l (MAXNUMMETRICS + 1) = Ok argtbl ->
  length argtbl = S (length (metrictbl c)) ->
  (exists m t, metrictbl c = m :: t /\ devicetbl m = []) ->
  read_array_stanza c st = Crash DivByZero.
Proof.
  intros Hr Hp Hl Ha (m & t & Hm & Hd). unfold read_array_stanza. rewrite Hr.
  assert (Ht : Forall (has_token (MAXNUMMETRICS + 1)) pre).
  { eapply Forall_impl; [exact Hp|]. intros x. apply malformed_has_token. }
  rewrite (array_rows_app l post pre Ht c 0 None st st (agree_refl st)).
  destruct (array_rows_malformed pre c 0 None st Hp) as [st' E]. rewrite E. cbn [bind].
  cbn [array_rows]. rewrite Hl. cbn [bind]. rewrite Ha.
  replace (S (length (metrictbl c)) =? length (metrictbl c) + 1)%nat with true
    by (symmetry; apply Nat.eqb_eq; lia).
  unfold array_row. rewrite Hm. cbn [array_metrics]. unfold numdevices. rewrite Hd.
  reflexivity.
Qed.

(** ** The clockticks file *)

Lemma MIN_spec (a b : Z) : MIN a b <= a /\ MIN a b <= b /\ (MIN a b = a \/ MIN a b = b).
Proof. unfold MIN. destruct (Z.ltb_spec a b); lia. Qed.

Lemma divides_chain_snoc (l : list Z) (prev v : Z) :
  divides_chain l -> last l = Some prev -> Z.rem prev v = 0 -> divides_chain (l ++ [v]).
Proof.
  induction l as [|a l IH]; [discriminate|]. intros Hc Hl Hr.
  destruct l as [|b l].
  - cbn in Hl. inversion Hl; subst. cbn. auto.
  - cbn [app divides_chain] in *. destruct Hc as [H1 H2]. split; [exact H1|].
    apply IH; auto.
Qed.

Lemma clocktick_levels_spec (values : list Z) :
  forall (tbl : list Z) (m : Z),
    0 < m -> Forall (fun v => 0 < v) tbl -> divides_chain tbl ->
    match clocktick_levels values tbl m with
    | inl (tbl', m') =>
        0 < m' <= m /\ Forall (fun v => 0 < v) tbl' /\ divides_chain tbl' /\
        (tbl <> [] -> tbl' <> [])
    | inr _ => True
    end.
Proof.
  induction values as [|v values IH]; intros tbl m Hm Hp Hc; cbn [clocktick_levels].
  - repeat split; auto; lia.
  - destruct (v >? 0) eqn:Ev; [|repeat split; auto; lia].
    rewrite Z.gtb_ltb in Ev. apply Z.ltb_lt in Ev.
    pose proof (MIN_spec v m) as (M1 & M2 & M3).
    assert (Hp' : Forall (fun v => 0 < v) (tbl ++ [v])).
    { apply Forall_app. split; [exact Hp|]. constructor; [exact Ev|constructor]. }
    assert (Hm' : 0 < MIN v m) by lia.
    assert (Hne : (tbl ++ [v])%list <> []) by (destruct tbl; discriminate).
    destruct (last tbl) as [prev|] eqn:El.
    + destruct (Z.rem prev v =? 0) eqn:Er; cbn [negb]; [|exact I].
      apply Z.eqb_eq in Er.
      specialize (IH (tbl ++ [v])%list (MIN v m) Hm' Hp'
                    (divides_chain_snoc _ _ _ Hc El Er)).
      destruct (clocktick_levels values (tbl ++ [v]) (MIN v m)) as [[tbl' m']|]; [|exact I].
      destruct IH as (A & B & C & D). repeat split; auto; lia.
    + assert (tbl = []) as ->.
      { destruct tbl as [|a l]; [reflexivity|]. exfalso. revert El. clear.
        revert a. induction l as [|b l IH]; intros a; [discriminate|]. apply (IH b). }
      specialize (IH ([] ++ [v])%list (MIN v m) Hm' Hp' I).
      destruct (clocktick_levels values ([] ++ [v]) (MIN v m)) as [[tbl' m']|]; [|exact I].
      destruct IH as (A & B & C & D). repeat split; auto; lia.
Qed.

Lemma find_level_ok (t : Z) (levels : list Z) :
  forall i, Forall (fun v => 0 < v) levels ->
    find_level t levels i = Ok None \/
    exists k, find_level t levels i = Ok (Some k) /\ i <= k < i + Z.of_nat (length levels).
Proof.
  induction levels as [|v levels IH]; intros i H; cbn [find_level]; [now left|].
  apply Forall_cons in H as [Hv H].
  replace (v =? 0) with false by (symmetry; apply Z.eqb_neq; lia).
  destruct (Z.rem t v =? 0).
  - right. exists i. split; [reflexivity|]. cbn [length]. lia.
  - destruct (IH (i + 1) H) as [E|[k [E Hk]]]; [now left|right].
    exists k. split; [exact E|]. cbn [length]. lia.
Qed.

Lemma clockticks_loop_ok (levels : list Z) (step end_ beg : Z) (fuel : nat) :
  forall k,
    0 < step -> Forall (fun v => 0 < v) levels -> 0 <= k ->
    Z.max 0 (end_ - (beg + k * step) + 1) < Z.of_nat fuel ->
    exists ticks,
      clockticks_loop fuel levels step end_ (beg + k * step) = Ok ticks /\
      Forall (tick_between beg end_ step (length levels)) ticks /\
      (levels = [] -> ticks = []).
Proof.
  induction fuel as [|fuel IH]; intros k Hs Hl Hk Hf; [lia|].
  cbn [clockticks_loop]. destruct (Z.leb_spec (beg + k * step) end_) as [Hle|Hgt].
  - set (t := localtime (beg + k * step)).
    destruct (IH (k + 1) Hs Hl ltac:(lia) ltac:(nia)) as (ticks & E & Ht & Hn).
    replace (beg + (k + 1) * step) with (beg + k * step + step) in E by lia.
    destruct (find_level_ok (3600 * tm_hour t + 60 * tm_min t + tm_sec t) levels 0 Hl)
      as [E0|[i [E0 Hi]]]; rewrite E0; cbn [bind]; rewrite E; cbn [bind].
    + exists ticks. repeat split; auto.
    + eexists. split; [reflexivity|]. split.
      * constructor; [|constructor; [|exact Ht]].
        -- exists (beg + k * step), 0, k. repeat split; auto.
        -- exists (beg + k * step), (2 * (i - Z.of_nat (length levels))), k.
           repeat split; auto. right. exists i. split; [lia|reflexivity].
      * intros ->. discriminate.
  - exists []. repeat split; auto.
Qed.

Lemma Zquot_bounds (a b : Z) :
  0 <= a -> 0 < b -> Z.quot a b * b <= a < (Z.quot a b + 1) * b.
Proof.
  intros Ha Hb. rewrite Z.quot_div_nonneg by lia.
  pose proof (Z.div_mod a b ltac:(lia)). pose proof (Z.mod_pos_bound a b Hb). nia.
Qed.



(** ** The TIME_VALUES block *)

Lemma time_values_loop_block (block : list (string * string)) :
  forall (lines tail_ : list string) (st : State),
    Forall2 (fun l ab => time_values_line l (fst ab) (snd ab)) lines block ->
    (stanza_end NUMTIMEVALUES tail_ ->
     exists st',
       time_values_loop (lines ++ tail_) st = Ok st' /\
       (count st', interval st') = last_time_values block (count st, interval st) /\
       rest (inputfile st') = match lines, tail_ with
                              | [], [] => rest (inputfile st)
                              | _, _ => tl tail_
                              end) /\
    (forall l t tok,
       tail_ = l :: t -> parse_input_line l NUMTIMEVALUES = Ok [tok] ->
       exists ctr, time_values_loop (lines ++ tail_) st = Exit 1 (BadTimeValues ctr)).
Proof.
  induction block as [|[a b] block IH]; intros lines tail_ st H.
  - inversion H; subst. cbn [app]. split.
    + intros [->|(l & t & -> & Hl)].
      * exists st. repeat split.
      * cbn [time_values_loop]. rewrite Hl. cbn [bind length Nat.eqb].
        eexists. repeat split.
    + intros l t tok -> Hl. cbn [time_values_loop]. rewrite Hl. cbn [bind length Nat.eqb].
      eexists. reflexivity.
  - inversion H as [|l ab lines' block' Hl H']; subst. cbn [fst snd] in Hl.
    cbn [app time_values_loop]. unfold time_values_line in Hl. rewrite Hl.
    cbn [bind length Nat.eqb]. unfold arg, COUNTIDX, INTERVALIDX. cbn [nth].
    destruct (IH lines' tail_
                (set_time_values (atoi a) (atoi b) (next_line (lines' ++ tail_) st)) H')
      as [Hok Hbad].
    split.
    + intros He. destruct (Hok He) as (st' & E & Hc & Hr). exists st'.
      split; [exact E|]. split; [exact Hc|]. rewrite Hr.
      destruct lines' as [|x lines']; [|reflexivity].
      destruct tail_; reflexivity.
    + intros x t tok Ht Hx. exact (Hbad x t tok Ht Hx).
Qed.


(** ** An input file without DATE block *)

(** X21.  [read_inputfile] on a stream none of whose lines is the DATE
    header: the stream is read to its end and nothing else happens: no
    value is read, no line is written, no diagnostic is printed.  The time
    stamp returned is 0, which [main] takes as the last time stamp of the
    data. *)
Theorem read_inputfile_without_date (opts : Options) (st : State) :
  Forall (fun x => chop x <> DATESTR) (rest (inputfile st)) ->
  exists st',
    read_inputfile opts st = Ok (0, st') /\
    same_but_position st st' /\
    rest (inputfile st') = [] /\
    inputlinectr st' = Z.of_nat (length (rest (inputfile st))) mod 2 ^ 32.
Proof.
  intros H. unfold read_inputfile. cbn [read_inputfile_loop].
  assert (E : skip_to_stanza DATESTR false (set_inputlinectr 0 st) =
              Ok (match rest (inputfile st) with
                  | [] => set_inputlinectr 0 st
                  | _ => consumed (length (rest (inputfile st))) [] (set_inputlinectr 0 st)
                  end)).
  { unfold skip_to_stanza.
    change (rest (inputfile (set_inputlinectr 0 st))) with (rest (inputfile st)).
    rewrite <- (app_nil_r (rest (inputfile st))) at 1.
    rewrite (skip_lines_no_match DATESTR _ (set_inputlinectr 0 st) [] H).
    destruct (rest (inputfile st)); reflexivity. }
  rewrite E. cbn [bind]. clear E H.
  destruct st as [[? r ?] ? ? ? ? ? ? ? ? ?].
  cbn [rest inputfile set_inputlinectr].
  destruct r as [|x pre].
  - eexists. split; [reflexivity|]. split; [reflexivity|]. split; reflexivity.
  - cbn [consumed rest inputfile set_rest set_inputlinectr inputlinectr].
    eexists. split; [reflexivity|]. split; [reflexivity|]. split; reflexivity.
Qed.

(** ** One line of the configuration file *)

Lemma append_cancel_l (s a b : string) : (s ++ a = s ++ b)%string -> a = b.
Proof.
  induction s as [|x s IH]; cbn [append]; intros H; [exact H|].
  injection H as H. exact (IH H).
Qed.

Lemma scale_named_device_selects (name sep : string) (q : Q) (m : Metric) :
  forall tbl : list Device,
    NoDup (map devicename tbl) ->
    scale_named_device name sep q m tbl =
    (map (fun d => if String.eqb name (metric_device_name sep m d) then set_scale q d else d)
       tbl,
     existsb (fun d => String.eqb name (metric_device_name sep m d)) tbl).
Proof.
  induction tbl as [|d tbl IH]; intros Hn; [reflexivity|].
  cbn [map] in Hn. apply NoDup_cons in Hn as [Hd Hn].
  cbn [scale_named_device map existsb].
  destruct (String.eqb name (metric_device_name sep m d)) eqn:E.
  - cbn [orb]. f_equal. f_equal. symmetry.
    rewrite <- (map_id tbl) at 2. apply map_ext_in. intros d' Hd'.
    destruct (String.eqb name (metric_device_name sep m d')) eqn:E'; [|reflexivity].
    exfalso. apply Hd. apply String.eqb_eq in E, E'. rewrite E in E'.
    unfold metric_device_name in E'. do 2 apply append_cancel_l in E'.
    rewrite E'. apply list_elem_of_In, in_map, Hd'.
  - rewrite (IH Hn). reflexivity.
Qed.

Lemma config_metric_selects (name sep : string) (q : Q) (c : Class) (m : Metric) :
  (if (classtype c =? VECTORCLASS)%char
   then (length (devicetbl m) <= 1)%nat else NoDup (device_names m)) ->
  (config_metric (classtype c =? VECTORCLASS)%char name sep q m = Crash NullDeref /\
   (classtype c =? VECTORCLASS)%char = true /\ name = metricname m /\ devicetbl m = []) \/
  (exists b,
     config_metric (classtype c =? VECTORCLASS)%char name sep q m =
       Ok (set_devicetbl
             (map (fun d => if selects name sep c m d then set_scale q d else d)
                (devicetbl m)) m, b) /\
     (b = true <->
      name = metricname m \/ exists d, In d (devicetbl m) /\ selects name sep c m d = true)).
Proof.
  unfold config_metric, selects. intros H.
  destruct (classtype c =? VECTORCLASS)%char eqn:Et; cbn [negb andb].
  - destruct (String.eqb name (metricname m)) eqn:E; cbn [orb].
    + apply String.eqb_eq in E. destruct (devicetbl m) as [|d [|d' t]] eqn:Ed.
      * left. repeat split; assumption.
      * right. exists true. split; [reflexivity|]. split; [now left|reflexivity].
      * cbn [length] in H. lia.
    + right. exists false. split.
      * f_equal. f_equal. rewrite map_id. destruct m; reflexivity.
      * split; [discriminate|]. apply String.eqb_neq in E.
        intros [Hn|(d & _ & Hd)]; [congruence|discriminate].
  - destruct (String.eqb name (metricname m)) eqn:E; cbn [orb].
    + right. exists true. split; [reflexivity|]. apply String.eqb_eq in E.
      split; [now left|reflexivity].
    + rewrite (scale_named_device_selects name sep q m (devicetbl m) H).
      right. eexists. split; [reflexivity|]. apply String.eqb_neq in E.
      rewrite existsb_exists. split.
      * intros (d & Hd & Hs). right. exists d. split; assumption.
      * intros [Hn|(d & Hd & Hs)]; [congruence|]. exists d. split; assumption.
Qed.

Lemma config_metrics_selects (name sep : string) (q : Q) (c : Class) :
  forall tbl : list Metric,
    Forall (fun m => if (classtype c =? VECTORCLASS)%char
                     then (length (devicetbl m) <= 1)%nat else NoDup (device_names m)) tbl ->
    (config_metrics (classtype c =? VECTORCLASS)%char name sep q tbl = Crash NullDeref /\
     (classtype c =? VECTORCLASS)%char = true /\
     exists m, In m tbl /\ name = metricname m /\ devicetbl m = []) \/
    (exists b,
       config_metrics (classtype c =? VECTORCLASS)%char name sep q tbl =
         Ok (map (fun m =>
                    set_devicetbl
                      (map (fun d => if selects name sep c m d then set_scale q d else d)
                         (devicetbl m)) m) tbl, b) /\
       (b = true <->
        exists m, In m tbl /\
                  (name = metricname m \/
                   exists d, In d (devicetbl m) /\ selects name sep c m d = true))).
Proof.
  induction tbl as [|m tbl IH]; intros H.
  - right. exists false. split; [reflexivity|]. split; [discriminate|].
    intros (m & [] & _).
  - inversion H as [|? ? Hm Ht]; subst. cbn [config_metrics map].
    destruct (config_metric_selects name sep q c m Hm) as [(E & Hv & Hn & Hd)|(b & E & Hb)];
      rewrite E; cbn [bind].
    + left. split; [reflexivity|]. split; [exact Hv|]. exists m. split; [now left|].
      split; assumption.
    + destruct (IH Ht) as [(E' & Hv & m' & Hi & Hn & Hd)|(b' & E' & Hb')];
        rewrite E'; cbn [bind fst snd].
      * left. split; [reflexivity|]. split; [exact Hv|]. exists m'. split; [now right|].
        split; assumption.
      * right. exists (b || b'). split; [reflexivity|]. rewrite orb_true_iff, Hb, Hb'.
        split.
        -- intros [Hx|(m' & Hi & Hx)]; [exists m; split; [now left|exact Hx]|].
           exists m'. split; [now right|exact Hx].
        -- intros (m' & [<-|Hi] & Hx); [left; exact Hx|].
           right. exists m'. split; assumption.
Qed.


(** The discovery of the devices leaves the class table as
    [config_line_selects] expects it. *)
Lemma discovered_distinct_devices (count_ : Z) (tbl tbl' : list Class) :
  Forall2 (discovered_class count_) tbl tbl' -> distinct_devices tbl'.
Proof.
  unfold distinct_devices. induction 1 as [|c c' tbl tbl' Hc _ IH]; constructor; [|exact IH].
  destruct Hc as (names & (_ & Ht & _ & _ & Hn & _ & Hu) & Hv).
  unfold uniform in Hu. eapply List.Forall_impl; [|exact Hu].
  intros m [Hm _]. cbn beta in Hm. rewrite Ht.
  destruct (classtype c =? VECTORCLASS)%char.
  - unfold device_names in Hm. rewrite <- (length_map devicename), Hm.
    destruct (Hv eq_refl) as [->| ->]; cbn; lia.
  - rewrite Hm. exact Hn.
Qed.

(** ** Invariants of the metrics along [main] *)

(** A property of a metric that only looks at its aggregates and that the
    declaration of a metric, the registration of a device and the reading
    of a value keep holds for every metric at [exit(0)]. *)
Section Invariant.

Variable J : Metric -> Prop.

Hypothesis J_view : forall m m', met_view m' = met_view m -> J m -> J m'.
Hypothesis J_new : forall name, J (new_metric name).
Hypothesis J_add : forall count_ m name, J m -> J (add_device count_ m name).
Hypothesis J_vector :
  forall r s m m', vector_metric r s m = Ok m' -> J m -> J m'.
Hypothesis J_array :
  forall r s m m', array_metric r s m = Ok m' -> J m -> J m'.

Lemma vector_metrics_all (r : Z) (argtbl : list string) (tbl : list Metric) :
  forall k t, vector_metrics r argtbl k tbl = Ok t ->
              Forall J tbl -> Forall J t.
Proof using J_view J_new J_add J_vector J_array.
  induction tbl as [|m tbl IH]; intros k t H Hinv; cbn [vector_metrics] in H.
  - inversion H. constructor.
  - destruct (vector_metric r (arg argtbl k) m) as [m'| |] eqn:E1; try discriminate.
    cbn [bind] in H.
    destruct (vector_metrics r argtbl (S k) tbl) as [t'| |] eqn:E2; try discriminate.
    cbn [bind] in H. inversion H; subst. apply Forall_cons in Hinv as [Hm Hinv].
    constructor; [eapply J_vector; eauto|eapply IH; eauto].
Qed.

Lemma array_metrics_all (sr r : Z) (argtbl : list string) (tbl : list Metric) :
  forall k p t p', array_metrics sr r argtbl k tbl p = Ok (t, p') ->
                   Forall J tbl -> Forall J t.
Proof using J_view J_new J_add J_vector J_array.
  induction tbl as [|m tbl IH]; intros k p t p' H Hinv; cbn [array_metrics] in H.
  - inversion H. constructor.
  - destruct (numdevices m =? 0); [discriminate|].
    destruct (Z.quot r (numdevices m) >=? sr).
    + destruct (array_metric r (arg argtbl (k + 1)) m) as [m'| |] eqn:E1; try discriminate.
      cbn [bind] in H.
      destruct (array_metrics sr r argtbl (S k) tbl (Some k)) as [[t' q]| |] eqn:E2;
        try discriminate.
      cbn [bind fst snd] in H. inversion H; subst. apply Forall_cons in Hinv as [Hm Hinv].
      constructor; [eapply J_array; eauto|eapply IH; eauto].
    + inversion H; subst. exact Hinv.
Qed.

Lemma vector_row_all c r argtbl c' :
  vector_row c r argtbl = Ok c' ->
  Forall J (metrictbl c) -> Forall J (metrictbl c').
Proof using J_view J_new J_add J_vector J_array.
  unfold vector_row. destruct (r >=? startrow c).
  - destruct (vector_metrics r argtbl 0 (metrictbl c)) as [t| |] eqn:E; try discriminate.
    cbn [bind]. intros H; inversion H; subst. cbn [metrictbl set_metrictbl].
    eapply vector_metrics_all; eauto.
  - intros H; inversion H; subst. auto.
Qed.

Lemma array_row_all c r argtbl p c' p' :
  array_row c r argtbl p = Ok (c', p') ->
  Forall J (metrictbl c) -> Forall J (metrictbl c').
Proof using J_view J_new J_add J_vector J_array.
  unfold array_row.
  destruct (array_metrics (startrow c) r argtbl 0 (metrictbl c) p) as [[t q]| |] eqn:E;
    try discriminate.
  cbn [bind fst snd]. intros H; inversion H; subst. cbn [metrictbl set_metrictbl].
  eapply array_metrics_all; eauto.
Qed.

Lemma vector_rows_all (lines : list string) :
  forall c r st c' r' st',
    vector_rows lines c r st = Ok (c', r', st') ->
    Forall J (metrictbl c) -> Forall J (metrictbl c').
Proof using J_view J_new J_add J_vector J_array.
  induction lines as [|l lines IH]; intros c r st c' r' st' H Hinv; cbn [vector_rows] in H.
  - inversion H; subst. exact Hinv.
  - destruct (parse_input_line l MAXNUMMETRICS) as [argtbl| |]; try discriminate.
    cbn [bind] in H.
    destruct (length argtbl =? length (metrictbl c))%nat.
    + destruct (vector_row c r argtbl) as [c1| |] eqn:E1; try discriminate.
      cbn [bind] in H. eapply IH; eauto. eapply vector_row_all; eauto.
    + destruct (length argtbl =? 0)%nat.
      * inversion H; subst. exact Hinv.
      * eapply IH; eauto.
Qed.

Lemma array_rows_all (lines : list string) :
  forall c r p st c' r' p' st',
    array_rows lines c r p st = Ok (c', r', p', st') ->
    Forall J (metrictbl c) -> Forall J (metrictbl c').
Proof using J_view J_new J_add J_vector J_array.
  induction lines as [|l lines IH]; intros c r p st c' r' p' st' H Hinv;
    cbn [array_rows] in H.
  - inversion H; subst. exact Hinv.
  - destruct (parse_input_line l (MAXNUMMETRICS + 1)) as [argtbl| |]; try discriminate.
    cbn [bind] in H.
    destruct (length argtbl =? length (metrictbl c) + 1)%nat.
    + destruct (array_row c r argtbl p) as [[c1 p1]| |] eqn:E1; try discriminate.
      cbn [bind fst snd] in H. eapply IH; eauto. eapply array_row_all; eauto.
    + destruct (length argtbl =? 0)%nat.
      * inversion H; subst. exact Hinv.
      * eapply IH; eauto.
Qed.

Lemma read_vector_stanza_all c st c' st' :
  read_vector_stanza c st = Ok (c', st') ->
  Forall J (metrictbl c) -> Forall J (metrictbl c').
Proof using J_view J_new J_add J_vector J_array.
  unfold read_vector_stanza.
  destruct (vector_rows (rest (inputfile st)) c 0 st) as [[[c1 r1] st1]| |] eqn:E;
    try discriminate.
  cbn [bind]. intros H; inversion H; subst. eapply vector_rows_all; eauto.
Qed.

Lemma read_array_stanza_all c st c' st' :
  read_array_stanza c st = Ok (c', st') ->
  Forall J (metrictbl c) -> Forall J (metrictbl c').
Proof using J_view J_new J_add J_vector J_array.
  unfold read_array_stanza.
  destruct (array_rows (rest (inputfile st)) c 0 None st) as [[[[c1 r1] p1] st1]| |] eqn:E;
    try discriminate.
  cbn [bind]. destruct p1 as [i|]; [|discriminate].
  destruct (metrictbl c1 !! i); [|discriminate].
  intros H; inversion H; subst. eapply array_rows_all; eauto.
Qed.

Lemma metrics_all_view (l : list Metric) :
  forall l', map met_view l' = map met_view l ->
             Forall J l -> Forall J l'.
Proof using J_view J_new J_add J_vector J_array.
  induction l as [|m l IH]; intros [|m' l'] E H; try discriminate; [constructor|].
  cbn [map] in E. apply Forall_cons in H as [Hm H].
  pose proof (f_equal (hd (met_view m)) E) as E1.
  pose proof (f_equal (@tl _) E) as E2. cbn [hd tl] in E1, E2.
  constructor; [exact (J_view m m' E1 Hm)|exact (IH l' E2 H)].
Qed.

Lemma classes_all_view (tbl tbl' : list Class) :
  classes_view tbl' = classes_view tbl -> classes_all J tbl -> classes_all J tbl'.
Proof using J_view J_new J_add J_vector J_array.
  unfold classes_view, classes_all. revert tbl'.
  induction tbl as [|c tbl IH]; intros [|c' tbl'] E H; try discriminate; [constructor|].
  cbn [map] in E. apply Forall_cons in H as [Hc H].
  pose proof (f_equal (hd []) E) as E1.
  pose proof (f_equal (@tl _) E) as E2. cbn [hd tl] in E1, E2.
  constructor; [exact (metrics_all_view _ _ E1 Hc)|exact (IH tbl' E2 H)].
Qed.

Lemma configfile_loop_all (lines : list string) :
  forall st st', configfile_loop lines st = Ok st' ->
                 classes_all J (classtbl st) -> classes_all J (classtbl st').
Proof using J_view J_new J_add J_vector J_array.
  induction lines as [|l lines IH]; intros st st' H Hinv; cbn [configfile_loop] in H.
  - inversion H; subst. exact Hinv.
  - destruct (parse_input_line l 2) as [argtbl| |]; try discriminate.
    cbn [bind] in H.
    destruct (length argtbl =? 2)%nat.
    + destruct (config_classes _ _ _ (classtbl st)) as [r| |] eqn:E; try discriminate.
      cbn [bind] in H.
      destruct (config_params _ _ (paramtbl st)) as [params legal].
      apply config_classes_view in E.
      eapply IH; [exact H|].
      destruct (snd r || legal); cbn; eapply classes_all_view; eauto.
    + destruct (negb (length argtbl =? 0)%nat); eapply IH; eauto.
Qed.

Lemma multifile_rows_all (n : nat) :
  forall rowidx ts st st',
    multifile_rows n rowidx ts st = Ok st' ->
    classes_all J (classtbl st) -> classes_all J (classtbl st').
Proof using J_view J_new J_add J_vector J_array.
  induction n as [|n IH]; intros rowidx ts st st' H Hinv; cbn [multifile_rows] in H.
  - inversion H; subst. exact Hinv.
  - destruct (multifile_classes _ _ _ (classtbl st)) as [t| |] eqn:E; try discriminate.
    cbn [bind] in H. eapply IH; [exact H|]. cbn.
    eapply classes_all_view; [|exact Hinv]. eapply multifile_classes_view; eauto.
Qed.

Lemma metadata_loop_all (lines : list string) :
  forall st st', metadata_loop lines st = Ok st' ->
                 classes_all J (classtbl st) -> classes_all J (classtbl st').
Proof using J_view J_new J_add J_vector J_array.
  induction lines as [|l lines IH]; intros st st' H Hinv; cbn [metadata_loop] in H.
  - inversion H; subst. exact Hinv.
  - destruct (parse_input_line l MAXNUMMETADATA) as [argtbl| |]; try discriminate.
    cbn [bind] in H.
    destruct (NUMMETAITEMS + 1 <=? length argtbl)%nat.
    + destruct (negb _ && negb _); [discriminate|].
      destruct ((atoi (arg argtbl STARTROWIDX) <? 1) || _); [discriminate|].
      eapply IH; [exact H|]. cbn [classtbl set_classtbl next_line set_inputlinectr set_rest].
      apply Forall_app. split; [exact Hinv|].
      constructor; [|constructor]. cbn [metrictbl].
      apply List.Forall_forall. intros m Hm. apply in_map_iff in Hm as (name & <- & _).
      apply J_new.
    + destruct (length argtbl =? 0)%nat.
      * inversion H; subst. exact Hinv.
      * eapply IH; eauto.
Qed.

Lemma initialize_metadata_all st st' :
  initialize_metadata st = Ok st' ->
  classes_all J (classtbl st) -> classes_all J (classtbl st').
Proof using J_view J_new J_add J_vector J_array.
  unfold initialize_metadata.
  destruct (skip_to_stanza METADATASTR true st) as [st1| |] eqn:E; try discriminate.
  cbn [bind]. intros H Hinv. eapply metadata_loop_all; [exact H|].
  apply skip_to_stanza_classtbl in E. rewrite E. exact Hinv.
Qed.

Lemma add_class_device_all count_ c name :
  Forall J (metrictbl c) ->
  Forall J (metrictbl (add_class_device count_ c name)).
Proof using J_view J_new J_add J_vector J_array.
  unfold add_class_device. cbn [metrictbl set_metrictbl]. intros H.
  apply List.Forall_forall. intros m Hm. apply in_map_iff in Hm as (m0 & <- & Hm0).
  apply J_add. rewrite List.Forall_forall in H. apply H. exact Hm0.
Qed.

Lemma array_devices_loop_all (lines : list string) :
  forall c st c' st',
    array_devices_loop lines c st = Ok (c', st') ->
    Forall J (metrictbl c) -> Forall J (metrictbl c').
Proof using J_view J_new J_add J_vector J_array.
  induction lines as [|l lines IH]; intros c st c' st' H Hinv;
    cbn [array_devices_loop] in H.
  - inversion H; subst. exact Hinv.
  - destruct (parse_input_line l (MAXNUMMETRICS + 1)) as [argtbl| |]; try discriminate.
    cbn [bind] in H.
    destruct (length argtbl =? length (metrictbl c) + 1)%nat.
    + eapply IH; [exact H|]. apply add_class_device_all. exact Hinv.
    + destruct (length argtbl =? 0)%nat; [inversion H; subst; exact Hinv|discriminate].
Qed.

Lemma vector_devices_all c st c' st' :
  vector_devices c st = Ok (c', st') ->
  Forall J (metrictbl c) -> Forall J (metrictbl c').
Proof using J_view J_new J_add J_vector J_array.
  unfold vector_devices. destruct (rest (inputfile st)) as [|l lines].
  - intros H; inversion H; subst. auto.
  - destruct (parse_input_line l MAXNUMMETRICS) as [argtbl| |]; try discriminate.
    cbn [bind]. destruct (length argtbl =? length (metrictbl c))%nat; [|discriminate].
    intros H; inversion H; subst. apply add_class_device_all.
Qed.

Lemma classes_loop_all (classes : list Class) :
  forall st classes' st',
    classes_loop classes st = Ok (classes', st') ->
    classes_all J classes -> classes_all J classes'.
Proof using J_view J_new J_add J_vector J_array.
  unfold classes_all.
  induction classes as [|c classes IH]; intros st classes' st' H Hinv;
    cbn [classes_loop] in H.
  - inversion H; subst. constructor.
  - destruct (skip_to_stanza (datastanza c) true st) as [st1| |]; try discriminate.
    cbn [bind] in H.
    destruct (if (classtype c =? VECTORCLASS)%char then vector_devices c st1
              else array_devices_loop (rest (inputfile st1)) c st1)
      as [[c1 st2]| |] eqn:E; try discriminate.
    cbn [bind] in H.
    destruct (classes_loop classes st2) as [[cs st3]| |] eqn:E2; try discriminate.
    cbn [bind] in H. inversion H; subst. apply Forall_cons in Hinv as [Hc Hinv].
    constructor; [|eapply IH; eauto].
    destruct (classtype c =? VECTORCLASS)%char;
      [eapply vector_devices_all|eapply array_devices_loop_all]; eauto.
Qed.

Lemma initialize_classes_all st st' :
  initialize_classes st = Ok st' ->
  classes_all J (classtbl st) -> classes_all J (classtbl st').
Proof using J_view J_new J_add J_vector J_array.
  unfold initialize_classes.
  destruct (classes_loop (classtbl st) st) as [[cs st1]| |] eqn:E; try discriminate.
  cbn [bind]. intros H Hinv; inversion H; subst.
  apply classes_loop_all in E; [|exact Hinv].
  unfold rewind. destruct (is_stdin _); exact E.
Qed.

Lemma discover_all opts st st' :
  discover opts st = Ok st' ->
  classes_all J (classtbl st) -> classes_all J (classtbl st').
Proof using J_view J_new J_add J_vector J_array.
  unfold discover, schema. intros H Hinv.
  destruct (initialize_parameters st) as [s1| |] eqn:E1; try discriminate.
  cbn [bind] in H.
  destruct (initialize_time_values s1) as [s2| |] eqn:E2; try discriminate.
  cbn [bind] in H.
  destruct (initialize_metadata s2) as [s3| |] eqn:E3; try discriminate.
  cbn [bind] in H.
  destruct (initialize_timestamp s3) as [s4| |] eqn:E4; try discriminate.
  cbn [bind] in H.
  destruct (initialize_classes s4) as [s5| |] eqn:E5; try discriminate.
  cbn [bind] in H.
  apply initialize_parameters_classtbl in E1.
  apply initialize_time_values_classtbl in E2.
  apply initialize_timestamp_classtbl in E4.
  assert (H5 : classes_all J (classtbl s5)).
  { eapply initialize_classes_all; [exact E5|]. rewrite E4.
    eapply initialize_metadata_all; [exact E3|]. rewrite E2, E1. exact Hinv. }
  destruct (configfilename opts) as [[s|]|].
  - eapply configfile_loop_all; eauto.
  - discriminate.
  - inversion H; subst. exact H5.
Qed.

Lemma first_file_all opts st st' :
  first_file opts st = Ok st' ->
  classes_all J (classtbl st) -> classes_all J (classtbl st').
Proof using J_view J_new J_add J_vector J_array.
  unfold first_file. intros H Hinv.
  destruct (discover opts st) as [s1| |] eqn:E1; try discriminate. cbn [bind] in H.
  apply discover_all in E1; [|exact Hinv].
  unfold check_metric_names in H.
  destruct (List.find _ _) as [[[? ?] ?]|]; try discriminate. cbn [bind] in H.
  unfold prepare_single_output_file, output_singlefile_headers in H.
  assert (exists s2, classtbl s2 = classtbl s1 /\
                     prepare_multi_output_files (multifiledirname opts) s2 = Ok st')
    as (s2 & E2 & H2).
  { destruct (singlefilename opts).
    - destruct (header_classes _ (classtbl s1)); try discriminate.
      cbn [bind] in H. eexists. split; [|exact H]. reflexivity.
    - cbn [bind] in H. exists s1. split; [reflexivity|exact H]. }
  unfold prepare_multi_output_files in H2. rewrite <- E2 in E1.
  destruct (multifiledirname opts).
  - destruct (prepare_classes _ (classtbl s2)) as [t| |] eqn:E3; try discriminate.
    cbn [bind] in H2. inversion H2; subst. cbn.
    eapply classes_all_view; [|exact E1]. eapply prepare_classes_view; eauto.
  - inversion H2; subst. exact E1.
Qed.

Lemma read_classes_all (classes : list Class) :
  forall st r, read_classes classes st = Ok r ->
               classes_all J classes -> classes_all J (fst r).
Proof using J_view J_new J_add J_vector J_array.
  unfold classes_all.
  induction classes as [|c classes IH]; intros st r H Hinv; cbn [read_classes] in H.
  - inversion H; subst. constructor.
  - destruct (skip_to_stanza (datastanza c) false st) as [st1| |]; try discriminate.
    cbn [bind] in H.
    destruct (if (classtype c =? VECTORCLASS)%char then read_vector_stanza c st1
              else read_array_stanza c st1) as [[c1 st2]| |] eqn:E; try discriminate.
    cbn [bind fst snd] in H.
    destruct (read_classes classes st2) as [r2| |] eqn:E2; try discriminate.
    cbn [bind] in H. inversion H; subst. apply Forall_cons in Hinv as [Hc Hinv].
    cbn [fst]. constructor; [|eapply IH; eauto].
    destruct (classtype c =? VECTORCLASS)%char;
      [eapply read_vector_stanza_all|eapply read_array_stanza_all]; eauto.
Qed.

Lemma read_inputfile_loop_all (fuel : nat) :
  forall opts ts st r,
    read_inputfile_loop fuel opts ts st = Ok r ->
    classes_all J (classtbl st) -> classes_all J (classtbl (snd r)).
Proof using J_view J_new J_add J_vector J_array.
  induction fuel as [|fuel IH]; intros opts ts st r H Hinv;
    cbn [read_inputfile_loop] in H; [discriminate|].
  destruct (skip_to_stanza DATESTR false st) as [s1| |] eqn:E1; try discriminate.
  cbn [bind] in H. apply skip_to_stanza_classtbl in E1.
  destruct (rest (inputfile s1)) as [|l lines].
  - inversion H; subst. cbn [snd]. rewrite E1. exact Hinv.
  - destruct (parse_input_line l NUMDATEARGS) as [argtbl| |]; try discriminate.
    cbn [bind] in H.
    match type of H with
    | bind (read_classes ?t ?s) _ = _ =>
        destruct (read_classes t s) as [rc| |] eqn:E2; try discriminate;
        assert (Hc : classes_all J (fst rc))
    end.
    { eapply read_classes_all; [exact E2|].
      destruct (length argtbl =? NUMDATEARGS)%nat; cbn; rewrite E1; exact Hinv. }
    cbn [bind] in H.
    match type of H with
    | bind ?x _ = _ => destruct x as [s3| |] eqn:E3; try discriminate
    end.
    cbn [bind] in H.
    match type of H with
    | bind ?x _ = _ => destruct x as [s4| |] eqn:E4; try discriminate
    end.
    cbn [bind] in H. eapply IH; [exact H|].
    assert (H3 : classes_all J (classtbl s3)).
    { destruct (singlefilename opts).
      - unfold output_singlefile_body in E3. apply singlefile_rows_classtbl in E3.
        rewrite E3. exact Hc.
      - inversion E3; subst. exact Hc. }
    destruct (multifiledirname opts).
    + unfold output_multifile_bodies_data in E4. eapply multifile_rows_all; eauto.
    + inversion E4; subst. exact H3.
Qed.

Lemma main_loop_all opts (argv : list Input) :
  forall flag st st',
    main_loop opts argv flag st = Ok st' ->
    classes_all J (classtbl st) -> classes_all J (classtbl st').
Proof using J_view J_new J_add J_vector J_array.
  induction argv as [|a argv IH]; intros flag st st' H Hinv; cbn [main_loop] in H.
  - inversion H; subst. exact Hinv.
  - destruct (open_input a) as [f|].
    + match type of H with
      | bind ?x _ = _ => destruct x as [s1| |] eqn:E1; try discriminate
      end.
      cbn [bind] in H.
      destruct (read_inputfile opts s1) as [r| |] eqn:E2; try discriminate.
      cbn [bind] in H. eapply IH; [exact H|].
      unfold read_inputfile in E2. eapply read_inputfile_loop_all; [exact E2|].
      cbn. destruct flag.
      * eapply first_file_all; [exact E1|]. exact Hinv.
      * inversion E1; subst. exact Hinv.
    + eapply IH; [exact H|]. exact Hinv.
Qed.

Lemma main_all opts argv st : main opts argv = Ok st -> classes_all J (classtbl st).
Proof using J_view J_new J_add J_vector J_array.
  unfold main. destruct argv as [|a argv]; [discriminate|].
  intros H. eapply main_loop_all; [exact H|].
  unfold start_state. destruct (negb _ && negb _); constructor.
Qed.

End Invariant.

(** ** The summary *)

Lemma average_step (n : Z) (sum max max' v : Q) :
  0 <= n -> (sum <= inject_Z n * max)%Q -> (max <= max')%Q -> (v <= max')%Q ->
  (sum + v <= inject_Z (n + 1) * max')%Q.
Proof.
  intros Hn Hs Hm Hv. rewrite inject_Z_plus.
  assert (H0 : (0 <= inject_Z n)%Q).
  { change 0%Q with (inject_Z 0). rewrite <- Zle_Qle. exact Hn. }
  assert (H1 : (inject_Z n * max <= inject_Z n * max')%Q).
  { rewrite !(Qmult_comm (inject_Z n)). apply Qmult_le_compat_r; assumption. }
  change (inject_Z 1) with 1%Q. lra.
Qed.

Lemma average_sound (sum max : Q) (n : Z) :
  0 <= n -> (sum <= inject_Z n * max)%Q ->
  match average sum n with
  | None => n = 0
  | Some a => 0 < n /\ (a <= max)%Q
  end.
Proof.
  intros Hn Hs. unfold average. destruct (n =? 0) eqn:E; [lia|].
  assert (H0 : 0 < n) by lia. split; [exact H0|].
  apply Qle_shift_div_r; [|rewrite Qmult_comm; exact Hs].
  change 0%Q with (inject_Z 0). rewrite <- Zlt_Qlt. exact H0.
Qed.

Lemma averaged_view (m m' : Metric) : met_view m' = met_view m -> averaged m -> averaged m'.
Proof.
  unfold met_view. intros E. inversion E as [[E1 E2 E3 E4]]; clear E.
  intros (H1 & H2 & H3). unfold averaged. rewrite E1, E2, E3.
  split; [exact H1|]. split; [exact H2|].
  intros d' Hd'. apply (in_map dev_view) in Hd'. rewrite E4 in Hd'.
  apply in_map_iff in Hd' as (d & Ed & Hd). unfold dev_view in Ed.
  injection Ed as G1 G2 G3. rewrite <- G1, <- G2, <- G3. apply H3. exact Hd.
Qed.

Lemma averaged_new (name : string) : averaged (new_metric name).
Proof.
  unfold averaged, new_metric. cbn. repeat split; try lia; try lra; contradiction.
Qed.

Lemma averaged_add (count_ : Z) (m : Metric) (name : string) :
  averaged m -> averaged (add_device count_ m name).
Proof.
  intros Hm. unfold add_device. destruct (newdeviceflag name (devicetbl m) true); [|exact Hm].
  destruct Hm as (H1 & H2 & H3). unfold averaged. cbn [met_number met_max met_sum devicetbl].
  split; [exact H1|]. split; [exact H2|].
  intros d Hd. apply in_app_or in Hd as [Hd|[<-|[]]]; [apply H3; exact Hd|].
  cbn. split; [lia|lra].
Qed.

Lemma averaged_vector (r : Z) (s : string) (m m' : Metric) :
  vector_metric r s m = Ok m' -> metric_inv m /\ averaged m -> averaged m'.
Proof.
  unfold vector_metric. destruct (devicetbl m) as [|d tbl] eqn:Ed; [discriminate|].
  destruct (set_value r (atof s) (valuetbl d)) as [values| |]; try discriminate.
  cbn [bind]. intros H; inversion H; subst; clear H.
  intros [((_ & _ & H3 & _) & _ & _) (A1 & A2 & A3)]. rewrite Ed in *.
  set (v := atof s) in *.
  pose proof (MAX_ge_l (met_max m) v) as G1.
  pose proof (MAX_ge_r (met_max m) v) as G2.
  pose proof (MAX_ge_l (MAX (met_max m) v) v) as G3.
  pose proof (MAX_ge_r (MAX (met_max m) v) v) as G4.
  unfold averaged. cbn [met_number met_max met_sum devicetbl].
  split; [lia|]. split; [apply (average_step _ _ (met_max m)); assumption|].
  intros d' [<-|Hd']; [|apply A3; right; exact Hd'].
  destruct (A3 d (or_introl eq_refl)) as [B1 B2]. cbn [dev_number dev_sum dev_max].
  split; [lia|]. apply (average_step _ _ (dev_max d)); try assumption.
  specialize (H3 d (or_introl eq_refl)). lra.
Qed.

Lemma averaged_array (r : Z) (s : string) (m m' : Metric) :
  array_metric r s m = Ok m' -> averaged m -> averaged m'.
Proof.
  unfold array_metric.
  destruct (if 0 <=? Z.rem r (numdevices m)
            then devicetbl m !! Z.to_nat (Z.rem r (numdevices m)) else None)
    as [d|] eqn:L; [|discriminate].
  destruct (set_value _ (atof s) (valuetbl d)) as [values| |]; try discriminate.
  cbn [bind]. intros H; inversion H; subst; clear H.
  destruct (0 <=? Z.rem r (numdevices m)); [|discriminate].
  set (v := atof s) in *.
  intros (A1 & A2 & A3).
  pose proof (lookup_In _ _ _ L) as Hd.
  pose proof (MAX_ge_l (met_max m) v) as G1.
  pose proof (MAX_ge_r (met_max m) v) as G2.
  pose proof (MAX_ge_l (dev_max d) v) as G3.
  pose proof (MAX_ge_r (dev_max d) v) as G4.
  unfold averaged. cbn [met_number met_max met_sum devicetbl].
  split; [lia|]. split; [apply (average_step _ _ (met_max m)); assumption|].
  intros d' Hd'. apply In_insert in Hd' as [->|Hd']; [|apply A3; exact Hd'].
  destruct (A3 d Hd) as [B1 B2]. cbn [dev_number dev_sum dev_max].
  split; [lia|]. apply (average_step _ _ (dev_max d)); assumption.
Qed.

Lemma main_averaged (opts : Options) (argv : list Input) (st : State) :
  main opts argv = Ok st ->
  classes_all (fun m => metric_inv m /\ averaged m) (classtbl st).
Proof.
  apply (main_all (fun m => metric_inv m /\ averaged m)).
  - intros m m' E [H1 H2]. split; [exact (metric_inv_view m m' E H1)|].
    exact (averaged_view m m' E H2).
  - intros name. split; [apply new_metric_inv|apply averaged_new].
  - intros count_ m name [H1 H2]. split; [apply add_device_inv|apply averaged_add]; assumption.
  - intros r s m m' E H. split; [eapply vector_metric_inv; [exact E|apply H]|].
    eapply averaged_vector; eauto.
  - intros r s m m' E [H1 H2].
    split; [eapply array_metric_inv|eapply averaged_array]; eauto.
Qed.


(** ** The narrow files *)

Lemma closed_proj {X Y : Type} (mbase : Metric -> Y) (dproj : Device -> X) :
  (forall d d', dproj d' = dproj d -> fileptr d' = fileptr d) ->
  forall tbl tbl',
    tproj mbase dproj tbl' = tproj mbase dproj tbl -> closed tbl -> closed tbl'.
Proof.
  intros Hf. unfold tproj, closed.
  induction tbl as [|c tbl IH]; intros [|c' tbl'] E H; try discriminate; [constructor|].
  cbn [map] in E. apply Forall_cons in H as [Hc H].
  pose proof (f_equal (@tl _) E) as E2. cbn [tl] in E2.
  assert (E1 : map (mproj mbase dproj) (metrictbl c') =
               map (mproj mbase dproj) (metrictbl c)).
  { unfold cproj in E. congruence. }
  constructor; [|exact (IH tbl' E2 H)]. clear -E1 Hc Hf.
  revert E1 Hc. generalize (metrictbl c') as l'. generalize (metrictbl c) as l.
  induction l as [|m l IHl]; intros [|m' l'] E H; try discriminate; [constructor|].
  cbn [map] in E. apply Forall_cons in H as [Hm H].
  pose proof (f_equal (@tl _) E) as E2. cbn [tl] in E2.
  assert (E1 : map dproj (devicetbl m') = map dproj (devicetbl m)).
  { unfold mproj in E. congruence. }
  constructor; [|exact (IHl l' E2 H)]. clear -E1 Hm Hf.
  revert E1 Hm. generalize (devicetbl m') as t'. generalize (devicetbl m) as t.
  induction t as [|d t IHt]; intros [|d' t'] E H; try discriminate; [constructor|].
  cbn [map] in E. apply Forall_cons in H as [Hd H].
  pose proof (f_equal (@tl _) E) as E2. cbn [tl] in E2.
  constructor; [|exact (IHt t' E2 H)].
  rewrite (Hf d d'); [exact Hd|congruence].
Qed.

Lemma discovered_closed (count_ : Z) (tbl tbl' : list Class) :
  Forall2 (discovered_class count_) tbl tbl' -> closed tbl'.
Proof.
  unfold closed. induction 1 as [|c c' tbl tbl' Hc _ IH]; constructor; [|exact IH].
  destruct Hc as (names & (_ & _ & _ & _ & _ & _ & Hu) & _). unfold uniform in Hu.
  eapply List.Forall_impl; [|exact Hu]. intros m [_ Hf]. cbn beta.
  eapply List.Forall_impl; [|exact Hf]. intros d (_ & _ & _ & _ & _ & _ & Hp). exact Hp.
Qed.

Lemma emitted_In (c : Class) (m : Metric) (d : Device) :
  In d (emitted c m) -> In d (devicetbl m).
Proof.
  unfold emitted. destruct (classtype c =? VECTORCLASS)%char; [|auto].
  destruct (devicetbl m) as [|d0 t]; cbn; [auto|]. intros [H|[]]. now left.
Qed.

Lemma series_closed (sep : string) (tbl : list Class) :
  closed tbl -> Forall (fun s => fileptr (snd s) = None) (series sep tbl).
Proof.
  unfold closed, series. intros H. apply List.Forall_forall. intros s Hs.
  apply in_flat_map in Hs as (c & Hc & Hs). unfold class_series in Hs.
  apply in_flat_map in Hs as (m & Hm & Hs). unfold metric_series in Hs.
  apply in_map_iff in Hs as (d & <- & Hd). cbn [snd].
  rewrite List.Forall_forall in H. specialize (H c Hc).
  rewrite List.Forall_forall in H. specialize (H m Hm).
  rewrite List.Forall_forall in H. apply H. apply (emitted_In c). exact Hd.
Qed.

Lemma closed_narrow_files (sep : string) (tbl : list Class) :
  closed tbl -> narrow_files sep false tbl.
Proof.
  intros H. apply (series_closed sep) in H. unfold narrow_files.
  eapply List.Forall_impl; [|exact H]. intros [[sr name] d] Hd. exact Hd.
Qed.

Lemma narrow_open_files (l : list Series) :
  Forall (fun s => fileptr (snd s) = None) l -> Forall (narrow_file true) (map narrow_open l).
Proof.
  induction 1 as [|[[sr name] d] l Hd _ IH]; cbn [map]; constructor; [|exact IH].
  cbn [snd] in Hd. unfold narrow_open, narrow_file. cbn [andb].
  destruct (active d) eqn:Ea.
  - assert (Ha : active (set_fileptr (Some [MHeader name (scale d)]) d) = true) by exact Ea.
    rewrite Ha. exists []. split; [reflexivity|constructor].
  - rewrite Ea. exact Hd.
Qed.

Lemma prepare_classes_narrow (sep : string) (tbl t : list Class) :
  prepare_classes sep tbl = Ok t -> closed tbl -> narrow_files sep true t.
Proof.
  intros E Hc.
  destruct (prepare_classes_outcome sep tbl) as [[t0 [E0 Hv]]|[E0 _]]; [|congruence].
  destruct (prepare_classes_spec sep tbl Hv) as (t1 & E1 & S1).
  assert (t1 = t) by congruence. subst t1.
  unfold narrow_files. rewrite S1. apply narrow_open_files. apply series_closed. exact Hc.
Qed.

(** One row of [output_multifile_bodies_data] adds data lines only. *)
Lemma multifile_device_narrow fs sr rowidx ts (d d' : Device) :
  multifile_device fs sr rowidx ts d = Ok d' ->
  devicename d' = devicename d /\
  forall sr0 name, narrow_file true (sr0, name, d) -> narrow_file true (sr0, name, d').
Proof.
  unfold multifile_device, narrow_file. cbn [andb].
  destruct (active d) eqn:Ea; [|intros H; inversion H; subst; rewrite Ea; auto].
  destruct (rowidx >=? sr); [|intros H; inversion H; subst; rewrite Ea; auto].
  intros H. bind_ok H. unfold fprintf_device in H.
  destruct (fileptr d) as [lines|] eqn:Ef; [|discriminate]. inversion H; subst; clear H.
  split; [reflexivity|]. intros _ name (data & Hd & Hf).
  assert (Ha : active (mkDevice (devicename d) (dev_number d) (dev_max d) (dev_sum d)
                         (scale d) (valuetbl d)
                         (Some (lines ++ [MData ts (fs / scale d * a)%Q])%list)) = true)
    by exact Ea.
  rewrite Ha. cbn [fileptr scale]. inversion Hd; subst.
  exists (data ++ [MData ts (fs / scale d * a)%Q])%list. split; [reflexivity|].
  apply Forall_app. split; [exact Hf|]. constructor; [exact I|constructor].
Qed.

Lemma multifile_devices_narrow fs sr rowidx ts (f : Device -> Z * string) :
  (forall d d', devicename d' = devicename d -> f d' = f d) ->
  forall tbl t : list Device,
    multifile_devices fs sr rowidx ts tbl = Ok t ->
    Forall (narrow_file true) (map (fun d => (f d, d)) tbl) ->
    Forall (narrow_file true) (map (fun d => (f d, d)) t).
Proof.
  intros Hf. induction tbl as [|d tbl IH]; intros t H Hn; cbn [multifile_devices] in H.
  - inversion H. constructor.
  - bind_ok H. inversion H; subst. cbn [map] in *. apply Forall_cons in Hn as [Hd Hn].
    apply multifile_device_narrow in E as [En Ed].
    constructor; [|apply IH; [reflexivity|exact Hn]].
    rewrite (Hf d a En). destruct (f d) as [sr0 name]. apply Ed. exact Hd.
Qed.

Lemma multifile_metric_narrow sep fs rowidx ts c m m' :
  multifile_metric fs rowidx ts c m = Ok m' ->
  Forall (narrow_file true) (metric_series sep c m) ->
  Forall (narrow_file true) (metric_series sep c m').
Proof.
  unfold multifile_metric, metric_series, emitted, series_name.
  destruct (classtype c =? VECTORCLASS)%char.
  - destruct (devicetbl m) as [|d tbl]; [discriminate|]. intros H. bind_ok H.
    inversion H; subst. cbn [take map devicetbl set_devicetbl metricname].
    intros Hn. apply Forall_cons in Hn as [Hd _]. constructor; [|constructor].
    apply multifile_device_narrow in E as [_ Ed]. apply Ed. exact Hd.
  - intros H. bind_ok H. inversion H; subst. cbn [devicetbl set_devicetbl metricname].
    apply (multifile_devices_narrow fs (startrow c) rowidx ts
             (fun d => (startrow c, metric_device_name sep (set_devicetbl a m) d))
             ltac:(intros d d' Hd; unfold metric_device_name; cbn; now rewrite Hd)
             (devicetbl m) a E).
Qed.

Lemma multifile_metrics_narrow sep fs rowidx ts c (tbl : list Metric) :
  forall t, multifile_metrics fs rowidx ts c tbl = Ok t ->
            Forall (narrow_file true) (flat_map (metric_series sep c) tbl) ->
            Forall (narrow_file true) (flat_map (metric_series sep c) t).
Proof.
  induction tbl as [|m tbl IH]; intros t H Hn; cbn [multifile_metrics] in H.
  - inversion H. constructor.
  - bind_ok H. inversion H; subst. cbn [flat_map] in *.
    apply Forall_app in Hn as [Hm Hn]. apply Forall_app. split.
    + eapply multifile_metric_narrow; eauto.
    + apply IH; [reflexivity|exact Hn].
Qed.

Lemma multifile_classes_narrow sep fs rowidx ts (tbl : list Class) :
  forall t, multifile_classes fs rowidx ts tbl = Ok t ->
            narrow_files sep true tbl -> narrow_files sep true t.
Proof.
  unfold narrow_files, series.
  induction tbl as [|c tbl IH]; intros t H Hn; cbn [multifile_classes] in H.
  - inversion H. constructor.
  - bind_ok H. inversion H; subst. cbn [flat_map] in *.
    apply Forall_app in Hn as [Hc Hn]. apply Forall_app. split.
    + rewrite class_series_set_metrictbl. eapply multifile_metrics_narrow; eauto.
    + apply IH; [reflexivity|exact Hn].
Qed.

Lemma multifile_rows_narrow sep (n : nat) :
  forall rowidx ts st st',
    multifile_rows n rowidx ts st = Ok st' ->
    narrow_files sep true (classtbl st) -> narrow_files sep true (classtbl st').
Proof.
  induction n as [|n IH]; intros rowidx ts st st' H Hn; cbn [multifile_rows] in H.
  - inversion H; subst. exact Hn.
  - bind_ok H. eapply IH; [exact H|]. cbn [classtbl set_classtbl].
    eapply multifile_classes_narrow; eauto.
Qed.

(** The files of the series only depend on the names, the scales and the
    files of the devices. *)
Lemma metric_series_filed (sep : string) (c : Class) (m : Metric) :
  map ser_filed (metric_series sep c m) =
  map (fun x : string * Q * option (list MultiLine) =>
         (startrow c,
          if (classtype c =? VECTORCLASS)%char then metricname m
          else (metricname m ++ sep ++ fst (fst x))%string,
          x))
    (if (classtype c =? VECTORCLASS)%char
     then take 1 (map dev_filed (devicetbl m)) else map dev_filed (devicetbl m)).
Proof.
  unfold metric_series, emitted, series_name, metric_device_name, ser_filed.
  destruct (classtype c =? VECTORCLASS)%char.
  - destruct (devicetbl m) as [|d t]; reflexivity.
  - rewrite !List.map_map. reflexivity.
Qed.

Lemma filed_series (sep : string) (tbl : list Class) :
  forall tbl', filed tbl' = filed tbl ->
               map ser_filed (series sep tbl') = map ser_filed (series sep tbl).
Proof.
  unfold filed, tproj, series.
  induction tbl as [|c tbl IH]; intros [|c' tbl'] E; try discriminate; [reflexivity|].
  cbn [map] in E.
  pose proof (f_equal (@tl _) E) as E2. cbn [tl] in E2.
  assert (E1 : map (mproj metricname dev_filed) (metrictbl c') =
               map (mproj metricname dev_filed) (metrictbl c)).
  { unfold cproj in E. congruence. }
  assert (Et : classtype c' = classtype c) by (unfold cproj in E; congruence).
  assert (Es : startrow c' = startrow c) by (unfold cproj in E; congruence).
  cbn [flat_map]. rewrite !List.map_app, (IH tbl' E2). f_equal. clear -E1 Et Es.
  unfold class_series. revert E1.
  generalize (metrictbl c') as l'. generalize (metrictbl c) as l.
  induction l as [|m l IHl]; intros [|m' l'] E; try discriminate; [reflexivity|].
  cbn [map] in E.
  pose proof (f_equal (@tl _) E) as E2. cbn [tl] in E2.
  assert (En : metricname m' = metricname m) by (unfold mproj in E; congruence).
  assert (Ed : map dev_filed (devicetbl m') = map dev_filed (devicetbl m)).
  { unfold mproj in E. congruence. }
  cbn [flat_map]. rewrite !List.map_app, (IHl l' E2). f_equal.
  rewrite !metric_series_filed, Et, Es, En, Ed. reflexivity.
Qed.

Lemma narrow_file_filed (multi : bool) (s s' : Series) :
  ser_filed s' = ser_filed s -> narrow_file multi s -> narrow_file multi s'.
Proof.
  destruct s as [[sr name] d], s' as [[sr' name'] d']. unfold ser_filed, dev_filed.
  cbn [fst snd]. intros E. injection E as E1 E2 E3 E4 E5.
  unfold narrow_file, active. rewrite E2, E4, E5. auto.
Qed.

Lemma narrow_files_filed (sep : string) (multi : bool) (tbl tbl' : list Class) :
  filed tbl' = filed tbl -> narrow_files sep multi tbl -> narrow_files sep multi tbl'.
Proof.
  unfold narrow_files. intros E. apply (filed_series sep) in E. revert E.
  generalize (series sep tbl') as S'. generalize (series sep tbl) as S.
  induction S as [|s S IH]; intros [|s' S'] E H; try discriminate; [constructor|].
  cbn [map] in E. apply Forall_cons in H as [Hs H].
  pose proof (f_equal (@tl _) E) as E2. cbn [tl] in E2.
  assert (E1 : ser_filed s' = ser_filed s) by congruence.
  constructor; [exact (narrow_file_filed multi s s' E1 Hs)|exact (IH S' E2 H)].
Qed.

Lemma dev_filed_value (d : Device) (number : Z) (max sum : Q) (values : list Q) :
  length values = length (valuetbl d) ->
  dev_filed (mkDevice (devicename d) number max sum (scale d) values (fileptr d)) =
  dev_filed d.
Proof. reflexivity. Qed.

Lemma read_inputfile_loop_narrow (sep : string) (fuel : nat) :
  forall opts ts st r,
    read_inputfile_loop fuel opts ts st = Ok r ->
    narrow_files sep (multifiledirname opts) (classtbl st) ->
    narrow_files sep (multifiledirname opts) (classtbl (snd r)).
Proof.
  induction fuel as [|fuel IH]; intros opts ts st r H Hn;
    cbn [read_inputfile_loop] in H; [discriminate|].
  destruct (skip_to_stanza DATESTR false st) as [s1| |] eqn:E1; try discriminate.
  cbn [bind] in H. apply skip_to_stanza_classtbl in E1.
  destruct (rest (inputfile s1)) as [|l lines].
  - inversion H; subst. cbn [snd]. rewrite E1. exact Hn.
  - destruct (parse_input_line l NUMDATEARGS) as [argtbl| |]; try discriminate.
    cbn [bind] in H.
    match type of H with
    | bind (read_classes ?t ?s) _ = _ =>
        destruct (read_classes t s) as [rc| |] eqn:E2; try discriminate;
        assert (Hc : narrow_files sep (multifiledirname opts) (fst rc))
    end.
    { apply (read_classes_proj metricname dev_filed) in E2;
        [|reflexivity|exact dev_filed_value].
      eapply narrow_files_filed; [exact E2|].
      destruct (length argtbl =? NUMDATEARGS)%nat; cbn; rewrite E1; exact Hn. }
    cbn [bind] in H.
    match type of H with
    | bind ?x _ = _ => destruct x as [s3| |] eqn:E3; try discriminate
    end.
    cbn [bind] in H.
    match type of H with
    | bind ?x _ = _ => destruct x as [s4| |] eqn:E4; try discriminate
    end.
    cbn [bind] in H. eapply IH; [exact H|].
    assert (H3 : narrow_files sep (multifiledirname opts) (classtbl s3)).
    { destruct (singlefilename opts).
      - unfold output_singlefile_body in E3. apply singlefile_rows_classtbl in E3.
        rewrite E3. exact Hc.
      - inversion E3; subst. exact Hc. }
    destruct (multifiledirname opts).
    + unfold output_multifile_bodies_data in E4. eapply multifile_rows_narrow; eauto.
    + inversion E4; subst. exact H3.
Qed.

Lemma first_file_narrow opts st st' :
  first_file opts st = Ok st' -> classtbl st = [] ->
  narrow_files (separator_of st') (multifiledirname opts) (classtbl st').
Proof.
  intros H Hnil. apply first_file_stages in H.
  destruct H as (s1 & s2 & s3 & s4 & s5 & s6 & s7 & s8 &
                 E1 & E2 & E3 & E4 & E5 & E6 & E7 & E8 & E9).
  apply initialize_parameters_classtbl in E1.
  apply initialize_time_values_classtbl in E2.
  assert (Hno : no_devices (classtbl s3)).
  { unfold initialize_metadata in E3. bind_ok E3.
    pose proof (skip_to_stanza_position _ _ _ _ E) as Hp.
    apply same_but_position_fields in Hp as (Ht & _).
    apply metadata_loop_classes in E3 as (_ & new & Hn & Hd).
    rewrite Ht, E2, E1, Hnil in Hn. cbn [app] in Hn. rewrite Hn.
    unfold no_devices. eapply List.Forall_impl; [|exact Hd].
    intros c (_ & _ & _ & _ & Hf). cbn beta. eapply List.Forall_impl; [|exact Hf].
    intros m Hm. apply Hm. }
  pose proof (initialize_timestamp_classtbl _ _ E4) as T4.
  rewrite <- T4 in Hno.
  assert (H5 : closed (classtbl s5)).
  { unfold initialize_classes in E5. bind_ok E5. destruct a as [classes s].
    inversion E5; subst. apply classes_loop_devices in E; [|exact Hno].
    destruct E as (Hd & _).
    assert (Ht : classtbl (rewind (set_classtbl classes s)) = classes).
    { unfold rewind. destruct (is_stdin _); reflexivity. }
    rewrite Ht. eapply discovered_closed; eauto. }
  assert (H6 : closed (classtbl s6)).
  { destruct (configfilename opts) as [cfg|]; [|inversion E6; subst; exact H5].
    unfold read_configfile in E6. destruct cfg as [cfg|]; [|discriminate].
    apply (configfile_loop_proj metricname fileptr) in E6; [|reflexivity|reflexivity].
    eapply (closed_proj metricname fileptr); [|exact E6|exact H5].
    intros d d' Hd. exact Hd. }
  apply check_metric_names_same in E7. subst s7.
  apply prepare_single_output_file_settled in E8 as (_ & Ht & Hp).
  rewrite <- Ht in H6.
  unfold prepare_multi_output_files in E9. destruct (multifiledirname opts).
  - bind_ok E9. inversion E9; subst. unfold separator_of.
    cbn [classtbl paramtbl set_classtbl]. eapply prepare_classes_narrow; eauto.
  - inversion E9; subst. apply closed_narrow_files. exact H6.
Qed.

Lemma main_loop_narrow opts (argv : list Input) :
  forall flag st st',
    main_loop opts argv flag st = Ok st' ->
    (if flag then classtbl st = []
     else narrow_files (separator_of st) (multifiledirname opts) (classtbl st)) ->
    narrow_files (separator_of st') (multifiledirname opts) (classtbl st').
Proof.
  induction argv as [|a argv IH]; intros flag st st' H Hst; cbn [main_loop] in H.
  - inversion H; subst. destruct flag; [|exact Hst].
    unfold narrow_files. rewrite Hst. constructor.
  - destruct (open_input a) as [f|].
    + match type of H with
      | bind ?x _ = _ => destruct x as [s1| |] eqn:E1; try discriminate
      end.
      cbn [bind] in H.
      destruct (read_inputfile opts s1) as [r| |] eqn:E2; try discriminate.
      cbn [bind] in H. eapply (IH false); [exact H|].
      assert (N1 : narrow_files (separator_of s1) (multifiledirname opts) (classtbl s1)).
      { destruct flag.
        - eapply first_file_narrow; [exact E1|]. exact Hst.
        - inversion E1; subst. exact Hst. }
      unfold read_inputfile in E2.
      pose proof (read_inputfile_loop_globals _ _ _ _ _ E2) as [Hg _].
      apply globals_fields in Hg as (_ & _ & _ & _ & Hp & _).
      apply (read_inputfile_loop_narrow (separator_of s1)) in E2; [|exact N1].
      unfold separator_of in *. rewrite Hp. exact E2.
    + eapply IH; [exact H|]. destruct flag; exact Hst.
Qed.


(** ** The device names of the data lines *)

Lemma array_metrics_ignores_name (sr r : Z) (name name' : string) (args : list string)
  (tbl : list Metric) :
  forall k p,
    array_metrics sr r (name :: args) k tbl p = array_metrics sr r (name' :: args) k tbl p.
Proof.
  induction tbl as [|m tbl IH]; intros k p; cbn [array_metrics]; [reflexivity|].
  destruct (numdevices m =? 0); [reflexivity|].
  destruct (Z.quot r (numdevices m) >=? sr); [|reflexivity].
  unfold arg. rewrite Nat.add_1_r. cbn [nth]. rewrite (IH (S k) (Some k)). reflexivity.
Qed.

Lemma array_row_ignores_name (c : Class) (r : Z) (a a' : list string) (p : option nat) :
  tl a = tl a' -> length a = length a' -> array_row c r a p = array_row c r a' p.
Proof.
  intros Ht Hl. destruct a as [|name args], a' as [|name' args']; try discriminate;
    [reflexivity|].
  cbn [tl] in Ht. subst args'. unfold array_row.
  rewrite (array_metrics_ignores_name _ _ name name'). reflexivity.
Qed.

Lemma same_but_stream_next_line (l l' : list string) (st st' : State) :
  same_but_stream st st' -> same_but_stream (next_line l st) (next_line l' st').
Proof.
  unfold same_but_stream, next_line, set_inputfile, set_inputlinectr, set_rest. cbn.
  intros H. inversion H. reflexivity.
Qed.

Lemma same_but_stream_log (d : Diag) (st st' : State) :
  same_but_stream st st' -> same_but_stream (log d st) (log d st').
Proof.
  unfold same_but_stream, log, set_inputfile. cbn. intros H. inversion H. reflexivity.
Qed.

Lemma same_but_stream_fields (st st' : State) :
  same_but_stream st st' ->
  inputlinectr st = inputlinectr st' /\ count st = count st' /\ stderr st = stderr st'.
Proof.
  unfold same_but_stream, set_inputfile. intros H. inversion H. repeat split; assumption.
Qed.

Lemma array_rows_ignores_names (lines lines' : list string) :
  Forall2 same_values lines lines' ->
  forall c r p st st',
    same_but_stream st st' ->
    match array_rows lines c r p st, array_rows lines' c r p st' with
    | Ok (c1, r1, p1, s1), Ok (c2, r2, p2, s2) =>
        c1 = c2 /\ r1 = r2 /\ p1 = p2 /\ same_but_stream s1 s2
    | Exit n d, Exit n' d' => n = n' /\ d = d'
    | Crash f, Crash f' => f = f'
    | _, _ => False
    end.
Proof.
  induction 1 as [|l l' lines lines' (a & a' & Ea & Ea' & Ht & Hl) _ IH];
    intros c r p st st' Hs; cbn [array_rows].
  - repeat split. exact Hs.
  - rewrite Ea, Ea'. cbn [bind]. rewrite <- Hl.
    pose proof (same_but_stream_next_line lines lines' _ _ Hs) as Hn.
    destruct (length a =? length (metrictbl c) + 1)%nat.
    + rewrite <- (array_row_ignores_name c r a a' p Ht Hl).
      destruct (array_row c r a p) as [[c1 p1]| |]; cbn [bind fst snd];
        [apply IH; exact Hn|split; reflexivity|reflexivity].
    + destruct (length a =? 0)%nat; [repeat split; exact Hn|].
      apply IH. apply same_but_stream_fields in Hn as Hf. destruct Hf as (Hc & _).
      rewrite <- Hc. apply same_but_stream_log. exact Hn.
Qed.


(** ** The parameters of the configuration file *)

Lemma config_params_sets (name s : string) (tbl : list Param) :
  NoDup (map paramname tbl) ->
  fst (config_params name s tbl) =
  map (fun p => if String.eqb name (paramname p)
                then mkParam (idx p) (paramname p) (type p) (defaultvalue p)
                       (config_value (type p) s)
                else p) tbl.
Proof.
  induction tbl as [|p tbl IH]; intros Hn; [reflexivity|].
  cbn [map] in Hn. apply NoDup_cons in Hn as [Hp Hn].
  cbn [config_params map]. destruct (String.eqb name (paramname p)) eqn:E.
  - cbn [fst]. f_equal. symmetry. rewrite <- (map_id tbl) at 2.
    apply map_ext_in. intros p' Hp'.
    destruct (String.eqb name (paramname p')) eqn:E'; [|reflexivity].
    exfalso. apply Hp. apply String.eqb_eq in E, E'. rewrite <- E, E'.
    apply list_elem_of_In, in_map, Hp'.
  - specialize (IH Hn). destruct (config_params name s tbl) as [t b]. cbn [fst] in *.
    now rewrite IH.
Qed.

Lemma configfile_loop_parameters (lines : list string) :
  forall st st',
    configfile_loop lines st = Ok st' ->
    NoDup (map paramname (paramtbl st)) ->
    paramtbl st' = map (configured lines) (paramtbl st).
Proof.
  unfold configured.
  induction lines as [|l lines IH]; intros st st' H Hn; cbn [configfile_loop] in H.
  - inversion H; subst. cbn [fold_left]. now rewrite map_id.
  - cbn [fold_left]. unfold apply_setting at 2.
    destruct (parse_input_line l 2) as [argtbl| |] eqn:Ep; try discriminate.
    cbn [bind] in H.
    assert (Hskip : forall s1, paramtbl s1 = paramtbl st ->
               configfile_loop lines s1 = Ok st' ->
               paramtbl st' = map (fun p => fold_left apply_setting lines p) (paramtbl st)).
    { intros s1 E1 H1. apply IH in H1; [|rewrite E1; exact Hn]. now rewrite H1, E1. }
    destruct argtbl as [|a [|b [|c argtbl]]]; cbn [length Nat.eqb negb] in H.
    + eapply Hskip; [|exact H]. reflexivity.
    + eapply Hskip; [|exact H]. reflexivity.
    + bind_ok H. unfold arg in H. cbn [nth] in H.
      pose proof (config_params_sets a b (paramtbl st) Hn) as Hs.
      destruct (config_params a b (paramtbl st)) as [params legal]. cbn [fst] in Hs.
      apply IH in H.
      * rewrite H.
        assert (Hp : forall s : State,
                   paramtbl (if snd a0 || legal then s
                             else log (UnknownParameter a) s) = paramtbl s)
          by (intros s; destruct (snd a0 || legal); reflexivity).
        rewrite Hp. cbn [paramtbl set_paramtbl]. rewrite Hs, List.map_map. reflexivity.
      * assert (Hp : forall s : State,
                   paramtbl (if snd a0 || legal then s
                             else log (UnknownParameter a) s) = paramtbl s)
          by (intros s; destruct (snd a0 || legal); reflexivity).
        rewrite Hp. cbn [paramtbl set_paramtbl]. rewrite Hs, List.map_map.
        erewrite map_ext; [exact Hn|]. intros p. cbn beta.
        destruct (String.eqb a (paramname p)); reflexivity.
    + eapply Hskip; [|exact H]. reflexivity.
Qed.


End PMA.

(** ** The model on concrete inputs *)



Lemma add_device_first_seen_wins_witness :
  0 <= 2 /\
  add_device 2 (add_device 2 (new_metric "tps") "sda") "sda" =
  add_device 2 (new_metric "tps") "sda".
Proof.
  split; [lia|].
  apply (add_device_first_seen_wins 2 (new_metric "tps") "sda"). lia.
Defined.

Lemma read_array_stanza_null_metricptr_witness :
  no_well_formed_line 1 [String newline ""; "sda 5"] = true /\
  read_array_stanza atof_decimal example_array_class
    (example_stream [String newline ""; "sda 5"]) = Crash NullDeref.
Proof.
  split; [vm_compute; reflexivity|].
  apply (read_array_stanza_null_metricptr atof_decimal). vm_compute. reflexivity.
Defined.

(** The null dereference is reached from [main]: the data stanza of the
    array class is empty. *)
Lemma main_reaches_null_metricptr :
  main atof_decimal plain_options [Named (Some empty_array_file)] = Crash NullDeref.
Proof. vm_compute. reflexivity. Qed.

(** C6, counterexample: the DATE block of the second input file has no time
    stamp line; [read_inputfile] logs it and the run goes on to [exit(0)]. *)
Lemma date_block_unchecked_counterexample :
  match main atof_decimal plain_options
          [Named (Some example_file); Named (Some truncated_file)] with
  | Ok st => stderr st = [VectorRowCount "cpu" 2 1; ReadDateError 2]
  | _ => False
  end.
Proof. vm_compute. reflexivity. Qed.

Lemma initialize_timestamp_exactly_one_witness :
  exists st2,
    initialize_timestamp
      (example_stream [line "DATE:"; line "1000"; line ""; line "cpu:"]) = Ok st2 /\
    firsttimestamp st2 = 1000.
Proof.
  edestruct (initialize_timestamp_exactly_one atof_decimal
               (example_stream [line "DATE:"; line "1000"; line ""; line "cpu:"]))
    with (block := [line "1000"]) (tail_ := [line ""; line "cpu:"]) as (H1 & _).
  - vm_compute. reflexivity.
  - vm_compute. reflexivity.
  - repeat constructor. exists "1000". vm_compute. reflexivity.
  - right. exists (line ""), [line "cpu:"]. split; [reflexivity|]. vm_compute. reflexivity.
  - destruct (H1 (line "1000") "1000" eq_refl) as (st2 & E & F).
    + vm_compute. reflexivity.
    + exists st2. split; [exact E|]. rewrite F. vm_compute. reflexivity.
Defined.



(** C4, counterexample: after the second file, whose vector stanza has one
    row, slot 1 of the vector metrics still holds the values 3 and 4 of the
    first file. *)
Lemma stale_slot_counterexample :
  match main atof_decimal plain_options
          [Named (Some example_file); Named (Some truncated_file)] with
  | Ok st =>
      map (fun c => map (fun m => map valuetbl (devicetbl m)) (metrictbl c)) (classtbl st) =
      [[[[9; 3]]; [[9; 4]]]; [[[1; 1]; [1; 1]]]]%Q
  | _ => False
  end.
Proof. vm_compute. reflexivity. Qed.

Lemma stanza_pass_overwrites_witness :
  exists c' st',
    read_vector_stanza atof_decimal example_vector_class
      (example_stream [line "1"; line "2"; line ""]) = Ok (c', st') /\
    slot c' 0 0 1 = Some 2%Q.
Proof.
  destruct (read_vector_stanza atof_decimal example_vector_class
              (example_stream [line "1"; line "2"; line ""])) as [[c' st']| |] eqn:E;
    [|vm_compute in E; discriminate E|vm_compute in E; discriminate E].
  exists c', st'. split; [reflexivity|].
  refine (stanza_pass_overwrites atof_decimal example_vector_class c'
            (example_stream [line "1"; line "2"; line ""]) st'
            [line "1"] [line ""] (line "2") ["2"] _ _ _ _ _ E 0%nat _ _).
  - reflexivity.
  - constructor; [|constructor]. exists "1", []. vm_compute. reflexivity.
  - vm_compute. reflexivity.
  - reflexivity.
  - intros m Hm. vm_compute. discriminate.
  - reflexivity.
Defined.



Lemma array_line_mapping_witness :
  exists c1 p1 c2 p2,
    array_row atof_decimal c1 1 ["sdb"; "6"] p1 = Ok (c2, p2) /\
    slot c2 0 1 0 = Some 6%Q.
Proof.
  edestruct (array_line_mapping atof_decimal example_array_class)
    with (st := example_stream [line "sda 5"; line "sdb 6"])
         (pre := [line "sda 5"]) (post := @nil string) (l := line "sdb 6")
         (argtbl := ["sdb"; "6"])
    as (_ & c2 & p2 & Hrow & _ & _ & Hmap).
  - constructor; [|constructor]. exists "sda", ["5"]. vm_compute. reflexivity.
  - vm_compute. reflexivity.
  - vm_compute. reflexivity.
  - reflexivity.
  - intros m [<-|[]]. split; [vm_compute; reflexivity|].
    intros d [<-|[<-|[]]]; vm_compute; reflexivity.
  - eexists _, _, c2, p2. split; [exact Hrow|].
    destruct (Hmap 0%nat _ eq_refl) as [Hstored _].
    destruct Hstored as (m' & d & Hm' & _ & Hd & Hv & _).
    + intros i mi Hi Hmi. destruct i as [|i]; [|vm_compute in Hmi; discriminate Hmi].
      vm_compute in Hmi. injection Hmi as <-. vm_compute. discriminate.
    + unfold slot, dslot. rewrite Hm'.
      change (devicetbl m' !! 1%nat = Some d) in Hd. rewrite Hd.
      change (valuetbl d !! 0%nat = Some 6%Q) in Hv. exact Hv.
Defined.

Lemma scale_selects_and_normalizes_witness :
  output_singlefile_headers example_state =
    Ok (set_singlefile [SHeader ["us"; "tps_sdb"]] example_state) /\
  output_singlefile_body 1000 example_state =
    Ok (set_singlefile
          [SRow 1060 [Some (100 / 10 * 9)%Q; Some (100 / 50 * 9)%Q];
           SRow 1120 [Some (100 / 10 * 9)%Q; Some (100 / 50 * 9)%Q]] example_state).
Proof.
  assert (Hv : vector_has_device (classtbl example_state)).
  { intros c m [<-|[<-|[]]] [<-|[]] _; discriminate. }
  destruct (scale_selects_and_normalizes 1000 example_state Hv) as (Hh & _ & Hb & _).
  split; [rewrite Hh; reflexivity|].
  destruct Hb as (Hbody & _).
  - intros k [<-|[<-|[]]] sr name d [E|[E|[E|[]]]] _ _; injection E as <- <- <-;
      vm_compute; (split; [discriminate|reflexivity]).
  - rewrite Hbody. reflexivity.
Defined.

(** ** The further properties on concrete inputs *)

Lemma parse_input_line_render_witness :
  all_blank " " = true /\
  well_separated [("2", " "); ("60", "  "); ("extra", String newline "")] /\
  parse_input_line (" " ++ "2" ++ " " ++ "60" ++ "  " ++ "extra" ++ String newline "")
    NUMTIMEVALUES = Ok ["2"; "60"].
Proof.
  split; [reflexivity|].
  assert (H : well_separated [("2", " "); ("60", "  "); ("extra", String newline "")]).
  { repeat constructor. }
  split; [exact H|].
  exact (parse_input_line_render " " [("2", " "); ("60", "  "); ("extra", String newline "")]
           NUMTIMEVALUES eq_refl H).
Defined.


Lemma skip_to_stanza_first_match_witness :
  let st := example_stream [line "# a comment"; line "DATE:"; line "1000"] in
  Forall (fun x => chop x <> DATESTR) [line "# a comment"] /\
  skip_to_stanza DATESTR true st = Ok (consumed 2 [line "1000"] st).
Proof.
  intros st.
  assert (H : Forall (fun x => chop x <> DATESTR) [line "# a comment"]).
  { constructor; [|constructor]. intros E. vm_compute in E. discriminate E. }
  split; [exact H|].
  exact (proj1 (skip_to_stanza_first_match DATESTR true st [line "# a comment"] H)
           (line "DATE:") [line "1000"] eq_refl eq_refl).
Defined.

Lemma skip_to_stanza_last_character_witness :
  skip_to_stanza DATESTR false (example_stream ["DATE:x"; line "1000"]) =
    Ok (next_line [line "1000"] (example_stream ["DATE:x"; line "1000"])) /\
  skip_to_stanza DATESTR true (example_stream ["DATE:"]) = Exit 1 (StanzaNotFound DATESTR).
Proof.
  split.
  - exact (proj1 (skip_to_stanza_last_character DATESTR
                    (example_stream ["DATE:x"; line "1000"]))
             "x"%char [line "1000"] false eq_refl).
  - exact (proj2 (skip_to_stanza_last_character DATESTR (example_stream ["DATE:"]))
             ltac:(discriminate) eq_refl).
Defined.

Lemma initialize_metadata_declares_witness :
  let st := set_inputfile (fopen example_file) (set_time_values 2 60 initial_state) in
  exists st',
    initialize_metadata st = Ok st' /\
    count st' = count st /\
    exists new, classtbl st' = (classtbl st ++ new)%list /\
                Forall (declared_class (count st)) new /\
                (new <> [] -> 1 <= count st).
Proof.
  intros st. eexists. split; [vm_compute; reflexivity|].
  apply initialize_metadata_declares. vm_compute. reflexivity.
Defined.

Lemma initialize_classes_discovers_witness :
  no_devices (classtbl example_declared) /\
  exists st',
    initialize_classes example_declared = Ok st' /\
    count st' = count example_declared /\
    Forall2 (discovered_class (count example_declared))
      (classtbl example_declared) (classtbl st').
Proof.
  assert (H : no_devices (classtbl example_declared)).
  { vm_compute. repeat constructor. }
  split; [exact H|]. eexists. split; [vm_compute; reflexivity|].
  apply initialize_classes_discovers; [vm_compute; reflexivity|exact H].
Defined.

Lemma first_file_stream_witness :
  exists st',
    first_file atof_decimal plain_options
      (set_inputfile (fopen example_file) initial_state) = Ok st' /\
    rest (inputfile st') = file_lines example_file /\ inputlinectr st' = 0.
Proof.
  eexists. split; [vm_compute; reflexivity|].
  refine (proj1 (proj2 (proj2 (first_file_stream atof_decimal plain_options
                                 (set_inputfile (fopen example_file) initial_state) _ _)))
            eq_refl).
  vm_compute. reflexivity.
Defined.

Lemma read_inputfile_keeps_schema_witness :
  exists st ts st',
    first_file atof_decimal example_options
      (set_inputfile (fopen example_file) initial_state) = Ok st /\
    read_inputfile atof_decimal example_options
      (set_inputfile (fopen truncated_file) st) = Ok (ts, st') /\
    shape (classtbl st') = shape (classtbl (set_inputfile (fopen truncated_file) st)) /\
    globals st' = globals (set_inputfile (fopen truncated_file) st) /\
    forward (set_inputfile (fopen truncated_file) st) st'.
Proof.
  eexists. eexists. eexists. split; [vm_compute; reflexivity|].
  split; [vm_compute; reflexivity|].
  eapply (read_inputfile_keeps_schema atof_decimal example_options). vm_compute. reflexivity.
Defined.

Lemma buffers_hold_count_witness :
  exists st,
    main atof_decimal example_options
      [Named (Some example_file); Named (Some truncated_file)] = Ok st /\
    (forall c m d, In c (classtbl st) -> In m (metrictbl c) -> In d (devicetbl m) ->
                   Z.of_nat (length (valuetbl d)) = count st) /\
    (classtbl st <> [] -> 1 <= count st).
Proof.
  eexists. split; [vm_compute; reflexivity|].
  apply (buffers_hold_count atof_decimal example_options
           [Named (Some example_file); Named (Some truncated_file)]).
  vm_compute. reflexivity.
Defined.

Lemma fullscale_is_the_default_witness :
  exists st,
    main atof_decimal (mkOptions (Some (Some fullscale_config)) true true)
      [Named (Some example_file)] = Ok st /\
    param_value FULLSCALEIDX (paramtbl st) = fltpnt 50 /\
    (fullscale st = 100%Q \/
     (fullscale st = 0%Q /\
      Forall (fun a => open_input a = None) [Named (Some example_file)])).
Proof.
  eexists. split; [vm_compute; reflexivity|]. split; [vm_compute; reflexivity|].
  apply (fullscale_is_the_default atof_decimal
           (mkOptions (Some (Some fullscale_config)) true true)
           [Named (Some example_file)]).
  vm_compute. reflexivity.
Defined.


Lemma read_configfile_changes_witness :
  exists st',
    read_configfile atof_decimal (Some fullscale_config) example_state = Ok st' /\
    unscaled (classtbl st') = unscaled (classtbl example_state) /\
    map param_declared (paramtbl st') = map param_declared (paramtbl example_state) /\
    settled st' = settled example_state /\ singlefile st' = singlefile example_state /\
    exists new, stderr st' = (new ++ stderr example_state)%list.
Proof.
  eexists. split; [vm_compute; reflexivity|].
  apply (read_configfile_changes atof_decimal (Some fullscale_config) example_state).
  vm_compute. reflexivity.
Defined.

(** The file that ends at the header of its vector stanza: [main] reaches
    the null dereference when it writes the header of the wide table. *)
Lemma emitters_need_a_vector_device_witness :
  exists st,
    discover atof_decimal plain_options
      (set_inputfile (fopen headless_file) initial_state) = Ok st /\
    vector_without_device (classtbl st) /\
    output_singlefile_headers st = Crash NullDeref /\
    prepare_multi_output_files true st = Crash NullDeref /\
    main atof_decimal plain_options [Named (Some headless_file)] = Crash NullDeref.
Proof.
  eexists. split; [vm_compute; reflexivity|].
  match goal with
  | |- vector_without_device (classtbl ?s) /\ _ =>
      assert (H : vector_without_device (classtbl s))
  end.
  { eexists _, _. cbn [classtbl]. split; [left; reflexivity|].
    split; [left; reflexivity|]. split; reflexivity. }
  split; [exact H|].
  split; [exact (proj1 (proj1 (emitters_need_a_vector_device _) H))|].
  split; [exact (proj2 (proj1 (emitters_need_a_vector_device _) H))|].
  vm_compute. reflexivity.
Defined.

Lemma vector_stanza_capacity_witness :
  (exists c' st',
      read_vector_stanza atof_decimal example_vector_class
        (example_stream [line "1"; line "2"; line ""; line "io:"]) = Ok (c', st') /\
      vector_ready 2 c' /\ rest (inputfile st') = [line "io:"]) /\
  read_vector_stanza atof_decimal example_vector_class
    (example_stream [line "1"; line "2"; line "3"; line ""]) = Crash OutOfBounds.
Proof.
  assert (Hc : vector_ready 2 example_vector_class).
  { constructor; [|constructor]. eexists _, _. split; reflexivity. }
  assert (Hp : Forall (has_token MAXNUMMETRICS) [line "1"; line "2"]).
  { constructor; [|constructor; [|constructor]]; eexists _, _; vm_compute; reflexivity. }
  assert (Hn : metrictbl example_vector_class <> []) by discriminate.
  split.
  - apply (proj1 (vector_stanza_capacity atof_decimal example_vector_class
                    (example_stream [line "1"; line "2"; line ""; line "io:"]) 2
                    [line "1"; line "2"] Hc Hn Hp) [line ""; line "io:"]).
    + reflexivity.
    + right. eexists _, _. split; [reflexivity|vm_compute; reflexivity].
    + apply le_n.
  - apply (proj2 (vector_stanza_capacity atof_decimal example_vector_class
                    (example_stream [line "1"; line "2"; line "3"; line ""]) 2
                    [line "1"; line "2"] Hc Hn Hp) (line "3") [line ""] ["3"]).
    + reflexivity.
    + vm_compute. reflexivity.
    + reflexivity.
    + reflexivity.
    + vm_compute. discriminate.
Defined.

(** The write past the end of the buffer is reached from [main]. *)
Lemma main_reaches_buffer_overflow :
  main atof_decimal plain_options [Named (Some overflow_file)] = Crash OutOfBounds.
Proof. vm_compute. reflexivity. Qed.

(** Read from standard input, [late_devices_file] reaches the division by
    zero: the discovery consumes the first data set, whose stanza is empty,
    and [read_inputfile] finds the second. *)
Lemma array_stanza_without_device_witness :
  let c := mkClass "io" ARRAYCLASS 0 [mkMetric "tps" 0 0 0 []] in
  let st := example_stream [line "sda"; line "sda 5"; line ""] in
  rest (inputfile st) = ([line "sda"] ++ line "sda 5" :: [line ""])%list /\
  Forall (malformed (MAXNUMMETRICS + 1) (S (length (metrictbl c)))) [line "sda"] /\
  read_array_stanza atof_decimal c st = Crash DivByZero /\
  main atof_decimal plain_options [Standard late_devices_file] = Crash DivByZero.
Proof.
  intros c st.
  assert (Hp : Forall (malformed (MAXNUMMETRICS + 1) (S (length (metrictbl c))))
                 [line "sda"]).
  { constructor; [|constructor]. eexists _, _. split; [vm_compute; reflexivity|].
    vm_compute. discriminate. }
  split; [reflexivity|]. split; [exact Hp|]. split.
  - apply (array_stanza_without_device atof_decimal c st [line "sda"] [line ""]
             (line "sda 5") ["sda"; "5"] eq_refl Hp).
    + vm_compute. reflexivity.
    + reflexivity.
    + eexists _, _. split; reflexivity.
  - vm_compute. reflexivity.
Defined.




Lemma read_inputfile_without_date_witness :
  let st := example_stream [line "cpu:"; line "1 2"] in
  exists st',
    read_inputfile atof_decimal example_options st = Ok (0, st') /\
    same_but_position st st' /\
    rest (inputfile st') = [] /\
    inputlinectr st' = Z.of_nat (length (rest (inputfile st))) mod 2 ^ 32.
Proof.
  intros st. apply read_inputfile_without_date.
  repeat constructor; vm_compute; discriminate.
Defined.





